(** * jsGBC-core: a shallow embedding of the emulator core

    The development follows the JavaScript sources:
    - [src/core/cartridge/index.js]  (class [Cartridge]),
    - [src/core/cartridge/mbc3.js]   (class [MBC3]: the RAM banks),
    - [src/core/joypad.ts]           (class [Joypad]),
    - [src/gameboy.js]               (the button names of [GameBoy]),
    - [src/core/index.js]            (the [GameBoyCore] prototype: memory
      dispatch tables, timers, the audio unit and the iteration loop).

    Object fields become record fields with the names of the source,
    methods become functions that take the state and return the new one.
    Loops of the source that are not structurally bounded take an explicit
    round budget and return [None] when the budget is exhausted. *)

From Stdlib Require Import ZArith QArith Qround Lia Bool.
From stdpp Require Import gmap strings list.

Local Open Scope Z_scope.

(** ** JavaScript number operations

    JavaScript numbers are unbounded here ([Z]); the bitwise operators of the
    language first reduce their operands to 32 bits, which is written out. *)

Definition toInt32 (x : Z) : Z := (x + 2 ^ 31) mod 2 ^ 32 - 2 ^ 31.
Definition toUint32 (x : Z) : Z := x mod 2 ^ 32.

(** [a & b], [a | b], [a ^ b], [a << n], [a >> n], [a >>> n]. *)
Definition band (a b : Z) : Z := Z.land (toInt32 a) (toInt32 b).
Definition bor (a b : Z) : Z := Z.lor (toInt32 a) (toInt32 b).
Definition bxor (a b : Z) : Z := Z.lxor (toInt32 a) (toInt32 b).
Definition shl (a n : Z) : Z := toInt32 (Z.shiftl (toInt32 a) (Z.land n 31)).
Definition shr (a n : Z) : Z := Z.shiftr (toInt32 a) (Z.land n 31).
Definition ushr (a n : Z) : Z := Z.shiftr (toUint32 a) (Z.land n 31).

(** Typed arrays: a [Uint8Array] keeps the low eight bits of what is stored,
    an [Int8Array] the low eight bits read as a signed number.  Arrays are
    finite maps from index to element; a slot never written reads as the
    fill value [0] the source allocates them with. *)
Definition toUint8 (x : Z) : Z := x mod 256.
Definition toInt8 (x : Z) : Z := (x + 128) mod 256 - 128.

Definition rd (m : gmap Z Z) (i : Z) : Z := default 0 (m !! i).
Definition wr8 (m : gmap Z Z) (i v : Z) : gmap Z Z := <[i := toUint8 v]> m.
Definition wrI8 (m : gmap Z Z) (i v : Z) : gmap Z Z := <[i := toInt8 v]> m.

(** Outcome of a method that may [throw]: the state reached when the
    exception is raised is kept, since earlier assignments persist. *)
Inductive Result (A : Type) : Type :=
| Ok (a : A)
| Throw (msg : string) (a : A).
Arguments Ok {A} a.
Arguments Throw {A} msg a.

(** The state a call ends in, whether it returns or throws. *)
Definition reached {A : Type} (r : Result A) : A :=
  match r with
  | Ok a => a
  | Throw _ a => a
  end.

(** ** Settings ([settings.js] is imported by the sources; its values are
    taken as a parameter of the functions that read them). *)
Record Settings : Type := {
  bootBootRomFirst : bool;
  forceGBBootRom : bool;
  enableMBC1Override : bool;
  gbHasPriority : bool;
  soundOn : bool;
  enabledChannels : list bool
}.

(** * Cartridge ([src/core/cartridge/index.js]) *)

(** Modelled from the spec: class [ROM] ([rom.js]) is not among the sources.
    A ROM is the raw byte sequence the cartridge is built from; [length] is
    its size in bytes, [getByte i] the byte at offset [i], and
    [getString lo hi] the characters stored at offsets [lo..hi]. *)
Definition ROM : Type := list Z.

Definition rom_length (r : ROM) : Z := Z.of_nat (length r).
Definition getByte (r : ROM) (i : Z) : Z := nth (Z.to_nat i) r 0.
Definition getString (r : ROM) (lo hi : Z) : string :=
  String.string_of_list_ascii
    (map (fun b => Ascii.ascii_of_nat (Z.to_nat b))
         (firstn (Z.to_nat (hi - lo + 1)) (skipn (Z.to_nat lo) r))).

(** The controller object [this.mbc] is one of the five classes that
    [setTypeName] instantiates, or [null]. *)
Inductive Mbc : Type := MBC1 | MBC2 | MBC3 | MBC5 | MBC7.

Record Cartridge : Type := {
  rom : ROM;
  MBCRam : list Z;
  MBC1Mode : bool;
  hasMBC1 : bool;
  hasMBC2 : bool;
  hasMBC3 : bool;
  hasMBC5 : bool;
  hasMBC7 : bool;
  hasSRAM : bool;
  cMMMO1 : bool;
  hasBattery : bool;
  cRUMBLE : bool;
  cCamera : bool;
  cTAMA5 : bool;
  cHuC3 : bool;
  cHuC1 : bool;
  hasRTC : bool;
  numRAMBanks : Q;
  allocatedRamBytes : Q;
  name : string;
  gameCode : string;
  colorCompatibilityByte : Z;
  type : Z;
  typeName : option string;
  romSize : Z;
  ramSize : Z;
  numROMBanks : option Z;
  useGBCMode : bool;
  isNewLicenseCode : bool;
  licenseCode : Z;
  mbc : option Mbc
}.

Definition eta_Cartridge (c : Cartridge) : Cartridge :=
  Build_Cartridge (rom c) (MBCRam c) (MBC1Mode c) (hasMBC1 c) (hasMBC2 c)
    (hasMBC3 c) (hasMBC5 c) (hasMBC7 c) (hasSRAM c) (cMMMO1 c) (hasBattery c)
    (cRUMBLE c) (cCamera c) (cTAMA5 c) (cHuC3 c) (cHuC1 c) (hasRTC c)
    (numRAMBanks c) (allocatedRamBytes c) (name c) (gameCode c)
    (colorCompatibilityByte c) (type c) (typeName c) (romSize c) (ramSize c)
    (numROMBanks c) (useGBCMode c) (isNewLicenseCode c) (licenseCode c) (mbc c).

(** Field update [c.f = v]: the record rebuilt with [f] replaced. *)
Ltac cart_setter proj :=
  let v := fresh "v" in
  let c := fresh "c" in
  intros v c;
  let e := eval cbv beta delta [eta_Cartridge] in (eta_Cartridge c) in
  match eval pattern (proj c) in e with
  | ?f _ => let r := eval cbv beta in (f v) in exact r
  end.

Definition set_MBCRam : list Z -> Cartridge -> Cartridge := ltac:(cart_setter MBCRam).
Definition set_hasMBC1 : bool -> Cartridge -> Cartridge := ltac:(cart_setter hasMBC1).
Definition set_hasMBC2 : bool -> Cartridge -> Cartridge := ltac:(cart_setter hasMBC2).
Definition set_hasMBC3 : bool -> Cartridge -> Cartridge := ltac:(cart_setter hasMBC3).
Definition set_hasMBC5 : bool -> Cartridge -> Cartridge := ltac:(cart_setter hasMBC5).
Definition set_hasMBC7 : bool -> Cartridge -> Cartridge := ltac:(cart_setter hasMBC7).
Definition set_hasSRAM : bool -> Cartridge -> Cartridge := ltac:(cart_setter hasSRAM).
Definition set_cMMMO1 : bool -> Cartridge -> Cartridge := ltac:(cart_setter cMMMO1).
Definition set_hasBattery : bool -> Cartridge -> Cartridge := ltac:(cart_setter hasBattery).
Definition set_cRUMBLE : bool -> Cartridge -> Cartridge := ltac:(cart_setter cRUMBLE).
Definition set_cCamera : bool -> Cartridge -> Cartridge := ltac:(cart_setter cCamera).
Definition set_cTAMA5 : bool -> Cartridge -> Cartridge := ltac:(cart_setter cTAMA5).
Definition set_cHuC3 : bool -> Cartridge -> Cartridge := ltac:(cart_setter cHuC3).
Definition set_cHuC1 : bool -> Cartridge -> Cartridge := ltac:(cart_setter cHuC1).
Definition set_hasRTC : bool -> Cartridge -> Cartridge := ltac:(cart_setter hasRTC).
Definition set_numRAMBanks : Q -> Cartridge -> Cartridge := ltac:(cart_setter numRAMBanks).
Definition set_allocatedRamBytes : Q -> Cartridge -> Cartridge := ltac:(cart_setter allocatedRamBytes).
Definition set_name : string -> Cartridge -> Cartridge := ltac:(cart_setter name).
Definition set_gameCode : string -> Cartridge -> Cartridge := ltac:(cart_setter gameCode).
Definition set_colorCompatibilityByte : Z -> Cartridge -> Cartridge := ltac:(cart_setter colorCompatibilityByte).
Definition set_type : Z -> Cartridge -> Cartridge := ltac:(cart_setter type).
Definition set_typeName : option string -> Cartridge -> Cartridge := ltac:(cart_setter typeName).
Definition set_romSize : Z -> Cartridge -> Cartridge := ltac:(cart_setter romSize).
Definition set_ramSize : Z -> Cartridge -> Cartridge := ltac:(cart_setter ramSize).
Definition set_numROMBanks : option Z -> Cartridge -> Cartridge := ltac:(cart_setter numROMBanks).
Definition set_useGBCMode : bool -> Cartridge -> Cartridge := ltac:(cart_setter useGBCMode).
Definition set_isNewLicenseCode : bool -> Cartridge -> Cartridge := ltac:(cart_setter isNewLicenseCode).
Definition set_licenseCode : Z -> Cartridge -> Cartridge := ltac:(cart_setter licenseCode).
Definition set_mbc : option Mbc -> Cartridge -> Cartridge := ltac:(cart_setter mbc).

(** [constructor(rom)]: every flag starts [false], no RAM bank is counted.
    Fields the constructor leaves undefined get the neutral value of their
    type ([typeName], [numROMBanks] and [mbc] are [None]). *)
Definition new_Cartridge (r : ROM) : Cartridge :=
  {| rom := r; MBCRam := []; MBC1Mode := false;
     hasMBC1 := false; hasMBC2 := false; hasMBC3 := false; hasMBC5 := false;
     hasMBC7 := false; hasSRAM := false; cMMMO1 := false; hasBattery := false;
     cRUMBLE := false; cCamera := false; cTAMA5 := false; cHuC3 := false;
     cHuC1 := false; hasRTC := false;
     numRAMBanks := 0%Q; allocatedRamBytes := 0%Q;
     name := ""; gameCode := ""; colorCompatibilityByte := 0; type := 0;
     typeName := None; romSize := 0; ramSize := 0; numROMBanks := None;
     useGBCMode := false; isNewLicenseCode := false; licenseCode := 0;
     mbc := None |}.

(** [this.ROMBanks]: a sparse array, defined at 0..8 and at 0x52..0x54. *)
Definition ROMBanks (i : Z) : option Z :=
  if (0 <=? i) && (i <=? 8) then Some (2 ^ (i + 1))
  else if i =? 0x52 then Some 72
  else if i =? 0x53 then Some 80
  else if i =? 0x54 then Some 96
  else None.

(** [this.RAMBanks = [0, 1, 2, 4, 16]]. *)
Definition RAMBanks : list Z := [0; 1; 2; 4; 16].

(** The [switch (this.type)] of [setTypeName].  Case [0x00] has no [break]
    and falls through into case [0x01]. *)
Definition setTypeName_switch (st : Settings) (c : Cartridge) : Cartridge :=
  let t := type c in
  if t =? 0x00 then
    let c := if negb (enableMBC1Override st) then set_typeName (Some "ROM"%string) c else c in
    set_typeName (Some "MBC1"%string) (set_hasMBC1 true c)
  else if t =? 0x01 then
    set_typeName (Some "MBC1"%string) (set_hasMBC1 true c)
  else if t =? 0x02 then
    set_typeName (Some "MBC1 + SRAM"%string) (set_hasSRAM true (set_hasMBC1 true c))
  else if t =? 0x03 then
    set_typeName (Some "MBC1 + SRAM + Battery"%string)
      (set_hasBattery true (set_hasSRAM true (set_hasMBC1 true c)))
  else if t =? 0x05 then
    set_typeName (Some "MBC2"%string) (set_hasMBC2 true c)
  else if t =? 0x06 then
    set_typeName (Some "MBC2 + Battery"%string) (set_hasBattery true (set_hasMBC2 true c))
  else if t =? 0x08 then
    set_typeName (Some "ROM + SRAM"%string) (set_hasSRAM true c)
  else if t =? 0x09 then
    set_typeName (Some "ROM + SRAM + Battery"%string) (set_hasBattery true (set_hasSRAM true c))
  else if t =? 0x0b then
    set_typeName (Some "MMMO1"%string) (set_cMMMO1 true c)
  else if t =? 0x0c then
    set_typeName (Some "MMMO1 + SRAM"%string) (set_hasSRAM true (set_cMMMO1 true c))
  else if t =? 0x0d then
    set_typeName (Some "MMMO1 + SRAM + Battery"%string)
      (set_hasBattery true (set_hasSRAM true (set_cMMMO1 true c)))
  else if t =? 0x0f then
    set_typeName (Some "MBC3 + RTC + Battery"%string)
      (set_hasBattery true (set_hasRTC true (set_hasMBC3 true c)))
  else if t =? 0x10 then
    set_typeName (Some "MBC3 + RTC + Battery + SRAM"%string)
      (set_hasSRAM true (set_hasBattery true (set_hasRTC true (set_hasMBC3 true c))))
  else if t =? 0x11 then
    set_typeName (Some "MBC3"%string) (set_hasMBC3 true c)
  else if t =? 0x12 then
    set_typeName (Some "MBC3 + SRAM"%string) (set_hasSRAM true (set_hasMBC3 true c))
  else if t =? 0x13 then
    set_typeName (Some "MBC3 + SRAM + Battery"%string)
      (set_hasBattery true (set_hasSRAM true (set_hasMBC3 true c)))
  else if t =? 0x19 then
    set_typeName (Some "MBC5"%string) (set_hasMBC5 true c)
  else if t =? 0x1a then
    set_typeName (Some "MBC5 + SRAM"%string) (set_hasSRAM true (set_hasMBC5 true c))
  else if t =? 0x1b then
    set_typeName (Some "MBC5 + SRAM + Battery"%string)
      (set_hasBattery true (set_hasSRAM true (set_hasMBC5 true c)))
  else if t =? 0x1c then
    set_typeName (Some "RUMBLE"%string) (set_cRUMBLE true c)
  else if t =? 0x1d then
    set_typeName (Some "RUMBLE + SRAM"%string) (set_hasSRAM true (set_cRUMBLE true c))
  else if t =? 0x1e then
    set_typeName (Some "RUMBLE + SRAM + Battery"%string)
      (set_hasBattery true (set_hasSRAM true (set_cRUMBLE true c)))
  else if t =? 0x1f then
    set_typeName (Some "GameBoy Camera"%string) (set_cCamera true c)
  else if t =? 0x22 then
    set_typeName (Some "MBC7 + SRAM + Battery"%string)
      (set_hasBattery true (set_hasSRAM true (set_hasMBC7 true c)))
  else if t =? 0xfd then
    set_typeName (Some "TAMA5"%string) (set_cTAMA5 true c)
  else if t =? 0xfe then
    set_typeName (Some "HuC3"%string) (set_cHuC3 true c)
  else if t =? 0xff then
    set_typeName (Some "HuC1"%string) (set_cHuC1 true c)
  else
    (* default: the name is set and a message is logged; the source marks
       the place with "TODO error" and raises nothing. *)
    set_typeName (Some "Unknown"%string) c.

(** [this.mbc = this.mbc1 || this.mbc2 || this.mbc3 || this.mbc5 || this.mbc7 || null]. *)
Definition select_mbc (c : Cartridge) : option Mbc :=
  if hasMBC1 c then Some MBC1
  else if hasMBC2 c then Some MBC2
  else if hasMBC3 c then Some MBC3
  else if hasMBC5 c then Some MBC5
  else if hasMBC7 c then Some MBC7
  else None.

Definition setTypeName (st : Settings) (c : Cartridge) : Cartridge :=
  let c := setTypeName_switch st c in
  set_mbc (select_mbc c) c.

(** [interpret()], with the two fields of the owning core that it reads,
    [usedBootROM] and [usedGBCBootROM].  The calls to [console.log] have no
    effect on the state and are left out. *)
Definition interpret (st : Settings) (usedBootROM usedGBCBootROM : bool)
    (c : Cartridge) : Cartridge :=
  let c := set_name (getString (rom c) 0x134 0x13e) c in
  let c := set_gameCode (getString (rom c) 0x13f 0x142) c in
  let c := set_colorCompatibilityByte (getByte (rom c) 0x143) c in
  let c := set_type (getByte (rom c) 0x147) c in
  let c := setTypeName st c in
  let c := set_romSize (getByte (rom c) 0x148) c in
  let c := set_ramSize (getByte (rom c) 0x149) c in
  let c := set_numROMBanks (ROMBanks (romSize c)) c in
  let c :=
    if negb usedBootROM then
      let b := colorCompatibilityByte c in
      if b =? 0x00 then set_useGBCMode false c
      else if b =? 0x32 then
        if negb (gbHasPriority st)
           && bool_decide (name c +:+ gameCode c = "Game and Watch "%string)
        then set_useGBCMode true c
        else set_useGBCMode false c
      else if b =? 0x80 then set_useGBCMode (negb (gbHasPriority st)) c
      else if b =? 0xc0 then set_useGBCMode true c
      else set_useGBCMode false c
    else set_useGBCMode usedGBCBootROM c in
  let oldLicenseCode := getByte (rom c) 0x14b in
  let newLicenseCode :=
    bor (band (getByte (rom c) 0x144) 0xff00) (band (getByte (rom c) 0x145) 0xff) in
  if negb (oldLicenseCode =? 0x33)
  then set_licenseCode oldLicenseCode (set_isNewLicenseCode false c)
  else set_licenseCode newLicenseCode (set_isNewLicenseCode true c).

(** [setupRAM()].  [loadSRAMState] is the host callback of the owning core
    ([None] when the property is not a function); it returns the saved RAM
    image for the cartridge name, if any.  The routine ends with the call
    [this.gameboy.loadRTCState2()]: [loadRTCState2] tells whether the owning
    core has a method of that name.  The sources define none ([gameboy.js]
    installs [loadRTCState]), and calling what is not a function raises a
    TypeError, after the RAM has been set up.  What such a method does to
    the clock is outside the cartridge. *)
Definition setupRAM (loadSRAMState : option (string -> option (list Z)))
    (loadRTCState2 : bool) (c : Cartridge) : Result Cartridge :=
  let c :=
    if hasMBC2 c then set_numRAMBanks (1 # 16)%Q c
    else if hasMBC1 c || cRUMBLE c || hasMBC3 c || cHuC3 c then set_numRAMBanks 4%Q c
    else if hasMBC5 c then set_numRAMBanks 16%Q c
    else if hasSRAM c then set_numRAMBanks 1%Q c
    else c in
  let c := set_allocatedRamBytes (Qred (numRAMBanks c * 0x2000)%Q) c in
  let c :=
    if negb (Qle_bool (numRAMBanks c) 0) then
    let mbcRam :=
      match loadSRAMState with
      | Some f => f (name c)
      | None => None
      end in
    match mbcRam with
    | Some saved => set_MBCRam (map toUint8 saved) c
    | None => set_MBCRam (replicate (Z.to_nat (Qfloor (allocatedRamBytes c))) 0) c
    end
  else c in
  if loadRTCState2 then Ok c
  else Throw "TypeError: this.gameboy.loadRTCState2 is not a function" c.

(** The amount of RAM per controller as the specification words it:
    0x200 bytes for MBC2, four banks of 0x2000 bytes for MBC1, RUMBLE, MBC3
    and HuC3, sixteen banks for MBC5, one bank when only SRAM is flagged,
    nothing otherwise. *)
Definition spec_ram_bytes (c : Cartridge) : Z :=
  if hasMBC2 c then 0x200
  else if hasMBC1 c || cRUMBLE c || hasMBC3 c || cHuC3 c then 0x8000
  else if hasMBC5 c then 16 * 0x2000
  else if hasSRAM c then 0x2000
  else 0.

(** * The core ([src/core/index.js]) and the joypad ([src/core/joypad.ts]) *)

(** [class Joypad]: [value] holds the eight keys, one bit each, [0] when the
    key is held (bits 0-3: right, left, up, down; bits 4-7: A, B, Select,
    Start). *)
Record Joypad : Type := {
  initialValue : Z;
  value : Z
}.

(** The fields of [this.cpu] that the functions below read or write.  The
    carry of the clock budget ([cyclesTotalCurrent], [cyclesTotalRoundoff])
    is kept in fractional numbers and is not among them. *)
Record Cpu : Type := {
  ticks : Z;
  cyclesTotal : Z;
  cyclesTotalBase : Z;
  totalLinesPassed : Z
}.

Definition set_cyclesTotal (v : Z) (c : Cpu) : Cpu :=
  {| ticks := ticks c; cyclesTotal := v; cyclesTotalBase := cyclesTotalBase c;
     totalLinesPassed := totalLinesPassed c |}.

Definition set_totalLinesPassed (v : Z) (c : Cpu) : Cpu :=
  {| ticks := ticks c; cyclesTotal := cyclesTotal c;
     cyclesTotalBase := cyclesTotalBase c;
     totalLinesPassed := v |}.

(** [BGCHRCurrentBank] is a reference to one of the two character-map
    arrays; writes through it land in the array it points to. *)
Inductive ChrBank : Type := ChrBank1 | ChrBank2.

(** [noiseSampleTable] is a reference to one of the two noise tables. *)
Inductive NoiseTable : Type := LSFR15 | LSFR7.

(** The renderer (frame buffer, tile cache, scan-line queue) is outside this
    development.  The calls the memory handlers make into it are recorded,
    in order, in [gfxRequests]. *)
Inductive TileGen : Type :=
  GBTileLine | GBOAMTileLine | GBCTileLineBank1 | GBCTileLineBank2.

Inductive GfxRequest : Type :=
| ScanlineGroupJIT
| TileLine (g : TileGen) (address : Z).

(** What [outputAudio] hands to the host: one stereo pair per call, as the
    two 16-bit sums taken from [downsampleInput] (the host-side scaling to a
    float is [sum * downSampleInputDivider - 1]), and the buffer hand-over
    [audioServer.writeAudio]. *)
Inductive AudioEvent : Type :=
| StereoSample (left right : Z)
| WriteAudio.

(** Values the core reads but that are defined in modules outside the
    sources at hand: the settings, the duty table ([duty-lookup.js]) and the
    contents of the two noise tables filled by [intializeWhiteNoise]. *)
Record Env : Type := {
  settings : Settings;
  dutyLookup : Z -> list bool;
  LSFR15Table : Z -> Z;
  LSFR7Table : Z -> Z
}.

Record Core : Type := {
  memory : gmap Z Z;
  VRAM : gmap Z Z;
  BGCHRBank1 : gmap Z Z;
  BGCHRBank2 : gmap Z Z;
  BGCHRCurrentBank : ChrBank;
  currVRAMBank : Z;
  modeSTAT : Z;
  LCDisOn : bool;
  gfxRequests : list GfxRequest;
  DIVTicks : Z;
  IME : bool;
  interruptsRequested : Z;
  interruptsEnabled : Z;
  IRQLineMatched : Z;
  CPUStopped : bool;
  stopEmulator : Z;
  halt : bool;
  usedBootROM : bool;
  usedGBCBootROM : bool;
  remainingClocks : Z;
  serialTimer : Z;
  GBBOOTROM : list Z;
  GBCBOOTROM : list Z;
  cartridge : option Cartridge;
  cartridgeSlot : Cartridge;
  joypad : Joypad;
  cpu : Cpu;
  bufferContainAmount : Z;
  soundMasterEnabled : bool;
  audioTicks : Z;
  audioIndex : Z;
  downsampleInput : Z;
  audioDestinationPosition : Z;
  numSamplesTotal : Z;
  audioResamplerFirstPassFactor : Z;
  audioOut : list AudioEvent;
  sequencerClocks : Z;
  sequencePosition : Z;
  audioClocksUntilNextEvent : Z;
  audioClocksUntilNextEventCounter : Z;
  mixerOutputCache : Z;
  VinLeftChannelMasterVolume : Z;
  VinRightChannelMasterVolume : Z;
  leftChannel1 : bool;
  leftChannel2 : bool;
  leftChannel3 : bool;
  leftChannel4 : bool;
  rightChannel1 : bool;
  rightChannel2 : bool;
  rightChannel3 : bool;
  rightChannel4 : bool;
  channel1FrequencyTracker : Z;
  channel1FrequencyCounter : Z;
  channel1DutyTracker : Z;
  channel1CachedDuty : list bool;
  channel1totalLength : Z;
  channel1envelopeVolume : Z;
  channel1envelopeType : bool;
  channel1envelopeSweeps : Z;
  channel1envelopeSweepsLast : Z;
  channel1consecutive : bool;
  channel1frequency : Z;
  channel1SweepFault : bool;
  channel1ShadowFrequency : Z;
  channel1timeSweep : Z;
  channel1lastTimeSweep : Z;
  channel1Swept : bool;
  channel1frequencySweepDivider : Z;
  channel1decreaseSweep : bool;
  channel1Enabled : bool;
  channel1canPlay : bool;
  channel1currentSampleLeft : Z;
  channel1currentSampleRight : Z;
  channel1currentSampleLeftSecondary : Z;
  channel1currentSampleRightSecondary : Z;
  channel1currentSampleLeftTrimary : Z;
  channel1currentSampleRightTrimary : Z;
  channel2FrequencyTracker : Z;
  channel2FrequencyCounter : Z;
  channel2DutyTracker : Z;
  channel2CachedDuty : list bool;
  channel2totalLength : Z;
  channel2envelopeVolume : Z;
  channel2envelopeType : bool;
  channel2envelopeSweeps : Z;
  channel2envelopeSweepsLast : Z;
  channel2consecutive : bool;
  channel2frequency : Z;
  channel2Enabled : bool;
  channel2canPlay : bool;
  channel2currentSampleLeft : Z;
  channel2currentSampleRight : Z;
  channel2currentSampleLeftSecondary : Z;
  channel2currentSampleRightSecondary : Z;
  channel2currentSampleLeftTrimary : Z;
  channel2currentSampleRightTrimary : Z;
  channel3canPlay : bool;
  channel3totalLength : Z;
  channel3patternType : Z;
  channel3frequency : Z;
  channel3consecutive : bool;
  channel3Counter : Z;
  channel3FrequencyPeriod : Z;
  channel3lastSampleLookup : Z;
  cachedChannel3Sample : Z;
  channel3Enabled : bool;
  channel3PCM : gmap Z Z;
  channel3currentSampleLeft : Z;
  channel3currentSampleRight : Z;
  channel3currentSampleLeftSecondary : Z;
  channel3currentSampleRightSecondary : Z;
  channel4FrequencyPeriod : Z;
  channel4Counter : Z;
  channel4totalLength : Z;
  channel4envelopeVolume : Z;
  channel4currentVolume : Z;
  channel4envelopeType : bool;
  channel4envelopeSweeps : Z;
  channel4envelopeSweepsLast : Z;
  channel4consecutive : bool;
  channel4BitRange : Z;
  channel4VolumeShifter : Z;
  channel4lastSampleLookup : Z;
  cachedChannel4Sample : Z;
  noiseSampleTable : NoiseTable;
  channel4Enabled : bool;
  channel4canPlay : bool;
  channel4currentSampleLeft : Z;
  channel4currentSampleRight : Z;
  channel4currentSampleLeftSecondary : Z;
  channel4currentSampleRightSecondary : Z
}.

Definition eta_Core (s : Core) : Core :=
  Build_Core
    (memory s) (VRAM s) (BGCHRBank1 s) (BGCHRBank2 s) (BGCHRCurrentBank s)
    (currVRAMBank s) (modeSTAT s) (LCDisOn s) (gfxRequests s) (DIVTicks s)
    (IME s) (interruptsRequested s) (interruptsEnabled s) (IRQLineMatched s)
    (CPUStopped s) (stopEmulator s) (halt s) (usedBootROM s)
    (usedGBCBootROM s) (remainingClocks s) (serialTimer s) (GBBOOTROM s) (GBCBOOTROM s)
    (cartridge s) (cartridgeSlot s) (joypad s) (cpu s) (bufferContainAmount s)
    (soundMasterEnabled s) (audioTicks s) (audioIndex s) (downsampleInput s)
    (audioDestinationPosition s) (numSamplesTotal s)
    (audioResamplerFirstPassFactor s) (audioOut s) (sequencerClocks s)
    (sequencePosition s) (audioClocksUntilNextEvent s)
    (audioClocksUntilNextEventCounter s) (mixerOutputCache s)
    (VinLeftChannelMasterVolume s) (VinRightChannelMasterVolume s)
    (leftChannel1 s) (leftChannel2 s) (leftChannel3 s) (leftChannel4 s)
    (rightChannel1 s) (rightChannel2 s) (rightChannel3 s) (rightChannel4 s)
    (channel1FrequencyTracker s) (channel1FrequencyCounter s)
    (channel1DutyTracker s) (channel1CachedDuty s) (channel1totalLength s)
    (channel1envelopeVolume s) (channel1envelopeType s)
    (channel1envelopeSweeps s) (channel1envelopeSweepsLast s)
    (channel1consecutive s) (channel1frequency s) (channel1SweepFault s)
    (channel1ShadowFrequency s) (channel1timeSweep s)
    (channel1lastTimeSweep s) (channel1Swept s)
    (channel1frequencySweepDivider s) (channel1decreaseSweep s)
    (channel1Enabled s) (channel1canPlay s) (channel1currentSampleLeft s)
    (channel1currentSampleRight s) (channel1currentSampleLeftSecondary s)
    (channel1currentSampleRightSecondary s)
    (channel1currentSampleLeftTrimary s) (channel1currentSampleRightTrimary s)
    (channel2FrequencyTracker s) (channel2FrequencyCounter s)
    (channel2DutyTracker s) (channel2CachedDuty s) (channel2totalLength s)
    (channel2envelopeVolume s) (channel2envelopeType s)
    (channel2envelopeSweeps s) (channel2envelopeSweepsLast s)
    (channel2consecutive s) (channel2frequency s) (channel2Enabled s)
    (channel2canPlay s) (channel2currentSampleLeft s)
    (channel2currentSampleRight s) (channel2currentSampleLeftSecondary s)
    (channel2currentSampleRightSecondary s)
    (channel2currentSampleLeftTrimary s) (channel2currentSampleRightTrimary s)
    (channel3canPlay s) (channel3totalLength s) (channel3patternType s)
    (channel3frequency s) (channel3consecutive s) (channel3Counter s)
    (channel3FrequencyPeriod s) (channel3lastSampleLookup s)
    (cachedChannel3Sample s) (channel3Enabled s) (channel3PCM s)
    (channel3currentSampleLeft s) (channel3currentSampleRight s)
    (channel3currentSampleLeftSecondary s)
    (channel3currentSampleRightSecondary s) (channel4FrequencyPeriod s)
    (channel4Counter s) (channel4totalLength s) (channel4envelopeVolume s)
    (channel4currentVolume s) (channel4envelopeType s)
    (channel4envelopeSweeps s) (channel4envelopeSweepsLast s)
    (channel4consecutive s) (channel4BitRange s) (channel4VolumeShifter s)
    (channel4lastSampleLookup s) (cachedChannel4Sample s) (noiseSampleTable s)
    (channel4Enabled s) (channel4canPlay s) (channel4currentSampleLeft s)
    (channel4currentSampleRight s) (channel4currentSampleLeftSecondary s)
    (channel4currentSampleRightSecondary s).

(** Field update [this.f = v]. *)
Ltac core_setter proj :=
  let v := fresh "v" in
  let s := fresh "s" in
  intros v s;
  let e := eval cbv beta delta [eta_Core] in (eta_Core s) in
  match eval pattern (proj s) in e with
  | ?f _ => let r := eval cbv beta in (f v) in exact r
  end.

Definition set_memory : gmap Z Z -> Core -> Core := ltac:(core_setter memory).
Definition set_VRAM : gmap Z Z -> Core -> Core := ltac:(core_setter VRAM).
Definition set_BGCHRBank1 : gmap Z Z -> Core -> Core := ltac:(core_setter BGCHRBank1).
Definition set_BGCHRBank2 : gmap Z Z -> Core -> Core := ltac:(core_setter BGCHRBank2).
Definition set_BGCHRCurrentBank : ChrBank -> Core -> Core := ltac:(core_setter BGCHRCurrentBank).
Definition set_currVRAMBank : Z -> Core -> Core := ltac:(core_setter currVRAMBank).
Definition set_modeSTAT : Z -> Core -> Core := ltac:(core_setter modeSTAT).
Definition set_LCDisOn : bool -> Core -> Core := ltac:(core_setter LCDisOn).
Definition set_gfxRequests : list GfxRequest -> Core -> Core := ltac:(core_setter gfxRequests).
Definition set_DIVTicks : Z -> Core -> Core := ltac:(core_setter DIVTicks).
Definition set_IME : bool -> Core -> Core := ltac:(core_setter IME).
Definition set_interruptsRequested : Z -> Core -> Core := ltac:(core_setter interruptsRequested).
Definition set_interruptsEnabled : Z -> Core -> Core := ltac:(core_setter interruptsEnabled).
Definition set_IRQLineMatched : Z -> Core -> Core := ltac:(core_setter IRQLineMatched).
Definition set_CPUStopped : bool -> Core -> Core := ltac:(core_setter CPUStopped).
Definition set_stopEmulator : Z -> Core -> Core := ltac:(core_setter stopEmulator).
Definition set_halt : bool -> Core -> Core := ltac:(core_setter halt).
Definition set_usedBootROM : bool -> Core -> Core := ltac:(core_setter usedBootROM).
Definition set_usedGBCBootROM : bool -> Core -> Core := ltac:(core_setter usedGBCBootROM).
Definition set_remainingClocks : Z -> Core -> Core := ltac:(core_setter remainingClocks).
Definition set_serialTimer : Z -> Core -> Core := ltac:(core_setter serialTimer).
Definition set_GBBOOTROM : list Z -> Core -> Core := ltac:(core_setter GBBOOTROM).
Definition set_GBCBOOTROM : list Z -> Core -> Core := ltac:(core_setter GBCBOOTROM).
Definition set_cartridge : option Cartridge -> Core -> Core := ltac:(core_setter cartridge).
Definition set_cartridgeSlot : Cartridge -> Core -> Core := ltac:(core_setter cartridgeSlot).
Definition set_joypad : Joypad -> Core -> Core := ltac:(core_setter joypad).
Definition set_cpu : Cpu -> Core -> Core := ltac:(core_setter cpu).
Definition set_bufferContainAmount : Z -> Core -> Core := ltac:(core_setter bufferContainAmount).
Definition set_soundMasterEnabled : bool -> Core -> Core := ltac:(core_setter soundMasterEnabled).
Definition set_audioTicks : Z -> Core -> Core := ltac:(core_setter audioTicks).
Definition set_audioIndex : Z -> Core -> Core := ltac:(core_setter audioIndex).
Definition set_downsampleInput : Z -> Core -> Core := ltac:(core_setter downsampleInput).
Definition set_audioDestinationPosition : Z -> Core -> Core := ltac:(core_setter audioDestinationPosition).
Definition set_numSamplesTotal : Z -> Core -> Core := ltac:(core_setter numSamplesTotal).
Definition set_audioResamplerFirstPassFactor : Z -> Core -> Core := ltac:(core_setter audioResamplerFirstPassFactor).
Definition set_audioOut : list AudioEvent -> Core -> Core := ltac:(core_setter audioOut).
Definition set_sequencerClocks : Z -> Core -> Core := ltac:(core_setter sequencerClocks).
Definition set_sequencePosition : Z -> Core -> Core := ltac:(core_setter sequencePosition).
Definition set_audioClocksUntilNextEvent : Z -> Core -> Core := ltac:(core_setter audioClocksUntilNextEvent).
Definition set_audioClocksUntilNextEventCounter : Z -> Core -> Core := ltac:(core_setter audioClocksUntilNextEventCounter).
Definition set_mixerOutputCache : Z -> Core -> Core := ltac:(core_setter mixerOutputCache).
Definition set_VinLeftChannelMasterVolume : Z -> Core -> Core := ltac:(core_setter VinLeftChannelMasterVolume).
Definition set_VinRightChannelMasterVolume : Z -> Core -> Core := ltac:(core_setter VinRightChannelMasterVolume).
Definition set_leftChannel1 : bool -> Core -> Core := ltac:(core_setter leftChannel1).
Definition set_leftChannel2 : bool -> Core -> Core := ltac:(core_setter leftChannel2).
Definition set_leftChannel3 : bool -> Core -> Core := ltac:(core_setter leftChannel3).
Definition set_leftChannel4 : bool -> Core -> Core := ltac:(core_setter leftChannel4).
Definition set_rightChannel1 : bool -> Core -> Core := ltac:(core_setter rightChannel1).
Definition set_rightChannel2 : bool -> Core -> Core := ltac:(core_setter rightChannel2).
Definition set_rightChannel3 : bool -> Core -> Core := ltac:(core_setter rightChannel3).
Definition set_rightChannel4 : bool -> Core -> Core := ltac:(core_setter rightChannel4).
Definition set_channel1FrequencyTracker : Z -> Core -> Core := ltac:(core_setter channel1FrequencyTracker).
Definition set_channel1FrequencyCounter : Z -> Core -> Core := ltac:(core_setter channel1FrequencyCounter).
Definition set_channel1DutyTracker : Z -> Core -> Core := ltac:(core_setter channel1DutyTracker).
Definition set_channel1CachedDuty : list bool -> Core -> Core := ltac:(core_setter channel1CachedDuty).
Definition set_channel1totalLength : Z -> Core -> Core := ltac:(core_setter channel1totalLength).
Definition set_channel1envelopeVolume : Z -> Core -> Core := ltac:(core_setter channel1envelopeVolume).
Definition set_channel1envelopeType : bool -> Core -> Core := ltac:(core_setter channel1envelopeType).
Definition set_channel1envelopeSweeps : Z -> Core -> Core := ltac:(core_setter channel1envelopeSweeps).
Definition set_channel1envelopeSweepsLast : Z -> Core -> Core := ltac:(core_setter channel1envelopeSweepsLast).
Definition set_channel1consecutive : bool -> Core -> Core := ltac:(core_setter channel1consecutive).
Definition set_channel1frequency : Z -> Core -> Core := ltac:(core_setter channel1frequency).
Definition set_channel1SweepFault : bool -> Core -> Core := ltac:(core_setter channel1SweepFault).
Definition set_channel1ShadowFrequency : Z -> Core -> Core := ltac:(core_setter channel1ShadowFrequency).
Definition set_channel1timeSweep : Z -> Core -> Core := ltac:(core_setter channel1timeSweep).
Definition set_channel1lastTimeSweep : Z -> Core -> Core := ltac:(core_setter channel1lastTimeSweep).
Definition set_channel1Swept : bool -> Core -> Core := ltac:(core_setter channel1Swept).
Definition set_channel1frequencySweepDivider : Z -> Core -> Core := ltac:(core_setter channel1frequencySweepDivider).
Definition set_channel1decreaseSweep : bool -> Core -> Core := ltac:(core_setter channel1decreaseSweep).
Definition set_channel1Enabled : bool -> Core -> Core := ltac:(core_setter channel1Enabled).
Definition set_channel1canPlay : bool -> Core -> Core := ltac:(core_setter channel1canPlay).
Definition set_channel1currentSampleLeft : Z -> Core -> Core := ltac:(core_setter channel1currentSampleLeft).
Definition set_channel1currentSampleRight : Z -> Core -> Core := ltac:(core_setter channel1currentSampleRight).
Definition set_channel1currentSampleLeftSecondary : Z -> Core -> Core := ltac:(core_setter channel1currentSampleLeftSecondary).
Definition set_channel1currentSampleRightSecondary : Z -> Core -> Core := ltac:(core_setter channel1currentSampleRightSecondary).
Definition set_channel1currentSampleLeftTrimary : Z -> Core -> Core := ltac:(core_setter channel1currentSampleLeftTrimary).
Definition set_channel1currentSampleRightTrimary : Z -> Core -> Core := ltac:(core_setter channel1currentSampleRightTrimary).
Definition set_channel2FrequencyTracker : Z -> Core -> Core := ltac:(core_setter channel2FrequencyTracker).
Definition set_channel2FrequencyCounter : Z -> Core -> Core := ltac:(core_setter channel2FrequencyCounter).
Definition set_channel2DutyTracker : Z -> Core -> Core := ltac:(core_setter channel2DutyTracker).
Definition set_channel2CachedDuty : list bool -> Core -> Core := ltac:(core_setter channel2CachedDuty).
Definition set_channel2totalLength : Z -> Core -> Core := ltac:(core_setter channel2totalLength).
Definition set_channel2envelopeVolume : Z -> Core -> Core := ltac:(core_setter channel2envelopeVolume).
Definition set_channel2envelopeType : bool -> Core -> Core := ltac:(core_setter channel2envelopeType).
Definition set_channel2envelopeSweeps : Z -> Core -> Core := ltac:(core_setter channel2envelopeSweeps).
Definition set_channel2envelopeSweepsLast : Z -> Core -> Core := ltac:(core_setter channel2envelopeSweepsLast).
Definition set_channel2consecutive : bool -> Core -> Core := ltac:(core_setter channel2consecutive).
Definition set_channel2frequency : Z -> Core -> Core := ltac:(core_setter channel2frequency).
Definition set_channel2Enabled : bool -> Core -> Core := ltac:(core_setter channel2Enabled).
Definition set_channel2canPlay : bool -> Core -> Core := ltac:(core_setter channel2canPlay).
Definition set_channel2currentSampleLeft : Z -> Core -> Core := ltac:(core_setter channel2currentSampleLeft).
Definition set_channel2currentSampleRight : Z -> Core -> Core := ltac:(core_setter channel2currentSampleRight).
Definition set_channel2currentSampleLeftSecondary : Z -> Core -> Core := ltac:(core_setter channel2currentSampleLeftSecondary).
Definition set_channel2currentSampleRightSecondary : Z -> Core -> Core := ltac:(core_setter channel2currentSampleRightSecondary).
Definition set_channel2currentSampleLeftTrimary : Z -> Core -> Core := ltac:(core_setter channel2currentSampleLeftTrimary).
Definition set_channel2currentSampleRightTrimary : Z -> Core -> Core := ltac:(core_setter channel2currentSampleRightTrimary).
Definition set_channel3canPlay : bool -> Core -> Core := ltac:(core_setter channel3canPlay).
Definition set_channel3totalLength : Z -> Core -> Core := ltac:(core_setter channel3totalLength).
Definition set_channel3patternType : Z -> Core -> Core := ltac:(core_setter channel3patternType).
Definition set_channel3frequency : Z -> Core -> Core := ltac:(core_setter channel3frequency).
Definition set_channel3consecutive : bool -> Core -> Core := ltac:(core_setter channel3consecutive).
Definition set_channel3Counter : Z -> Core -> Core := ltac:(core_setter channel3Counter).
Definition set_channel3FrequencyPeriod : Z -> Core -> Core := ltac:(core_setter channel3FrequencyPeriod).
Definition set_channel3lastSampleLookup : Z -> Core -> Core := ltac:(core_setter channel3lastSampleLookup).
Definition set_cachedChannel3Sample : Z -> Core -> Core := ltac:(core_setter cachedChannel3Sample).
Definition set_channel3Enabled : bool -> Core -> Core := ltac:(core_setter channel3Enabled).
Definition set_channel3PCM : gmap Z Z -> Core -> Core := ltac:(core_setter channel3PCM).
Definition set_channel3currentSampleLeft : Z -> Core -> Core := ltac:(core_setter channel3currentSampleLeft).
Definition set_channel3currentSampleRight : Z -> Core -> Core := ltac:(core_setter channel3currentSampleRight).
Definition set_channel3currentSampleLeftSecondary : Z -> Core -> Core := ltac:(core_setter channel3currentSampleLeftSecondary).
Definition set_channel3currentSampleRightSecondary : Z -> Core -> Core := ltac:(core_setter channel3currentSampleRightSecondary).
Definition set_channel4FrequencyPeriod : Z -> Core -> Core := ltac:(core_setter channel4FrequencyPeriod).
Definition set_channel4Counter : Z -> Core -> Core := ltac:(core_setter channel4Counter).
Definition set_channel4totalLength : Z -> Core -> Core := ltac:(core_setter channel4totalLength).
Definition set_channel4envelopeVolume : Z -> Core -> Core := ltac:(core_setter channel4envelopeVolume).
Definition set_channel4currentVolume : Z -> Core -> Core := ltac:(core_setter channel4currentVolume).
Definition set_channel4envelopeType : bool -> Core -> Core := ltac:(core_setter channel4envelopeType).
Definition set_channel4envelopeSweeps : Z -> Core -> Core := ltac:(core_setter channel4envelopeSweeps).
Definition set_channel4envelopeSweepsLast : Z -> Core -> Core := ltac:(core_setter channel4envelopeSweepsLast).
Definition set_channel4consecutive : bool -> Core -> Core := ltac:(core_setter channel4consecutive).
Definition set_channel4BitRange : Z -> Core -> Core := ltac:(core_setter channel4BitRange).
Definition set_channel4VolumeShifter : Z -> Core -> Core := ltac:(core_setter channel4VolumeShifter).
Definition set_channel4lastSampleLookup : Z -> Core -> Core := ltac:(core_setter channel4lastSampleLookup).
Definition set_cachedChannel4Sample : Z -> Core -> Core := ltac:(core_setter cachedChannel4Sample).
Definition set_noiseSampleTable : NoiseTable -> Core -> Core := ltac:(core_setter noiseSampleTable).
Definition set_channel4Enabled : bool -> Core -> Core := ltac:(core_setter channel4Enabled).
Definition set_channel4canPlay : bool -> Core -> Core := ltac:(core_setter channel4canPlay).
Definition set_channel4currentSampleLeft : Z -> Core -> Core := ltac:(core_setter channel4currentSampleLeft).
Definition set_channel4currentSampleRight : Z -> Core -> Core := ltac:(core_setter channel4currentSampleRight).
Definition set_channel4currentSampleLeftSecondary : Z -> Core -> Core := ltac:(core_setter channel4currentSampleLeftSecondary).
Definition set_channel4currentSampleRightSecondary : Z -> Core -> Core := ltac:(core_setter channel4currentSampleRightSecondary).


(** ** [Cartridge.connect] and [Cartridge.parseROM]

    [connect(gameboy)] stores the back reference and calls [parseROM()],
    which works on the fields of the core.  With a boot ROM in use the body
    of the source is commented out and nothing is copied. *)
Definition parseROM (st : Settings) (c : Cartridge) (s : Core) : Result Core :=
  let s := set_usedBootROM
             (bootBootRomFirst st
              && ((negb (forceGBBootRom st) && (Z.of_nat (length (GBCBOOTROM s)) =? 0x800))
                  || (forceGBBootRom st && (Z.of_nat (length (GBBOOTROM s)) =? 0x100)))) s in
  if rom_length (rom c) <? 0x4000 then Throw "ROM size too small." s
  else if usedBootROM s then Ok s
  else
    (* Don't load in the boot ROM: *)
    Ok (set_memory
          (foldl (fun m romIndex => wr8 m romIndex (band (getByte (rom c) romIndex) 0xff))
                 (memory s) (seqZ 0 0x4000)) s).

Definition connect (st : Settings) (c : Cartridge) (s : Core) : Result Core :=
  parseROM st c s.

(** Option monad for the functions that run a budgeted loop. *)
Notation "'let?' x ':=' c1 'in' c2" :=
  (match c1 with Some x => c2 | None => None end)
  (at level 10, x name, c1 at level 100, c2 at level 200).

(** [this.memory[a] |= m] and [this.memory[a] &= m] on the byte array. *)
Definition memory_or (a m : Z) (s : Core) : Core :=
  set_memory (wr8 (memory s) a (bor (rd (memory s) a) m)) s.
Definition memory_and (a m : Z) (s : Core) : Core :=
  set_memory (wr8 (memory s) a (band (rd (memory s) a) m)) s.

Section AudioUnit.

Variable E : Env.

(** ** Mixer caches *)

Definition mixerOutputLevelCache (s : Core) : Core :=
  set_mixerOutputCache
    (bor
       (shl ((channel1currentSampleLeftTrimary s
              + channel2currentSampleLeftTrimary s
              + channel3currentSampleLeftSecondary s
              + channel4currentSampleLeftSecondary s)
             * VinLeftChannelMasterVolume s) 16)
       ((channel1currentSampleRightTrimary s
         + channel2currentSampleRightTrimary s
         + channel3currentSampleRightSecondary s
         + channel4currentSampleRightSecondary s)
        * VinRightChannelMasterVolume s)) s.

(** [array[i]] used as a condition: a missing element is falsy. *)
Definition truthy_at (l : list bool) (i : Z) : bool :=
  if i <? 0 then false else nth (Z.to_nat i) l false.

Definition channel1OutputLevelTrimaryCache (s : Core) : Core :=
  let s :=
    if truthy_at (channel1CachedDuty s) (channel1DutyTracker s)
       && truthy_at (enabledChannels (settings E)) 0
    then set_channel1currentSampleRightTrimary (channel1currentSampleRightSecondary s)
           (set_channel1currentSampleLeftTrimary (channel1currentSampleLeftSecondary s) s)
    else set_channel1currentSampleRightTrimary 0
           (set_channel1currentSampleLeftTrimary 0 s) in
  mixerOutputLevelCache s.

Definition channel1OutputLevelSecondaryCache (s : Core) : Core :=
  let s :=
    if channel1Enabled s
    then set_channel1currentSampleRightSecondary (channel1currentSampleRight s)
           (set_channel1currentSampleLeftSecondary (channel1currentSampleLeft s) s)
    else set_channel1currentSampleRightSecondary 0
           (set_channel1currentSampleLeftSecondary 0 s) in
  channel1OutputLevelTrimaryCache s.

Definition channel1OutputLevelCache (s : Core) : Core :=
  let s := set_channel1currentSampleLeft
             (if leftChannel1 s then channel1envelopeVolume s else 0) s in
  let s := set_channel1currentSampleRight
             (if rightChannel1 s then channel1envelopeVolume s else 0) s in
  channel1OutputLevelSecondaryCache s.

Definition channel1EnableCheck (s : Core) : Core :=
  let s := set_channel1Enabled
             ((channel1consecutive s || (0 <? channel1totalLength s))
              && negb (channel1SweepFault s) && channel1canPlay s) s in
  channel1OutputLevelSecondaryCache s.

Definition channel1VolumeEnableCheck (s : Core) : Core :=
  let s := set_channel1canPlay (7 <? rd (memory s) 0xff12) s in
  let s := channel1EnableCheck s in
  channel1OutputLevelSecondaryCache s.

Definition channel2OutputLevelTrimaryCache (s : Core) : Core :=
  let s :=
    if truthy_at (channel2CachedDuty s) (channel2DutyTracker s)
       && truthy_at (enabledChannels (settings E)) 1
    then set_channel2currentSampleRightTrimary (channel2currentSampleRightSecondary s)
           (set_channel2currentSampleLeftTrimary (channel2currentSampleLeftSecondary s) s)
    else set_channel2currentSampleRightTrimary 0
           (set_channel2currentSampleLeftTrimary 0 s) in
  mixerOutputLevelCache s.

Definition channel2OutputLevelSecondaryCache (s : Core) : Core :=
  let s :=
    if channel2Enabled s
    then set_channel2currentSampleRightSecondary (channel2currentSampleRight s)
           (set_channel2currentSampleLeftSecondary (channel2currentSampleLeft s) s)
    else set_channel2currentSampleRightSecondary 0
           (set_channel2currentSampleLeftSecondary 0 s) in
  channel2OutputLevelTrimaryCache s.

Definition channel2OutputLevelCache (s : Core) : Core :=
  let s := set_channel2currentSampleLeft
             (if leftChannel2 s then channel2envelopeVolume s else 0) s in
  let s := set_channel2currentSampleRight
             (if rightChannel2 s then channel2envelopeVolume s else 0) s in
  channel2OutputLevelSecondaryCache s.

Definition channel2EnableCheck (s : Core) : Core :=
  let s := set_channel2Enabled
             ((channel2consecutive s || (0 <? channel2totalLength s))
              && channel2canPlay s) s in
  channel2OutputLevelSecondaryCache s.

Definition channel2VolumeEnableCheck (s : Core) : Core :=
  let s := set_channel2canPlay (7 <? rd (memory s) 0xff17) s in
  let s := channel2EnableCheck s in
  channel2OutputLevelSecondaryCache s.

Definition channel3OutputLevelSecondaryCache (s : Core) : Core :=
  let s :=
    if channel3Enabled s && truthy_at (enabledChannels (settings E)) 2
    then set_channel3currentSampleRightSecondary (channel3currentSampleRight s)
           (set_channel3currentSampleLeftSecondary (channel3currentSampleLeft s) s)
    else set_channel3currentSampleRightSecondary 0
           (set_channel3currentSampleLeftSecondary 0 s) in
  mixerOutputLevelCache s.

Definition channel3OutputLevelCache (s : Core) : Core :=
  let s := set_channel3currentSampleLeft
             (if leftChannel3 s then cachedChannel3Sample s else 0) s in
  let s := set_channel3currentSampleRight
             (if rightChannel3 s then cachedChannel3Sample s else 0) s in
  channel3OutputLevelSecondaryCache s.

(** The source leaves [channel3canPlay] out of the condition (it is
    commented out there). *)
Definition channel3EnableCheck (s : Core) : Core :=
  let s := set_channel3Enabled
             (channel3consecutive s || (0 <? channel3totalLength s)) s in
  channel3OutputLevelSecondaryCache s.

Definition channel3UpdateCache (s : Core) : Core :=
  let s := set_cachedChannel3Sample
             (shr (rd (channel3PCM s) (channel3lastSampleLookup s))
                  (channel3patternType s)) s in
  channel3OutputLevelCache s.

Definition channel4OutputLevelSecondaryCache (s : Core) : Core :=
  let s :=
    if channel4Enabled s && truthy_at (enabledChannels (settings E)) 3
    then set_channel4currentSampleRightSecondary (channel4currentSampleRight s)
           (set_channel4currentSampleLeftSecondary (channel4currentSampleLeft s) s)
    else set_channel4currentSampleRightSecondary 0
           (set_channel4currentSampleLeftSecondary 0 s) in
  mixerOutputLevelCache s.

Definition channel4OutputLevelCache (s : Core) : Core :=
  let s := set_channel4currentSampleLeft
             (if leftChannel4 s then cachedChannel4Sample s else 0) s in
  let s := set_channel4currentSampleRight
             (if rightChannel4 s then cachedChannel4Sample s else 0) s in
  channel4OutputLevelSecondaryCache s.

Definition channel4EnableCheck (s : Core) : Core :=
  let s := set_channel4Enabled
             ((channel4consecutive s || (0 <? channel4totalLength s))
              && channel4canPlay s) s in
  channel4OutputLevelSecondaryCache s.

Definition channel4VolumeEnableCheck (s : Core) : Core :=
  let s := set_channel4canPlay (7 <? rd (memory s) 0xff21) s in
  let s := channel4EnableCheck s in
  channel4OutputLevelSecondaryCache s.

Definition noise_lookup (t : NoiseTable) (i : Z) : Z :=
  match t with
  | LSFR15 => LSFR15Table E i
  | LSFR7 => LSFR7Table E i
  end.

Definition channel4UpdateCache (s : Core) : Core :=
  let s := set_cachedChannel4Sample
             (noise_lookup (noiseSampleTable s)
                (bor (channel4currentVolume s) (channel4lastSampleLookup s))) s in
  channel4OutputLevelCache s.

(** ** Frame sequencer *)

Definition clockAudioLength (s : Core) : Core :=
  let s :=
    if 1 <? channel1totalLength s then
      set_channel1totalLength (channel1totalLength s - 1) s
    else if channel1totalLength s =? 1 then
      memory_and 0xff26 0xfe (channel1EnableCheck (set_channel1totalLength 0 s))
    else s in
  let s :=
    if 1 <? channel2totalLength s then
      set_channel2totalLength (channel2totalLength s - 1) s
    else if channel2totalLength s =? 1 then
      memory_and 0xff26 0xfd (channel2EnableCheck (set_channel2totalLength 0 s))
    else s in
  let s :=
    if 1 <? channel3totalLength s then
      set_channel3totalLength (channel3totalLength s - 1) s
    else if channel3totalLength s =? 1 then
      memory_and 0xff26 0xfb (channel3EnableCheck (set_channel3totalLength 0 s))
    else s in
  if 1 <? channel4totalLength s then
    set_channel4totalLength (channel4totalLength s - 1) s
  else if channel4totalLength s =? 1 then
    memory_and 0xff26 0xf7 (channel4EnableCheck (set_channel4totalLength 0 s))
  else s.

Definition runAudioSweep (s : Core) : Core :=
  if 0 <? channel1lastTimeSweep s then
    if 0 <? channel1frequencySweepDivider s then
      let s := set_channel1Swept true s in
      let s :=
        if channel1decreaseSweep s then
          let s := set_channel1ShadowFrequency
                     (channel1ShadowFrequency s
                      - shr (channel1ShadowFrequency s) (channel1frequencySweepDivider s)) s in
          let s := set_channel1frequency (band (channel1ShadowFrequency s) 0x7ff) s in
          set_channel1FrequencyTracker (shl (0x800 - channel1frequency s) 2) s
        else
          let s := set_channel1ShadowFrequency
                     (channel1ShadowFrequency s
                      + shr (channel1ShadowFrequency s) (channel1frequencySweepDivider s)) s in
          let s := set_channel1frequency (channel1ShadowFrequency s) s in
          if channel1ShadowFrequency s <=? 0x7ff then
            let s := set_channel1FrequencyTracker (shl (0x800 - channel1frequency s) 2) s in
            (* Run overflow check twice: *)
            if 0x7ff <? channel1ShadowFrequency s
                        + shr (channel1ShadowFrequency s) (channel1frequencySweepDivider s)
            then memory_and 0xff26 0xfe (channel1EnableCheck (set_channel1SweepFault true s))
            else s
          else
            let s := set_channel1frequency (band (channel1frequency s) 0x7ff) s in
            memory_and 0xff26 0xfe (channel1EnableCheck (set_channel1SweepFault true s)) in
      set_channel1timeSweep (channel1lastTimeSweep s) s
    else
      (* Channel has sweep disabled and timer becomes a length counter: *)
      channel1EnableCheck (set_channel1SweepFault true s)
  else s.

Definition clockAudioSweep (s : Core) : Core :=
  if negb (channel1SweepFault s) && (0 <? channel1timeSweep s) then
    let s := set_channel1timeSweep (channel1timeSweep s - 1) s in
    if channel1timeSweep s =? 0 then runAudioSweep s else s
  else s.

Definition channel1AudioSweepPerformDummy (s : Core) : Core :=
  if 0 <? channel1frequencySweepDivider s then
    if negb (channel1decreaseSweep s) then
      let shadow := channel1ShadowFrequency s
                    + shr (channel1ShadowFrequency s) (channel1frequencySweepDivider s) in
      if shadow <=? 0x7ff then
        if 0x7ff <? shadow + shr shadow (channel1frequencySweepDivider s)
        then memory_and 0xff26 0xfe (channel1EnableCheck (set_channel1SweepFault true s))
        else s
      else memory_and 0xff26 0xfe (channel1EnableCheck (set_channel1SweepFault true s))
    else s
  else s.

Definition clockAudioEnvelope (s : Core) : Core :=
  (* Channel 1 *)
  let s :=
    if -1 <? channel1envelopeSweepsLast s then
      if 0 <? channel1envelopeSweeps s then
        set_channel1envelopeSweeps (channel1envelopeSweeps s - 1) s
      else if negb (channel1envelopeType s) then
        if 0 <? channel1envelopeVolume s then
          channel1OutputLevelCache
            (set_channel1envelopeSweeps (channel1envelopeSweepsLast s)
               (set_channel1envelopeVolume (channel1envelopeVolume s - 1) s))
        else set_channel1envelopeSweepsLast (-1) s
      else if channel1envelopeVolume s <? 0xf then
        channel1OutputLevelCache
          (set_channel1envelopeSweeps (channel1envelopeSweepsLast s)
             (set_channel1envelopeVolume (channel1envelopeVolume s + 1) s))
      else set_channel1envelopeSweepsLast (-1) s
    else s in
  (* Channel 2 *)
  let s :=
    if -1 <? channel2envelopeSweepsLast s then
      if 0 <? channel2envelopeSweeps s then
        set_channel2envelopeSweeps (channel2envelopeSweeps s - 1) s
      else if negb (channel2envelopeType s) then
        if 0 <? channel2envelopeVolume s then
          channel2OutputLevelCache
            (set_channel2envelopeSweeps (channel2envelopeSweepsLast s)
               (set_channel2envelopeVolume (channel2envelopeVolume s - 1) s))
        else set_channel2envelopeSweepsLast (-1) s
      else if channel2envelopeVolume s <? 0xf then
        channel2OutputLevelCache
          (set_channel2envelopeSweeps (channel2envelopeSweepsLast s)
             (set_channel2envelopeVolume (channel2envelopeVolume s + 1) s))
      else set_channel2envelopeSweepsLast (-1) s
    else s in
  (* Channel 4 *)
  if -1 <? channel4envelopeSweepsLast s then
    if 0 <? channel4envelopeSweeps s then
      set_channel4envelopeSweeps (channel4envelopeSweeps s - 1) s
    else if negb (channel4envelopeType s) then
      if 0 <? channel4envelopeVolume s then
        let s := set_channel4envelopeVolume (channel4envelopeVolume s - 1) s in
        let s := set_channel4currentVolume
                   (shl (channel4envelopeVolume s) (channel4VolumeShifter s)) s in
        channel4UpdateCache
          (set_channel4envelopeSweeps (channel4envelopeSweepsLast s) s)
      else set_channel4envelopeSweepsLast (-1) s
    else if channel4envelopeVolume s <? 0xf then
      let s := set_channel4envelopeVolume (channel4envelopeVolume s + 1) s in
      let s := set_channel4currentVolume
                 (shl (channel4envelopeVolume s) (channel4VolumeShifter s)) s in
      channel4UpdateCache
        (set_channel4envelopeSweeps (channel4envelopeSweepsLast s) s)
    else set_channel4envelopeSweepsLast (-1) s
  else s.

(** [switch (this.sequencePosition++)]: the old position selects the case,
    positions 1, 3 and 5 have none. *)
Definition audioComputeSequencer (s : Core) : Core :=
  let p := sequencePosition s in
  let s := set_sequencePosition (p + 1) s in
  if p =? 0 then clockAudioLength s
  else if p =? 2 then clockAudioSweep (clockAudioLength s)
  else if p =? 4 then clockAudioLength s
  else if p =? 6 then clockAudioSweep (clockAudioLength s)
  else if p =? 7 then set_sequencePosition 0 (clockAudioEnvelope s)
  else s.

(** ** Channel clocks *)

Definition computeAudioChannels (s : Core) : Core :=
  let e := audioClocksUntilNextEvent s in
  let s := set_channel1FrequencyCounter (channel1FrequencyCounter s - e) s in
  let s := set_channel2FrequencyCounter (channel2FrequencyCounter s - e) s in
  let s := set_channel3Counter (channel3Counter s - e) s in
  let s := set_channel4Counter (channel4Counter s - e) s in
  let s :=
    if channel1FrequencyCounter s =? 0 then
      let s := set_channel1FrequencyCounter (channel1FrequencyTracker s) s in
      let s := set_channel1DutyTracker (band (channel1DutyTracker s + 1) 0x7) s in
      channel1OutputLevelTrimaryCache s
    else s in
  let s :=
    if channel2FrequencyCounter s =? 0 then
      let s := set_channel2FrequencyCounter (channel2FrequencyTracker s) s in
      let s := set_channel2DutyTracker (band (channel2DutyTracker s + 1) 0x7) s in
      channel2OutputLevelTrimaryCache s
    else s in
  let s :=
    if channel3Counter s =? 0 then
      let s :=
        if channel3canPlay s
        then set_channel3lastSampleLookup (band (channel3lastSampleLookup s + 1) 0x1f) s
        else s in
      let s := set_channel3Counter (channel3FrequencyPeriod s) s in
      channel3UpdateCache s
    else s in
  let s :=
    if channel4Counter s =? 0 then
      let s := set_channel4lastSampleLookup
                 (band (channel4lastSampleLookup s + 1) (channel4BitRange s)) s in
      let s := set_channel4Counter (channel4FrequencyPeriod s) s in
      channel4UpdateCache s
    else s in
  let m := Z.min (Z.min (channel1FrequencyCounter s) (channel2FrequencyCounter s))
                 (Z.min (channel3Counter s) (channel4Counter s)) in
  set_audioClocksUntilNextEventCounter m (set_audioClocksUntilNextEvent m s).


(** ** Sample generation *)

(** Bound on the number of rounds any single [while] loop below may take;
    a loop that needs more yields [None]. *)
Variable rounds : nat.

Definition outputAudio (s : Core) : Core :=
  let s := set_audioOut
             (audioOut s ++ [StereoSample (ushr (downsampleInput s) 16)
                                          (band (downsampleInput s) 0xffff)]) s in
  let s := set_audioDestinationPosition (audioDestinationPosition s + 2) s in
  let s :=
    if audioDestinationPosition s =? numSamplesTotal s
    then set_audioDestinationPosition 0 (set_audioOut (audioOut s ++ [WriteAudio]) s)
    else s in
  set_downsampleInput 0 s.

(** The inner loop of [generateAudio]: [while (clockUpTo > 0) { ... }]. *)
Fixpoint resampleClocks (fuel : nat) (clockUpTo : Z) (s : Core) : option Core :=
  if 0 <? clockUpTo then
    match fuel with
    | O => None
    | S fuel' =>
        let multiplier :=
          Z.min clockUpTo (audioResamplerFirstPassFactor s - audioIndex s) in
        let clockUpTo := clockUpTo - multiplier in
        let s := set_audioIndex (audioIndex s + multiplier) s in
        let s := set_downsampleInput
                   (downsampleInput s + mixerOutputCache s * multiplier) s in
        let s :=
          if audioIndex s =? audioResamplerFirstPassFactor s
          then outputAudio (set_audioIndex 0 s)
          else s in
        resampleClocks fuel' clockUpTo s
    end
  else Some s.

(** The audible branch: [for (var clockUpTo = 0; numSamples > 0;) { ... }]. *)
Fixpoint generateAudioLoop (fuel : nat) (numSamples : Z) (s : Core) : option Core :=
  if 0 <? numSamples then
    match fuel with
    | O => None
    | S fuel' =>
        let clockUpTo :=
          Z.min (Z.min (audioClocksUntilNextEventCounter s) (sequencerClocks s))
                numSamples in
        let s := set_audioClocksUntilNextEventCounter
                   (audioClocksUntilNextEventCounter s - clockUpTo) s in
        let s := set_sequencerClocks (sequencerClocks s - clockUpTo) s in
        let numSamples := numSamples - clockUpTo in
        let? s := resampleClocks rounds clockUpTo s in
        let s :=
          if sequencerClocks s =? 0
          then set_sequencerClocks 0x2000 (audioComputeSequencer s)
          else s in
        let s :=
          if audioClocksUntilNextEventCounter s =? 0
          then computeAudioChannels s
          else s in
        generateAudioLoop fuel' numSamples s
    end
  else Some s.

(** The silent branch: [while (numSamples > 0) { ... }]. *)
Fixpoint silentAudioLoop (fuel : nat) (numSamples : Z) (s : Core) : option Core :=
  if 0 <? numSamples then
    match fuel with
    | O => None
    | S fuel' =>
        let multiplier :=
          Z.min numSamples (audioResamplerFirstPassFactor s - audioIndex s) in
        let numSamples := numSamples - multiplier in
        let s := set_audioIndex (audioIndex s + multiplier) s in
        let s :=
          if audioIndex s =? audioResamplerFirstPassFactor s
          then outputAudio (set_audioIndex 0 s)
          else s in
        silentAudioLoop fuel' numSamples s
    end
  else Some s.

Definition generateAudio (numSamples : Z) (s : Core) : option Core :=
  if soundMasterEnabled s && negb (CPUStopped s)
  then generateAudioLoop rounds numSamples s
  else silentAudioLoop rounds numSamples s.

(** [generateAudioFake]: the channel clocks advance, nothing is output. *)
Fixpoint generateAudioFakeLoop (fuel : nat) (numSamples : Z) (s : Core) : option Core :=
  if 0 <? numSamples then
    match fuel with
    | O => None
    | S fuel' =>
        let clockUpTo :=
          Z.min (Z.min (audioClocksUntilNextEventCounter s) (sequencerClocks s))
                numSamples in
        let s := set_audioClocksUntilNextEventCounter
                   (audioClocksUntilNextEventCounter s - clockUpTo) s in
        let s := set_sequencerClocks (sequencerClocks s - clockUpTo) s in
        let numSamples := numSamples - clockUpTo in
        let s :=
          if sequencerClocks s =? 0
          then set_sequencerClocks 0x2000 (audioComputeSequencer s)
          else s in
        let s :=
          if audioClocksUntilNextEventCounter s =? 0
          then computeAudioChannels s
          else s in
        generateAudioFakeLoop fuel' numSamples s
    end
  else Some s.

Definition generateAudioFake (numSamples : Z) (s : Core) : option Core :=
  if soundMasterEnabled s && negb (CPUStopped s)
  then generateAudioFakeLoop rounds numSamples s
  else Some s.

Definition audioJIT (s : Core) : option Core :=
  let? s := (if soundOn (settings E)
             then generateAudio (audioTicks s) s
             else generateAudioFake (audioTicks s) s) in
  Some (set_audioTicks 0 s).

Definition initializeAudioStartState (s : Core) : Core :=
  let s := set_channel1FrequencyTracker 0x2000 s in
  let s := set_channel1DutyTracker 0 s in
  let s := set_channel1CachedDuty (dutyLookup E 2) s in
  let s := set_channel1totalLength 0 s in
  let s := set_channel1envelopeVolume 0 s in
  let s := set_channel1envelopeType false s in
  let s := set_channel1envelopeSweeps 0 s in
  let s := set_channel1envelopeSweepsLast 0 s in
  let s := set_channel1consecutive true s in
  let s := set_channel1frequency 0 s in
  let s := set_channel1SweepFault false s in
  let s := set_channel1ShadowFrequency 0 s in
  let s := set_channel1timeSweep 1 s in
  let s := set_channel1lastTimeSweep 0 s in
  let s := set_channel1Swept false s in
  let s := set_channel1frequencySweepDivider 0 s in
  let s := set_channel1decreaseSweep false s in
  let s := set_channel2FrequencyTracker 0x2000 s in
  let s := set_channel2DutyTracker 0 s in
  let s := set_channel2CachedDuty (dutyLookup E 2) s in
  let s := set_channel2totalLength 0 s in
  let s := set_channel2envelopeVolume 0 s in
  let s := set_channel2envelopeType false s in
  let s := set_channel2envelopeSweeps 0 s in
  let s := set_channel2envelopeSweepsLast 0 s in
  let s := set_channel2consecutive true s in
  let s := set_channel2frequency 0 s in
  let s := set_channel3canPlay false s in
  let s := set_channel3totalLength 0 s in
  let s := set_channel3patternType 4 s in
  let s := set_channel3frequency 0 s in
  let s := set_channel3consecutive true s in
  let s := set_channel3Counter 0x800 s in
  let s := set_channel4FrequencyPeriod 8 s in
  let s := set_channel4totalLength 0 s in
  let s := set_channel4envelopeVolume 0 s in
  let s := set_channel4currentVolume 0 s in
  let s := set_channel4envelopeType false s in
  let s := set_channel4envelopeSweeps 0 s in
  let s := set_channel4envelopeSweepsLast 0 s in
  let s := set_channel4consecutive true s in
  let s := set_channel4BitRange 0x7fff s in
  let s := set_noiseSampleTable LSFR15 s in
  let s := set_channel4VolumeShifter 15 s in
  let s := set_channel1FrequencyCounter 0x2000 s in
  let s := set_channel2FrequencyCounter 0x2000 s in
  let s := set_channel3Counter 0x800 s in
  let s := set_channel3FrequencyPeriod 0x800 s in
  let s := set_channel3lastSampleLookup 0 s in
  let s := set_channel4lastSampleLookup 0 s in
  let s := set_VinLeftChannelMasterVolume 8 s in
  let s := set_VinRightChannelMasterVolume 8 s in
  let s := set_mixerOutputCache 0 s in
  let s := set_sequencerClocks 0x2000 s in
  let s := set_sequencePosition 0 s in
  let s := set_channel4FrequencyPeriod 8 s in
  let s := set_channel4Counter 8 s in
  let s := set_cachedChannel3Sample 0 s in
  let s := set_cachedChannel4Sample 0 s in
  let s := set_channel1Enabled false s in
  let s := set_channel2Enabled false s in
  let s := set_channel3Enabled false s in
  let s := set_channel4Enabled false s in
  let s := set_channel1canPlay false s in
  let s := set_channel2canPlay false s in
  let s := set_channel4canPlay false s in
  let s := set_audioClocksUntilNextEvent 1 s in
  let s := set_audioClocksUntilNextEventCounter 1 s in
  let s := channel1OutputLevelCache s in
  let s := channel2OutputLevelCache s in
  let s := channel3OutputLevelCache s in
  let s := channel4OutputLevelCache s in
  set_noiseSampleTable LSFR15 s.

(** [channel3WriteRAM(address, data)], [address] in 0..15. *)
Definition channel3WriteRAM (address data : Z) (s : Core) : option Core :=
  let? s := (if channel3canPlay s then audioJIT s else Some s) in
  let s := set_memory (wr8 (memory s) (bor 0xff30 address) data) s in
  let address := shl address 1 in
  let s := set_channel3PCM (wrI8 (channel3PCM s) address (shr data 4)) s in
  Some (set_channel3PCM (wrI8 (channel3PCM s) (bor address 1) (band data 0xf)) s).


(** ** Sound registers: the write handlers of [registerWriteJumpCompile]

    Every handler is a closure [(address, data) => { ... }]; the handlers of
    the registers ignore [address]. *)

Definition Writer : Type := Z -> Z -> Core -> option Core.

Definition cartIgnoreWrite : Writer := fun _ _ s => Some s.

(** NR10 (0xFF10) *)
Definition writeNR10 : Writer := fun _ data s =>
  if soundMasterEnabled s then
    let? s := audioJIT s in
    let s :=
      if channel1decreaseSweep s && (band data 0x08 =? 0) then
        if channel1Swept s then set_channel1SweepFault true s else s
      else s in
    let s := set_channel1lastTimeSweep (shr (band data 0x70) 4) s in
    let s := set_channel1frequencySweepDivider (band data 0x07) s in
    let s := set_channel1decreaseSweep (band data 0x08 =? 0x08) s in
    let s := set_memory (wr8 (memory s) 0xff10 data) s in
    Some (channel1EnableCheck s)
  else Some s.

(** NR11 (0xFF11) *)
Definition writeNR11 : Writer := fun _ data s =>
  if soundMasterEnabled s || negb (useGBCMode (cartridgeSlot s)) then
    let? ds := (if soundMasterEnabled s
                then (let? s := audioJIT s in Some (data, s))
                else Some (band data 0x3f, s)) in
    let data := fst ds in
    let s := snd ds in
    let s := set_channel1CachedDuty (dutyLookup E (shr data 6)) s in
    let s := set_channel1totalLength (0x40 - band data 0x3f) s in
    let s := set_memory (wr8 (memory s) 0xff11 data) s in
    Some (channel1EnableCheck s)
  else Some s.

(** The "zombie" volume adjustment shared by NR12, NR22 and NR42: [old] is
    the register byte before the write, [vol] the envelope volume. *)
Definition zombieVolume (old data vol : Z) : Z :=
  if band (bxor old data) 0x8 =? 0x8 then
    let vol :=
      if band old 0x8 =? 0 then
        if band old 0x7 =? 0x7 then vol + 2 else vol + 1
      else vol in
    band (16 - vol) 0xf
  else if band old 0xf =? 0x8 then band (1 + vol) 0xf
  else vol.

(** NR12 (0xFF12) *)
Definition writeNR12 : Writer := fun _ data s =>
  if soundMasterEnabled s then
    let? s := audioJIT s in
    let s :=
      if channel1Enabled s && (channel1envelopeSweeps s =? 0) then
        channel1OutputLevelCache
          (set_channel1envelopeVolume
             (zombieVolume (rd (memory s) 0xff12) data (channel1envelopeVolume s)) s)
      else s in
    let s := set_channel1envelopeType (band data 0x08 =? 0x08) s in
    let s := set_memory (wr8 (memory s) 0xff12 data) s in
    Some (channel1VolumeEnableCheck s)
  else Some s.

(** NR13 (0xFF13) *)
Definition writeNR13 : Writer := fun _ data s =>
  if soundMasterEnabled s then
    let? s := audioJIT s in
    let s := set_channel1frequency (bor (band (channel1frequency s) 0x700) data) s in
    Some (set_channel1FrequencyTracker (shl (0x800 - channel1frequency s) 2) s)
  else Some s.

(** NR14 (0xFF14) *)
Definition writeNR14 : Writer := fun _ data s =>
  if soundMasterEnabled s then
    let? s := audioJIT s in
    let s := set_channel1consecutive (band data 0x40 =? 0x0) s in
    let s := set_channel1frequency
               (bor (shl (band data 0x7) 8) (band (channel1frequency s) 0xff)) s in
    let s := set_channel1FrequencyTracker (shl (0x800 - channel1frequency s) 2) s in
    let s :=
      if 0x7f <? data then
        (* Reload 0xFF10: *)
        let s := set_channel1timeSweep (channel1lastTimeSweep s) s in
        let s := set_channel1Swept false s in
        (* Reload 0xFF12: *)
        let nr12 := rd (memory s) 0xff12 in
        let s := set_channel1envelopeVolume (shr nr12 4) s in
        let s := channel1OutputLevelCache s in
        let s := set_channel1envelopeSweepsLast (band nr12 0x7 - 1) s in
        let s := if channel1totalLength s =? 0
                 then set_channel1totalLength 0x40 s else s in
        let s :=
          if (0 <? channel1lastTimeSweep s) || (0 <? channel1frequencySweepDivider s)
          then memory_or 0xff26 0x1 s
          else memory_and 0xff26 0xfe s in
        let s := if band data 0x40 =? 0x40 then memory_or 0xff26 0x1 s else s in
        let s := set_channel1ShadowFrequency (channel1frequency s) s in
        (* Reset frequency overflow check + frequency sweep type check: *)
        let s := set_channel1SweepFault false s in
        (* Supposed to run immediately: *)
        channel1AudioSweepPerformDummy s
      else s in
    let s := channel1EnableCheck s in
    Some (set_memory (wr8 (memory s) 0xff14 data) s)
  else Some s.

(** NR21 (0xFF16) *)
Definition writeNR21 : Writer := fun _ data s =>
  if soundMasterEnabled s || negb (useGBCMode (cartridgeSlot s)) then
    let? ds := (if soundMasterEnabled s
                then (let? s := audioJIT s in Some (data, s))
                else Some (band data 0x3f, s)) in
    let data := fst ds in
    let s := snd ds in
    let s := set_channel2CachedDuty (dutyLookup E (shr data 6)) s in
    let s := set_channel2totalLength (0x40 - band data 0x3f) s in
    let s := set_memory (wr8 (memory s) 0xff16 data) s in
    Some (channel2EnableCheck s)
  else Some s.

(** NR22 (0xFF17) *)
Definition writeNR22 : Writer := fun _ data s =>
  if soundMasterEnabled s then
    let? s := audioJIT s in
    let s :=
      if channel2Enabled s && (channel2envelopeSweeps s =? 0) then
        channel2OutputLevelCache
          (set_channel2envelopeVolume
             (zombieVolume (rd (memory s) 0xff17) data (channel2envelopeVolume s)) s)
      else s in
    let s := set_channel2envelopeType (band data 0x08 =? 0x08) s in
    let s := set_memory (wr8 (memory s) 0xff17 data) s in
    Some (channel2VolumeEnableCheck s)
  else Some s.

(** NR23 (0xFF18) *)
Definition writeNR23 : Writer := fun _ data s =>
  if soundMasterEnabled s then
    let? s := audioJIT s in
    let s := set_channel2frequency (bor (band (channel2frequency s) 0x700) data) s in
    Some (set_channel2FrequencyTracker (shl (0x800 - channel2frequency s) 2) s)
  else Some s.

(** NR24 (0xFF19) *)
Definition writeNR24 : Writer := fun _ data s =>
  if soundMasterEnabled s then
    let? s := audioJIT s in
    let s :=
      if 0x7f <? data then
        (* Reload 0xFF17: *)
        let nr22 := rd (memory s) 0xff17 in
        let s := set_channel2envelopeVolume (shr nr22 4) s in
        let s := channel2OutputLevelCache s in
        let s := set_channel2envelopeSweepsLast (band nr22 0x7 - 1) s in
        let s := if channel2totalLength s =? 0
                 then set_channel2totalLength 0x40 s else s in
        if band data 0x40 =? 0x40 then memory_or 0xff26 0x2 s else s
      else s in
    let s := set_channel2consecutive (band data 0x40 =? 0x0) s in
    let s := set_channel2frequency
               (bor (shl (band data 0x7) 8) (band (channel2frequency s) 0xff)) s in
    let s := set_channel2FrequencyTracker (shl (0x800 - channel2frequency s) 2) s in
    let s := set_memory (wr8 (memory s) 0xff19 data) s in
    Some (channel2EnableCheck s)
  else Some s.

(** NR30 (0xFF1A) *)
Definition writeNR30 : Writer := fun _ data s =>
  if soundMasterEnabled s then
    let? s := audioJIT s in
    let s :=
      if negb (channel3canPlay s) && (0x80 <=? data)
      then channel3UpdateCache (set_channel3lastSampleLookup 0 s)
      else s in
    let s := set_channel3canPlay (0x7f <? data) s in
    let s :=
      if channel3canPlay s && (0x7f <? rd (memory s) 0xff1a)
         && negb (channel3consecutive s)
      then memory_or 0xff26 0x4 s
      else s in
    Some (set_memory (wr8 (memory s) 0xff1a data) s)
  else Some s.

(** NR31 (0xFF1B) *)
Definition writeNR31 : Writer := fun _ data s =>
  if soundMasterEnabled s || negb (useGBCMode (cartridgeSlot s)) then
    let? s := (if soundMasterEnabled s then audioJIT s else Some s) in
    let s := set_channel3totalLength (0x100 - data) s in
    Some (channel3EnableCheck s)
  else Some s.

(** NR32 (0xFF1C) *)
Definition writeNR32 : Writer := fun _ data s =>
  if soundMasterEnabled s then
    let? s := audioJIT s in
    let data := band data 0x60 in
    let s := set_memory (wr8 (memory s) 0xff1c data) s in
    Some (set_channel3patternType (if data =? 0 then 4 else shr data 5 - 1) s)
  else Some s.

(** NR33 (0xFF1D) *)
Definition writeNR33 : Writer := fun _ data s =>
  if soundMasterEnabled s then
    let? s := audioJIT s in
    let s := set_channel3frequency (bor (band (channel3frequency s) 0x700) data) s in
    Some (set_channel3FrequencyPeriod (shl (0x800 - channel3frequency s) 1) s)
  else Some s.

(** NR34 (0xFF1E) *)
Definition writeNR34 : Writer := fun _ data s =>
  if soundMasterEnabled s then
    let? s := audioJIT s in
    let s :=
      if 0x7f <? data then
        let s := if channel3totalLength s =? 0
                 then set_channel3totalLength 0x100 s else s in
        let s := set_channel3lastSampleLookup 0 s in
        if band data 0x40 =? 0x40 then memory_or 0xff26 0x4 s else s
      else s in
    let s := set_channel3consecutive (band data 0x40 =? 0x0) s in
    let s := set_channel3frequency
               (bor (shl (band data 0x7) 8) (band (channel3frequency s) 0xff)) s in
    let s := set_channel3FrequencyPeriod (shl (0x800 - channel3frequency s) 1) s in
    let s := set_memory (wr8 (memory s) 0xff1e data) s in
    Some (channel3EnableCheck s)
  else Some s.

(** NR41 (0xFF20) *)
Definition writeNR41 : Writer := fun _ data s =>
  if soundMasterEnabled s || negb (useGBCMode (cartridgeSlot s)) then
    let? s := (if soundMasterEnabled s then audioJIT s else Some s) in
    let s := set_channel4totalLength (0x40 - band data 0x3f) s in
    Some (channel4EnableCheck s)
  else Some s.

(** NR42 (0xFF21) *)
Definition writeNR42 : Writer := fun _ data s =>
  if soundMasterEnabled s then
    let? s := audioJIT s in
    let s :=
      if channel4Enabled s && (channel4envelopeSweeps s =? 0) then
        let s := set_channel4envelopeVolume
                   (zombieVolume (rd (memory s) 0xff21) data (channel4envelopeVolume s)) s in
        set_channel4currentVolume
          (shl (channel4envelopeVolume s) (channel4VolumeShifter s)) s
      else s in
    let s := set_channel4envelopeType (band data 0x08 =? 0x08) s in
    let s := set_memory (wr8 (memory s) 0xff21 data) s in
    let s := channel4UpdateCache s in
    Some (channel4VolumeEnableCheck s)
  else Some s.

(** NR43 (0xFF22) *)
Definition writeNR43 : Writer := fun _ data s =>
  if soundMasterEnabled s then
    let? s := audioJIT s in
    let s := set_channel4FrequencyPeriod
               (shl (Z.max (shl (band data 0x7) 4) 8) (shr data 4)) s in
    let bitWidth := band data 0x8 in
    let s :=
      if ((bitWidth =? 0x8) && (channel4BitRange s =? 0x7fff))
         || ((bitWidth =? 0) && (channel4BitRange s =? 0x7f))
      then
        let s := set_channel4lastSampleLookup 0 s in
        let s := set_channel4BitRange (if bitWidth =? 0x8 then 0x7f else 0x7fff) s in
        let s := set_channel4VolumeShifter (if bitWidth =? 0x8 then 7 else 15) s in
        let s := set_channel4currentVolume
                   (shl (channel4envelopeVolume s) (channel4VolumeShifter s)) s in
        set_noiseSampleTable (if bitWidth =? 0x8 then LSFR7 else LSFR15) s
      else s in
    let s := set_memory (wr8 (memory s) 0xff22 data) s in
    Some (channel4UpdateCache s)
  else Some s.

(** NR44 (0xFF23) *)
Definition writeNR44 : Writer := fun _ data s =>
  if soundMasterEnabled s then
    let? s := audioJIT s in
    let s := set_memory (wr8 (memory s) 0xff23 data) s in
    let s := set_channel4consecutive (band data 0x40 =? 0x0) s in
    let s :=
      if 0x7f <? data then
        let nr42 := rd (memory s) 0xff21 in
        let s := set_channel4envelopeVolume (shr nr42 4) s in
        let s := set_channel4currentVolume
                   (shl (channel4envelopeVolume s) (channel4VolumeShifter s)) s in
        let s := set_channel4envelopeSweepsLast (band nr42 0x7 - 1) s in
        let s := if channel4totalLength s =? 0
                 then set_channel4totalLength 0x40 s else s in
        if band data 0x40 =? 0x40 then memory_or 0xff26 0x8 s else s
      else s in
    Some (channel4EnableCheck s)
  else Some s.

(** NR50 (0xFF24) *)
Definition writeNR50 : Writer := fun _ data s =>
  if soundMasterEnabled s && negb (rd (memory s) 0xff24 =? data) then
    let? s := audioJIT s in
    let s := set_memory (wr8 (memory s) 0xff24 data) s in
    let s := set_VinLeftChannelMasterVolume (band (shr data 4) 0x07 + 1) s in
    let s := set_VinRightChannelMasterVolume (band data 0x07 + 1) s in
    Some (mixerOutputLevelCache s)
  else Some s.

(** NR51 (0xFF25) *)
Definition writeNR51 : Writer := fun _ data s =>
  if soundMasterEnabled s && negb (rd (memory s) 0xff25 =? data) then
    let? s := audioJIT s in
    let s := set_memory (wr8 (memory s) 0xff25 data) s in
    let s := set_rightChannel1 (band data 0x01 =? 0x01) s in
    let s := set_rightChannel2 (band data 0x02 =? 0x02) s in
    let s := set_rightChannel3 (band data 0x04 =? 0x04) s in
    let s := set_rightChannel4 (band data 0x08 =? 0x08) s in
    let s := set_leftChannel1 (band data 0x10 =? 0x10) s in
    let s := set_leftChannel2 (band data 0x20 =? 0x20) s in
    let s := set_leftChannel3 (band data 0x40 =? 0x40) s in
    let s := set_leftChannel4 (0x7f <? data) s in
    let s := channel1OutputLevelCache s in
    let s := channel2OutputLevelCache s in
    let s := channel3OutputLevelCache s in
    Some (channel4OutputLevelCache s)
  else Some s.

(** The slots 0xFF10..0xFF25 of [memoryWriter] (and, with the low byte as
    index, of [memoryHighWriter]). *)
Definition soundRegisterWriter (index : Z) : option Writer :=
  if index =? 0xff10 then Some writeNR10
  else if index =? 0xff11 then Some writeNR11
  else if index =? 0xff12 then Some writeNR12
  else if index =? 0xff13 then Some writeNR13
  else if index =? 0xff14 then Some writeNR14
  else if index =? 0xff15 then Some cartIgnoreWrite
  else if index =? 0xff16 then Some writeNR21
  else if index =? 0xff17 then Some writeNR22
  else if index =? 0xff18 then Some writeNR23
  else if index =? 0xff19 then Some writeNR24
  else if index =? 0xff1a then Some writeNR30
  else if index =? 0xff1b then Some writeNR31
  else if index =? 0xff1c then Some writeNR32
  else if index =? 0xff1d then Some writeNR33
  else if index =? 0xff1e then Some writeNR34
  else if index =? 0xff1f then Some cartIgnoreWrite
  else if index =? 0xff20 then Some writeNR41
  else if index =? 0xff21 then Some writeNR42
  else if index =? 0xff22 then Some writeNR43
  else if index =? 0xff23 then Some writeNR44
  else if index =? 0xff24 then Some writeNR50
  else if index =? 0xff25 then Some writeNR51
  else None.

(** [for (var index = 0xff10; index < 0xff26; index++)
       this.memoryWriter[index].apply(this, [index, 0]);] *)
Fixpoint zeroSoundRegisters (n : nat) (index : Z) (s : Core) : option Core :=
  match n with
  | O => Some s
  | S n' =>
      let? w := soundRegisterWriter index in
      let? s := w index 0 s in
      zeroSoundRegisters n' (index + 1) s
  end.

(** NR52 (0xFF26) *)
Definition writeNR52 : Writer := fun _ data s =>
  let? s := audioJIT s in
  if negb (soundMasterEnabled s) && (0x7f <? data) then
    let s := set_memory (wr8 (memory s) 0xff26 0x80) s in
    let s := set_soundMasterEnabled true s in
    Some (initializeAudioStartState s)
  else if soundMasterEnabled s && (data <? 0x80) then
    let s := set_memory (wr8 (memory s) 0xff26 0) s in
    let s := set_soundMasterEnabled false s in
    (* GBDev wiki says the registers are written with zeros on power off: *)
    zeroSoundRegisters 22 0xff10 s
  else Some s.


(** ** Interrupt line, timer divider *)

Definition checkIRQMatching (s : Core) : Core :=
  if IME s
  then set_IRQLineMatched
         (band (band (interruptsEnabled s) (interruptsRequested s)) 0x1f) s
  else s.

(** The divider line of [updateCore] and of the interpreter loop:
    [this.DIVTicks += this.CPUTicks]. *)
Definition clockDIV (CPUTicks : Z) (s : Core) : Core :=
  set_DIVTicks (DIVTicks s + CPUTicks) s.

(** DIV (0xFF04), write handler. *)
Definition writeDIV : Writer := fun _ data s =>
  let s := set_DIVTicks (band (DIVTicks s) 0xff) s in  (* Update DIV for realignment. *)
  Some (set_memory (wr8 (memory s) 0xff04 0) s).

(** ** Joypad *)

Definition set_value (v : Z) (j : Joypad) : Joypad :=
  {| initialValue := initialValue j; value := v |}.

(** The nibble the joypad register shows for selection bits [sel]. *)
Definition joypadLines (sel value : Z) : Z :=
  band (if band sel 0x20 =? 0 then shr value 4 else 0xf)
       (if band sel 0x10 =? 0 then band value 0xf else 0xf).

(** [Joypad.writeToMemory()] *)
Definition writeToMemory (s : Core) : Core :=
  let m := rd (memory s) 0xff00 in
  let s := set_memory
             (wr8 (memory s) 0xff00 (band m 0x30 + joypadLines m (value (joypad s)))) s in
  set_CPUStopped false s.

(** [Joypad.down(key)] *)
Definition down (key : Z) (s : Core) : Core :=
  let s := set_joypad
             (set_value (band (value (joypad s)) (bxor 0xff (shl 1 key))) (joypad s)) s in
  let s :=
    if match cartridge s with
       | Some c => negb (useGBCMode c)
                   && (negb (usedBootROM s) || negb (usedGBCBootROM s))
       | None => false
       end
    then
      let s := set_interruptsRequested (bor (interruptsRequested s) 0x10) s in
      let s := set_remainingClocks 0 s in
      checkIRQMatching s
    else s in
  writeToMemory s.

(** [Joypad.up(key)] *)
Definition up (key : Z) (s : Core) : Core :=
  let s := set_joypad
             (set_value (bor (value (joypad s)) (shl 1 key)) (joypad s)) s in
  writeToMemory s.

(** [GameBoy.buttons] and [getButtonIndex] ([src/gameboy.js]): the index of
    the action in the list, [-1] when it is not there. *)
Definition buttons : list string :=
  ["right"; "left"; "up"; "down"; "a"; "b"; "select"; "start"]%string.

Fixpoint indexOf (l : list string) (x : string) (i : Z) : Z :=
  match l with
  | [] => -1
  | y :: l' => if bool_decide (y = x) then i else indexOf l' x (i + 1)
  end.

Definition getButtonIndex (action : string) : Z := indexOf buttons action 0.
Definition actionDown (action : string) (s : Core) : Core := down (getButtonIndex action) s.
Definition actionUp (action : string) (s : Core) : Core := up (getButtonIndex action) s.

(** JOYPAD (0xFF00), write handler. *)
Definition writeJoypad : Writer := fun _ data s =>
  Some (set_memory
          (wr8 (memory s) 0xff00
               (bor (band data 0x30) (joypadLines data (value (joypad s))))) s).

(** ** Video memory and object memory *)

Definition set_cpu_totalLinesPassed (v : Z) (s : Core) : Core :=
  set_cpu (set_totalLinesPassed v (cpu s)) s.

Definition gfxRequest (r : GfxRequest) (s : Core) : Core :=
  set_gfxRequests (gfxRequests s ++ [r]) s.

Definition graphicsJIT (s : Core) : Core :=
  if LCDisOn s
  then gfxRequest ScanlineGroupJIT (set_cpu_totalLinesPassed 0 s)
  else s.

Definition chrBank (b : ChrBank) (s : Core) : gmap Z Z :=
  match b with ChrBank1 => BGCHRBank1 s | ChrBank2 => BGCHRBank2 s end.

Definition set_chrBank (b : ChrBank) (m : gmap Z Z) (s : Core) : Core :=
  match b with ChrBank1 => set_BGCHRBank1 m s | ChrBank2 => set_BGCHRBank2 m s end.

Definition memoryWriteOAMRAM : Writer := fun address data s =>
  if modeSTAT s <? 2 then
    (* OAM RAM cannot be written to in mode 2 & 3 *)
    if negb (rd (memory s) address =? data) then
      let s := graphicsJIT s in
      Some (set_memory (wr8 (memory s) address data) s)
    else Some s
  else Some s.

Definition VRAMGBDATAWrite : Writer := fun address data s =>
  if modeSTAT s <? 3 then
    (* VRAM cannot be written to during mode 3 *)
    if negb (rd (memory s) address =? data) then
      let s := graphicsJIT s in
      let s := set_memory (wr8 (memory s) address data) s in
      Some (gfxRequest (TileLine GBOAMTileLine address) s)
    else Some s
  else Some s.

Definition VRAMGBDATAUpperWrite : Writer := fun address data s =>
  if modeSTAT s <? 3 then
    if negb (rd (memory s) address =? data) then
      let s := graphicsJIT s in
      let s := set_memory (wr8 (memory s) address data) s in
      Some (gfxRequest (TileLine GBTileLine address) s)
    else Some s
  else Some s.

Definition VRAMGBCDATAWrite : Writer := fun address data s =>
  if modeSTAT s <? 3 then
    if currVRAMBank s =? 0 then
      if negb (rd (memory s) address =? data) then
        let s := graphicsJIT s in
        let s := set_memory (wr8 (memory s) address data) s in
        Some (gfxRequest (TileLine GBCTileLineBank1 address) s)
      else Some s
    else
      let address := band address 0x1fff in
      if negb (rd (VRAM s) address =? data) then
        let s := graphicsJIT s in
        let s := set_VRAM (wr8 (VRAM s) address data) s in
        Some (gfxRequest (TileLine GBCTileLineBank2 address) s)
      else Some s
  else Some s.

Definition VRAMGBCHRMAPWrite : Writer := fun address data s =>
  if modeSTAT s <? 3 then
    let address := band address 0x7ff in
    if negb (rd (BGCHRBank1 s) address =? data) then
      let s := graphicsJIT s in
      Some (set_BGCHRBank1 (wr8 (BGCHRBank1 s) address data) s)
    else Some s
  else Some s.

Definition VRAMGBCCHRMAPWrite : Writer := fun address data s =>
  if modeSTAT s <? 3 then
    let address := band address 0x7ff in
    if negb (rd (chrBank (BGCHRCurrentBank s) s) address =? data) then
      let s := graphicsJIT s in
      Some (set_chrBank (BGCHRCurrentBank s)
              (wr8 (chrBank (BGCHRCurrentBank s) s) address data) s)
    else Some s
  else Some s.

(** ** Read handlers of [memoryReadJumpCompile]

    A handler returns the value read and the state after the read (the
    readers of DIV and NR52 update the state). *)

Definition Reader : Type := Z -> Core -> option (Z * Core).

Definition memoryReadNormal : Reader := fun address s => Some (rd (memory s) address, s).
Definition memoryHighReadNormal : Reader := fun address s =>
  Some (rd (memory s) (bor 0xff00 address), s).
Definition memoryReadECHONormal : Reader := fun address s =>
  Some (rd (memory s) (address - 0x2000), s).
Definition memoryReadBAD : Reader := fun _ s => Some (0xff, s).

Definition memoryReadOAM : Reader := fun address s =>
  Some (if 1 <? modeSTAT s then 0xff else rd (memory s) address, s).

Definition VRAMDATAReadCGBCPU : Reader := fun address s =>
  Some (if 2 <? modeSTAT s then 0xff
        else if currVRAMBank s =? 0 then rd (memory s) address
        else rd (VRAM s) (band address 0x1fff), s).

Definition VRAMDATAReadDMGCPU : Reader := fun address s =>
  Some (if 2 <? modeSTAT s then 0xff else rd (memory s) address, s).

Definition VRAMCHRReadCGBCPU : Reader := fun address s =>
  Some (if 2 <? modeSTAT s then 0xff
        else rd (chrBank (BGCHRCurrentBank s) s) (band address 0x7ff), s).

Definition VRAMCHRReadDMGCPU : Reader := fun address s =>
  Some (if 2 <? modeSTAT s then 0xff else rd (BGCHRBank1 s) (band address 0x7ff), s).

(** A register whose unused bits read as ones: [mask | this.memory[reg]]. *)
Definition readMasked (mask reg : Z) : Reader := fun _ s =>
  Some (bor mask (rd (memory s) reg), s).

(** SB (0xFF01): the data register reads 0xFF while a transfer is active. *)
Definition readSB : Reader := fun _ s =>
  Some (if rd (memory s) 0xff02 <? 0x80 then rd (memory s) 0xff01 else 0xff, s).

(** SC (0xFF02): one closure for Game Boy Color mode and one for Game Boy
    mode; the tables are compiled for the cartridge in the slot. *)
Definition readSC : Reader := fun _ s =>
  if useGBCMode (cartridgeSlot s)
  then Some (bor (if serialTimer s <=? 0 then 0x7c else 0xfc) (rd (memory s) 0xff02), s)
  else Some (bor (if serialTimer s <=? 0 then 0x7e else 0xfe) (rd (memory s) 0xff02), s).

(** IF (0xFF0F) *)
Definition readIF : Reader := fun _ s => Some (bor 0xe0 (interruptsRequested s), s).

(** DIV (0xFF04) *)
Definition readDIV : Reader := fun _ s =>
  let s := set_memory
             (wr8 (memory s) 0xff04
                  (band (rd (memory s) 0xff04 + shr (DIVTicks s) 8) 0xff)) s in
  let s := set_DIVTicks (band (DIVTicks s) 0xff) s in
  Some (rd (memory s) 0xff04, s).

(** NR52 (0xFF26) *)
Definition readNR52 : Reader := fun _ s =>
  let? s := audioJIT s in
  Some (bor 0x70 (rd (memory s) 0xff26), s).

(** Wave RAM (0xFF30..0xFF3F), the [memoryReader] closure. *)
Definition readWaveRAM : Reader := fun address s =>
  Some (if channel3canPlay s
        then rd (memory s) (bor 0xff00 (shr (channel3lastSampleLookup s) 1))
        else rd (memory s) address, s).

(** Wave RAM, the [memoryHighReader] closure ([address] is the low byte). *)
Definition readWaveRAMHigh : Reader := fun address s =>
  Some (if channel3canPlay s
        then rd (memory s) (bor 0xff00 (shr (channel3lastSampleLookup s) 1))
        else rd (memory s) (bor 0xff00 address), s).

(** The slots 0xFF00..0xFF3F of [memoryReader]: the joypad, serial data
    and control, the divider and the timer registers, the interrupt flags,
    the sound registers and wave RAM.  Every slot of that range has its
    closure; [None] stands for a slot above it that is not embedded here. *)
Definition ioReader (index : Z) : option Reader :=
  if index =? 0xff00 then Some (readMasked 0xc0 0xff00)
  else if index =? 0xff01 then Some readSB
  else if index =? 0xff02 then Some readSC
  else if index =? 0xff03 then Some memoryReadBAD
  else if index =? 0xff04 then Some readDIV
  else if (index =? 0xff05) || (index =? 0xff06) then Some memoryReadNormal
  else if index =? 0xff07 then Some (readMasked 0xf8 0xff07)
  else if (0xff08 <=? index) && (index <=? 0xff0e) then Some memoryReadBAD
  else if index =? 0xff0f then Some readIF
  else if index =? 0xff10 then Some (readMasked 0x80 0xff10)
  else if index =? 0xff11 then Some (readMasked 0x3f 0xff11)
  else if index =? 0xff12 then Some memoryReadNormal
  else if index =? 0xff13 then Some memoryReadBAD
  else if index =? 0xff14 then Some (readMasked 0xbf 0xff14)
  else if index =? 0xff15 then Some memoryReadBAD
  else if index =? 0xff16 then Some (readMasked 0x3f 0xff16)
  else if index =? 0xff17 then Some memoryReadNormal
  else if index =? 0xff18 then Some memoryReadBAD
  else if index =? 0xff19 then Some (readMasked 0xbf 0xff19)
  else if index =? 0xff1a then Some (readMasked 0x7f 0xff1a)
  else if index =? 0xff1b then Some memoryReadBAD
  else if index =? 0xff1c then Some (readMasked 0x9f 0xff1c)
  else if index =? 0xff1d then Some memoryReadBAD
  else if index =? 0xff1e then Some (readMasked 0xbf 0xff1e)
  else if (index =? 0xff1f) || (index =? 0xff20) then Some memoryReadBAD
  else if (index =? 0xff21) || (index =? 0xff22) then Some memoryReadNormal
  else if index =? 0xff23 then Some (readMasked 0xbf 0xff23)
  else if (index =? 0xff24) || (index =? 0xff25) then Some memoryReadNormal
  else if index =? 0xff26 then Some readNR52
  else if (0xff27 <=? index) && (index <=? 0xff2f) then Some memoryReadBAD
  else if (0xff30 <=? index) && (index <=? 0xff3f) then Some readWaveRAM
  else None.

(** [memoryReader[index]] as compiled for cartridge [c]. *)
Definition memoryReader (c : Cartridge) (index : Z) : option Reader :=
  if index <? 0 then None
  else if index <? 0x4000 then Some memoryReadNormal
  else if index <? 0x8000 then None (* memoryReadROM: banked by the controller *)
  else if index <? 0x9800 then
    Some (if useGBCMode c then VRAMDATAReadCGBCPU else VRAMDATAReadDMGCPU)
  else if index <? 0xa000 then
    Some (if useGBCMode c then VRAMCHRReadCGBCPU else VRAMCHRReadDMGCPU)
  else if index <? 0xc000 then
    if negb (ramSize c =? 0) then None (* cartridge RAM: by the controller *)
    else Some memoryReadBAD
  else if index <? 0xe000 then
    if negb (useGBCMode c) || (index <? 0xd000) then Some memoryReadNormal
    else None (* memoryReadGBCMemory: banked work RAM *)
  else if index <? 0xfe00 then
    if negb (useGBCMode c) || (index <? 0xf000) then Some memoryReadECHONormal
    else None (* memoryReadECHOGBCMemory *)
  else if index <? 0xfea0 then Some memoryReadOAM
  else if useGBCMode c && (index <? 0xff00) then Some memoryReadNormal
  else if (0xff00 <=? index) && (index <=? 0xffff) then ioReader index
  else None.

(** [memoryHighReader[index]], [index] the low byte of 0xFFxx; the closures
    are those of [memoryReader] except where the source builds two. *)
Definition memoryHighReader (index : Z) : option Reader :=
  if (0x30 <=? index) && (index <=? 0x3f) then Some readWaveRAMHigh
  else if (index =? 0x05) || (index =? 0x06) || (index =? 0x12) || (index =? 0x17)
          || (index =? 0x21) || (index =? 0x22) || (index =? 0x24) || (index =? 0x25)
  then Some memoryHighReadNormal
  else if (0 <=? index) && (index <=? 0x2f) then ioReader (bor 0xff00 index)
  else None.

(** [memoryRead(address)] and [memoryHighRead(address)]. *)
Definition memoryRead (address : Z) (s : Core) : option (Z * Core) :=
  let? r := memoryReader (cartridgeSlot s) address in r address s.

Definition memoryHighRead (address : Z) (s : Core) : option (Z * Core) :=
  let? r := memoryHighReader address in r address s.

(** The wave RAM slot 0xFF30 + n of the write tables calls
    [channel3WriteRAM(n, data)]. *)
Definition writeWaveRAM (n : Z) : Writer := fun _ data s => channel3WriteRAM n data s.

(** [memoryWriter[index]] as compiled for cartridge [c]: video memory,
    object memory, the joypad, the divider, the sound registers and wave
    RAM.  [None] stands for a slot that is not embedded here. *)
Definition memoryWriter (c : Cartridge) (index : Z) : option Writer :=
  if index <? 0x8000 then None (* cartridge controller *)
  else if index <? 0x9000 then
    Some (if useGBCMode c then VRAMGBCDATAWrite else VRAMGBDATAWrite)
  else if index <? 0x9800 then
    Some (if useGBCMode c then VRAMGBCDATAWrite else VRAMGBDATAUpperWrite)
  else if index <? 0xa000 then
    Some (if useGBCMode c then VRAMGBCCHRMAPWrite else VRAMGBCHRMAPWrite)
  else if index <? 0xfe00 then None (* cartridge RAM, work RAM and its echo *)
  else if index <=? 0xfea0 then Some memoryWriteOAMRAM
  else if index <? 0xff00 then None
  else if index =? 0xff00 then Some writeJoypad
  else if index =? 0xff03 then Some cartIgnoreWrite
  else if index =? 0xff04 then Some writeDIV
  else if (0xff10 <=? index) && (index <=? 0xff25) then soundRegisterWriter index
  else if index =? 0xff26 then Some writeNR52
  else if (0xff27 <=? index) && (index <=? 0xff2f) then Some cartIgnoreWrite
  else if (0xff30 <=? index) && (index <=? 0xff3f) then Some (writeWaveRAM (index - 0xff30))
  else None.

(** [memoryWrite(address, data)] *)
Definition memoryWrite (address data : Z) (s : Core) : option Core :=
  let? w := memoryWriter (cartridgeSlot s) address in w address data s.

(** ** The iteration loop *)

Definition set_cpu_cyclesTotal (v : Z) (s : Core) : Core :=
  set_cpu (set_cyclesTotal v (cpu s)) s.

Definition recalculateIterationClockLimitForAudio (audioClocking : Z) (s : Core) : Core :=
  set_cpu_cyclesTotal
    (cyclesTotal (cpu s)
     + Z.min (shl (shr audioClocking 2) 2) (shl (cyclesTotalBase (cpu s)) 1)) s.

(** [audioUnderrunAdjustment()]; [remaining] is what the host's
    [audioServer.remainingBuffer()] returns, [None] when not a number. *)
Definition audioUnderrunAdjustment (remaining : option Z) (s : Core) : Core :=
  if negb (soundOn (settings E)) then s
  else
    match remaining with
    | Some r =>
        let underrunAmount := bufferContainAmount s - Z.max r 0 in
        if 0 <? underrunAmount
        then recalculateIterationClockLimitForAudio
               (shr underrunAmount 1 * audioResamplerFirstPassFactor s) s
        else s
    | None => s
    end.

(** The branch of [run()] taken when the processor is not stopped executes
    the instruction interpreter, whose tables ([main-instructions.js],
    [tick-table.js]) are outside the sources at hand. *)
Variable runInterpreter : Core -> option (Result Core).

(** [run()].  In the branch of a faulted core the message is logged and
    [pause()] is called; no [pause] is defined, so the call raises a
    ReferenceError. *)
Definition run (remaining : option Z) (s : Core) : option (Result Core) :=
  if band (stopEmulator s) 2 =? 0 then
    if band (stopEmulator s) 1 =? 1 then
      if negb (CPUStopped s) then runInterpreter s
      else
        let s := audioUnderrunAdjustment remaining s in
        let s := set_audioTicks (audioTicks s + cyclesTotal (cpu s)) s in
        let? s := audioJIT s in
        Some (Ok (set_stopEmulator (bor (stopEmulator s) 1) s)) (* End current loop. *)
    else
      (* We can only get here if there was an internal error, but the loop
         was restarted. *)
      Some (Throw "ReferenceError: pause is not defined" s)
  else Some (Ok s).

End AudioUnit.


(** * More of the memory map

    The slots of the read and write tables beyond those above: work RAM
    and its echo, the region behind object memory, high RAM, and the
    write handlers of the serial data register, the timer counter and
    modulo and the interrupt registers.  The tables below take a slot from the tables above where
    those have it. *)

Definition memoryWriteNormal : Writer := fun address data s =>
  Some (set_memory (wr8 (memory s) address data) s).

Definition memoryHighWriteNormal : Writer := fun address data s =>
  Some (set_memory (wr8 (memory s) (bor 0xff00 address) data) s).

Definition memoryWriteECHONormal : Writer := fun address data s =>
  Some (set_memory (wr8 (memory s) (address - 0x2000) data) s).

(** SB (0xFF01): the data register cannot be written while a transfer is
    active. *)
Definition writeSB : Writer := fun _ data s =>
  if rd (memory s) 0xff02 <? 0x80
  then Some (set_memory (wr8 (memory s) 0xff01 data) s)
  else Some s.

(** TIMA (0xFF05) and TMA (0xFF06) *)
Definition writeTIMA : Writer := fun _ data s =>
  Some (set_memory (wr8 (memory s) 0xff05 data) s).

Definition writeTMA : Writer := fun _ data s =>
  Some (set_memory (wr8 (memory s) 0xff06 data) s).

(** IF (0xFF0F) and IE (0xFFFF) *)
Definition writeIF : Writer := fun _ data s =>
  Some (checkIRQMatching (set_interruptsRequested data s)).

Definition writeIE : Writer := fun _ data s =>
  Some (checkIRQMatching (set_interruptsEnabled data s)).

Definition readIE : Reader := fun _ s => Some (interruptsEnabled s, s).

(** [memoryReader[index]] with the further slots. *)
Definition memoryReaderMore (E : Env) (rounds : nat) (c : Cartridge) (index : Z)
  : option Reader :=
  match memoryReader E rounds c index with
  | Some r => Some r
  | None =>
      if (0xfea0 <=? index) && (index <? 0xff00) then
        if useGBCMode c then Some memoryReadNormal else Some memoryReadBAD
      else if (0xff80 <=? index) && (index <=? 0xfffe) then Some memoryReadNormal
      else if index =? 0xffff then Some readIE
      else None
  end.

(** [memoryWriter[index]] with the further slots. *)
Definition memoryWriterMore (E : Env) (rounds : nat) (c : Cartridge) (index : Z)
  : option Writer :=
  match memoryWriter E rounds c index with
  | Some w => Some w
  | None =>
      if (0xc000 <=? index) && (index <? 0xe000) then
        if useGBCMode c && (0xd000 <=? index)
        then None (* memoryWriteGBCRAM: banked work RAM *)
        else Some memoryWriteNormal
      else if (0xe000 <=? index) && (index <? 0xfe00) then
        if useGBCMode c && (0xf000 <=? index)
        then None (* memoryWriteECHOGBCRAM *)
        else Some memoryWriteECHONormal
      else if (0xfea0 <? index) && (index <? 0xff00) then
        (* Only GBC has access to this RAM. *)
        if useGBCMode c then Some memoryWriteNormal else Some cartIgnoreWrite
      else if index =? 0xff01 then Some writeSB
      else if index =? 0xff05 then Some writeTIMA
      else if index =? 0xff06 then Some writeTMA
      else if (0xff08 <=? index) && (index <=? 0xff0e) then Some cartIgnoreWrite
      else if index =? 0xff0f then Some writeIF
      else if (0xff80 <=? index) && (index <=? 0xfffe) then Some memoryWriteNormal
      else if index =? 0xffff then Some writeIE
      else None
  end.

(** [memoryHighWriter[index]], [index] the low byte, for high RAM. *)
Definition memoryHighWriterMore (index : Z) : option Writer :=
  if (0x80 <=? index) && (index <=? 0xfe) then Some memoryHighWriteNormal
  else if index =? 0xff then Some writeIE
  else None.

Definition memoryHighReaderMore (E : Env) (rounds : nat) (index : Z) : option Reader :=
  match memoryHighReader E rounds index with
  | Some r => Some r
  | None =>
      if (0x80 <=? index) && (index <=? 0xfe) then Some memoryHighReadNormal
      else if index =? 0xff then Some readIE
      else None
  end.

Definition memoryReadMore (E : Env) (rounds : nat) (address : Z) (s : Core)
  : option (Z * Core) :=
  let? r := memoryReaderMore E rounds (cartridgeSlot s) address in r address s.

Definition memoryWriteMore (E : Env) (rounds : nat) (address data : Z) (s : Core)
  : option Core :=
  let? w := memoryWriterMore E rounds (cartridgeSlot s) address in w address data s.

Definition memoryHighReadMore (E : Env) (rounds : nat) (address : Z) (s : Core)
  : option (Z * Core) :=
  let? r := memoryHighReaderMore E rounds address in r address s.

Definition memoryHighWriteMore (address data : Z) (s : Core) : option Core :=
  let? w := memoryHighWriterMore address in w address data s.


(** ** Battery-backed RAM ([src/core/cartridge/index.js])

    [saveSRAMState()] of the cartridge: the RAM image handed to the host
    for backup, [None] for the [return] without value. *)
Definition saveSRAMState (c : Cartridge) : option (list Z) :=
  if negb (hasBattery c) || (Z.of_nat (length (MBCRam c)) =? 0)
  then None (* No battery backup... *)
  else Some (MBCRam c).

(** ** The CPU timers ([src/core/index.js])

    The fields [timerTicks], [TIMAEnabled] and [TACClocker] of the core,
    kept beside the rest of its state. *)
Record Timers : Type := {
  timerTicks : Z;
  TIMAEnabled : bool;
  TACClocker : Z
}.

Definition set_timerTicks (v : Z) (t : Timers) : Timers :=
  {| timerTicks := v; TIMAEnabled := TIMAEnabled t; TACClocker := TACClocker t |}.

(** The values the constructor gives them. *)
Definition initialTimers : Timers :=
  {| timerTicks := 0; TIMAEnabled := false; TACClocker := 1024 |}.

(** TAC (0xFF07), write handler. *)
Definition writeTAC (data : Z) (s : Core) (t : Timers) : Core * Timers :=
  let s := set_memory (wr8 (memory s) 0xff07 (band data 0x07)) s in
  (s, {| timerTicks := timerTicks t;
         TIMAEnabled := (band data 0x04 =? 0x04);
         TACClocker :=
           shl (4 ^ (if negb (band data 0x3 =? 0) then band data 0x3 else 4)) 2 |}).

(** The loop [while (this.timerTicks >= this.TACClocker)] of [updateCore];
    [++this.memory[0xff05]] has the value one above the byte read, which is
    what the test against 0x100 sees, and stores its low eight bits. *)
Fixpoint clockTIMA (fuel : nat) (s : Core) (t : Timers) : option (Core * Timers) :=
  if TACClocker t <=? timerTicks t then
    match fuel with
    | O => None
    | S fuel =>
        let t := set_timerTicks (timerTicks t - TACClocker t) t in
        let v := rd (memory s) 0xff05 + 1 in
        let s := set_memory (wr8 (memory s) 0xff05 v) s in
        let s :=
          if v =? 0x100 then
            let s := set_memory (wr8 (memory s) 0xff05 (rd (memory s) 0xff06)) s in
            let s := set_interruptsRequested (bor (interruptsRequested s) 0x4) s in
            checkIRQMatching s
          else s in
        clockTIMA fuel s t
    end
  else Some (s, t).

(** The lines under "CPU Timers" of [updateCore], the same in the
    interpreter loop, for [CPUTicks] clocks: DIV timing, then TIMA timing. *)
Definition clockTimers (fuel : nat) (CPUTicks : Z) (s : Core) (t : Timers)
  : option (Core * Timers) :=
  let s := clockDIV CPUTicks s in
  if TIMAEnabled t then
    let t := set_timerTicks (timerTicks t + CPUTicks) t in
    clockTIMA fuel s t
  else Some (s, t).

(** * MBC3 ([src/core/cartridge/mbc3.js])

    The clock of the controller ([rtc.js], not among the sources) is taken
    through its interface: the methods that [readRAM] and [writeRAM] call. *)
Class RTC (Rtc : Type) : Type := {
  writeSeconds : Z -> Rtc -> Rtc;
  writeMinutes : Z -> Rtc -> Rtc;
  writeHours : Z -> Rtc -> Rtc;
  writeDaysLow : Z -> Rtc -> Rtc;
  writeDaysHigh : Z -> Rtc -> Rtc;
  readSeconds : Rtc -> Z;
  readMinutes : Rtc -> Z;
  readHours : Rtc -> Z;
  readDaysLow : Rtc -> Z;
  readDaysHigh : Rtc -> Z
}.

(** The fields of the controller that the methods below use.  [RAM] is the
    byte array of the cartridge RAM (a [Uint8Array], as [setupRAM]
    allocates it); the base class [MBC] ([mbc.js]) is not among the
    sources. *)
Record MBC3State (Rtc : Type) : Type := {
  MBCRAMBanksEnabled : bool;
  currentMBCRAMBank : Z;
  currentRAMBankPosition : Z;
  RAM : list Z;
  rtc : Rtc
}.
Arguments MBCRAMBanksEnabled {Rtc} _.
Arguments currentMBCRAMBank {Rtc} _.
Arguments currentRAMBankPosition {Rtc} _.
Arguments RAM {Rtc} _.
Arguments rtc {Rtc} _.

(** Element access of a byte array: an index outside the array reads
    [undefined] ([None]) and a store to it is dropped. *)
Definition byteAt (a : list Z) (i : Z) : option Z :=
  if 0 <=? i then a !! Z.to_nat i else None.

Definition setByte (a : list Z) (i v : Z) : list Z :=
  if 0 <=? i then <[Z.to_nat i := toUint8 v]> a else a.

Section MBC3Controller.
Context {Rtc : Type} `{RTC Rtc}.

(** [settings.alwaysAllowRWtoBanks] *)
Variable alwaysAllowRWtoBanks : bool.

Definition set_RAM (v : list Z) (m : MBC3State Rtc) : MBC3State Rtc :=
  {| MBCRAMBanksEnabled := MBCRAMBanksEnabled m;
     currentMBCRAMBank := currentMBCRAMBank m;
     currentRAMBankPosition := currentRAMBankPosition m;
     RAM := v; rtc := rtc m |}.

Definition set_rtc (v : Rtc) (m : MBC3State Rtc) : MBC3State Rtc :=
  {| MBCRAMBanksEnabled := MBCRAMBanksEnabled m;
     currentMBCRAMBank := currentMBCRAMBank m;
     currentRAMBankPosition := currentRAMBankPosition m;
     RAM := RAM m; rtc := v |}.

(** [writeRAMBank(address, data)] *)
Definition writeRAMBank (address data : Z) (m : MBC3State Rtc) : MBC3State Rtc :=
  let m := {| MBCRAMBanksEnabled := MBCRAMBanksEnabled m;
              currentMBCRAMBank := data;
              currentRAMBankPosition := currentRAMBankPosition m;
              RAM := RAM m; rtc := rtc m |} in
  if data <? 4 then
    (* MBC3 RAM bank switching *)
    {| MBCRAMBanksEnabled := MBCRAMBanksEnabled m;
       currentMBCRAMBank := currentMBCRAMBank m;
       currentRAMBankPosition := shl (currentMBCRAMBank m) 13 - 0xa000;
       RAM := RAM m; rtc := rtc m |}
  else m.

(** [writeRAM(address, data)]; [emit("ramWrite")] notifies the host and
    changes nothing here, the default case only logs. *)
Definition writeRAM (address data : Z) (m : MBC3State Rtc) : MBC3State Rtc :=
  if MBCRAMBanksEnabled m || alwaysAllowRWtoBanks then
    let b := currentMBCRAMBank m in
    if (b =? 0x00) || (b =? 0x01) || (b =? 0x02) || (b =? 0x03) then
      set_RAM (setByte (RAM m) (address + currentRAMBankPosition m) data) m
    else if b =? 0x08 then set_rtc (writeSeconds data (rtc m)) m
    else if b =? 0x09 then set_rtc (writeMinutes data (rtc m)) m
    else if b =? 0x0a then set_rtc (writeHours data (rtc m)) m
    else if b =? 0x0b then set_rtc (writeDaysLow data (rtc m)) m
    else if b =? 0x0c then set_rtc (writeDaysHigh data (rtc m)) m
    else m
  else m.

(** [readRAM(address)]: the value returned, [None] for [undefined]. *)
Definition readRAM (address : Z) (m : MBC3State Rtc) : option Z :=
  if MBCRAMBanksEnabled m || alwaysAllowRWtoBanks then
    let b := currentMBCRAMBank m in
    if (b =? 0x00) || (b =? 0x01) || (b =? 0x02) || (b =? 0x03) then
      byteAt (RAM m) (address + currentRAMBankPosition m)
    else if b =? 0x08 then Some (readSeconds (rtc m))
    else if b =? 0x09 then Some (readMinutes (rtc m))
    else if b =? 0x0a then Some (readHours (rtc m))
    else if b =? 0x0b then Some (readDaysLow (rtc m))
    else if b =? 0x0c then Some (readDaysHigh (rtc m))
    else Some 0xff
  else Some 0xff.

End MBC3Controller.

(** * The end of an iteration ([src/core/index.js]) *)

Definition set_ticks (v : Z) (c : Cpu) : Cpu :=
  {| ticks := v; cyclesTotal := cyclesTotal c;
     cyclesTotalBase := cyclesTotalBase c;
     totalLinesPassed := totalLinesPassed c |}.

Section IterationEnd.

Variable E : Env.
Variable rounds : nat.

(** The clock limit that [recalculateIterationClockLimit()] draws for the
    next iteration.  The routine adds [cyclesTotalRoundoff] to
    [cyclesTotalCurrent] and sets [cyclesTotal] to the base plus the carry
    less its remainder by four; the carry is a fractional number and this
    arithmetic is floating point, so the limit it arrives at is taken as it
    comes. *)
Variable nextCyclesTotal : Z.

(** [iterationEndRoutine()] *)
Definition iterationEndRoutine (s : Core) : option Core :=
  if band (stopEmulator s) 0x1 =? 0 then
    let? s := audioJIT E rounds s in (* Make sure we at least output once per iteration. *)
    (* Update DIV Alignment (Integer overflow safety): *)
    let s := set_memory
               (wr8 (memory s) 0xff04
                    (band (rd (memory s) 0xff04 + shr (DIVTicks s) 8) 0xff)) s in
    let s := set_DIVTicks (band (DIVTicks s) 0xff) s in
    (* Update emulator flags: *)
    let s := set_stopEmulator (bor (stopEmulator s) 1) s in (* End current loop. *)
    let s := set_cpu (set_ticks (ticks (cpu s) - cyclesTotal (cpu s)) (cpu s)) s in
    (* cyclesTotalCurrent += cyclesTotalRoundoff; recalculateIterationClockLimit() *)
    Some (set_cpu_cyclesTotal nextCyclesTotal s)
  else Some s.

(** [handleSTOP()] *)
Definition handleSTOP (s : Core) : option Core :=
  let s := set_CPUStopped true s in (* Stop CPU until joypad input changes. *)
  let? s := iterationEndRoutine s in
  if ticks (cpu s) <? 0 then
    let s := set_audioTicks (audioTicks s - ticks (cpu s)) s in
    audioJIT E rounds s
  else Some s.

End IterationEnd.

(** * Reference states for the examples

    [blankCore c] is a core with cartridge [c] in the slot, every number
    zero, every flag off and every array zero-filled; the examples below
    set the fields they need on top of it.  The field [cartridge] of the
    core itself, which [Joypad.down] tests, is unset: the core keeps its
    cartridge in [cartridgeSlot], and no source assigns the other field. *)
Definition blankCore (c : Cartridge) : Core :=
  {| memory := ∅; VRAM := ∅; BGCHRBank1 := ∅; BGCHRBank2 := ∅;
     BGCHRCurrentBank := ChrBank1; currVRAMBank := 0; modeSTAT := 0;
     LCDisOn := false; gfxRequests := []; DIVTicks := 0; IME := false;
     interruptsRequested := 0; interruptsEnabled := 0; IRQLineMatched := 0;
     CPUStopped := false; stopEmulator := 1; halt := false;
     usedBootROM := false; usedGBCBootROM := false; remainingClocks := 0;
     serialTimer := 0;
     GBBOOTROM := []; GBCBOOTROM := [];
     cartridge := None; cartridgeSlot := c;
     joypad := {| initialValue := 0xf; value := 0xff |};
     cpu := {| ticks := 0; cyclesTotal := 0; cyclesTotalBase := 0;
               totalLinesPassed := 0 |};
     bufferContainAmount := 0; soundMasterEnabled := false; audioTicks := 0;
     audioIndex := 0; downsampleInput := 0; audioDestinationPosition := 0;
     numSamplesTotal := 0; audioResamplerFirstPassFactor := 1; audioOut := [];
     sequencerClocks := 0; sequencePosition := 0;
     audioClocksUntilNextEvent := 0; audioClocksUntilNextEventCounter := 0;
     mixerOutputCache := 0;
     VinLeftChannelMasterVolume := 0; VinRightChannelMasterVolume := 0;
     leftChannel1 := false; leftChannel2 := false; leftChannel3 := false;
     leftChannel4 := false; rightChannel1 := false; rightChannel2 := false;
     rightChannel3 := false; rightChannel4 := false;
     channel1FrequencyTracker := 0; channel1FrequencyCounter := 0;
     channel1DutyTracker := 0; channel1CachedDuty := [];
     channel1totalLength := 0; channel1envelopeVolume := 0;
     channel1envelopeType := false; channel1envelopeSweeps := 0;
     channel1envelopeSweepsLast := 0; channel1consecutive := false;
     channel1frequency := 0; channel1SweepFault := false;
     channel1ShadowFrequency := 0; channel1timeSweep := 0;
     channel1lastTimeSweep := 0; channel1Swept := false;
     channel1frequencySweepDivider := 0; channel1decreaseSweep := false;
     channel1Enabled := false; channel1canPlay := false;
     channel1currentSampleLeft := 0; channel1currentSampleRight := 0;
     channel1currentSampleLeftSecondary := 0;
     channel1currentSampleRightSecondary := 0;
     channel1currentSampleLeftTrimary := 0;
     channel1currentSampleRightTrimary := 0;
     channel2FrequencyTracker := 0; channel2FrequencyCounter := 0;
     channel2DutyTracker := 0; channel2CachedDuty := [];
     channel2totalLength := 0; channel2envelopeVolume := 0;
     channel2envelopeType := false; channel2envelopeSweeps := 0;
     channel2envelopeSweepsLast := 0; channel2consecutive := false;
     channel2frequency := 0; channel2Enabled := false; channel2canPlay := false;
     channel2currentSampleLeft := 0; channel2currentSampleRight := 0;
     channel2currentSampleLeftSecondary := 0;
     channel2currentSampleRightSecondary := 0;
     channel2currentSampleLeftTrimary := 0;
     channel2currentSampleRightTrimary := 0;
     channel3canPlay := false; channel3totalLength := 0;
     channel3patternType := 0; channel3frequency := 0;
     channel3consecutive := false; channel3Counter := 0;
     channel3FrequencyPeriod := 0; channel3lastSampleLookup := 0;
     cachedChannel3Sample := 0; channel3Enabled := false; channel3PCM := ∅;
     channel3currentSampleLeft := 0; channel3currentSampleRight := 0;
     channel3currentSampleLeftSecondary := 0;
     channel3currentSampleRightSecondary := 0;
     channel4FrequencyPeriod := 0; channel4Counter := 0;
     channel4totalLength := 0; channel4envelopeVolume := 0;
     channel4currentVolume := 0; channel4envelopeType := false;
     channel4envelopeSweeps := 0; channel4envelopeSweepsLast := 0;
     channel4consecutive := false; channel4BitRange := 0;
     channel4VolumeShifter := 0; channel4lastSampleLookup := 0;
     cachedChannel4Sample := 0; noiseSampleTable := LSFR15;
     channel4Enabled := false; channel4canPlay := false;
     channel4currentSampleLeft := 0; channel4currentSampleRight := 0;
     channel4currentSampleLeftSecondary := 0;
     channel4currentSampleRightSecondary := 0 |}.

(** Default settings and tables for the examples: sound on, all four
    channels enabled, the four duty patterns, silent noise tables. *)
Definition exampleSettings : Settings :=
  {| bootBootRomFirst := false; forceGBBootRom := false;
     enableMBC1Override := false; gbHasPriority := false; soundOn := true;
     enabledChannels := [true; true; true; true] |}.

Definition exampleEnv : Env :=
  {| settings := exampleSettings;
     dutyLookup := fun i =>
       if i =? 0 then [false; false; false; false; false; false; false; true]
       else if i =? 1 then [true; false; false; false; false; false; false; true]
       else if i =? 2 then [true; false; false; false; false; true; true; true]
       else [false; true; true; true; true; true; true; false];
     LSFR15Table := fun _ => 0;
     LSFR7Table := fun _ => 0 |}.

(** A ROM image of 0x8000 bytes, zero except for the cartridge-type byte at
    0x147 and the RAM-size byte at 0x149. *)
Definition exampleROM (cartType ramSizeByte : Z) : ROM :=
  replicate (Z.to_nat 0x147) 0 ++ [cartType; 0; ramSizeByte]
  ++ replicate (Z.to_nat (0x8000 - 0x14a)) 0.

Definition exampleCartridge (cartType ramSizeByte : Z) : Cartridge :=
  interpret exampleSettings false false (new_Cartridge (exampleROM cartType ramSizeByte)).

(** For the examples about the core only the flags of the cartridge in the
    slot matter: an MBC1 cartridge in Game Boy mode and one in Game Boy
    Color mode. *)
Definition dmgCartridge : Cartridge :=
  set_mbc (Some MBC1)
    (set_typeName (Some "MBC1"%string) (set_hasMBC1 true (new_Cartridge []))).

Definition cgbCartridge : Cartridge := set_useGBCMode true dmgCartridge.


(** A core on which the sound unit has just been switched on: the start
    state of the audio unit on top of [blankCore], the resampler emitting
    one stereo pair every four clocks. *)
Definition poweredCore : Core :=
  set_audioResamplerFirstPassFactor 4
    (set_soundMasterEnabled true
       (initializeAudioStartState exampleEnv (blankCore dmgCartridge))).


(** * Notions used in the statements *)

(** Number of stereo sample pairs in what was handed to the host. *)
Fixpoint stereoCount (l : list AudioEvent) : Z :=
  match l with
  | [] => 0
  | StereoSample _ _ :: l' => 1 + stereoCount l'
  | WriteAudio :: l' => stereoCount l'
  end.

(** The state [s] with new values in the four fields of the resampler
    output stage. *)
Definition withAudioOutput (i d p : Z) (a : list AudioEvent) (s : Core) : Core :=
  set_audioOut a
    (set_audioDestinationPosition p (set_downsampleInput d (set_audioIndex i s))).


(** The parts of the state on which the clocking of the audio generator
    depends: the fields that nothing below the generator loop writes, the
    sweep registers of channel 1, and the event counters. *)
Definition genFrame (s : Core) :=
  (audioResamplerFirstPassFactor s, audioIndex s, audioOut s, sequencerClocks s,
   channel2FrequencyTracker s, channel3FrequencyPeriod s, channel4FrequencyPeriod s,
   channel1decreaseSweep s).

Definition sweepRegs (s : Core) :=
  (channel1FrequencyTracker s, channel1ShadowFrequency s, channel1SweepFault s,
   channel1Swept s).

Definition eventCounters (s : Core) :=
  (channel1FrequencyCounter s, channel2FrequencyCounter s, channel3Counter s,
   channel4Counter s, audioClocksUntilNextEvent s, audioClocksUntilNextEventCounter s).

Definition audioView (s : Core) := (genFrame s, sweepRegs s, eventCounters s).
Definition seqView (s : Core) := (genFrame s, eventCounters s).
Definition chanView (s : Core) := (genFrame s, sweepRegs s).

(** Well-formed sweep registers: the period of channel 1 is positive and
    the shadow frequency is an 11-bit value unless the sweep has faulted. *)
Definition sweepInv (s : Core) : Prop :=
  0 < channel1FrequencyTracker s
  /\ 0 <= channel1ShadowFrequency s <= 0xffe
  /\ (channel1SweepFault s = false -> channel1ShadowFrequency s <= 0x7ff).

(** The sweep unit keeps its registers well formed from [s] to [t], and a
    sweep that has happened stays recorded. *)
Definition sweepKept (s t : Core) : Prop :=
  (sweepInv s -> sweepInv t)
  /\ (channel1Swept s = true -> channel1Swept t = true).

(** The down counters of the four channels with their reload values. *)
Definition channelClocks (s : Core) :=
  (channel1FrequencyCounter s, channel2FrequencyCounter s, channel3Counter s,
   channel4Counter s, channel1FrequencyTracker s, channel2FrequencyTracker s,
   channel3FrequencyPeriod s, channel4FrequencyPeriod s).

(** Well-formed channel clocks: no channel counter is closer than the next
    event, and every reload period is positive. *)
Definition channelsWF (s : Core) : Prop :=
  audioClocksUntilNextEvent s <= channel1FrequencyCounter s
  /\ audioClocksUntilNextEvent s <= channel2FrequencyCounter s
  /\ audioClocksUntilNextEvent s <= channel3Counter s
  /\ audioClocksUntilNextEvent s <= channel4Counter s
  /\ 0 < channel2FrequencyTracker s
  /\ 0 < channel3FrequencyPeriod s
  /\ 0 < channel4FrequencyPeriod s
  /\ sweepInv s.

(** Well-formed generator clocks: the resampler index lies inside one
    output period, the clocks to the next channel event and to the next
    sequencer tick are positive, and the channel clocks are well formed. *)
Definition audioWF (s : Core) : Prop :=
  0 <= audioIndex s < audioResamplerFirstPassFactor s
  /\ 0 < audioClocksUntilNextEventCounter s
  /\ 0 < sequencerClocks s
  /\ channelsWF s.


(** The state between two rounds of the generator loops: as [audioWF], but
    a clock may have reached zero. *)
Definition audioMid (s : Core) : Prop :=
  0 <= audioClocksUntilNextEventCounter s
  /\ 0 <= sequencerClocks s
  /\ channelsWF s.

(** The two conditionals that end a round of the loops of [generateAudio]
    and [generateAudioFake]: the frame sequencer runs when its clock has
    reached zero, then the channel clocks when theirs has. *)
Definition sequencerTick (E : Env) (s : Core) : Core :=
  if sequencerClocks s =? 0
  then set_sequencerClocks 0x2000 (audioComputeSequencer E s)
  else s.

Definition channelTick (E : Env) (s : Core) : Core :=
  if audioClocksUntilNextEventCounter s =? 0
  then computeAudioChannels E s
  else s.

(** What the resampler works on, with the sweep direction. *)
Definition resamplerView (s : Core) :=
  (audioResamplerFirstPassFactor s, audioIndex s, audioOut s, channel1decreaseSweep s).

(** Clocks fed to the resampler so far, counted from the output: the
    stereo pairs emitted times the period, plus the position in the
    current period. *)
Definition clocksResampled (s : Core) : Z :=
  stereoCount (audioOut s) * audioResamplerFirstPassFactor s + audioIndex s.


(** The state with the cached sample levels of the mixer erased: two
    states with the same image differ in those caches at most. *)
Definition withoutSampleCaches (s : Core) : Core :=
  {| memory := memory s; VRAM := VRAM s; BGCHRBank1 := BGCHRBank1 s;
     BGCHRBank2 := BGCHRBank2 s; BGCHRCurrentBank := BGCHRCurrentBank s;
     currVRAMBank := currVRAMBank s; modeSTAT := modeSTAT s; LCDisOn := LCDisOn s;
     gfxRequests := gfxRequests s; DIVTicks := DIVTicks s; IME := IME s;
     interruptsRequested := interruptsRequested s;
     interruptsEnabled := interruptsEnabled s; IRQLineMatched := IRQLineMatched s;
     CPUStopped := CPUStopped s; stopEmulator := stopEmulator s; halt := halt s;
     usedBootROM := usedBootROM s; usedGBCBootROM := usedGBCBootROM s;
     remainingClocks := remainingClocks s; serialTimer := serialTimer s;
     GBBOOTROM := GBBOOTROM s;
     GBCBOOTROM := GBCBOOTROM s; cartridge := cartridge s;
     cartridgeSlot := cartridgeSlot s; joypad := joypad s; cpu := cpu s;
     bufferContainAmount := bufferContainAmount s;
     soundMasterEnabled := soundMasterEnabled s; audioTicks := audioTicks s;
     audioIndex := audioIndex s; downsampleInput := downsampleInput s;
     audioDestinationPosition := audioDestinationPosition s;
     numSamplesTotal := numSamplesTotal s;
     audioResamplerFirstPassFactor := audioResamplerFirstPassFactor s;
     audioOut := audioOut s; sequencerClocks := sequencerClocks s;
     sequencePosition := sequencePosition s;
     audioClocksUntilNextEvent := audioClocksUntilNextEvent s;
     audioClocksUntilNextEventCounter := audioClocksUntilNextEventCounter s;
     mixerOutputCache := 0; VinLeftChannelMasterVolume := VinLeftChannelMasterVolume s;
     VinRightChannelMasterVolume := VinRightChannelMasterVolume s;
     leftChannel1 := leftChannel1 s; leftChannel2 := leftChannel2 s;
     leftChannel3 := leftChannel3 s; leftChannel4 := leftChannel4 s;
     rightChannel1 := rightChannel1 s; rightChannel2 := rightChannel2 s;
     rightChannel3 := rightChannel3 s; rightChannel4 := rightChannel4 s;
     channel1FrequencyTracker := channel1FrequencyTracker s;
     channel1FrequencyCounter := channel1FrequencyCounter s;
     channel1DutyTracker := channel1DutyTracker s;
     channel1CachedDuty := channel1CachedDuty s;
     channel1totalLength := channel1totalLength s;
     channel1envelopeVolume := channel1envelopeVolume s;
     channel1envelopeType := channel1envelopeType s;
     channel1envelopeSweeps := channel1envelopeSweeps s;
     channel1envelopeSweepsLast := channel1envelopeSweepsLast s;
     channel1consecutive := channel1consecutive s;
     channel1frequency := channel1frequency s;
     channel1SweepFault := channel1SweepFault s;
     channel1ShadowFrequency := channel1ShadowFrequency s;
     channel1timeSweep := channel1timeSweep s;
     channel1lastTimeSweep := channel1lastTimeSweep s;
     channel1Swept := channel1Swept s;
     channel1frequencySweepDivider := channel1frequencySweepDivider s;
     channel1decreaseSweep := channel1decreaseSweep s;
     channel1Enabled := channel1Enabled s; channel1canPlay := channel1canPlay s;
     channel1currentSampleLeft := 0; channel1currentSampleRight := 0;
     channel1currentSampleLeftSecondary := 0; channel1currentSampleRightSecondary := 0;
     channel1currentSampleLeftTrimary := 0; channel1currentSampleRightTrimary := 0;
     channel2FrequencyTracker := channel2FrequencyTracker s;
     channel2FrequencyCounter := channel2FrequencyCounter s;
     channel2DutyTracker := channel2DutyTracker s;
     channel2CachedDuty := channel2CachedDuty s;
     channel2totalLength := channel2totalLength s;
     channel2envelopeVolume := channel2envelopeVolume s;
     channel2envelopeType := channel2envelopeType s;
     channel2envelopeSweeps := channel2envelopeSweeps s;
     channel2envelopeSweepsLast := channel2envelopeSweepsLast s;
     channel2consecutive := channel2consecutive s;
     channel2frequency := channel2frequency s; channel2Enabled := channel2Enabled s;
     channel2canPlay := channel2canPlay s; channel2currentSampleLeft := 0;
     channel2currentSampleRight := 0; channel2currentSampleLeftSecondary := 0;
     channel2currentSampleRightSecondary := 0; channel2currentSampleLeftTrimary := 0;
     channel2currentSampleRightTrimary := 0; channel3canPlay := channel3canPlay s;
     channel3totalLength := channel3totalLength s;
     channel3patternType := channel3patternType s;
     channel3frequency := channel3frequency s;
     channel3consecutive := channel3consecutive s;
     channel3Counter := channel3Counter s;
     channel3FrequencyPeriod := channel3FrequencyPeriod s;
     channel3lastSampleLookup := channel3lastSampleLookup s; cachedChannel3Sample := 0;
     channel3Enabled := channel3Enabled s; channel3PCM := channel3PCM s;
     channel3currentSampleLeft := 0; channel3currentSampleRight := 0;
     channel3currentSampleLeftSecondary := 0; channel3currentSampleRightSecondary := 0;
     channel4FrequencyPeriod := channel4FrequencyPeriod s;
     channel4Counter := channel4Counter s;
     channel4totalLength := channel4totalLength s;
     channel4envelopeVolume := channel4envelopeVolume s;
     channel4currentVolume := channel4currentVolume s;
     channel4envelopeType := channel4envelopeType s;
     channel4envelopeSweeps := channel4envelopeSweeps s;
     channel4envelopeSweepsLast := channel4envelopeSweepsLast s;
     channel4consecutive := channel4consecutive s;
     channel4BitRange := channel4BitRange s;
     channel4VolumeShifter := channel4VolumeShifter s;
     channel4lastSampleLookup := channel4lastSampleLookup s; cachedChannel4Sample := 0;
     noiseSampleTable := noiseSampleTable s; channel4Enabled := channel4Enabled s;
     channel4canPlay := channel4canPlay s; channel4currentSampleLeft := 0;
     channel4currentSampleRight := 0; channel4currentSampleLeftSecondary := 0;
     channel4currentSampleRightSecondary := 0 |}.


(** The state with everything erased that the audio generator
    ([audioJIT] and what it calls) may write: the resampler and its output,
    the sequencer, the clocks, counters, envelopes, sweep state and caches
    of the channels, and the status byte at 0xFF26.  Two states with the
    same image agree on all the rest: the processor, video and joypad
    state, the master switch, the panning and volume registers, the
    frequency, duty and envelope-direction registers, the waveform table,
    and every byte of memory but 0xFF26. *)
Definition outsideGenerator (s : Core) : Core :=
  {| memory := delete 0xff26 (memory s); VRAM := VRAM s; BGCHRBank1 := BGCHRBank1 s;
     BGCHRBank2 := BGCHRBank2 s; BGCHRCurrentBank := BGCHRCurrentBank s;
     currVRAMBank := currVRAMBank s; modeSTAT := modeSTAT s; LCDisOn := LCDisOn s;
     gfxRequests := gfxRequests s; DIVTicks := DIVTicks s; IME := IME s;
     interruptsRequested := interruptsRequested s;
     interruptsEnabled := interruptsEnabled s; IRQLineMatched := IRQLineMatched s;
     CPUStopped := CPUStopped s; stopEmulator := stopEmulator s; halt := halt s;
     usedBootROM := usedBootROM s; usedGBCBootROM := usedGBCBootROM s;
     remainingClocks := remainingClocks s; serialTimer := serialTimer s;
     GBBOOTROM := GBBOOTROM s;
     GBCBOOTROM := GBCBOOTROM s; cartridge := cartridge s;
     cartridgeSlot := cartridgeSlot s; joypad := joypad s; cpu := cpu s;
     bufferContainAmount := bufferContainAmount s;
     soundMasterEnabled := soundMasterEnabled s; audioTicks := 0; audioIndex := 0;
     downsampleInput := 0; audioDestinationPosition := 0;
     numSamplesTotal := numSamplesTotal s;
     audioResamplerFirstPassFactor := audioResamplerFirstPassFactor s; audioOut := [];
     sequencerClocks := 0; sequencePosition := 0; audioClocksUntilNextEvent := 0;
     audioClocksUntilNextEventCounter := 0; mixerOutputCache := 0;
     VinLeftChannelMasterVolume := VinLeftChannelMasterVolume s;
     VinRightChannelMasterVolume := VinRightChannelMasterVolume s;
     leftChannel1 := leftChannel1 s; leftChannel2 := leftChannel2 s;
     leftChannel3 := leftChannel3 s; leftChannel4 := leftChannel4 s;
     rightChannel1 := rightChannel1 s; rightChannel2 := rightChannel2 s;
     rightChannel3 := rightChannel3 s; rightChannel4 := rightChannel4 s;
     channel1FrequencyTracker := 0; channel1FrequencyCounter := 0;
     channel1DutyTracker := 0; channel1CachedDuty := channel1CachedDuty s;
     channel1totalLength := 0; channel1envelopeVolume := 0;
     channel1envelopeType := channel1envelopeType s; channel1envelopeSweeps := 0;
     channel1envelopeSweepsLast := 0; channel1consecutive := channel1consecutive s;
     channel1frequency := 0; channel1SweepFault := false; channel1ShadowFrequency := 0;
     channel1timeSweep := 0; channel1lastTimeSweep := channel1lastTimeSweep s;
     channel1Swept := false;
     channel1frequencySweepDivider := channel1frequencySweepDivider s;
     channel1decreaseSweep := channel1decreaseSweep s; channel1Enabled := false;
     channel1canPlay := channel1canPlay s; channel1currentSampleLeft := 0;
     channel1currentSampleRight := 0; channel1currentSampleLeftSecondary := 0;
     channel1currentSampleRightSecondary := 0; channel1currentSampleLeftTrimary := 0;
     channel1currentSampleRightTrimary := 0;
     channel2FrequencyTracker := channel2FrequencyTracker s;
     channel2FrequencyCounter := 0; channel2DutyTracker := 0;
     channel2CachedDuty := channel2CachedDuty s; channel2totalLength := 0;
     channel2envelopeVolume := 0; channel2envelopeType := channel2envelopeType s;
     channel2envelopeSweeps := 0; channel2envelopeSweepsLast := 0;
     channel2consecutive := channel2consecutive s;
     channel2frequency := channel2frequency s; channel2Enabled := false;
     channel2canPlay := channel2canPlay s; channel2currentSampleLeft := 0;
     channel2currentSampleRight := 0; channel2currentSampleLeftSecondary := 0;
     channel2currentSampleRightSecondary := 0; channel2currentSampleLeftTrimary := 0;
     channel2currentSampleRightTrimary := 0; channel3canPlay := channel3canPlay s;
     channel3totalLength := 0; channel3patternType := channel3patternType s;
     channel3frequency := channel3frequency s;
     channel3consecutive := channel3consecutive s; channel3Counter := 0;
     channel3FrequencyPeriod := channel3FrequencyPeriod s;
     channel3lastSampleLookup := 0; cachedChannel3Sample := 0;
     channel3Enabled := false; channel3PCM := channel3PCM s;
     channel3currentSampleLeft := 0; channel3currentSampleRight := 0;
     channel3currentSampleLeftSecondary := 0; channel3currentSampleRightSecondary := 0;
     channel4FrequencyPeriod := channel4FrequencyPeriod s; channel4Counter := 0;
     channel4totalLength := 0; channel4envelopeVolume := 0; channel4currentVolume := 0;
     channel4envelopeType := channel4envelopeType s; channel4envelopeSweeps := 0;
     channel4envelopeSweepsLast := 0; channel4consecutive := channel4consecutive s;
     channel4BitRange := channel4BitRange s;
     channel4VolumeShifter := channel4VolumeShifter s; channel4lastSampleLookup := 0;
     cachedChannel4Sample := 0; noiseSampleTable := noiseSampleTable s;
     channel4Enabled := false; channel4canPlay := channel4canPlay s;
     channel4currentSampleLeft := 0; channel4currentSampleRight := 0;
     channel4currentSampleLeftSecondary := 0;
     channel4currentSampleRightSecondary := 0 |}.


(** What the host of the audio unit sees of it besides the samples: the
    master switch, the memory image and the ticks not yet generated. *)
Definition hostView (s : Core) := (soundMasterEnabled s, memory s, audioTicks s).


(** The length counters of the four channels with the flags the length
    unit combines them with. *)
Definition lengthView (s : Core) :=
  (channel1totalLength s, channel2totalLength s, channel3totalLength s,
   channel4totalLength s,
   (channel1Enabled s, channel2Enabled s, channel3Enabled s, channel4Enabled s),
   (channel1consecutive s, channel2consecutive s, channel3consecutive s,
    channel4consecutive s)).


(** A clock that stands still at zero, and an MBC3 with four banks of
    zeroed RAM, bank 0 selected and RAM enabled. *)
Definition stillClock : RTC unit :=
  {| writeSeconds := fun _ r => r; writeMinutes := fun _ r => r;
     writeHours := fun _ r => r; writeDaysLow := fun _ r => r;
     writeDaysHigh := fun _ r => r;
     readSeconds := fun _ => 0; readMinutes := fun _ => 0; readHours := fun _ => 0;
     readDaysLow := fun _ => 0; readDaysHigh := fun _ => 0 |}.

Definition exampleMBC3 : MBC3State unit :=
  {| MBCRAMBanksEnabled := true; currentMBCRAMBank := 0;
     currentRAMBankPosition := - 0xa000;
     RAM := replicate (Z.to_nat 0x8000) 0; rtc := tt |}.

(** One pass of the body of the TIMA loop, on the core. *)
Definition timaTick (s : Core) : Core :=
  let v := rd (memory s) 0xff05 + 1 in
  let s := set_memory (wr8 (memory s) 0xff05 v) s in
  if v =? 0x100 then
    let s := set_memory (wr8 (memory s) 0xff05 (rd (memory s) 0xff06)) s in
    let s := set_interruptsRequested (bor (interruptsRequested s) 0x4) s in
    checkIRQMatching s
  else s.


(* ===================================================================== *)
(** * Properties *)
(* ===================================================================== *)

(** The array and bit operations are kept folded when simplifying. *)
Arguments rd : simpl never.
Arguments wr8 : simpl never.
Arguments wrI8 : simpl never.
Arguments toUint8 : simpl never.
Arguments toInt8 : simpl never.
Arguments toInt32 : simpl never.
Arguments band : simpl never.
Arguments bor : simpl never.
Arguments bxor : simpl never.
Arguments shl : simpl never.
Arguments shr : simpl never.
Arguments ushr : simpl never.

(** ** Cartridge *)

Lemma parseROM_short_rom_throws (st : Settings) (c : Cartridge) (s : Core) :
  rom_length (rom c) < 0x4000 ->
  exists s', parseROM st c s = Throw "ROM size too small." s'
             /\ memory s' = memory s.
Proof.
  intros Hlen. unfold parseROM.
  destruct (Z.ltb_spec (rom_length (rom c)) 0x4000) as [_ | Hge]; [| lia].
  eexists. split; reflexivity.
Qed.

(** C9 (evaluation at the failing input).  A ROM of 0x8000 bytes whose
    cartridge-type byte is 0x04, a value outside the table of
    [setTypeName], is taken without any failure: [parseROM] returns
    normally, and [interpret] ends with the type name "Unknown" and no
    controller object.  Only the short ROM is rejected. *)
Theorem unknown_cartridge_type_is_accepted :
  let c := exampleCartridge 0x04 0 in
  rom_length (rom c) = 0x8000
  /\ type c = 0x04
  /\ typeName c = Some "Unknown"%string
  /\ mbc c = None
  /\ (exists s', parseROM exampleSettings c (blankCore c) = Ok s')
  /\ (exists s', parseROM exampleSettings (new_Cartridge (replicate (Z.to_nat 0x3fff) 0))
                   (blankCore c) = Throw "ROM size too small." s').
Proof.
  cbv zeta.
  split; [vm_compute; reflexivity |].
  split; [vm_compute; reflexivity |].
  split; [vm_compute; reflexivity |].
  split; [vm_compute; reflexivity |].
  split.
  - unfold parseROM.
    replace (rom_length (rom (exampleCartridge 4 0)) <? 0x4000) with false
      by (vm_compute; reflexivity).
    cbn. eexists; reflexivity.
  - unfold parseROM.
    replace (rom_length (rom (new_Cartridge (replicate (Z.to_nat 0x3fff) 0))) <? 0x4000) with true
      by (vm_compute; reflexivity).
    eexists; reflexivity.
Qed.

(** Evaluating the bank count of a leaf of [setupRAM]. *)
Ltac ram_leaf H0 :=
  cbn [numRAMBanks allocatedRamBytes name MBCRam set_numRAMBanks set_allocatedRamBytes
       set_MBCRam reached orb];
  rewrite ?H0;
  repeat match goal with
         | |- context [Qle_bool ?a ?b] =>
             let v := eval vm_compute in (Qle_bool a b) in
             change (Qle_bool a b) with v
         end;
  cbn [negb];
  repeat match goal with
         | |- context [Qred ?a] =>
             let v := eval vm_compute in (Qred a) in
             change (Qred a) with v
         end.

(** What [setupRAM] leaves, by the controller flags and by what the host
    callback has for the cartridge name. *)
Lemma setupRAM_reached
    (load : option (string -> option (list Z))) (rtc2 : bool) (c : Cartridge) :
  numRAMBanks c = 0%Q ->
  MBCRam c = [] ->
  let c' := reached (setupRAM load rtc2 c) in
  allocatedRamBytes c' = inject_Z (spec_ram_bytes c)
  /\ numRAMBanks c'
     = (if hasMBC2 c then 1 # 16
        else if hasMBC1 c || cRUMBLE c || hasMBC3 c || cHuC3 c then 4
        else if hasMBC5 c then 16
        else if hasSRAM c then 1
        else 0)%Q
  /\ MBCRam c'
     = match (match load with Some f => f (name c) | None => None end) with
       | Some saved => if spec_ram_bytes c =? 0 then [] else map toUint8 saved
       | None => replicate (Z.to_nat (spec_ram_bytes c)) 0
       end.
Proof.
  intros H0 Hram. cbv zeta.
  unfold setupRAM, spec_ram_bytes.
  destruct rtc2; cbv zeta;
  (destruct (hasMBC2 c);
   [| destruct (hasMBC1 c || cRUMBLE c || hasMBC3 c || cHuC3 c);
      [| destruct (hasMBC5 c); [| destruct (hasSRAM c)]]]);
  ram_leaf H0;
  (destruct load as [f |]; [destruct (f (name c)) |]);
  ram_leaf H0; rewrite ?Hram;
  (split; [reflexivity | split; reflexivity]).
Qed.

(** C10, counterexample.  For an MBC1 cartridge the flags call for 0x8000
    bytes, but when the host returns a saved image of three bytes the RAM
    that [setupRAM] leaves has three bytes: the amount is not determined by
    the flags alone. *)
Lemma RAM_amount_from_flags_alone_counterexample :
  ~ (forall (load : option (string -> option (list Z))) (rtc2 : bool) (c : Cartridge),
       numRAMBanks c = 0%Q -> MBCRam c = [] ->
       Z.of_nat (length (MBCRam (reached (setupRAM load rtc2 c)))) = spec_ram_bytes c).
Proof.
  intros H.
  pose proof (H (Some (fun _ => Some [1; 2; 3])) false (exampleCartridge 0x03 0)
                eq_refl eq_refl) as Hlen.
  destruct (setupRAM_reached (Some (fun _ => Some [1; 2; 3])) false
              (exampleCartridge 0x03 0) eq_refl eq_refl) as (_ & _ & Hmem).
  cbv zeta in Hmem. rewrite Hmem in Hlen.
  vm_compute in Hlen. discriminate Hlen.
Qed.

(** C10, amended.  For a cartridge as the constructor leaves it (no bank
    counted, no RAM array), [allocatedRamBytes] after [setupRAM] is the
    amount the controller flags call for: 0x200 bytes for MBC2, 0x8000 for
    MBC1, RUMBLE, MBC3 and HuC3, sixteen banks for MBC5, one bank for SRAM
    alone, none otherwise.  When the host has no saved image for the
    cartridge - there is no callback, or the callback returns nothing - the
    RAM is a zero-filled array of exactly that many bytes.  When the
    callback returns a saved image and the flags call for RAM, the image
    becomes the RAM as it is, whatever its length.  None of the three - the
    byte count, the bank count, the RAM - depends on the RAM-size byte of
    the header. *)
Theorem setupRAM_amount_from_flags
    (load : option (string -> option (list Z))) (rtc2 : bool) (c : Cartridge) :
  numRAMBanks c = 0%Q ->
  MBCRam c = [] ->
  let c' := reached (setupRAM load rtc2 c) in
  allocatedRamBytes c' = inject_Z (spec_ram_bytes c)
  /\ (match load with Some f => f (name c) | None => None end = None ->
      MBCRam c' = replicate (Z.to_nat (spec_ram_bytes c)) 0
      /\ Z.of_nat (length (MBCRam c')) = spec_ram_bytes c)
  /\ (forall saved,
        match load with Some f => f (name c) | None => None end = Some saved ->
        0 < spec_ram_bytes c -> MBCRam c' = map toUint8 saved)
  /\ (forall r : Z,
        let cr := reached (setupRAM load rtc2 (set_ramSize r c)) in
        allocatedRamBytes cr = allocatedRamBytes c'
        /\ numRAMBanks cr = numRAMBanks c'
        /\ MBCRam cr = MBCRam c').
Proof.
  intros H0 Hram. cbv zeta.
  destruct (setupRAM_reached load rtc2 c H0 Hram) as (Hbytes & Hbanks & Hmem).
  cbv zeta in Hbytes, Hbanks, Hmem.
  assert (Hpos : 0 <= spec_ram_bytes c).
  { unfold spec_ram_bytes. repeat case_match; lia. }
  split; [exact Hbytes |]. split; [| split].
  - intros Hnone. rewrite Hnone in Hmem. split; [exact Hmem |].
    rewrite Hmem, length_replicate. lia.
  - intros saved Hsome Hflag. rewrite Hsome in Hmem.
    destruct (Z.eqb_spec (spec_ram_bytes c) 0) as [He | _]; [lia | exact Hmem].
  - intros r.
    destruct (setupRAM_reached load rtc2 (set_ramSize r c) H0 Hram)
      as (Hbytes' & Hbanks' & Hmem').
    cbv zeta in Hbytes', Hbanks', Hmem'.
    rewrite Hbytes, Hbanks, Hmem, Hbytes', Hbanks', Hmem'.
    split; [reflexivity | split; reflexivity].
Qed.

Lemma setupRAM_amount_from_flags_witness :
  numRAMBanks (exampleCartridge 0x1b 0) = 0%Q
  /\ MBCRam (exampleCartridge 0x1b 0) = []
  /\ allocatedRamBytes (reached (setupRAM (Some (fun _ => None)) false
                                   (exampleCartridge 0x1b 0)))
     = inject_Z 0x20000
  /\ Z.of_nat (length (MBCRam (reached (setupRAM (Some (fun _ => None)) false
                                          (exampleCartridge 0x1b 0)))))
     = 0x20000.
Proof.
  split; [vm_compute; reflexivity |].
  split; [vm_compute; reflexivity |].
  destruct (setupRAM_amount_from_flags (Some (fun _ => None)) false
              (exampleCartridge 0x1b 0)) as (Hb & Hn & _);
    [vm_compute; reflexivity | vm_compute; reflexivity |].
  cbv zeta in Hb, Hn. destruct (Hn eq_refl) as [_ Hlen].
  split; [rewrite Hb; vm_compute; reflexivity | rewrite Hlen; vm_compute; reflexivity].
Defined.

(** ** Arrays and 32-bit operations *)

Lemma toUint8_range (v : Z) : 0 <= toUint8 v < 256.
Proof. unfold toUint8. apply Z.mod_pos_bound. lia. Qed.

Lemma toUint8_small (v : Z) : 0 <= v < 256 -> toUint8 v = v.
Proof. intros H. unfold toUint8. apply Z.mod_small. exact H. Qed.

Lemma rd_wr8_same (m : gmap Z Z) (i v : Z) : rd (wr8 m i v) i = toUint8 v.
Proof. unfold rd, wr8. rewrite lookup_insert_eq. reflexivity. Qed.

Lemma rd_wr8_other (m : gmap Z Z) (i j v : Z) : i <> j -> rd (wr8 m i v) j = rd m j.
Proof. intros H. unfold rd, wr8. rewrite lookup_insert_ne by exact H. reflexivity. Qed.

Lemma toInt32_small (x : Z) : - 2 ^ 31 <= x < 2 ^ 31 -> toInt32 x = x.
Proof.
  intros H. unfold toInt32.
  rewrite Z.mod_small by lia. lia.
Qed.

Lemma toInt32_range (x : Z) : - 2 ^ 31 <= toInt32 x < 2 ^ 31.
Proof.
  unfold toInt32.
  pose proof (Z.mod_pos_bound (x + 2 ^ 31) (2 ^ 32) ltac:(lia)). lia.
Qed.

(** [x & (2^n - 1)] is the remainder of [x] modulo [2^n]. *)
Lemma band_ones (x n : Z) : 0 <= n < 32 -> band x (Z.ones n) = x mod 2 ^ n.
Proof.
  intros Hn. unfold band.
  assert (Hpow : 0 < 2 ^ n <= 2 ^ 31).
  { split; [apply Z.pow_pos_nonneg; lia | apply Z.pow_le_mono_r; lia]. }
  rewrite (toInt32_small (Z.ones n)) by (rewrite Z.ones_equiv; lia).
  rewrite Z.land_ones by lia.
  unfold toInt32.
  assert (Hdiv : (2 ^ n | 2 ^ 32)).
  { exists (2 ^ (32 - n)). rewrite <- Z.pow_add_r by lia. f_equal. lia. }
  rewrite <- (Zminus_mod_idemp_l ((x + 2 ^ 31) mod 2 ^ 32)).
  rewrite Z.mod_mod_divide by exact Hdiv.
  rewrite Zminus_mod_idemp_l.
  f_equal. lia.
Qed.

Lemma band_ones_range (x n : Z) : 0 <= n < 32 -> 0 <= band x (Z.ones n) < 2 ^ n.
Proof.
  intros Hn. rewrite band_ones by exact Hn.
  apply Z.mod_pos_bound. apply Z.pow_pos_nonneg; lia.
Qed.

(** Deciding the comparisons of a dispatch chain from the hypotheses. *)
Ltac cmp_step :=
  match goal with
  | |- context [Z.ltb ?a ?b] =>
      first [ rewrite (proj2 (Z.ltb_lt a b)) by lia
            | rewrite (proj2 (Z.ltb_ge a b)) by lia ]
  | |- context [Z.leb ?a ?b] =>
      first [ rewrite (proj2 (Z.leb_le a b)) by lia
            | rewrite (proj2 (Z.leb_gt a b)) by lia ]
  | |- context [Z.eqb ?a ?b] =>
      first [ rewrite (proj2 (Z.eqb_eq a b)) by lia
            | rewrite (proj2 (Z.eqb_neq a b)) by lia ]
  end.

Ltac bool_tidy :=
  rewrite ?andb_false_r, ?andb_true_r, ?orb_false_r, ?orb_true_r;
  cbn [andb orb negb]; cbv beta iota.

Ltac cmp := repeat (cmp_step; bool_tidy).

(** ** Wave RAM reads (C1) *)

Section MemoryMap.

Variable E : Env.
Variable rounds : nat.

Lemma memoryReader_io (c : Cartridge) (address : Z) :
  0xff00 <= address <= 0xffff ->
  memoryReader E rounds c address = ioReader E rounds address.
Proof. intros H. unfold memoryReader. cmp. reflexivity. Qed.

Lemma memoryReader_wave (c : Cartridge) (address : Z) :
  0xff30 <= address <= 0xff3f -> memoryReader E rounds c address = Some readWaveRAM.
Proof.
  intros H. rewrite memoryReader_io by lia. unfold ioReader. cmp. reflexivity.
Qed.

(** What the wave RAM read closure of the source returns: while channel 3
    plays, the byte at [0xFF00 | (channel3lastSampleLookup >> 1)], a cell of
    the register page 0xFF00..0xFF0F; otherwise the addressed byte. *)
Lemma memoryRead_wave (s : Core) (address : Z) :
  0xff30 <= address <= 0xff3f ->
  memoryRead E rounds address s
  = Some (if channel3canPlay s
          then rd (memory s) (bor 0xff00 (shr (channel3lastSampleLookup s) 1))
          else rd (memory s) address, s).
Proof.
  intros H. unfold memoryRead. rewrite memoryReader_wave by exact H. reflexivity.
Qed.

End MemoryMap.

(** C1 (evaluation at the failing input).  Wave RAM holds 0x12 at 0xFF30,
    the joypad register 0xFF00 holds 0xCF, channel 3 plays and its sample
    index is 0.  The byte at [0xFF30 | (0 >> 1)] is 0x12, yet the read of
    0xFF30 returns 0xCF, the contents of 0xFF00, through both the
    [memoryReader] and the [memoryHighReader] closure.  With channel 3 not
    playing the same read returns the addressed byte 0x12. *)
Theorem wave_ram_read_while_playing_returns_ff00_page :
  let idle := set_memory (wr8 (wr8 ∅ 0xff30 0x12) 0xff00 0xcf)
                (blankCore dmgCartridge) in
  let playing := set_channel3canPlay true idle in
  channel3lastSampleLookup playing = 0
  /\ rd (memory playing) (bor 0xff30 (shr (channel3lastSampleLookup playing) 1)) = 0x12
  /\ memoryRead exampleEnv 0 0xff30 playing = Some (0xcf, playing)
  /\ memoryHighRead exampleEnv 0 0x30 playing = Some (0xcf, playing)
  /\ memoryRead exampleEnv 0 0xff30 idle = Some (0x12, idle).
Proof.
  cbv zeta.
  split; [vm_compute; reflexivity |].
  split; [vm_compute; reflexivity |].
  split; [vm_compute; reflexivity |].
  split; vm_compute; reflexivity.
Qed.

(** ** The divider register (C2) *)

(** C2, counterexample.  The claim that a write to FF04 leaves the readable
    value where it was fails: with 0x42 in the register and 0x37 pending
    ticks, a read returns 0x42, while a read after writing 0 returns 0. *)
Lemma DIV_write_keeps_readable_value_counterexample :
  ~ (forall (s : Core) (data : Z) (s1 : Core) (before after : Z) (s2 s3 : Core),
       memoryWrite exampleEnv 0 0xff04 data s = Some s1 ->
       memoryRead exampleEnv 0 0xff04 s = Some (before, s2) ->
       memoryRead exampleEnv 0 0xff04 s1 = Some (after, s3) ->
       after = before).
Proof.
  intros H.
  pose (s := set_DIVTicks 0x37
               (set_memory (wr8 ∅ 0xff04 0x42) (blankCore dmgCartridge))).
  assert (Hw : memoryWrite exampleEnv 0 0xff04 0 s
               = Some (set_memory (wr8 (wr8 ∅ 0xff04 0x42) 0xff04 0) s))
    by (vm_compute; reflexivity).
  assert (Hr0 : memoryRead exampleEnv 0 0xff04 s = Some (0x42, s))
    by (vm_compute; reflexivity).
  assert (Hr1 : memoryRead exampleEnv 0 0xff04
                  (set_memory (wr8 (wr8 ∅ 0xff04 0x42) 0xff04 0) s)
                = Some (0, set_memory (wr8 (wr8 ∅ 0xff04 0x42) 0xff04 0) s))
    by (vm_compute; reflexivity).
  specialize (H _ _ _ _ _ _ _ Hw Hr0 Hr1). discriminate H.
Qed.

Section Divider.

Variable E : Env.
Variable rounds : nat.

(** C2, amended.  A write of any value to FF04 sets the readable register
    to 0 and keeps of the pending ticks only their low byte; after [t]
    further ticks a read returns the high byte of that remainder plus [t],
    so the register restarts from 0 rather than from its value before the
    write. *)
Theorem DIV_write_resets_readable_value (s : Core) (data t : Z) :
  exists s1,
    memoryWrite E rounds 0xff04 data s = Some s1
    /\ rd (memory s1) 0xff04 = 0
    /\ DIVTicks s1 = band (DIVTicks s) 0xff
    /\ exists s2,
         memoryRead E rounds 0xff04 (clockDIV t s1)
         = Some (band (shr (band (DIVTicks s) 0xff + t) 8) 0xff, s2).
Proof.
  eexists. split; [reflexivity |].
  split; [cbn; rewrite rd_wr8_same; reflexivity |].
  split; [reflexivity |].
  eexists. unfold memoryRead.
  rewrite memoryReader_io by lia.
  change (ioReader E rounds 0xff04) with (Some readDIV).
  unfold readDIV, clockDIV. cbn. rewrite !rd_wr8_same.
  change (toUint8 0) with 0. rewrite Z.add_0_l.
  rewrite toUint8_small; [reflexivity |].
  apply (band_ones_range _ 8). lia.
Qed.

End Divider.

(** ** Joypad (C3) *)

(** C3, counterexample.  With 0x10 written to FF00 the direction keys are
    not selected (bit 4 is set), so pressing Right changes nothing in the
    low nibble: the read returns 0xDF, not 0xDE. *)
Lemma joypad_0x10_right_reads_0xDE_counterexample :
  ~ (forall (s s1 : Core),
       useGBCMode (cartridgeSlot s) = false ->
       value (joypad s) = 0xff ->
       memoryWrite exampleEnv 0 0xff00 0x10 s = Some s1 ->
       exists s2, memoryRead exampleEnv 0 0xff00 (down 0 s1) = Some (0xde, s2)).
Proof.
  intros H.
  destruct (H (blankCore dmgCartridge)
              (set_memory (wr8 ∅ 0xff00 0x1f) (blankCore dmgCartridge))
              eq_refl eq_refl) as [s2 Hs2];
    [vm_compute; reflexivity |].
  assert (Hr : memoryRead exampleEnv 0 0xff00
                 (down 0 (set_memory (wr8 ∅ 0xff00 0x1f) (blankCore dmgCartridge)))
               = Some (0xdf, down 0 (set_memory (wr8 ∅ 0xff00 0x1f)
                                       (blankCore dmgCartridge))))
    by (vm_compute; reflexivity).
  rewrite Hr in Hs2. discriminate Hs2.
Qed.

Section JoypadRegister.

Variable E : Env.
Variable rounds : nat.

Lemma memoryWrite_joypad (s : Core) (data : Z) :
  memoryWrite E rounds 0xff00 data s = writeJoypad 0xff00 data s.
Proof. reflexivity. Qed.

Lemma memoryRead_joypad (s : Core) :
  memoryRead E rounds 0xff00 s = Some (bor 0xc0 (rd (memory s) 0xff00), s).
Proof.
  unfold memoryRead. rewrite memoryReader_io by lia. reflexivity.
Qed.

(** Reading FF00 after [sel] was written to it and key [key] was pressed,
    from a state in which no key is held. *)
Lemma joypad_select_then_press (s : Core) (sel key : Z) :
  value (joypad s) = 0xff ->
  forall s1, writeJoypad 0xff00 sel s = Some s1 ->
  memoryRead E rounds 0xff00 (down key s1)
  = Some (bor 0xc0
            (toUint8
               (band (toUint8 (bor (band sel 0x30) (joypadLines sel 0xff))) 0x30
                + joypadLines (toUint8 (bor (band sel 0x30) (joypadLines sel 0xff)))
                    (band 0xff (bxor 0xff (shl 1 key))))),
          down key s1).
Proof.
  intros Hv s1 Hw. rewrite memoryRead_joypad.
  unfold writeJoypad in Hw. injection Hw as <-.
  rewrite Hv.
  unfold down at 1, writeToMemory.
  destruct (match cartridge _ with Some _ => _ | None => _ end);
    cbn; unfold checkIRQMatching; try destruct (IME _);
    cbn; rewrite ?Hv, !rd_wr8_same; reflexivity.
Qed.

(** C3, amended.  With no key held: after 0x20 is written to FF00 (bit 4
    clear: the direction keys are selected) and Right (index 0) is pressed,
    FF00 reads 0xC0 | 0x20 | 0x0E = 0xEE; after 0x10 is written instead the
    direction keys are not selected and it reads 0xDF.  This is so for the
    cartridge of either mode in the slot. *)
Theorem joypad_right_pressed_on_DMG (s : Core) :
  value (joypad s) = 0xff ->
  (exists s1,
      memoryWrite E rounds 0xff00 0x20 s = Some s1
      /\ memoryRead E rounds 0xff00 (down 0 s1) = Some (0xee, down 0 s1))
  /\ (exists s1,
      memoryWrite E rounds 0xff00 0x10 s = Some s1
      /\ memoryRead E rounds 0xff00 (down 0 s1) = Some (0xdf, down 0 s1)).
Proof.
  intros Hv.
  split.
  - eexists. rewrite memoryWrite_joypad. split; [reflexivity |].
    rewrite (joypad_select_then_press s 0x20 0 Hv _ eq_refl). reflexivity.
  - eexists. rewrite memoryWrite_joypad. split; [reflexivity |].
    rewrite (joypad_select_then_press s 0x10 0 Hv _ eq_refl). reflexivity.
Qed.

End JoypadRegister.

Lemma joypad_right_pressed_on_DMG_witness :
  exists s1,
    memoryWrite exampleEnv 0 0xff00 0x20 (blankCore dmgCartridge) = Some s1
    /\ memoryRead exampleEnv 0 0xff00 (down 0 s1) = Some (0xee, down 0 s1).
Proof.
  exact (proj1 (joypad_right_pressed_on_DMG exampleEnv 0
                  (blankCore dmgCartridge) eq_refl)).
Defined.

(** ** Object memory and video memory behind the STAT mode (C4) *)

Section VideoGate.

Variable E : Env.
Variable rounds : nat.

Lemma memoryRead_OAM (s : Core) (address : Z) :
  0xfe00 <= address <= 0xfe9f ->
  memoryRead E rounds address s = memoryReadOAM address s.
Proof. intros H. unfold memoryRead, memoryReader. cmp. reflexivity. Qed.

Lemma memoryWrite_OAM (s : Core) (address data : Z) :
  0xfe00 <= address <= 0xfe9f ->
  memoryWrite E rounds address data s = memoryWriteOAMRAM address data s.
Proof. intros H. unfold memoryWrite, memoryWriter. cmp. reflexivity. Qed.

Lemma memoryRead_VRAM_mode3 (s : Core) (address : Z) :
  0x8000 <= address <= 0x9fff -> modeSTAT s = 3 ->
  memoryRead E rounds address s = Some (0xff, s).
Proof.
  intros H Hm. unfold memoryRead, memoryReader.
  destruct (Z.ltb_spec address 0x9800); cmp;
    destruct (useGBCMode (cartridgeSlot s));
    unfold VRAMDATAReadCGBCPU, VRAMDATAReadDMGCPU, VRAMCHRReadCGBCPU,
      VRAMCHRReadDMGCPU; rewrite Hm; reflexivity.
Qed.

Lemma memoryWrite_VRAM_mode3 (s : Core) (address data : Z) :
  0x8000 <= address <= 0x9fff -> modeSTAT s = 3 ->
  memoryWrite E rounds address data s = Some s.
Proof.
  intros H Hm. unfold memoryWrite, memoryWriter.
  destruct (Z.ltb_spec address 0x9000);
    [| destruct (Z.ltb_spec address 0x9800)]; cmp;
    destruct (useGBCMode (cartridgeSlot s));
    unfold VRAMGBCDATAWrite, VRAMGBDATAWrite, VRAMGBDATAUpperWrite,
      VRAMGBCCHRMAPWrite, VRAMGBCHRMAPWrite; rewrite Hm; reflexivity.
Qed.

(** C4.  A read of object memory (0xFE00-0xFE9F) while the STAT mode is 2,
    and a read of video memory (0x8000-0x9FFF) while it is 3, returns 0xFF;
    a write to the same region in the same mode returns the state as it
    was, so no stored byte changes.  This holds in every state, in Game Boy
    and in Game Boy Color mode. *)
Theorem OAM_and_VRAM_gated_by_mode (s : Core) (address data : Z) :
  (0xfe00 <= address <= 0xfe9f /\ modeSTAT s = 2)
  \/ (0x8000 <= address <= 0x9fff /\ modeSTAT s = 3) ->
  memoryRead E rounds address s = Some (0xff, s)
  /\ memoryWrite E rounds address data s = Some s.
Proof.
  intros [[Ha Hm] | [Ha Hm]].
  - rewrite memoryRead_OAM, memoryWrite_OAM by exact Ha.
    unfold memoryReadOAM, memoryWriteOAMRAM. rewrite Hm. split; reflexivity.
  - rewrite memoryRead_VRAM_mode3, memoryWrite_VRAM_mode3 by assumption.
    split; reflexivity.
Qed.

(** Outside these modes the regions are open: in mode 0 or 1 a write to
    object memory stores the byte. *)
Lemma OAM_write_lands_in_mode_0_1 (s : Core) (address data : Z) :
  0xfe00 <= address <= 0xfe9f -> modeSTAT s < 2 -> 0 <= data < 256 ->
  exists s', memoryWrite E rounds address data s = Some s'
             /\ rd (memory s') address = data.
Proof.
  intros Ha Hm Hd. rewrite memoryWrite_OAM by exact Ha.
  unfold memoryWriteOAMRAM. cmp_step. bool_tidy.
  destruct (Z.eqb_spec (rd (memory s) address) data) as [Heq | Hne]; cbn.
  - eexists; split; [reflexivity | exact Heq].
  - eexists; split; [reflexivity |].
    cbn. rewrite rd_wr8_same. apply toUint8_small. exact Hd.
Qed.

End VideoGate.

Lemma OAM_and_VRAM_gated_by_mode_witness :
  (memoryRead exampleEnv 0 0xfe00
     (set_modeSTAT 2 (set_memory (wr8 ∅ 0xfe00 0x55) (blankCore dmgCartridge)))
   = Some (0xff, set_modeSTAT 2 (set_memory (wr8 ∅ 0xfe00 0x55) (blankCore dmgCartridge)))
   /\ memoryWrite exampleEnv 0 0xfe00 0x77
        (set_modeSTAT 2 (set_memory (wr8 ∅ 0xfe00 0x55) (blankCore dmgCartridge)))
      = Some (set_modeSTAT 2 (set_memory (wr8 ∅ 0xfe00 0x55) (blankCore dmgCartridge))))
  /\ (memoryRead exampleEnv 0 0x8000
        (set_modeSTAT 3 (set_memory (wr8 ∅ 0x8000 0x55) (blankCore cgbCartridge)))
      = Some (0xff, set_modeSTAT 3 (set_memory (wr8 ∅ 0x8000 0x55) (blankCore cgbCartridge)))
      /\ memoryWrite exampleEnv 0 0x8000 0x77
           (set_modeSTAT 3 (set_memory (wr8 ∅ 0x8000 0x55) (blankCore cgbCartridge)))
         = Some (set_modeSTAT 3 (set_memory (wr8 ∅ 0x8000 0x55) (blankCore cgbCartridge)))).
Proof.
  split.
  - apply (OAM_and_VRAM_gated_by_mode exampleEnv 0). left. split; [lia | reflexivity].
  - apply (OAM_and_VRAM_gated_by_mode exampleEnv 0). right. split; [lia | reflexivity].
Defined.

(** ** The resampler output stage *)

Lemma stereoCount_app (l1 l2 : list AudioEvent) :
  stereoCount (l1 ++ l2) = stereoCount l1 + stereoCount l2.
Proof.
  induction l1 as [| [l r |] l1 IH]; cbn [app stereoCount]; lia.
Qed.

Lemma withAudioOutput_id (s : Core) :
  withAudioOutput (audioIndex s) (downsampleInput s)
    (audioDestinationPosition s) (audioOut s) s = s.
Proof. destruct s; reflexivity. Qed.

Lemma set_audioIndex_withAudioOutput (i : Z) (s : Core) :
  set_audioIndex i s
  = withAudioOutput i (downsampleInput s) (audioDestinationPosition s) (audioOut s) s.
Proof. destruct s; reflexivity. Qed.

Lemma outputAudio_withAudioOutput (s : Core) :
  exists p a,
    outputAudio s = withAudioOutput (audioIndex s) 0 p a s
    /\ stereoCount a = stereoCount (audioOut s) + 1.
Proof.
  set (smp := StereoSample (ushr (downsampleInput s) 16) (band (downsampleInput s) 0xffff)).
  destruct (audioDestinationPosition s + 2 =? numSamplesTotal s) eqn:Hfull.
  - exists 0, ((audioOut s ++ [smp]) ++ [WriteAudio]).
    split.
    + unfold outputAudio. cbn. rewrite Hfull. reflexivity.
    + rewrite !stereoCount_app. cbn. lia.
  - exists (audioDestinationPosition s + 2), (audioOut s ++ [smp]).
    split.
    + unfold outputAudio. cbn. rewrite Hfull. reflexivity.
    + rewrite !stereoCount_app. cbn. lia.
Qed.

Lemma div_mod_one_period (x k f : Z) :
  0 < f -> x = f + k -> x / f = 1 + k / f /\ x mod f = k mod f.
Proof.
  intros Hf ->. replace (f + k) with (k + 1 * f) by lia.
  rewrite Z_div_plus_full, Z_mod_plus_full by lia. split; [lia | reflexivity].
Qed.

(** The silent branch of [generateAudio] moves the resampler index by the
    number of clocks and emits one stereo pair each time the index wraps;
    it touches nothing but the four fields of the output stage. *)
Lemma silentAudioLoop_spec (fuel : nat) :
  forall (n : Z) (s : Core),
    0 <= audioIndex s < audioResamplerFirstPassFactor s ->
    n < Z.of_nat fuel ->
    exists i d p a,
      silentAudioLoop fuel n s = Some (withAudioOutput i d p a s)
      /\ i = (audioIndex s + Z.max 0 n) mod audioResamplerFirstPassFactor s
      /\ stereoCount a
         = stereoCount (audioOut s)
           + (audioIndex s + Z.max 0 n) / audioResamplerFirstPassFactor s.
Proof.
  induction fuel as [| fuel IH]; intros n s Hi Hn.
  - exists (audioIndex s), (downsampleInput s), (audioDestinationPosition s), (audioOut s).
    rewrite withAudioOutput_id. cbn [silentAudioLoop].
    rewrite (proj2 (Z.ltb_ge 0 n)) by lia.
    rewrite Z.max_l by lia. rewrite Z.add_0_r.
    rewrite Z.mod_small, Z.div_small by lia. repeat split; lia.
  - cbn [silentAudioLoop].
    destruct (Z.ltb_spec 0 n) as [Hpos | Hle].
    + set (m := Z.min n (audioResamplerFirstPassFactor s - audioIndex s)).
      cbn [audioIndex set_audioIndex audioResamplerFirstPassFactor].
      cbv zeta.
      change (audioIndex (set_audioIndex (audioIndex s + m) s)) with (audioIndex s + m).
      change (audioResamplerFirstPassFactor (set_audioIndex (audioIndex s + m) s))
        with (audioResamplerFirstPassFactor s).
      destruct (Z.eqb_spec (audioIndex s + m) (audioResamplerFirstPassFactor s))
        as [Heq | Hne].
      * destruct (outputAudio_withAudioOutput
                    (set_audioIndex 0 (set_audioIndex (audioIndex s + m) s)))
          as (p & a & Hout & Hcnt).
        rewrite Hout.
        change (withAudioOutput
                  (audioIndex (set_audioIndex 0 (set_audioIndex (audioIndex s + m) s)))
                  0 p a (set_audioIndex 0 (set_audioIndex (audioIndex s + m) s)))
          with (withAudioOutput 0 0 p a s).
        change (audioOut (set_audioIndex 0 (set_audioIndex (audioIndex s + m) s)))
          with (audioOut s) in Hcnt.
        destruct (IH (n - m) (withAudioOutput 0 0 p a s)) as (i' & d' & p' & a' & Hrun & Hi' & Ha').
        { cbn. lia. }
        { subst m. lia. }
        exists i', d', p', a'. split; [exact Hrun |].
        cbn in Hi', Ha'.
        destruct (div_mod_one_period (audioIndex s + Z.max 0 n) (Z.max 0 (n - m))
                    (audioResamplerFirstPassFactor s)) as [Hd Hm]; [lia | subst m; lia |].
        rewrite Hd, Hm. rewrite Z.add_0_l in Hi', Ha'. split; [exact Hi' | lia].
      * assert (Hm : m = n) by (subst m; lia).
        rewrite Hm. rewrite Z.sub_diag.
        exists (audioIndex s + n), (downsampleInput s), (audioDestinationPosition s),
          (audioOut s).
        rewrite <- set_audioIndex_withAudioOutput.
        split; [destruct fuel; reflexivity |].
        rewrite Z.max_r by lia.
        rewrite Z.mod_small, Z.div_small by (subst m; lia). split; lia.
    + exists (audioIndex s), (downsampleInput s), (audioDestinationPosition s), (audioOut s).
      rewrite withAudioOutput_id.
      rewrite Z.max_l by lia. rewrite Z.add_0_r.
      rewrite Z.mod_small, Z.div_small by lia. repeat split; lia.
Qed.

(** ** STOP and the joypad (C8) *)

(** C8, counterexample.  Releasing a key also calls [writeToMemory], which
    clears [CPUStopped]: a key-up event does end the frozen state. *)
Lemma key_up_keeps_CPU_stopped_counterexample :
  ~ (forall (s : Core) (key : Z),
       CPUStopped s = true -> CPUStopped (up key s) = true).
Proof.
  intros H.
  specialize (H (set_CPUStopped true (blankCore dmgCartridge)) 0 eq_refl).
  vm_compute in H. discriminate H.
Qed.

Lemma set_cpu_cyclesTotal_id (s : Core) :
  set_cpu_cyclesTotal (cyclesTotal (cpu s)) s = s.
Proof. destruct s as [? ? ? ? ? ? ? ? ? ? ? ? ? ? ? ? ? ? ? ? ? ? ? ? ? ? []]; reflexivity. Qed.

Section Frozen.

Variable E : Env.
Variable rounds : nat.

Lemma audioUnderrunAdjustment_cyclesTotal (remaining : option Z) (s : Core) :
  audioUnderrunAdjustment E remaining s
  = set_cpu_cyclesTotal
      (cyclesTotal (cpu (audioUnderrunAdjustment E remaining s))) s.
Proof.
  unfold audioUnderrunAdjustment, recalculateIterationClockLimitForAudio.
  destruct (negb (soundOn (settings E))); [symmetry; apply set_cpu_cyclesTotal_id |].
  destruct remaining as [r |]; [| symmetry; apply set_cpu_cyclesTotal_id].
  destruct (0 <? bufferContainAmount s - Z.max r 0);
    [reflexivity | symmetry; apply set_cpu_cyclesTotal_id].
Qed.

(** While the processor is stopped, flushing the audio takes the silent
    branch (or, with sound off, does nothing): only the output stage and
    [audioTicks] change. *)
Lemma audioJIT_stopped (s : Core) :
  CPUStopped s = true ->
  0 <= audioIndex s < audioResamplerFirstPassFactor s ->
  audioTicks s < Z.of_nat rounds ->
  exists i d p a,
    audioJIT E rounds s = Some (set_audioTicks 0 (withAudioOutput i d p a s)).
Proof.
  intros Hstop Hi Hfuel. unfold audioJIT, generateAudio, generateAudioFake.
  rewrite Hstop. cbn [negb]. rewrite andb_false_r.
  destruct (soundOn (settings E)).
  - destruct (silentAudioLoop_spec rounds (audioTicks s) s Hi Hfuel)
      as (i & d & p & a & Hrun & _).
    exists i, d, p, a. rewrite Hrun. reflexivity.
  - exists (audioIndex s), (downsampleInput s), (audioDestinationPosition s), (audioOut s).
    rewrite withAudioOutput_id. reflexivity.
Qed.

(** C8, amended.  With the processor stopped, a call of [run()] never
    enters the interpreter: whatever the interpreter is, the call adjusts
    the cycle budget for audio underrun, flushes the audio (only the output
    stage and [audioTicks] change) and sets the end-of-loop bit, and the
    processor is still stopped afterwards.  Any joypad event, key-down or
    key-up, clears the stopped state. *)
Theorem stopped_CPU_stays_frozen_until_joypad_event
    (remaining : option Z) (s : Core) :
  CPUStopped s = true ->
  band (stopEmulator s) 2 = 0 ->
  band (stopEmulator s) 1 = 1 ->
  0 <= audioIndex s < audioResamplerFirstPassFactor s ->
  audioTicks s + cyclesTotal (cpu (audioUnderrunAdjustment E remaining s))
  < Z.of_nat rounds ->
  (exists s',
      (forall runInterpreter : Core -> option (Result Core),
          run E rounds runInterpreter remaining s = Some (Ok s'))
      /\ CPUStopped s' = true
      /\ (exists ct i d p a,
             s' = set_stopEmulator (bor (stopEmulator s) 1)
                    (set_audioTicks 0
                       (withAudioOutput i d p a (set_cpu_cyclesTotal ct s)))))
  /\ (forall key : Z,
        CPUStopped (down key s) = false /\ CPUStopped (up key s) = false).
Proof.
  intros Hstop H2 H1 Hi Hfuel.
  split.
  - set (ct := cyclesTotal (cpu (audioUnderrunAdjustment E remaining s))) in *.
    pose (s0 := set_audioTicks (audioTicks s + ct) (set_cpu_cyclesTotal ct s)).
    destruct (audioJIT_stopped s0) as (i & d & p & a & Hjit);
      [exact Hstop | exact Hi | exact Hfuel |].
    exists (set_stopEmulator (bor (stopEmulator s) 1)
              (set_audioTicks 0 (withAudioOutput i d p a (set_cpu_cyclesTotal ct s)))).
    split; [| split].
    + intros interp. unfold run.
      rewrite H2, H1, Hstop. cbn [Z.eqb Pos.eqb negb]. cbv beta iota.
      rewrite audioUnderrunAdjustment_cyclesTotal. fold ct.
      change (audioTicks (set_cpu_cyclesTotal ct s)) with (audioTicks s).
      change (cyclesTotal (cpu (set_cpu_cyclesTotal ct s))) with ct.
      fold s0. rewrite Hjit. reflexivity.
    + exact Hstop.
    + exists ct, i, d, p, a. reflexivity.
  - intros key. split; reflexivity.
Qed.

End Frozen.

Lemma stopped_CPU_stays_frozen_until_joypad_event_witness :
  exists s',
    (forall runInterpreter : Core -> option (Result Core),
        run exampleEnv 100 runInterpreter None
          (set_audioTicks 7 (set_CPUStopped true (blankCore dmgCartridge)))
        = Some (Ok s'))
    /\ CPUStopped s' = true
    /\ (exists ct i d p a,
           s' = set_stopEmulator
                  (bor (stopEmulator (set_audioTicks 7 (set_CPUStopped true
                                                         (blankCore dmgCartridge)))) 1)
                  (set_audioTicks 0
                     (withAudioOutput i d p a
                        (set_cpu_cyclesTotal ct
                           (set_audioTicks 7 (set_CPUStopped true
                                                (blankCore dmgCartridge))))))).
Proof.
  refine (proj1 (stopped_CPU_stays_frozen_until_joypad_event exampleEnv 100 None
                   (set_audioTicks 7 (set_CPUStopped true (blankCore dmgCartridge)))
                   eq_refl eq_refl eq_refl _ _)).
  - vm_compute. split; [discriminate | reflexivity].
  - vm_compute. reflexivity.
Defined.

(** ** What the mixer caches and the frame sequencer leave alone *)

(** Proving [V (f .. s) = r] for a view [V] of the state: a [let] is
    named after its value has been related to [r], a conditional is split,
    and a call or a field update at the head is peeled off, by a lemma of
    the hint base [audio_frame] or by computation. *)
Create HintDb audio_frame discriminated.
#[local] Hint Constants Opaque : audio_frame.
#[local] Hint Variables Opaque : audio_frame.

Ltac frame_peel V :=
  lazymatch goal with
  | |- V (?g ?t) = ?r =>
      first
        [ let H := fresh "Hpeel" in
          assert (H : V (g t) = V t) by (solve [eauto 4 with audio_frame nocore]);
          rewrite H; clear H
        | let P := eval pattern t in (V (g t) = V t) in
          lazymatch P with
          | ?F _ =>
              let H := fresh "Hpeel" in
              assert (H : forall t0 : Core, F t0) by (intro; cbv beta; reflexivity);
              specialize (H t); cbv beta in H;
              rewrite H; clear H
          end ]
  end.

Ltac frame V :=
  lazymatch goal with
  | |- V ?t = V ?t => reflexivity
  | |- V (let x := ?v in @?b x) = ?r =>
      lazymatch type of v with
      | Core =>
          let H := fresh "Hlet" in
          assert (H : V v = r);
          [ frame V
          | let y := fresh "st" in
            set (y := v) in *; clearbody y;
            lazymatch goal with
            | |- _ = ?r' => change (V (b y) = r'); cbv beta; frame V
            end ]
      | _ => change (V (b v) = r); cbv beta; frame V
      end
  | |- V (if ?c then _ else _) = _ => destruct c; frame V
  | |- V ?t = _ => first [ assumption | frame_peel V; frame V ]
  end.

(** The functions that maintain the mixer caches, the length counters and
    the envelopes write none of the fields of [audioView]. *)

Arguments memory_and : simpl never.
Arguments memory_or : simpl never.

Arguments mixerOutputLevelCache : simpl never.
Arguments channel1OutputLevelTrimaryCache : simpl never.
Arguments channel1OutputLevelSecondaryCache : simpl never.
Arguments channel1OutputLevelCache : simpl never.
Arguments channel1EnableCheck : simpl never.
Arguments channel1VolumeEnableCheck : simpl never.
Arguments channel2OutputLevelTrimaryCache : simpl never.
Arguments channel2OutputLevelSecondaryCache : simpl never.
Arguments channel2OutputLevelCache : simpl never.
Arguments channel2EnableCheck : simpl never.
Arguments channel2VolumeEnableCheck : simpl never.
Arguments channel3OutputLevelSecondaryCache : simpl never.
Arguments channel3OutputLevelCache : simpl never.
Arguments channel3EnableCheck : simpl never.
Arguments channel3UpdateCache : simpl never.
Arguments channel4OutputLevelSecondaryCache : simpl never.
Arguments channel4OutputLevelCache : simpl never.
Arguments channel4EnableCheck : simpl never.
Arguments channel4VolumeEnableCheck : simpl never.
Arguments channel4UpdateCache : simpl never.
Arguments clockAudioLength : simpl never.
Arguments clockAudioEnvelope : simpl never.
Arguments runAudioSweep : simpl never.
Arguments clockAudioSweep : simpl never.
Arguments audioComputeSequencer : simpl never.
Arguments computeAudioChannels : simpl never.
Arguments outputAudio : simpl never.

Lemma audioView_mixerOutputLevelCache (s : Core) :
  audioView (mixerOutputLevelCache s) = audioView s.
Proof. cbv beta delta [mixerOutputLevelCache]. frame audioView. Qed.
#[local] Hint Resolve audioView_mixerOutputLevelCache : audio_frame.

Lemma audioView_channel1OutputLevelTrimaryCache (E : Env) (s : Core) :
  audioView (channel1OutputLevelTrimaryCache E s) = audioView s.
Proof. cbv beta delta [channel1OutputLevelTrimaryCache]. frame audioView. Qed.
#[local] Hint Resolve audioView_channel1OutputLevelTrimaryCache : audio_frame.

Lemma audioView_channel1OutputLevelSecondaryCache (E : Env) (s : Core) :
  audioView (channel1OutputLevelSecondaryCache E s) = audioView s.
Proof. cbv beta delta [channel1OutputLevelSecondaryCache]. frame audioView. Qed.
#[local] Hint Resolve audioView_channel1OutputLevelSecondaryCache : audio_frame.

Lemma audioView_channel1OutputLevelCache (E : Env) (s : Core) :
  audioView (channel1OutputLevelCache E s) = audioView s.
Proof. cbv beta delta [channel1OutputLevelCache]. frame audioView. Qed.
#[local] Hint Resolve audioView_channel1OutputLevelCache : audio_frame.

Lemma audioView_channel1EnableCheck (E : Env) (s : Core) :
  audioView (channel1EnableCheck E s) = audioView s.
Proof. cbv beta delta [channel1EnableCheck]. frame audioView. Qed.
#[local] Hint Resolve audioView_channel1EnableCheck : audio_frame.

Lemma audioView_channel1VolumeEnableCheck (E : Env) (s : Core) :
  audioView (channel1VolumeEnableCheck E s) = audioView s.
Proof. cbv beta delta [channel1VolumeEnableCheck]. frame audioView. Qed.
#[local] Hint Resolve audioView_channel1VolumeEnableCheck : audio_frame.

Lemma audioView_channel2OutputLevelTrimaryCache (E : Env) (s : Core) :
  audioView (channel2OutputLevelTrimaryCache E s) = audioView s.
Proof. cbv beta delta [channel2OutputLevelTrimaryCache]. frame audioView. Qed.
#[local] Hint Resolve audioView_channel2OutputLevelTrimaryCache : audio_frame.

Lemma audioView_channel2OutputLevelSecondaryCache (E : Env) (s : Core) :
  audioView (channel2OutputLevelSecondaryCache E s) = audioView s.
Proof. cbv beta delta [channel2OutputLevelSecondaryCache]. frame audioView. Qed.
#[local] Hint Resolve audioView_channel2OutputLevelSecondaryCache : audio_frame.

Lemma audioView_channel2OutputLevelCache (E : Env) (s : Core) :
  audioView (channel2OutputLevelCache E s) = audioView s.
Proof. cbv beta delta [channel2OutputLevelCache]. frame audioView. Qed.
#[local] Hint Resolve audioView_channel2OutputLevelCache : audio_frame.

Lemma audioView_channel2EnableCheck (E : Env) (s : Core) :
  audioView (channel2EnableCheck E s) = audioView s.
Proof. cbv beta delta [channel2EnableCheck]. frame audioView. Qed.
#[local] Hint Resolve audioView_channel2EnableCheck : audio_frame.

Lemma audioView_channel2VolumeEnableCheck (E : Env) (s : Core) :
  audioView (channel2VolumeEnableCheck E s) = audioView s.
Proof. cbv beta delta [channel2VolumeEnableCheck]. frame audioView. Qed.
#[local] Hint Resolve audioView_channel2VolumeEnableCheck : audio_frame.

Lemma audioView_channel3OutputLevelSecondaryCache (E : Env) (s : Core) :
  audioView (channel3OutputLevelSecondaryCache E s) = audioView s.
Proof. cbv beta delta [channel3OutputLevelSecondaryCache]. frame audioView. Qed.
#[local] Hint Resolve audioView_channel3OutputLevelSecondaryCache : audio_frame.

Lemma audioView_channel3OutputLevelCache (E : Env) (s : Core) :
  audioView (channel3OutputLevelCache E s) = audioView s.
Proof. cbv beta delta [channel3OutputLevelCache]. frame audioView. Qed.
#[local] Hint Resolve audioView_channel3OutputLevelCache : audio_frame.

Lemma audioView_channel3EnableCheck (E : Env) (s : Core) :
  audioView (channel3EnableCheck E s) = audioView s.
Proof. cbv beta delta [channel3EnableCheck]. frame audioView. Qed.
#[local] Hint Resolve audioView_channel3EnableCheck : audio_frame.

Lemma audioView_channel3UpdateCache (E : Env) (s : Core) :
  audioView (channel3UpdateCache E s) = audioView s.
Proof. cbv beta delta [channel3UpdateCache]. frame audioView. Qed.
#[local] Hint Resolve audioView_channel3UpdateCache : audio_frame.

Lemma audioView_channel4OutputLevelSecondaryCache (E : Env) (s : Core) :
  audioView (channel4OutputLevelSecondaryCache E s) = audioView s.
Proof. cbv beta delta [channel4OutputLevelSecondaryCache]. frame audioView. Qed.
#[local] Hint Resolve audioView_channel4OutputLevelSecondaryCache : audio_frame.

Lemma audioView_channel4OutputLevelCache (E : Env) (s : Core) :
  audioView (channel4OutputLevelCache E s) = audioView s.
Proof. cbv beta delta [channel4OutputLevelCache]. frame audioView. Qed.
#[local] Hint Resolve audioView_channel4OutputLevelCache : audio_frame.

Lemma audioView_channel4EnableCheck (E : Env) (s : Core) :
  audioView (channel4EnableCheck E s) = audioView s.
Proof. cbv beta delta [channel4EnableCheck]. frame audioView. Qed.
#[local] Hint Resolve audioView_channel4EnableCheck : audio_frame.

Lemma audioView_channel4VolumeEnableCheck (E : Env) (s : Core) :
  audioView (channel4VolumeEnableCheck E s) = audioView s.
Proof. cbv beta delta [channel4VolumeEnableCheck]. frame audioView. Qed.
#[local] Hint Resolve audioView_channel4VolumeEnableCheck : audio_frame.

Lemma audioView_channel4UpdateCache (E : Env) (s : Core) :
  audioView (channel4UpdateCache E s) = audioView s.
Proof. cbv beta delta [channel4UpdateCache]. frame audioView. Qed.
#[local] Hint Resolve audioView_channel4UpdateCache : audio_frame.

Lemma audioView_clockAudioLength (E : Env) (s : Core) :
  audioView (clockAudioLength E s) = audioView s.
Proof. cbv beta delta [clockAudioLength]. frame audioView. Qed.
#[local] Hint Resolve audioView_clockAudioLength : audio_frame.

Lemma audioView_clockAudioEnvelope (E : Env) (s : Core) :
  audioView (clockAudioEnvelope E s) = audioView s.
Proof. cbv beta delta [clockAudioEnvelope]. frame audioView. Qed.
#[local] Hint Resolve audioView_clockAudioEnvelope : audio_frame.


(** A function that keeps [audioView] keeps each of its parts. *)
Lemma audioView_seqView (a b : Core) : audioView a = audioView b -> seqView a = seqView b.
Proof. unfold audioView, seqView. intros H. congruence. Qed.

Lemma audioView_chanView (a b : Core) : audioView a = audioView b -> chanView a = chanView b.
Proof. unfold audioView, chanView. intros H. congruence. Qed.

Lemma seqView_genFrame (a b : Core) : seqView a = seqView b -> genFrame a = genFrame b.
Proof. unfold seqView. intros H. congruence. Qed.

Lemma seqView_eventCounters (a b : Core) :
  seqView a = seqView b -> eventCounters a = eventCounters b.
Proof. unfold seqView. intros H. congruence. Qed.

Lemma chanView_genFrame (a b : Core) : chanView a = chanView b -> genFrame a = genFrame b.
Proof. unfold chanView. intros H. congruence. Qed.

Lemma chanView_sweepRegs (a b : Core) : chanView a = chanView b -> sweepRegs a = sweepRegs b.
Proof. unfold chanView. intros H. congruence. Qed.

#[local] Hint Resolve audioView_seqView audioView_chanView : audio_frame.

(** The sweep unit and the sequencer write neither the generator frame nor
    the event counters; the channel clocks write neither the generator
    frame nor the sweep registers. *)
Lemma seqView_runAudioSweep (E : Env) (s : Core) :
  seqView (runAudioSweep E s) = seqView s.
Proof. cbv beta delta [runAudioSweep]. frame seqView. Qed.
#[local] Hint Resolve seqView_runAudioSweep : audio_frame.

Lemma seqView_clockAudioSweep (E : Env) (s : Core) :
  seqView (clockAudioSweep E s) = seqView s.
Proof. cbv beta delta [clockAudioSweep]. frame seqView. Qed.
#[local] Hint Resolve seqView_clockAudioSweep : audio_frame.

Lemma seqView_audioComputeSequencer (E : Env) (s : Core) :
  seqView (audioComputeSequencer E s) = seqView s.
Proof. cbv beta delta [audioComputeSequencer]. frame seqView. Qed.

Lemma chanView_computeAudioChannels (E : Env) (s : Core) :
  chanView (computeAudioChannels E s) = chanView s.
Proof. cbv beta delta [computeAudioChannels]. frame chanView. Qed.


(** ** Arithmetic of the shifts on small operands *)

Lemma shr_nonneg_le (x n : Z) : 0 <= x < 2 ^ 31 -> 0 <= shr x n <= x.
Proof.
  intros Hx. unfold shr. rewrite toInt32_small by lia.
  assert (Hk : 0 <= Z.land n 31) by (apply Z.land_nonneg; right; lia).
  rewrite Z.shiftr_div_pow2 by exact Hk.
  assert (Hp : 0 < 2 ^ Z.land n 31) by (apply Z.pow_pos_nonneg; lia).
  split.
  - apply Z.div_pos; lia.
  - apply Z.div_le_upper_bound; nia.
Qed.

Lemma shl_2_small (x : Z) : 0 <= x <= 0x800 -> shl x 2 = 4 * x.
Proof.
  intros Hx. unfold shl. rewrite (toInt32_small x) by lia.
  change (Z.land 2 31) with 2. rewrite Z.shiftl_mul_pow2 by lia.
  rewrite toInt32_small by lia. lia.
Qed.

Lemma band_7ff_range (x : Z) : 0 <= band x 0x7ff <= 0x7ff.
Proof.
  change 0x7ff with (Z.ones 11). pose proof (band_ones_range x 11 ltac:(lia)) as H.
  change (2 ^ 11) with 2048 in H. change (Z.ones 11) with 2047 in *. lia.
Qed.

(** ** The sweep unit keeps its registers well formed *)

Lemma sweepInv_of_regs (a b : Core) : sweepRegs a = sweepRegs b -> sweepInv b -> sweepInv a.
Proof.
  unfold sweepRegs, sweepInv. intros H. injection H as H1 H2 H3 H4.
  rewrite H1, H2, H3. tauto.
Qed.

Lemma audioView_sweepRegs (a b : Core) : audioView a = audioView b -> sweepRegs a = sweepRegs b.
Proof. unfold audioView. intros H. congruence. Qed.

#[local] Hint Resolve audioView_sweepRegs : audio_frame.

Lemma sweepRegs_memory_and (a m : Z) (s : Core) :
  sweepRegs (memory_and a m s) = sweepRegs s.
Proof. reflexivity. Qed.

Lemma sweepRegs_faulted (E : Env) (s : Core) :
  sweepRegs (memory_and 0xff26 0xfe (channel1EnableCheck E (set_channel1SweepFault true s)))
  = (channel1FrequencyTracker s, channel1ShadowFrequency s, true, channel1Swept s).
Proof.
  rewrite sweepRegs_memory_and.
  rewrite (audioView_sweepRegs _ _ (audioView_channel1EnableCheck E _)).
  reflexivity.
Qed.

(** Reading a field of an updated state: [p (set_f v t)] is [v] when [p]
    is the field [f] and [p t] otherwise. *)
Ltac field_step :=
  match goal with
  | |- context [?p (?st ?v ?t)] =>
      is_const p; is_const st;
      lazymatch type of t with Core => idtac end;
      lazymatch type of (p t) with Core => fail | _ => idtac end;
      let T := type of v in
      first
        [ let H := fresh "Hfield" in
          assert (H : forall (v' : T) (t' : Core), p (st v' t') = p t')
            by (intros; reflexivity);
          rewrite !H; clear H
        | let H := fresh "Hfield" in
          assert (H : forall (v' : T) (t' : Core), p (st v' t') = v')
            by (intros; reflexivity);
          rewrite !H; clear H ]
  end.

Ltac fields := repeat field_step.

Lemma pair_eq_inv {A B : Type} (a a' : A) (b b' : B) :
  (a, b) = (a', b') -> a = a' /\ b = b'.
Proof. intros H. injection H. auto. Qed.

(** Splits an equation between tuples into the equations of the components. *)
Ltac tuple_eq H :=
  lazymatch type of H with
  | (_, _) = (_, _) =>
      let H1 := fresh H in
      let H2 := fresh H in
      apply pair_eq_inv in H; destruct H as [H1 H2]; tuple_eq H1; tuple_eq H2
  | _ => idtac
  end.

Lemma sweep_faulted (E : Env) (t : Core) :
  let r := memory_and 0xff26 0xfe (channel1EnableCheck E (set_channel1SweepFault true t)) in
  (0 < channel1FrequencyTracker t -> 0 <= channel1ShadowFrequency t <= 0xffe -> sweepInv r)
  /\ channel1Swept r = channel1Swept t.
Proof.
  intros r. pose proof (sweepRegs_faulted E t) as H. fold r in H.
  unfold sweepRegs in H. tuple_eq H.
  split; [| assumption].
  intros Ht Hs. unfold sweepInv.
  repeat match goal with Heq : _ r = _ |- _ => rewrite Heq; clear Heq end.
  split; [exact Ht | split; [exact Hs | discriminate]].
Qed.

Lemma runAudioSweep_sweep (E : Env) (s : Core) :
  (sweepInv s -> channel1SweepFault s = false -> sweepInv (runAudioSweep E s))
  /\ (channel1Swept s = true -> channel1Swept (runAudioSweep E s) = true).
Proof.
  assert (Hshr : sweepInv s -> channel1SweepFault s = false ->
                 0 < channel1FrequencyTracker s
                 /\ 0 <= channel1ShadowFrequency s <= 0x7ff
                 /\ 0 <= shr (channel1ShadowFrequency s) (channel1frequencySweepDivider s)
                    <= channel1ShadowFrequency s).
  { intros (Ht & Hs & Hf) Hnf. specialize (Hf Hnf).
    pose proof (shr_nonneg_le (channel1ShadowFrequency s)
                  (channel1frequencySweepDivider s) ltac:(lia)). lia. }
  unfold runAudioSweep.
  destruct (0 <? channel1lastTimeSweep s); [| auto].
  destruct (0 <? channel1frequencySweepDivider s).
  - cbv zeta. fields.
    set (d := shr (channel1ShadowFrequency s) (channel1frequencySweepDivider s)) in *.
    destruct (channel1decreaseSweep s).
    + split; [| intros _; fields; reflexivity].
      intros Hinv Hnf. destruct (Hshr Hinv Hnf) as (Ht & Hs & Hd).
      unfold sweepInv. fields.
      pose proof (band_7ff_range (channel1ShadowFrequency s - d)) as Hb.
      rewrite shl_2_small by lia. repeat split; lia.
    + destruct (Z.leb_spec (channel1ShadowFrequency s + d) 0x7ff) as [Hle | Hgt].
      * match goal with |- context [if ?c then _ else _] => destruct c end.
        -- match goal with
           | |- context [memory_and _ _ (channel1EnableCheck E (set_channel1SweepFault true ?t))] =>
               destruct (sweep_faulted E t) as [Hinv Hsw]
           end.
           cbv zeta in Hinv, Hsw. rewrite Hsw. fields.
           split; [| reflexivity].
           intros Hinv0 Hnf. destruct (Hshr Hinv0 Hnf) as (Ht & Hs & Hd).
           apply Hinv; fields; [rewrite shl_2_small by lia; lia | lia].
        -- split; [| intros _; fields; reflexivity].
           intros Hinv Hnf. destruct (Hshr Hinv Hnf) as (Ht & Hs & Hd).
           unfold sweepInv. fields. rewrite shl_2_small by lia.
           repeat split; lia.
      * match goal with
        | |- context [memory_and _ _ (channel1EnableCheck E (set_channel1SweepFault true ?t))] =>
            destruct (sweep_faulted E t) as [Hinv Hsw]
        end.
        cbv zeta in Hinv, Hsw. rewrite Hsw. fields.
        split; [| reflexivity].
        intros Hinv0 Hnf. destruct (Hshr Hinv0 Hnf) as (Ht & Hs & Hd).
        apply Hinv; fields; lia.
  - (* the sweep is disabled and the timer acts as a length counter *)
    assert (Heq : sweepRegs (channel1EnableCheck E (set_channel1SweepFault true s))
                  = (channel1FrequencyTracker s, channel1ShadowFrequency s, true,
                     channel1Swept s)).
    { rewrite (audioView_sweepRegs _ _ (audioView_channel1EnableCheck E _)). reflexivity. }
    unfold sweepRegs in Heq. tuple_eq Heq.
    unfold sweepInv.
    repeat match goal with Heq' : _ (channel1EnableCheck E _) = _ |- _ =>
             rewrite Heq'; clear Heq' end.
    split; [| auto].
    intros (Ht & Hs & Hf) _. repeat split; try lia; discriminate.
Qed.

Lemma sweepKept_refl (s : Core) : sweepKept s s.
Proof. split; auto. Qed.

Lemma sweepKept_trans (a b c : Core) : sweepKept a b -> sweepKept b c -> sweepKept a c.
Proof. unfold sweepKept. tauto. Qed.

Lemma sweepKept_of_regs (a b : Core) : sweepRegs b = sweepRegs a -> sweepKept a b.
Proof.
  intros H. split.
  - apply sweepInv_of_regs. exact H.
  - unfold sweepRegs in H. tuple_eq H. congruence.
Qed.

Lemma clockAudioSweep_sweepKept (E : Env) (s : Core) : sweepKept s (clockAudioSweep E s).
Proof.
  unfold clockAudioSweep.
  destruct (channel1SweepFault s) eqn:Hf; cbn [negb andb]; [apply sweepKept_refl |].
  destruct (0 <? channel1timeSweep s); [| apply sweepKept_refl].
  cbv zeta. fields.
  destruct (channel1timeSweep s - 1 =? 0).
  - destruct (runAudioSweep_sweep E (set_channel1timeSweep (channel1timeSweep s - 1) s))
      as [Hinv Hsw].
    split.
    + intros H. apply Hinv; [unfold sweepInv; fields; exact H | fields; exact Hf].
    + intros H. apply Hsw. fields. exact H.
  - apply sweepKept_of_regs. reflexivity.
Qed.

Lemma sweepKept_of_audioView (a b : Core) : audioView b = audioView a -> sweepKept a b.
Proof. intros H. apply sweepKept_of_regs. apply audioView_sweepRegs. exact H. Qed.

Lemma audioComputeSequencer_sweepKept (E : Env) (s : Core) :
  sweepKept s (audioComputeSequencer E s).
Proof.
  unfold audioComputeSequencer. cbv zeta. fields.
  set (s0 := set_sequencePosition (sequencePosition s + 1) s).
  assert (H0 : sweepKept s s0) by (apply sweepKept_of_regs; reflexivity).
  assert (Hlen : sweepKept s (clockAudioLength E s0)).
  { eapply sweepKept_trans; [exact H0 |].
    apply sweepKept_of_audioView, audioView_clockAudioLength. }
  assert (Hsweep : sweepKept s (clockAudioSweep E (clockAudioLength E s0))).
  { eapply sweepKept_trans; [exact Hlen | apply clockAudioSweep_sweepKept]. }
  clearbody s0.
  destruct (sequencePosition s =? 0); [exact Hlen |].
  destruct (sequencePosition s =? 2); [exact Hsweep |].
  destruct (sequencePosition s =? 4); [exact Hlen |].
  destruct (sequencePosition s =? 6); [exact Hsweep |].
  destruct (sequencePosition s =? 7); [| exact H0].
  eapply sweepKept_trans; [exact H0 |].
  eapply sweepKept_trans;
    [apply sweepKept_of_audioView, audioView_clockAudioEnvelope |].
  apply sweepKept_of_regs. fields. reflexivity.
Qed.

(** ** The channel clocks *)

Lemma audioView_channelClocks (a b : Core) :
  audioView a = audioView b -> channelClocks a = channelClocks b.
Proof.
  unfold audioView, genFrame, sweepRegs, eventCounters, channelClocks. intros H.
  tuple_eq H. congruence.
Qed.

#[local] Hint Resolve audioView_channelClocks : audio_frame.

(** Moves a [let] at the head of the argument of the goal to the goal. *)
Ltac float_let :=
  lazymatch goal with
  | |- ?Q (let x := ?v in @?b x) => change (let x := v in Q (b x)); cbv beta
  end.

Ltac stage_clocks :=
  cbv zeta;
  repeat match goal with |- context [if ?c then _ else _] => destruct c end;
  repeat (frame_peel channelClocks);
  unfold channelClocks; fields; reflexivity.

(** After the channel clocks have run, every channel counter is positive,
    and the distance to the next event is the smallest of the four. *)
Lemma computeAudioChannels_clocks (E : Env) (s : Core) :
  channelsWF s ->
  let r := computeAudioChannels E s in
  audioClocksUntilNextEvent r
  = Z.min (Z.min (channel1FrequencyCounter r) (channel2FrequencyCounter r))
          (Z.min (channel3Counter r) (channel4Counter r))
  /\ audioClocksUntilNextEventCounter r = audioClocksUntilNextEvent r
  /\ 0 < channel1FrequencyCounter r /\ 0 < channel2FrequencyCounter r
  /\ 0 < channel3Counter r /\ 0 < channel4Counter r.
Proof.
  intros (Hc1 & Hc2 & Hc3 & Hc4 & Ht2 & Hp3 & Hp4 & Ht1 & _) r. subst r.
  pose (Q := fun r : Core =>
    audioClocksUntilNextEvent r
    = Z.min (Z.min (channel1FrequencyCounter r) (channel2FrequencyCounter r))
            (Z.min (channel3Counter r) (channel4Counter r))
    /\ audioClocksUntilNextEventCounter r = audioClocksUntilNextEvent r
    /\ 0 < channel1FrequencyCounter r /\ 0 < channel2FrequencyCounter r
    /\ 0 < channel3Counter r /\ 0 < channel4Counter r).
  change (Q (computeAudioChannels E s)).
  cbv beta delta [computeAudioChannels].
  float_let; intro e. float_let; intro s1. float_let; intro s2.
  float_let; intro s3. float_let; intro s4.
  assert (H4 : channelClocks s4
               = (channel1FrequencyCounter s - e, channel2FrequencyCounter s - e,
                  channel3Counter s - e, channel4Counter s - e,
                  channel1FrequencyTracker s, channel2FrequencyTracker s,
                  channel3FrequencyPeriod s, channel4FrequencyPeriod s))
    by reflexivity.
  clearbody s4. clear s1 s2 s3.
  float_let; intro s5.
  assert (H5 : channelClocks s5
               = (if channel1FrequencyCounter s4 =? 0
                  then channel1FrequencyTracker s4 else channel1FrequencyCounter s4,
                  channel2FrequencyCounter s4, channel3Counter s4, channel4Counter s4,
                  channel1FrequencyTracker s4, channel2FrequencyTracker s4,
                  channel3FrequencyPeriod s4, channel4FrequencyPeriod s4)).
  { subst s5. destruct (channel1FrequencyCounter s4 =? 0); stage_clocks. }
  clearbody s5.
  float_let; intro s6.
  assert (H6 : channelClocks s6
               = (channel1FrequencyCounter s5,
                  if channel2FrequencyCounter s5 =? 0
                  then channel2FrequencyTracker s5 else channel2FrequencyCounter s5,
                  channel3Counter s5, channel4Counter s5,
                  channel1FrequencyTracker s5, channel2FrequencyTracker s5,
                  channel3FrequencyPeriod s5, channel4FrequencyPeriod s5)).
  { subst s6. destruct (channel2FrequencyCounter s5 =? 0); stage_clocks. }
  clearbody s6.
  float_let; intro s7.
  assert (H7 : channelClocks s7
               = (channel1FrequencyCounter s6, channel2FrequencyCounter s6,
                  if channel3Counter s6 =? 0
                  then channel3FrequencyPeriod s6 else channel3Counter s6,
                  channel4Counter s6,
                  channel1FrequencyTracker s6, channel2FrequencyTracker s6,
                  channel3FrequencyPeriod s6, channel4FrequencyPeriod s6)).
  { subst s7. destruct (channel3Counter s6 =? 0); stage_clocks. }
  clearbody s7.
  float_let; intro s8.
  assert (H8 : channelClocks s8
               = (channel1FrequencyCounter s7, channel2FrequencyCounter s7,
                  channel3Counter s7,
                  if channel4Counter s7 =? 0
                  then channel4FrequencyPeriod s7 else channel4Counter s7,
                  channel1FrequencyTracker s7, channel2FrequencyTracker s7,
                  channel3FrequencyPeriod s7, channel4FrequencyPeriod s7)).
  { subst s8. destruct (channel4Counter s7 =? 0); stage_clocks. }
  clearbody s8.
  float_let; intro m. subst Q. cbv beta. fields.
  unfold channelClocks in H4, H5, H6, H7, H8.
  tuple_eq H4. tuple_eq H5. tuple_eq H6. tuple_eq H7. tuple_eq H8.
  subst e.
  repeat match goal with
         | H : context [if ?a =? 0 then _ else _] |- _ => destruct (Z.eqb_spec a 0)
         end;
    subst m; lia.
Qed.

(** ** The generator loops *)

Lemma genFrame_resamplerView (a b : Core) :
  genFrame a = genFrame b -> resamplerView a = resamplerView b.
Proof. unfold genFrame, resamplerView. intros H. tuple_eq H. congruence. Qed.

Lemma channelsWF_of_views (a b : Core) :
  eventCounters a = eventCounters b ->
  (channel2FrequencyTracker a, channel3FrequencyPeriod a, channel4FrequencyPeriod a)
  = (channel2FrequencyTracker b, channel3FrequencyPeriod b, channel4FrequencyPeriod b) ->
  (sweepInv b -> sweepInv a) ->
  channelsWF b -> channelsWF a.
Proof.
  unfold eventCounters, channelsWF. intros He Hg Hs.
  tuple_eq He. tuple_eq Hg.
  intros (H1 & H2 & H3 & H4 & H5 & H6 & H7 & H8).
  do 7 (split; [lia |]). apply Hs, H8.
Qed.

(** The frame sequencer, when its clock has run out: the clock is reloaded,
    the channel clocks stay well formed, and neither the event counter nor
    the resampler is touched. *)
Lemma sequencerTick_spec (E : Env) (s : Core) :
  (0 <= sequencerClocks s -> 0 < sequencerClocks (sequencerTick E s))
  /\ (channelsWF s -> channelsWF (sequencerTick E s))
  /\ audioClocksUntilNextEventCounter (sequencerTick E s)
     = audioClocksUntilNextEventCounter s
  /\ resamplerView (sequencerTick E s) = resamplerView s
  /\ (channel1Swept s = true -> channel1Swept (sequencerTick E s) = true).
Proof.
  unfold sequencerTick.
  destruct (Z.eqb_spec (sequencerClocks s) 0) as [H0 | Hne].
  - pose proof (seqView_audioComputeSequencer E s) as Hv.
    pose proof (audioComputeSequencer_sweepKept E s) as [Hinv Hsw].
    set (t := audioComputeSequencer E s) in *. clearbody t.
    unfold seqView in Hv. tuple_eq Hv.
    split; [intros _; fields; lia |].
    split; [| split; [| split]].
    + intros Hwf. apply (channelsWF_of_views _ s).
      * rewrite <- Hv1. unfold eventCounters. fields. reflexivity.
      * unfold genFrame in Hv0. tuple_eq Hv0. fields. congruence.
      * intros H. unfold sweepInv. fields. apply Hinv, H.
      * exact Hwf.
    + fields. unfold eventCounters in Hv1. tuple_eq Hv1. assumption.
    + unfold genFrame in Hv0. tuple_eq Hv0. unfold resamplerView. fields. congruence.
    + fields. exact Hsw.
  - split; [intros; lia |]. repeat (split; [solve [auto] |]). auto.
Qed.

(** The channel clocks, when the event counter has run out: the counter is
    reloaded with a positive distance, the channel clocks stay well formed,
    and neither the sequencer clock, the sweep registers nor the resampler
    is touched. *)
Lemma channelTick_spec (E : Env) (s : Core) :
  channelsWF s -> 0 <= audioClocksUntilNextEventCounter s ->
  0 < audioClocksUntilNextEventCounter (channelTick E s)
  /\ channelsWF (channelTick E s)
  /\ sequencerClocks (channelTick E s) = sequencerClocks s
  /\ resamplerView (channelTick E s) = resamplerView s
  /\ channel1Swept (channelTick E s) = channel1Swept s.
Proof.
  intros Hwf Hec. unfold channelTick.
  destruct (Z.eqb_spec (audioClocksUntilNextEventCounter s) 0) as [H0 | Hne].
  - pose proof (chanView_computeAudioChannels E s) as Hv.
    pose proof (computeAudioChannels_clocks E s Hwf) as Hc. cbv zeta in Hc.
    set (t := computeAudioChannels E s) in *. clearbody t.
    destruct Hc as (Hmin & Heq & Hp1 & Hp2 & Hp3 & Hp4).
    unfold chanView, genFrame, sweepRegs in Hv. tuple_eq Hv.
    destruct Hwf as (_ & _ & _ & _ & Ht2 & Hq3 & Hq4 & Hinv).
    split; [lia |]. split; [| split; [assumption | split; [| assumption]]].
    + unfold channelsWF. do 4 (split; [lia |]). do 3 (split; [lia |]).
      unfold sweepInv in *. 
      repeat match goal with Heq' : _ t = _ |- _ => rewrite Heq'; clear Heq' end.
      exact Hinv.
    + unfold resamplerView. congruence.
  - split; [lia |]. repeat (split; [solve [auto] |]). auto.
Qed.

(** The inner loop of [generateAudio] moves the resampler index by the
    number of clocks and emits one stereo pair each time the index wraps;
    it touches nothing but the four fields of the output stage. *)
Lemma resampleClocks_spec (fuel : nat) :
  forall (n : Z) (s : Core),
    0 <= audioIndex s < audioResamplerFirstPassFactor s ->
    n < Z.of_nat fuel ->
    exists i d p a,
      resampleClocks fuel n s = Some (withAudioOutput i d p a s)
      /\ i = (audioIndex s + Z.max 0 n) mod audioResamplerFirstPassFactor s
      /\ stereoCount a
         = stereoCount (audioOut s)
           + (audioIndex s + Z.max 0 n) / audioResamplerFirstPassFactor s.
Proof.
  induction fuel as [| fuel IH]; intros n s Hi Hn.
  - exists (audioIndex s), (downsampleInput s), (audioDestinationPosition s), (audioOut s).
    rewrite withAudioOutput_id. cbn [resampleClocks].
    rewrite (proj2 (Z.ltb_ge 0 n)) by lia.
    rewrite Z.max_l by lia. rewrite Z.add_0_r.
    rewrite Z.mod_small, Z.div_small by lia. repeat split; lia.
  - cbn [resampleClocks].
    destruct (Z.ltb_spec 0 n) as [Hpos | Hle].
    + set (m := Z.min n (audioResamplerFirstPassFactor s - audioIndex s)).
      cbv zeta. fields.
      set (d0 := downsampleInput s + mixerOutputCache s * m).
      destruct (Z.eqb_spec (audioIndex s + m) (audioResamplerFirstPassFactor s))
        as [Heq | Hne].
      * destruct (outputAudio_withAudioOutput
                    (set_audioIndex 0
                       (set_downsampleInput d0 (set_audioIndex (audioIndex s + m) s))))
          as (p & a & Hout & Hcnt).
        rewrite Hout.
        change (withAudioOutput
                  (audioIndex
                     (set_audioIndex 0
                        (set_downsampleInput d0 (set_audioIndex (audioIndex s + m) s))))
                  0 p a
                  (set_audioIndex 0
                     (set_downsampleInput d0 (set_audioIndex (audioIndex s + m) s))))
          with (withAudioOutput 0 0 p a s).
        change (audioOut
                  (set_audioIndex 0
                     (set_downsampleInput d0 (set_audioIndex (audioIndex s + m) s))))
          with (audioOut s) in Hcnt.
        destruct (IH (n - m) (withAudioOutput 0 0 p a s))
          as (i' & d' & p' & a' & Hrun & Hi' & Ha').
        { cbn. lia. }
        { subst m. lia. }
        exists i', d', p', a'. split; [exact Hrun |].
        cbn in Hi', Ha'.
        destruct (div_mod_one_period (audioIndex s + Z.max 0 n) (Z.max 0 (n - m))
                    (audioResamplerFirstPassFactor s)) as [Hd Hm]; [lia | subst m; lia |].
        rewrite Hd, Hm. rewrite Z.add_0_l in Hi', Ha'. split; [exact Hi' | lia].
      * assert (Hm : m = n) by (subst m; lia).
        rewrite Hm in *. rewrite Z.sub_diag.
        exists (audioIndex s + n), d0, (audioDestinationPosition s), (audioOut s).
        split; [destruct fuel; reflexivity |].
        rewrite Z.max_r by lia.
        rewrite Z.mod_small, Z.div_small by lia. split; lia.
    + exists (audioIndex s), (downsampleInput s), (audioDestinationPosition s), (audioOut s).
      rewrite withAudioOutput_id.
      rewrite Z.max_l by lia. rewrite Z.add_0_r.
      rewrite Z.mod_small, Z.div_small by lia. repeat split; lia.
Qed.

(** One round of the audible loop, with the two conditionals at its end
    named. *)
Lemma generateAudioLoop_round (E : Env) (rounds fuel : nat) (n : Z) (s : Core) :
  0 < n ->
  generateAudioLoop E rounds (S fuel) n s
  = let k := Z.min (Z.min (audioClocksUntilNextEventCounter s) (sequencerClocks s)) n in
    let? s3 := resampleClocks rounds k
                 (set_sequencerClocks (sequencerClocks s - k)
                    (set_audioClocksUntilNextEventCounter
                       (audioClocksUntilNextEventCounter s - k) s)) in
    generateAudioLoop E rounds fuel (n - k) (channelTick E (sequencerTick E s3)).
Proof.
  intros Hn. cbn [generateAudioLoop]. rewrite (proj2 (Z.ltb_lt 0 n) Hn). reflexivity.
Qed.

Lemma generateAudioFakeLoop_round (E : Env) (fuel : nat) (n : Z) (s : Core) :
  0 < n ->
  generateAudioFakeLoop E (S fuel) n s
  = let k := Z.min (Z.min (audioClocksUntilNextEventCounter s) (sequencerClocks s)) n in
    generateAudioFakeLoop E fuel (n - k)
      (channelTick E
         (sequencerTick E
            (set_sequencerClocks (sequencerClocks s - k)
               (set_audioClocksUntilNextEventCounter
                  (audioClocksUntilNextEventCounter s - k) s)))).
Proof.
  intros Hn. cbn [generateAudioFakeLoop]. rewrite (proj2 (Z.ltb_lt 0 n) Hn). reflexivity.
Qed.

(** What a round's two conditionals do to a state in which the clocks have
    been advanced. *)
Lemma ticks_spec (E : Env) (s : Core) :
  audioMid s ->
  let t := channelTick E (sequencerTick E s) in
  0 < audioClocksUntilNextEventCounter t
  /\ 0 < sequencerClocks t
  /\ channelsWF t
  /\ resamplerView t = resamplerView s
  /\ (channel1Swept s = true -> channel1Swept t = true).
Proof.
  intros (Hec & Hsc & Hwf) t. subst t.
  destruct (sequencerTick_spec E s) as (Hs1 & Hs2 & Hs3 & Hs4 & Hs5).
  set (u := sequencerTick E s) in *. clearbody u.
  destruct (channelTick_spec E u (Hs2 Hwf) ltac:(lia)) as (Hc1 & Hc2 & Hc3 & Hc4 & Hc5).
  set (t := channelTick E u) in *. clearbody t.
  split; [exact Hc1 |]. split; [specialize (Hs1 Hsc); lia |]. split; [exact Hc2 |].
  split; [congruence |]. intros H. rewrite Hc5. apply Hs5, H.
Qed.

Lemma clocksResampled_of_view (a b : Core) :
  resamplerView a = resamplerView b -> clocksResampled a = clocksResampled b.
Proof.
  unfold resamplerView, clocksResampled. intros H. tuple_eq H. congruence.
Qed.

(** The audible loop terminates within [n] rounds from a well-formed
    state, in a well-formed state, having fed exactly [n] clocks to the
    resampler; the sweep direction is not touched, and a sweep that has
    happened stays recorded. *)
Lemma generateAudioLoop_spec (E : Env) (rounds fuel : nat) :
  forall (n : Z) (s : Core),
    audioWF s -> n < Z.of_nat fuel -> n < Z.of_nat rounds ->
    exists s',
      generateAudioLoop E rounds fuel n s = Some s'
      /\ audioWF s'
      /\ audioResamplerFirstPassFactor s' = audioResamplerFirstPassFactor s
      /\ channel1decreaseSweep s' = channel1decreaseSweep s
      /\ (channel1Swept s = true -> channel1Swept s' = true)
      /\ clocksResampled s' = clocksResampled s + Z.max 0 n.
Proof.
  induction fuel as [| fuel IH]; intros n s Hwf Hn Hr.
  - exists s. cbn [generateAudioLoop]. rewrite (proj2 (Z.ltb_ge 0 n)) by lia.
    rewrite Z.max_l by lia.
    split; [reflexivity |]. split; [exact Hwf |]. split; [reflexivity |].
    split; [reflexivity |]. split; [auto | lia].
  - destruct (Z.ltb_spec 0 n) as [Hpos | Hle].
    + rewrite generateAudioLoop_round by exact Hpos. cbv zeta.
      destruct Hwf as (Hidx & Hec & Hsc & Hch).
      set (k := Z.min (Z.min (audioClocksUntilNextEventCounter s) (sequencerClocks s)) n).
      assert (Hk : 0 < k <= n) by (subst k; lia).
      set (s2 := set_sequencerClocks (sequencerClocks s - k)
                   (set_audioClocksUntilNextEventCounter
                      (audioClocksUntilNextEventCounter s - k) s)).
      destruct (resampleClocks_spec rounds k s2) as (i & d & p & a & Hrun & Hi & Ha);
        [exact Hidx | lia |].
      rewrite Hrun.
      change (audioIndex s2) with (audioIndex s) in Hi, Ha.
      change (audioResamplerFirstPassFactor s2)
        with (audioResamplerFirstPassFactor s) in Hi, Ha.
      change (audioOut s2) with (audioOut s) in Ha.
      set (s3 := withAudioOutput i d p a s2).
      assert (Hmid : audioMid s3).
      { unfold audioMid, s3, s2, withAudioOutput. fields.
        split; [subst k; lia |]. split; [subst k; lia |].
        unfold channelsWF, sweepInv in *. fields. exact Hch. }
      assert (Hv3 : resamplerView s3
                    = (audioResamplerFirstPassFactor s, i, a, channel1decreaseSweep s))
        by reflexivity.
      assert (Hsw3 : channel1Swept s3 = channel1Swept s) by reflexivity.
      clearbody s3. clear Hrun.
      destruct (ticks_spec E s3 Hmid) as (Ht1 & Ht2 & Ht3 & Ht4 & Ht5).
      set (s5 := channelTick E (sequencerTick E s3)) in *. clearbody s5.
      rewrite Hv3 in Ht4. unfold resamplerView in Ht4. tuple_eq Ht4.
      assert (Hfpos : 0 < audioResamplerFirstPassFactor s) by lia.
      assert (Hirange : 0 <= i < audioResamplerFirstPassFactor s)
        by (subst i; apply Z.mod_pos_bound; exact Hfpos).
      destruct (IH (n - k) s5) as (s' & Hloop & Hwf' & Hf' & Hd' & Hs' & Hcl');
        [ | lia | lia | ].
      { unfold audioWF. split; [lia |]. auto. }
      exists s'. split; [exact Hloop |]. split; [exact Hwf' |].
      split; [congruence |]. split; [congruence |].
      split; [intros H; apply Hs', Ht5; congruence |].
      rewrite Hcl'. unfold clocksResampled.
      repeat match goal with Heq : _ s5 = _ |- _ => rewrite Heq; clear Heq end.
      rewrite Ha, Hi.
      pose proof (Z.div_mod (audioIndex s + Z.max 0 k) (audioResamplerFirstPassFactor s)
                    ltac:(lia)) as Hdm.
      nia.
    + exists s. cbn [generateAudioLoop]. rewrite (proj2 (Z.ltb_ge 0 n)) by lia.
      rewrite Z.max_l by lia.
    split; [reflexivity |]. split; [exact Hwf |]. split; [reflexivity |].
    split; [reflexivity |]. split; [auto | lia].
Qed.

(** The loop of [generateAudioFake] terminates likewise, and leaves the
    resampler alone. *)
Lemma generateAudioFakeLoop_spec (E : Env) (fuel : nat) :
  forall (n : Z) (s : Core),
    audioWF s -> n < Z.of_nat fuel ->
    exists s',
      generateAudioFakeLoop E fuel n s = Some s'
      /\ audioWF s'
      /\ resamplerView s' = resamplerView s
      /\ (channel1Swept s = true -> channel1Swept s' = true).
Proof.
  induction fuel as [| fuel IH]; intros n s Hwf Hn.
  - exists s. cbn [generateAudioFakeLoop]. rewrite (proj2 (Z.ltb_ge 0 n)) by lia.
    auto.
  - destruct (Z.ltb_spec 0 n) as [Hpos | Hle].
    + rewrite generateAudioFakeLoop_round by exact Hpos. cbv zeta.
      destruct Hwf as (Hidx & Hec & Hsc & Hch).
      set (k := Z.min (Z.min (audioClocksUntilNextEventCounter s) (sequencerClocks s)) n).
      assert (Hk : 0 < k <= n) by (subst k; lia).
      set (s2 := set_sequencerClocks (sequencerClocks s - k)
                   (set_audioClocksUntilNextEventCounter
                      (audioClocksUntilNextEventCounter s - k) s)).
      assert (Hmid : audioMid s2).
      { unfold audioMid, s2. fields.
        split; [subst k; lia |]. split; [subst k; lia |].
        unfold channelsWF, sweepInv in *. fields. exact Hch. }
      assert (Hv2 : resamplerView s2 = resamplerView s) by reflexivity.
      assert (Hsw2 : channel1Swept s2 = channel1Swept s) by reflexivity.
      clearbody s2.
      destruct (ticks_spec E s2 Hmid) as (Ht1 & Ht2 & Ht3 & Ht4 & Ht5).
      set (s5 := channelTick E (sequencerTick E s2)) in *. clearbody s5.
      rewrite Hv2 in Ht4.
      destruct (IH (n - k) s5) as (s' & Hloop & Hwf' & Hv' & Hs'); [ | lia | ].
      { unfold audioWF. split; [| auto].
        unfold resamplerView in Ht4. tuple_eq Ht4. lia. }
      exists s'. split; [exact Hloop |]. split; [exact Hwf' |].
      split; [congruence |].
      intros H. apply Hs', Ht5. congruence.
    + exists s. cbn [generateAudioFakeLoop]. rewrite (proj2 (Z.ltb_ge 0 n)) by lia.
      auto.
Qed.

Lemma clocksResampled_unique (f c i c' i' : Z) :
  0 <= i' < f -> c' * f + i' = c * f + i ->
  c' = c + i / f /\ i' = i mod f.
Proof.
  intros Hi H.
  assert (Hdm : i = f * (c' - c) + i') by lia.
  split.
  - rewrite <- (Z.div_unique_pos i f (c' - c) i' Hi Hdm). lia.
  - apply (Z.mod_unique_pos i f (c' - c) i' Hi Hdm).
Qed.

(** ** The mixer caches write nothing but the cached sample levels *)

Lemma caches_mixerOutputLevelCache (s : Core) :
  withoutSampleCaches (mixerOutputLevelCache s) = withoutSampleCaches s.
Proof. cbv beta delta [mixerOutputLevelCache]. frame withoutSampleCaches. Qed.
#[local] Hint Resolve caches_mixerOutputLevelCache : audio_frame.

Lemma caches_channel1OutputLevelTrimaryCache (E : Env) (s : Core) :
  withoutSampleCaches (channel1OutputLevelTrimaryCache E s) = withoutSampleCaches s.
Proof. cbv beta delta [channel1OutputLevelTrimaryCache]. frame withoutSampleCaches. Qed.
#[local] Hint Resolve caches_channel1OutputLevelTrimaryCache : audio_frame.

Lemma caches_channel1OutputLevelSecondaryCache (E : Env) (s : Core) :
  withoutSampleCaches (channel1OutputLevelSecondaryCache E s) = withoutSampleCaches s.
Proof. cbv beta delta [channel1OutputLevelSecondaryCache]. frame withoutSampleCaches. Qed.
#[local] Hint Resolve caches_channel1OutputLevelSecondaryCache : audio_frame.

Lemma caches_channel1OutputLevelCache (E : Env) (s : Core) :
  withoutSampleCaches (channel1OutputLevelCache E s) = withoutSampleCaches s.
Proof. cbv beta delta [channel1OutputLevelCache]. frame withoutSampleCaches. Qed.
#[local] Hint Resolve caches_channel1OutputLevelCache : audio_frame.

Lemma caches_channel2OutputLevelTrimaryCache (E : Env) (s : Core) :
  withoutSampleCaches (channel2OutputLevelTrimaryCache E s) = withoutSampleCaches s.
Proof. cbv beta delta [channel2OutputLevelTrimaryCache]. frame withoutSampleCaches. Qed.
#[local] Hint Resolve caches_channel2OutputLevelTrimaryCache : audio_frame.

Lemma caches_channel2OutputLevelSecondaryCache (E : Env) (s : Core) :
  withoutSampleCaches (channel2OutputLevelSecondaryCache E s) = withoutSampleCaches s.
Proof. cbv beta delta [channel2OutputLevelSecondaryCache]. frame withoutSampleCaches. Qed.
#[local] Hint Resolve caches_channel2OutputLevelSecondaryCache : audio_frame.

Lemma caches_channel2OutputLevelCache (E : Env) (s : Core) :
  withoutSampleCaches (channel2OutputLevelCache E s) = withoutSampleCaches s.
Proof. cbv beta delta [channel2OutputLevelCache]. frame withoutSampleCaches. Qed.
#[local] Hint Resolve caches_channel2OutputLevelCache : audio_frame.

Lemma caches_channel3OutputLevelSecondaryCache (E : Env) (s : Core) :
  withoutSampleCaches (channel3OutputLevelSecondaryCache E s) = withoutSampleCaches s.
Proof. cbv beta delta [channel3OutputLevelSecondaryCache]. frame withoutSampleCaches. Qed.
#[local] Hint Resolve caches_channel3OutputLevelSecondaryCache : audio_frame.

Lemma caches_channel3OutputLevelCache (E : Env) (s : Core) :
  withoutSampleCaches (channel3OutputLevelCache E s) = withoutSampleCaches s.
Proof. cbv beta delta [channel3OutputLevelCache]. frame withoutSampleCaches. Qed.
#[local] Hint Resolve caches_channel3OutputLevelCache : audio_frame.

Lemma caches_channel3UpdateCache (E : Env) (s : Core) :
  withoutSampleCaches (channel3UpdateCache E s) = withoutSampleCaches s.
Proof. cbv beta delta [channel3UpdateCache]. frame withoutSampleCaches. Qed.
#[local] Hint Resolve caches_channel3UpdateCache : audio_frame.

Lemma caches_channel4OutputLevelSecondaryCache (E : Env) (s : Core) :
  withoutSampleCaches (channel4OutputLevelSecondaryCache E s) = withoutSampleCaches s.
Proof. cbv beta delta [channel4OutputLevelSecondaryCache]. frame withoutSampleCaches. Qed.
#[local] Hint Resolve caches_channel4OutputLevelSecondaryCache : audio_frame.

Lemma caches_channel4OutputLevelCache (E : Env) (s : Core) :
  withoutSampleCaches (channel4OutputLevelCache E s) = withoutSampleCaches s.
Proof. cbv beta delta [channel4OutputLevelCache]. frame withoutSampleCaches. Qed.
#[local] Hint Resolve caches_channel4OutputLevelCache : audio_frame.

Lemma caches_channel4UpdateCache (E : Env) (s : Core) :
  withoutSampleCaches (channel4UpdateCache E s) = withoutSampleCaches s.
Proof. cbv beta delta [channel4UpdateCache]. frame withoutSampleCaches. Qed.
#[local] Hint Resolve caches_channel4UpdateCache : audio_frame.

(** A field that is not a cached sample level is read off the erased state. *)
Lemma caches_field {T : Type} (p : Core -> T) :
  (forall s, p (withoutSampleCaches s) = p s) ->
  forall a b, withoutSampleCaches a = withoutSampleCaches b -> p a = p b.
Proof. intros Hp a b H. rewrite <- (Hp a), <- (Hp b), H. reflexivity. Qed.

(** The enable checks set the enable flag of their channel from the length
    counter, the sweep fault and the DAC flag, and refresh the caches. *)
Lemma channel1EnableCheck_spec (E : Env) (s : Core) :
  withoutSampleCaches (channel1EnableCheck E s)
  = withoutSampleCaches
      (set_channel1Enabled
         ((channel1consecutive s || (0 <? channel1totalLength s))
          && negb (channel1SweepFault s) && channel1canPlay s) s).
Proof. cbv beta delta [channel1EnableCheck]. frame withoutSampleCaches. Qed.

Lemma channel2EnableCheck_spec (E : Env) (s : Core) :
  withoutSampleCaches (channel2EnableCheck E s)
  = withoutSampleCaches
      (set_channel2Enabled
         ((channel2consecutive s || (0 <? channel2totalLength s))
          && channel2canPlay s) s).
Proof. cbv beta delta [channel2EnableCheck]. frame withoutSampleCaches. Qed.

Lemma channel3EnableCheck_spec (E : Env) (s : Core) :
  withoutSampleCaches (channel3EnableCheck E s)
  = withoutSampleCaches
      (set_channel3Enabled (channel3consecutive s || (0 <? channel3totalLength s)) s).
Proof. cbv beta delta [channel3EnableCheck]. frame withoutSampleCaches. Qed.

Lemma channel4EnableCheck_spec (E : Env) (s : Core) :
  withoutSampleCaches (channel4EnableCheck E s)
  = withoutSampleCaches
      (set_channel4Enabled
         ((channel4consecutive s || (0 <? channel4totalLength s))
          && channel4canPlay s) s).
Proof. cbv beta delta [channel4EnableCheck]. frame withoutSampleCaches. Qed.

(** ** Flushing the audio *)

Lemma audioWF_set_audioTicks (v : Z) (s : Core) : audioWF s -> audioWF (set_audioTicks v s).
Proof. intros H. unfold audioWF, channelsWF, sweepInv in *. fields. exact H. Qed.

Section AudioFlush.

Variable E : Env.
Variable rounds : nat.

(** From well-formed clocks [audioJIT] returns: it consumes the pending
    ticks, whichever of [generateAudio] and [generateAudioFake] the settings
    select and whether or not the unit is audible, and leaves the clocks
    well formed. *)
Lemma audioJIT_spec (s : Core) :
  audioWF s -> audioTicks s < Z.of_nat rounds ->
  exists s',
    audioJIT E rounds s = Some s'
    /\ audioTicks s' = 0
    /\ audioWF s'
    /\ audioResamplerFirstPassFactor s' = audioResamplerFirstPassFactor s
    /\ channel1decreaseSweep s' = channel1decreaseSweep s
    /\ (channel1Swept s = true -> channel1Swept s' = true).
Proof.
  intros Hwf Hfuel. unfold audioJIT, generateAudio, generateAudioFake.
  destruct (soundOn (settings E)).
  - destruct (soundMasterEnabled s && negb (CPUStopped s)).
    + destruct (generateAudioLoop_spec E rounds rounds (audioTicks s) s Hwf Hfuel Hfuel)
        as (s1 & Hrun & Hwf1 & Hf1 & Hd1 & Hs1 & _).
      rewrite Hrun. exists (set_audioTicks 0 s1).
      split; [reflexivity |]. split; [reflexivity |].
      split; [apply audioWF_set_audioTicks, Hwf1 |].
      fields. auto.
    + destruct Hwf as (Hidx & Hrest).
      destruct (silentAudioLoop_spec rounds (audioTicks s) s Hidx Hfuel)
        as (i & d & p & a & Hrun & Hi & _).
      rewrite Hrun. exists (set_audioTicks 0 (withAudioOutput i d p a s)).
      split; [reflexivity |]. split; [reflexivity |].
      split.
      { apply audioWF_set_audioTicks. unfold audioWF, channelsWF, sweepInv, withAudioOutput in *.
        fields. split; [| exact Hrest].
        subst i. apply Z.mod_pos_bound. lia. }
      unfold withAudioOutput. fields. auto.
  - destruct (soundMasterEnabled s && negb (CPUStopped s)).
    + destruct (generateAudioFakeLoop_spec E rounds (audioTicks s) s Hwf Hfuel)
        as (s1 & Hrun & Hwf1 & Hv1 & Hs1).
      rewrite Hrun. exists (set_audioTicks 0 s1).
      split; [reflexivity |]. split; [reflexivity |].
      split; [apply audioWF_set_audioTicks, Hwf1 |].
      unfold resamplerView in Hv1. tuple_eq Hv1. fields. auto.
    + exists (set_audioTicks 0 s).
      split; [reflexivity |]. split; [reflexivity |].
      split; [apply audioWF_set_audioTicks, Hwf |].
      fields. auto.
Qed.

End AudioFlush.

(** ** Sample generation *)

Section SampleCount.

Variable E : Env.
Variable rounds : nat.

(** Generating audio over [N] clocks from well-formed clocks returns, and
    emits one stereo pair for each full resampler period the [N] clocks
    complete, counted from the position [audioIndex] the resampler was at;
    the remainder is the new position.  This holds on the audible and on
    the silent path, wherever channel events and sequencer ticks fall. *)
Theorem generateAudio_emits_one_pair_per_period (N : Z) (s : Core) :
  audioWF s ->
  0 <= N < Z.of_nat rounds ->
  exists s',
    generateAudio E rounds N s = Some s'
    /\ stereoCount (audioOut s')
       = stereoCount (audioOut s)
         + (audioIndex s + N) / audioResamplerFirstPassFactor s
    /\ audioIndex s' = (audioIndex s + N) mod audioResamplerFirstPassFactor s
    /\ audioResamplerFirstPassFactor s' = audioResamplerFirstPassFactor s.
Proof.
  intros Hwf HN. unfold generateAudio.
  destruct (soundMasterEnabled s && negb (CPUStopped s)).
  - destruct (generateAudioLoop_spec E rounds rounds N s Hwf ltac:(lia) ltac:(lia))
      as (s' & Hrun & Hwf' & Hf' & _ & _ & Hcl).
    exists s'. split; [exact Hrun |].
    destruct Hwf' as (Hidx' & _). rewrite Hf' in Hidx'.
    unfold clocksResampled in Hcl. rewrite Hf' in Hcl. rewrite Z.max_r in Hcl by lia.
    destruct (clocksResampled_unique (audioResamplerFirstPassFactor s)
                (stereoCount (audioOut s)) (audioIndex s + N)
                (stereoCount (audioOut s')) (audioIndex s') Hidx' ltac:(lia))
      as [Hc Hi].
    auto.
  - destruct Hwf as (Hidx & _).
    destruct (silentAudioLoop_spec rounds N s Hidx ltac:(lia))
      as (i & d & p & a & Hrun & Hi & Ha).
    rewrite Z.max_r in Hi, Ha by lia.
    exists (withAudioOutput i d p a s). split; [exact Hrun |].
    unfold withAudioOutput. fields. auto.
Qed.

End SampleCount.

Lemma generateAudio_emits_one_pair_per_period_witness :
  exists s',
    generateAudio exampleEnv 100 10 poweredCore = Some s'
    /\ stereoCount (audioOut s')
       = stereoCount (audioOut poweredCore)
         + (audioIndex poweredCore + 10) / audioResamplerFirstPassFactor poweredCore
    /\ audioIndex s'
       = (audioIndex poweredCore + 10) mod audioResamplerFirstPassFactor poweredCore
    /\ audioResamplerFirstPassFactor s' = audioResamplerFirstPassFactor poweredCore.
Proof.
  apply (generateAudio_emits_one_pair_per_period exampleEnv 100 10 poweredCore).
  - vm_compute. repeat split; first [discriminate | reflexivity | intros _; discriminate].
  - lia.
Defined.

(** ** Writes to the sound registers *)

Section SoundRegisters.

Variable E : Env.
Variable rounds : nat.

(** A write to NR10 that clears the negate bit, made while the sweep is in
    negate mode and after a sweep calculation has taken place since the
    last trigger, faults the sweep unit: the write returns, the fault flag
    is set, channel 1 is disabled and the sweep direction is positive. *)
Theorem NR10_negate_to_positive_after_sweep_disables_channel1 (s : Core) (data : Z) :
  audioWF s ->
  audioTicks s < Z.of_nat rounds ->
  soundMasterEnabled s = true ->
  channel1decreaseSweep s = true ->
  channel1Swept s = true ->
  band data 0x08 = 0 ->
  exists s',
    memoryWrite E rounds 0xff10 data s = Some s'
    /\ channel1SweepFault s' = true
    /\ channel1Enabled s' = false
    /\ channel1decreaseSweep s' = false.
Proof.
  intros Hwf Hfuel Hon Hdec Hsw Hbit.
  destruct (audioJIT_spec E rounds s Hwf Hfuel) as (s1 & Hjit & _ & _ & _ & Hd1 & Hs1).
  change (memoryWrite E rounds 0xff10 data s) with (writeNR10 E rounds 0xff10 data s).
  unfold writeNR10. rewrite Hon, Hjit. cbv zeta.
  rewrite Hd1, Hdec, Hbit, (Hs1 Hsw). cbn [Z.eqb andb]. fields.
  eexists. split; [reflexivity |].
  match goal with
  | |- context [channel1EnableCheck E ?t] =>
      pose proof (channel1EnableCheck_spec E t) as Hspec;
      set (r := channel1EnableCheck E t) in *
  end.
  split; [| split].
  - rewrite (caches_field channel1SweepFault (fun _ => eq_refl) _ _ Hspec). reflexivity.
  - rewrite (caches_field channel1Enabled (fun _ => eq_refl) _ _ Hspec). fields.
    cbn [negb]. rewrite andb_false_r. reflexivity.
  - rewrite (caches_field channel1decreaseSweep (fun _ => eq_refl) _ _ Hspec). reflexivity.
Qed.

Lemma memoryWriter_sound (c : Cartridge) (address : Z) :
  0xff10 <= address <= 0xff25 ->
  memoryWriter E rounds c address = soundRegisterWriter E rounds address.
Proof. intros H. unfold memoryWriter. cmp. reflexivity. Qed.

(** With the master switch off every handler of the range 0xFF10..0xFF25
    returns the state it is given, but for the four length registers in
    Game Boy mode. *)
Lemma soundRegisterWriter_locked (s : Core) (address data : Z) :
  soundMasterEnabled s = false ->
  0xff10 <= address <= 0xff25 ->
  useGBCMode (cartridgeSlot s) = true
  \/ (address <> 0xff11 /\ address <> 0xff16 /\ address <> 0xff1b /\ address <> 0xff20) ->
  exists w, soundRegisterWriter E rounds address = Some w /\ w address data s = Some s.
Proof.
  intros Hoff Hrange Hmode.
  assert (Hcases : address = 0xff10 \/ address = 0xff11 \/ address = 0xff12
                   \/ address = 0xff13 \/ address = 0xff14 \/ address = 0xff15
                   \/ address = 0xff16 \/ address = 0xff17 \/ address = 0xff18
                   \/ address = 0xff19 \/ address = 0xff1a \/ address = 0xff1b
                   \/ address = 0xff1c \/ address = 0xff1d \/ address = 0xff1e
                   \/ address = 0xff1f \/ address = 0xff20 \/ address = 0xff21
                   \/ address = 0xff22 \/ address = 0xff23 \/ address = 0xff24
                   \/ address = 0xff25) by lia.
  repeat (destruct Hcases as [-> | Hcases]); try subst address;
    cbn [soundRegisterWriter Z.eqb Pos.eqb];
    (eexists; split; [reflexivity |]);
    unfold writeNR10, writeNR11, writeNR12, writeNR13, writeNR14, writeNR21, writeNR22,
      writeNR23, writeNR24, writeNR30, writeNR31, writeNR32, writeNR33, writeNR34,
      writeNR41, writeNR42, writeNR43, writeNR44, writeNR50, writeNR51, cartIgnoreWrite;
    rewrite ?Hoff; cbn [andb orb]; try reflexivity;
    (destruct Hmode as [Hgbc | Hne]; [rewrite Hgbc; reflexivity | lia]).
Qed.

(** While the master switch NR52 is off, a write to a sound register
    0xFF10..0xFF25 returns the state unchanged: nothing is clocked, stored
    or cached.  On a Game Boy Color cartridge this holds for every register
    of the range; in Game Boy mode for all but the four length registers
    NR11, NR21, NR31 and NR41. *)
Theorem sound_registers_locked_while_master_off (s : Core) (address data : Z) :
  soundMasterEnabled s = false ->
  0xff10 <= address <= 0xff25 ->
  useGBCMode (cartridgeSlot s) = true
  \/ (address <> 0xff11 /\ address <> 0xff16 /\ address <> 0xff1b /\ address <> 0xff20) ->
  memoryWrite E rounds address data s = Some s.
Proof.
  intros Hoff Hrange Hmode. unfold memoryWrite.
  rewrite memoryWriter_sound by exact Hrange.
  destruct (soundRegisterWriter_locked s address data Hoff Hrange Hmode) as (w & -> & Hw).
  exact Hw.
Qed.

Lemma band_3f_idem (x : Z) : band (band x 0x3f) 0x3f = band x 0x3f.
Proof.
  change 0x3f with (Z.ones 6). rewrite !band_ones by lia.
  apply Z.mod_mod. lia.
Qed.

Lemma band_3f_byte (x : Z) : toUint8 (band x 0x3f) = band x 0x3f.
Proof.
  apply toUint8_small. change 0x3f with (Z.ones 6).
  pose proof (band_ones_range x 6 ltac:(lia)) as H. change (2 ^ 6) with 64 in H. lia.
Qed.

(** In Game Boy mode the four length registers stay writable while the
    master switch is off: the write loads the length counter of its
    channel (NR11 and NR21 also store the six length bits in the register
    byte), and the master switch stays off. *)
Theorem length_registers_writable_on_DMG_while_master_off (s : Core) (data : Z) :
  soundMasterEnabled s = false ->
  useGBCMode (cartridgeSlot s) = false ->
  (exists s', memoryWrite E rounds 0xff11 data s = Some s'
              /\ channel1totalLength s' = 0x40 - band data 0x3f
              /\ rd (memory s') 0xff11 = band data 0x3f
              /\ soundMasterEnabled s' = false)
  /\ (exists s', memoryWrite E rounds 0xff16 data s = Some s'
                 /\ channel2totalLength s' = 0x40 - band data 0x3f
                 /\ rd (memory s') 0xff16 = band data 0x3f
                 /\ soundMasterEnabled s' = false)
  /\ (exists s', memoryWrite E rounds 0xff1b data s = Some s'
                 /\ channel3totalLength s' = 0x100 - data
                 /\ memory s' = memory s
                 /\ soundMasterEnabled s' = false)
  /\ (exists s', memoryWrite E rounds 0xff20 data s = Some s'
                 /\ channel4totalLength s' = 0x40 - band data 0x3f
                 /\ memory s' = memory s
                 /\ soundMasterEnabled s' = false).
Proof.
  intros Hoff Hdmg.
  split; [| split; [| split]].
  - change (memoryWrite E rounds 0xff11 data s) with (writeNR11 E rounds 0xff11 data s).
    unfold writeNR11. rewrite Hoff, Hdmg. cbn [negb orb fst snd]. cbv zeta. fields.
    eexists. split; [reflexivity |].
    match goal with
    | |- context [channel1EnableCheck E ?t] =>
        pose proof (channel1EnableCheck_spec E t) as Hspec;
        set (r := channel1EnableCheck E t) in *
    end.
    rewrite (caches_field channel1totalLength (fun _ => eq_refl) _ _ Hspec).
    rewrite (caches_field memory (fun _ => eq_refl) _ _ Hspec).
    rewrite (caches_field soundMasterEnabled (fun _ => eq_refl) _ _ Hspec).
    fields. rewrite rd_wr8_same, band_3f_idem, band_3f_byte. auto.
  - change (memoryWrite E rounds 0xff16 data s) with (writeNR21 E rounds 0xff16 data s).
    unfold writeNR21. rewrite Hoff, Hdmg. cbn [negb orb fst snd]. cbv zeta. fields.
    eexists. split; [reflexivity |].
    match goal with
    | |- context [channel2EnableCheck E ?t] =>
        pose proof (channel2EnableCheck_spec E t) as Hspec;
        set (r := channel2EnableCheck E t) in *
    end.
    rewrite (caches_field channel2totalLength (fun _ => eq_refl) _ _ Hspec).
    rewrite (caches_field memory (fun _ => eq_refl) _ _ Hspec).
    rewrite (caches_field soundMasterEnabled (fun _ => eq_refl) _ _ Hspec).
    fields. rewrite rd_wr8_same, band_3f_idem, band_3f_byte. auto.
  - change (memoryWrite E rounds 0xff1b data s) with (writeNR31 E rounds 0xff1b data s).
    unfold writeNR31. rewrite Hoff, Hdmg. cbn [negb orb]. cbv zeta.
    eexists. split; [reflexivity |].
    match goal with
    | |- context [channel3EnableCheck E ?t] =>
        pose proof (channel3EnableCheck_spec E t) as Hspec;
        set (r := channel3EnableCheck E t) in *
    end.
    rewrite (caches_field channel3totalLength (fun _ => eq_refl) _ _ Hspec).
    rewrite (caches_field memory (fun _ => eq_refl) _ _ Hspec).
    rewrite (caches_field soundMasterEnabled (fun _ => eq_refl) _ _ Hspec).
    fields. auto.
  - change (memoryWrite E rounds 0xff20 data s) with (writeNR41 E rounds 0xff20 data s).
    unfold writeNR41. rewrite Hoff, Hdmg. cbn [negb orb]. cbv zeta.
    eexists. split; [reflexivity |].
    match goal with
    | |- context [channel4EnableCheck E ?t] =>
        pose proof (channel4EnableCheck_spec E t) as Hspec;
        set (r := channel4EnableCheck E t) in *
    end.
    rewrite (caches_field channel4totalLength (fun _ => eq_refl) _ _ Hspec).
    rewrite (caches_field memory (fun _ => eq_refl) _ _ Hspec).
    rewrite (caches_field soundMasterEnabled (fun _ => eq_refl) _ _ Hspec).
    fields. auto.
Qed.

End SoundRegisters.

(** ** Wave RAM *)

Lemma rd_wrI8_same (m : gmap Z Z) (i v : Z) : rd (wrI8 m i v) i = toInt8 v.
Proof. unfold rd, wrI8. rewrite lookup_insert_eq. reflexivity. Qed.

Lemma rd_wrI8_other (m : gmap Z Z) (i j v : Z) : i <> j -> rd (wrI8 m i v) j = rd m j.
Proof. intros H. unfold rd, wrI8. rewrite lookup_insert_ne by exact H. reflexivity. Qed.

Lemma wave_index (off : Z) :
  0 <= off <= 15 ->
  bor 0xff30 off = 0xff30 + off /\ shl off 1 = 2 * off /\ bor (shl off 1) 1 = 2 * off + 1.
Proof.
  intros H.
  assert (Hall : forallb (fun k => (bor 0xff30 k =? 0xff30 + k) && (shl k 1 =? 2 * k)
                                   && (bor (shl k 1) 1 =? 2 * k + 1)) (seqZ 0 16) = true)
    by (vm_compute; reflexivity).
  rewrite forallb_forall in Hall.
  specialize (Hall off (proj1 (list_elem_of_In _ _) (proj2 (elem_of_seqZ 0 16 off) ltac:(lia)))).
  cbv beta in Hall. apply andb_prop in Hall as [Hall H3]. apply andb_prop in Hall as [H1 H2].
  apply Z.eqb_eq in H1, H2, H3. auto.
Qed.

Lemma byte_nibbles (data : Z) :
  0 <= data <= 0xff ->
  toInt8 (shr data 4) = data / 16 /\ toInt8 (band data 0xf) = data mod 16.
Proof.
  intros H. split.
  - unfold shr. rewrite toInt32_small by lia. change (Z.land 4 31) with 4.
    rewrite Z.shiftr_div_pow2 by lia. change (2 ^ 4) with 16.
    assert (0 <= data / 16 < 16) by (split; [apply Z.div_pos; lia | apply Z.div_lt_upper_bound; lia]).
    unfold toInt8. rewrite Z.mod_small by lia. lia.
  - change 0xf with (Z.ones 4). rewrite band_ones by lia. change (2 ^ 4) with 16.
    pose proof (Z.mod_pos_bound data 16 ltac:(lia)).
    unfold toInt8. rewrite Z.mod_small by lia. lia.
Qed.

Section WaveRAM.

Variable E : Env.
Variable rounds : nat.

Lemma memoryWrite_wave (s : Core) (address data : Z) :
  0xff30 <= address <= 0xff3f ->
  memoryWrite E rounds address data s
  = channel3WriteRAM E rounds (address - 0xff30) data s.
Proof. intros H. unfold memoryWrite, memoryWriter. cmp. reflexivity. Qed.

(** While channel 3 is not playing, a byte written to wave RAM is read back
    from the same address, its two nibbles are the two samples of the
    waveform table at twice the offset, and no other byte of memory
    changes. *)
Theorem wave_RAM_write_then_read (s : Core) (address data : Z) :
  channel3canPlay s = false ->
  0xff30 <= address <= 0xff3f ->
  0 <= data <= 0xff ->
  exists s',
    memoryWrite E rounds address data s = Some s'
    /\ memoryRead E rounds address s' = Some (data, s')
    /\ rd (channel3PCM s') (2 * (address - 0xff30)) = data / 16
    /\ rd (channel3PCM s') (2 * (address - 0xff30) + 1) = data mod 16
    /\ (forall a, a <> address -> rd (memory s') a = rd (memory s) a).
Proof.
  intros Hidle Hrange Hdata.
  rewrite memoryWrite_wave by exact Hrange.
  destruct (wave_index (address - 0xff30) ltac:(lia)) as (Hbor & Hshl & Hbor1).
  destruct (byte_nibbles data Hdata) as [Hhi Hlo].
  unfold channel3WriteRAM. rewrite Hidle. cbv zeta. fields.
  rewrite Hbor, Hbor1, Hshl.
  replace (0xff30 + (address - 0xff30)) with address by lia.
  eexists. split; [reflexivity |].
  split; [| split; [| split]].
  - rewrite memoryRead_wave by exact Hrange. fields. rewrite Hidle.
    rewrite rd_wr8_same, toUint8_small by lia. reflexivity.
  - fields. rewrite rd_wrI8_other by lia. rewrite rd_wrI8_same. exact Hhi.
  - fields. rewrite rd_wrI8_same. exact Hlo.
  - intros a Ha. fields. apply rd_wr8_other. congruence.
Qed.

End WaveRAM.

(** ** What the audio generator leaves alone *)

Lemma outsideGenerator_of_caches (a b : Core) :
  withoutSampleCaches a = withoutSampleCaches b -> outsideGenerator a = outsideGenerator b.
Proof.
  intros H.
  change (outsideGenerator (withoutSampleCaches a) = outsideGenerator (withoutSampleCaches b)).
  rewrite H. reflexivity.
Qed.
#[local] Hint Resolve outsideGenerator_of_caches : audio_frame.

Lemma outsideGenerator_set_memory (M : gmap Z Z) (s : Core) :
  delete 0xff26 M = delete 0xff26 (memory s) ->
  outsideGenerator (set_memory M s) = outsideGenerator s.
Proof.
  intros H. unfold outsideGenerator. fields. rewrite H. reflexivity.
Qed.

Lemma outsideGenerator_memory_and (m : Z) (s : Core) :
  outsideGenerator (memory_and 0xff26 m s) = outsideGenerator s.
Proof.
  unfold memory_and, wr8. apply outsideGenerator_set_memory.
  apply delete_insert_eq.
Qed.
#[local] Hint Resolve outsideGenerator_memory_and : audio_frame.

Lemma outsideGenerator_channel1EnableCheck (E : Env) (s : Core) :
  outsideGenerator (channel1EnableCheck E s) = outsideGenerator s.
Proof. cbv beta delta [channel1EnableCheck]. frame outsideGenerator. Qed.
#[local] Hint Resolve outsideGenerator_channel1EnableCheck : audio_frame.

Lemma outsideGenerator_channel2EnableCheck (E : Env) (s : Core) :
  outsideGenerator (channel2EnableCheck E s) = outsideGenerator s.
Proof. cbv beta delta [channel2EnableCheck]. frame outsideGenerator. Qed.
#[local] Hint Resolve outsideGenerator_channel2EnableCheck : audio_frame.

Lemma outsideGenerator_channel3EnableCheck (E : Env) (s : Core) :
  outsideGenerator (channel3EnableCheck E s) = outsideGenerator s.
Proof. cbv beta delta [channel3EnableCheck]. frame outsideGenerator. Qed.
#[local] Hint Resolve outsideGenerator_channel3EnableCheck : audio_frame.

Lemma outsideGenerator_channel4EnableCheck (E : Env) (s : Core) :
  outsideGenerator (channel4EnableCheck E s) = outsideGenerator s.
Proof. cbv beta delta [channel4EnableCheck]. frame outsideGenerator. Qed.
#[local] Hint Resolve outsideGenerator_channel4EnableCheck : audio_frame.

Lemma outsideGenerator_clockAudioLength (E : Env) (s : Core) :
  outsideGenerator (clockAudioLength E s) = outsideGenerator s.
Proof. cbv beta delta [clockAudioLength]. frame outsideGenerator. Qed.
#[local] Hint Resolve outsideGenerator_clockAudioLength : audio_frame.

Lemma outsideGenerator_clockAudioEnvelope (E : Env) (s : Core) :
  outsideGenerator (clockAudioEnvelope E s) = outsideGenerator s.
Proof. cbv beta delta [clockAudioEnvelope]. frame outsideGenerator. Qed.
#[local] Hint Resolve outsideGenerator_clockAudioEnvelope : audio_frame.

Lemma outsideGenerator_runAudioSweep (E : Env) (s : Core) :
  outsideGenerator (runAudioSweep E s) = outsideGenerator s.
Proof. cbv beta delta [runAudioSweep]. frame outsideGenerator. Qed.
#[local] Hint Resolve outsideGenerator_runAudioSweep : audio_frame.

Lemma outsideGenerator_clockAudioSweep (E : Env) (s : Core) :
  outsideGenerator (clockAudioSweep E s) = outsideGenerator s.
Proof. cbv beta delta [clockAudioSweep]. frame outsideGenerator. Qed.
#[local] Hint Resolve outsideGenerator_clockAudioSweep : audio_frame.

Lemma outsideGenerator_audioComputeSequencer (E : Env) (s : Core) :
  outsideGenerator (audioComputeSequencer E s) = outsideGenerator s.
Proof. cbv beta delta [audioComputeSequencer]. frame outsideGenerator. Qed.
#[local] Hint Resolve outsideGenerator_audioComputeSequencer : audio_frame.

Lemma outsideGenerator_computeAudioChannels (E : Env) (s : Core) :
  outsideGenerator (computeAudioChannels E s) = outsideGenerator s.
Proof. cbv beta delta [computeAudioChannels]. frame outsideGenerator. Qed.
#[local] Hint Resolve outsideGenerator_computeAudioChannels : audio_frame.

Lemma outsideGenerator_outputAudio (s : Core) :
  outsideGenerator (outputAudio s) = outsideGenerator s.
Proof. cbv beta delta [outputAudio]. frame outsideGenerator. Qed.
#[local] Hint Resolve outsideGenerator_outputAudio : audio_frame.

Lemma outsideGenerator_sequencerTick (E : Env) (s : Core) :
  outsideGenerator (sequencerTick E s) = outsideGenerator s.
Proof. cbv beta delta [sequencerTick]. frame outsideGenerator. Qed.
#[local] Hint Resolve outsideGenerator_sequencerTick : audio_frame.

Lemma outsideGenerator_channelTick (E : Env) (s : Core) :
  outsideGenerator (channelTick E s) = outsideGenerator s.
Proof. cbv beta delta [channelTick]. frame outsideGenerator. Qed.
#[local] Hint Resolve outsideGenerator_channelTick : audio_frame.

Lemma outsideGenerator_resampleClocks (fuel : nat) :
  forall (n : Z) (s s' : Core),
    resampleClocks fuel n s = Some s' -> outsideGenerator s' = outsideGenerator s.
Proof.
  induction fuel as [| fuel IH]; intros n s s'; cbn [resampleClocks];
    destruct (0 <? n); try discriminate; try (intros [= <-]; reflexivity).
  intros Hrun. apply IH in Hrun. rewrite Hrun. clear Hrun. frame outsideGenerator.
Qed.

Lemma outsideGenerator_silentAudioLoop (fuel : nat) :
  forall (n : Z) (s s' : Core),
    silentAudioLoop fuel n s = Some s' -> outsideGenerator s' = outsideGenerator s.
Proof.
  induction fuel as [| fuel IH]; intros n s s'; cbn [silentAudioLoop];
    destruct (0 <? n); try discriminate; try (intros [= <-]; reflexivity).
  intros Hrun. apply IH in Hrun. rewrite Hrun. clear Hrun. frame outsideGenerator.
Qed.

Lemma outsideGenerator_generateAudioLoop (E : Env) (rounds fuel : nat) :
  forall (n : Z) (s s' : Core),
    generateAudioLoop E rounds fuel n s = Some s' ->
    outsideGenerator s' = outsideGenerator s.
Proof.
  induction fuel as [| fuel IH]; intros n s s'.
  - cbn [generateAudioLoop]. destruct (0 <? n); [discriminate | intros [= <-]; reflexivity].
  - destruct (Z.ltb_spec 0 n) as [Hpos | Hle].
    + rewrite generateAudioLoop_round by exact Hpos. cbv zeta.
      match goal with
      | |- context [resampleClocks rounds ?k ?t] =>
          destruct (resampleClocks rounds k t) as [s3 |] eqn:Hres; [| discriminate];
          apply outsideGenerator_resampleClocks in Hres
      end.
      intros Hrun. apply IH in Hrun. rewrite Hrun.
      rewrite outsideGenerator_channelTick, outsideGenerator_sequencerTick, Hres.
      reflexivity.
    + cbn [generateAudioLoop]. rewrite (proj2 (Z.ltb_ge 0 n)) by lia.
      intros [= <-]. reflexivity.
Qed.

Lemma outsideGenerator_generateAudioFakeLoop (E : Env) (fuel : nat) :
  forall (n : Z) (s s' : Core),
    generateAudioFakeLoop E fuel n s = Some s' ->
    outsideGenerator s' = outsideGenerator s.
Proof.
  induction fuel as [| fuel IH]; intros n s s'.
  - cbn [generateAudioFakeLoop].
    destruct (0 <? n); [discriminate | intros [= <-]; reflexivity].
  - destruct (Z.ltb_spec 0 n) as [Hpos | Hle].
    + rewrite generateAudioFakeLoop_round by exact Hpos. cbv zeta.
      intros Hrun. apply IH in Hrun. rewrite Hrun.
      rewrite outsideGenerator_channelTick, outsideGenerator_sequencerTick.
      reflexivity.
    + cbn [generateAudioFakeLoop]. rewrite (proj2 (Z.ltb_ge 0 n)) by lia.
      intros [= <-]. reflexivity.
Qed.

Lemma outsideGenerator_audioJIT (E : Env) (rounds : nat) (s s' : Core) :
  audioJIT E rounds s = Some s' -> outsideGenerator s' = outsideGenerator s.
Proof.
  unfold audioJIT, generateAudio, generateAudioFake.
  destruct (soundOn (settings E)); destruct (soundMasterEnabled s && negb (CPUStopped s));
    try match goal with
        | |- context [match ?c with Some _ => _ | None => _ end] =>
            destruct c as [s1 |] eqn:Hrun; [| discriminate]
        end;
    intros [= <-].
  - apply outsideGenerator_generateAudioLoop in Hrun. rewrite <- Hrun. reflexivity.
  - apply outsideGenerator_silentAudioLoop in Hrun. rewrite <- Hrun. reflexivity.
  - apply outsideGenerator_generateAudioFakeLoop in Hrun. rewrite <- Hrun. reflexivity.
  - reflexivity.
Qed.

(** ** The master switch NR52 *)

Lemma outsideGenerator_field {T : Type} (p : Core -> T) :
  (forall s, p (outsideGenerator s) = p s) ->
  forall a b, outsideGenerator a = outsideGenerator b -> p a = p b.
Proof. intros Hp a b H. rewrite <- (Hp a), <- (Hp b), H. reflexivity. Qed.

Section MasterSwitch.

Variable E : Env.
Variable rounds : nat.

(** Flushing the audio from well-formed clocks returns with no tick
    pending and the clocks well formed, and writes nothing outside the
    generator. *)
Theorem audioJIT_flushes_and_keeps_the_rest (s : Core) :
  audioWF s ->
  audioTicks s < Z.of_nat rounds ->
  exists s',
    audioJIT E rounds s = Some s'
    /\ audioTicks s' = 0
    /\ audioWF s'
    /\ outsideGenerator s' = outsideGenerator s.
Proof.
  intros Hwf Hfuel.
  destruct (audioJIT_spec E rounds s Hwf Hfuel) as (s' & Hjit & Ht & Hwf' & _).
  exists s'. split; [exact Hjit |]. split; [exact Ht |]. split; [exact Hwf' |].
  apply (outsideGenerator_audioJIT E rounds), Hjit.
Qed.

Lemma zeroSoundRegisters_locked (n : nat) :
  forall (index : Z) (s : Core),
    soundMasterEnabled s = false ->
    useGBCMode (cartridgeSlot s) = true ->
    0xff10 <= index -> index + Z.of_nat n <= 0xff26 ->
    zeroSoundRegisters E rounds n index s = Some s.
Proof.
  induction n as [| n IH]; intros index s Hoff Hgbc Hlo Hhi; [reflexivity |].
  cbn [zeroSoundRegisters].
  destruct (soundRegisterWriter_locked E rounds s index 0 Hoff ltac:(lia) (or_introl Hgbc))
    as (w & -> & ->).
  apply IH; [exact Hoff | exact Hgbc | lia | lia].
Qed.

(** Switching the sound off on a Game Boy Color cartridge: after the
    pending audio has been flushed, the write clears the byte at 0xFF26 and
    the master flag, and nothing else; the loop that writes zero to
    0xFF10..0xFF25 runs with the master switch already off, so each of its
    writes is ignored and the registers keep their contents. *)
Theorem NR52_power_off_keeps_registers_on_GBC (s : Core) (data : Z) :
  audioWF s ->
  audioTicks s < Z.of_nat rounds ->
  soundMasterEnabled s = true ->
  useGBCMode (cartridgeSlot s) = true ->
  data < 0x80 ->
  exists s1,
    audioJIT E rounds s = Some s1
    /\ memoryWrite E rounds 0xff26 data s
       = Some (set_soundMasterEnabled false (set_memory (wr8 (memory s1) 0xff26 0) s1)).
Proof.
  intros Hwf Hfuel Hon Hgbc Hdata.
  destruct (audioJIT_spec E rounds s Hwf Hfuel) as (s1 & Hjit & _).
  pose proof (outsideGenerator_audioJIT E rounds s s1 Hjit) as Hout.
  pose proof (outsideGenerator_field soundMasterEnabled (fun _ => eq_refl) _ _ Hout) as Hm.
  pose proof (outsideGenerator_field cartridgeSlot (fun _ => eq_refl) _ _ Hout) as Hc.
  exists s1. split; [exact Hjit |].
  change (memoryWrite E rounds 0xff26 data s) with (writeNR52 E rounds 0xff26 data s).
  unfold writeNR52. rewrite Hjit, Hm, Hon. cbn [negb andb].
  rewrite (proj2 (Z.ltb_lt data 0x80) Hdata). cbv zeta.
  apply zeroSoundRegisters_locked; [reflexivity | | lia | lia].
  fields. congruence.
Qed.

End MasterSwitch.

Lemma hostView_of_caches (a b : Core) :
  withoutSampleCaches a = withoutSampleCaches b -> hostView a = hostView b.
Proof.
  intros H. change (hostView (withoutSampleCaches a) = hostView (withoutSampleCaches b)).
  rewrite H. reflexivity.
Qed.
#[local] Hint Resolve hostView_of_caches : audio_frame.

Lemma hostView_initializeAudioStartState (E : Env) (s : Core) :
  hostView (initializeAudioStartState E s) = hostView s.
Proof.
  cbv beta zeta delta [initializeAudioStartState].
  repeat (frame_peel hostView). reflexivity.
Qed.

(** The start state of the audio unit: the clocks of a freshly switched-on
    unit, whatever the state before. *)
Lemma audioView_initializeAudioStartState (E : Env) (s : Core) :
  audioView (initializeAudioStartState E s)
  = ((audioResamplerFirstPassFactor s, audioIndex s, audioOut s, 0x2000,
      0x2000, 0x800, 8, false),
     (0x2000, 0, false, false),
     (0x2000, 0x2000, 0x800, 8, 1, 1)).
Proof.
  cbv beta delta [initializeAudioStartState]. cbv zeta.
  repeat (frame_peel audioView).
  reflexivity.
Qed.

Lemma audioWF_initializeAudioStartState (E : Env) (s : Core) :
  0 <= audioIndex s < audioResamplerFirstPassFactor s ->
  audioWF (initializeAudioStartState E s).
Proof.
  intros Hidx. pose proof (audioView_initializeAudioStartState E s) as Hv.
  set (t := initializeAudioStartState E s) in *. clearbody t.
  unfold audioView, genFrame, sweepRegs, eventCounters in Hv. tuple_eq Hv.
  unfold audioWF, channelsWF, sweepInv.
  repeat match goal with Heq : _ t = _ |- _ => rewrite Heq; clear Heq end.
  repeat split; try lia. 
Qed.

Section PowerOn.

Variable E : Env.
Variable rounds : nat.

(** With the unit inaudible (master switch off or processor stopped),
    flushing the audio only moves the resampler. *)
Lemma audioJIT_silent (s : Core) :
  soundMasterEnabled s && negb (CPUStopped s) = false ->
  0 <= audioIndex s < audioResamplerFirstPassFactor s ->
  audioTicks s < Z.of_nat rounds ->
  exists i d p a,
    audioJIT E rounds s = Some (set_audioTicks 0 (withAudioOutput i d p a s))
    /\ 0 <= i < audioResamplerFirstPassFactor s.
Proof.
  intros Hsilent Hi Hfuel. unfold audioJIT, generateAudio, generateAudioFake.
  rewrite Hsilent.
  destruct (soundOn (settings E)).
  - destruct (silentAudioLoop_spec rounds (audioTicks s) s Hi Hfuel)
      as (i & d & p & a & Hrun & Hi' & _).
    exists i, d, p, a. rewrite Hrun. split; [reflexivity |].
    subst i. apply Z.mod_pos_bound. lia.
  - exists (audioIndex s), (downsampleInput s), (audioDestinationPosition s), (audioOut s).
    rewrite withAudioOutput_id. split; [reflexivity | exact Hi].
Qed.

(** Switching the sound on: a write to NR52 with bit 7 set while the master
    switch is off returns, sets the switch, stores 0x80 at 0xFF26 and
    leaves the generator clocks well formed, with no tick pending. *)
Theorem NR52_power_on_starts_well_formed (s : Core) (data : Z) :
  soundMasterEnabled s = false ->
  0x7f < data ->
  0 <= audioIndex s < audioResamplerFirstPassFactor s ->
  audioTicks s < Z.of_nat rounds ->
  exists s',
    memoryWrite E rounds 0xff26 data s = Some s'
    /\ soundMasterEnabled s' = true
    /\ rd (memory s') 0xff26 = 0x80
    /\ audioTicks s' = 0
    /\ audioWF s'.
Proof.
  intros Hoff Hdata Hidx Hfuel.
  destruct (audioJIT_silent s) as (i & d & p & a & Hjit & Hi);
    [rewrite Hoff; reflexivity | exact Hidx | exact Hfuel |].
  change (memoryWrite E rounds 0xff26 data s) with (writeNR52 E rounds 0xff26 data s).
  unfold writeNR52. rewrite Hjit. cbv zeta. unfold withAudioOutput. fields.
  rewrite Hoff. cbn [negb andb]. rewrite (proj2 (Z.ltb_lt 0x7f data) Hdata).
  eexists. split; [reflexivity |].
  match goal with
  | |- context [initializeAudioStartState E ?t] =>
      pose proof (hostView_initializeAudioStartState E t) as Hhost;
      pose proof (audioWF_initializeAudioStartState E t) as Hwf;
      set (r := initializeAudioStartState E t) in *
  end.
  unfold hostView in Hhost. tuple_eq Hhost.
  repeat match goal with Heq : _ r = _ |- _ => rewrite Heq; clear Heq end.
  fields. rewrite rd_wr8_same.
  split; [reflexivity |]. split; [reflexivity |]. split; [reflexivity |].
  apply Hwf. fields. exact Hi.
Qed.

End PowerOn.

(** ** Examples *)

Ltac example_WF :=
  vm_compute; repeat split; first [discriminate | reflexivity | intros _; discriminate].

Lemma NR10_negate_to_positive_after_sweep_disables_channel1_witness :
  exists s',
    memoryWrite exampleEnv 100 0xff10 0x00
      (set_audioTicks 6 (set_channel1Swept true (set_channel1decreaseSweep true poweredCore)))
    = Some s'
    /\ channel1SweepFault s' = true
    /\ channel1Enabled s' = false
    /\ channel1decreaseSweep s' = false.
Proof.
  apply (NR10_negate_to_positive_after_sweep_disables_channel1 exampleEnv 100
           (set_audioTicks 6
              (set_channel1Swept true (set_channel1decreaseSweep true poweredCore)))
           0x00).
  - example_WF.
  - vm_compute. reflexivity.
  - reflexivity.
  - reflexivity.
  - reflexivity.
  - vm_compute. reflexivity.
Defined.

Lemma sound_registers_locked_while_master_off_witness :
  memoryWrite exampleEnv 100 0xff12 0xf3 (blankCore cgbCartridge)
  = Some (blankCore cgbCartridge).
Proof.
  apply (sound_registers_locked_while_master_off exampleEnv 100 (blankCore cgbCartridge)
           0xff12 0xf3).
  - reflexivity.
  - lia.
  - left. reflexivity.
Defined.

Lemma length_registers_writable_on_DMG_while_master_off_witness :
  exists s', memoryWrite exampleEnv 100 0xff11 0xc5 (blankCore dmgCartridge) = Some s'
             /\ channel1totalLength s' = 0x40 - band 0xc5 0x3f
             /\ rd (memory s') 0xff11 = band 0xc5 0x3f
             /\ soundMasterEnabled s' = false.
Proof.
  apply (length_registers_writable_on_DMG_while_master_off exampleEnv 100
           (blankCore dmgCartridge) 0xc5); reflexivity.
Defined.

Lemma wave_RAM_write_then_read_witness :
  exists s',
    memoryWrite exampleEnv 100 0xff35 0xab (blankCore dmgCartridge) = Some s'
    /\ memoryRead exampleEnv 100 0xff35 s' = Some (0xab, s')
    /\ rd (channel3PCM s') (2 * (0xff35 - 0xff30)) = 0xab / 16
    /\ rd (channel3PCM s') (2 * (0xff35 - 0xff30) + 1) = 0xab mod 16
    /\ (forall a, a <> 0xff35 ->
        rd (memory s') a = rd (memory (blankCore dmgCartridge)) a).
Proof.
  apply (wave_RAM_write_then_read exampleEnv 100 (blankCore dmgCartridge) 0xff35 0xab).
  - reflexivity.
  - lia.
  - lia.
Defined.

Lemma audioJIT_flushes_and_keeps_the_rest_witness :
  exists s',
    audioJIT exampleEnv 100 (set_audioTicks 10 poweredCore) = Some s'
    /\ audioTicks s' = 0
    /\ audioWF s'
    /\ outsideGenerator s' = outsideGenerator (set_audioTicks 10 poweredCore).
Proof.
  apply (audioJIT_flushes_and_keeps_the_rest exampleEnv 100 (set_audioTicks 10 poweredCore)).
  - example_WF.
  - vm_compute. reflexivity.
Defined.

Lemma NR52_power_off_keeps_registers_on_GBC_witness :
  exists s1,
    audioJIT exampleEnv 100 (set_cartridgeSlot cgbCartridge poweredCore) = Some s1
    /\ memoryWrite exampleEnv 100 0xff26 0x00 (set_cartridgeSlot cgbCartridge poweredCore)
       = Some (set_soundMasterEnabled false (set_memory (wr8 (memory s1) 0xff26 0) s1)).
Proof.
  apply (NR52_power_off_keeps_registers_on_GBC exampleEnv 100
           (set_cartridgeSlot cgbCartridge poweredCore) 0x00).
  - example_WF.
  - vm_compute. reflexivity.
  - reflexivity.
  - reflexivity.
  - lia.
Defined.

Lemma NR52_power_on_starts_well_formed_witness :
  exists s',
    memoryWrite exampleEnv 100 0xff26 0x80 (blankCore dmgCartridge) = Some s'
    /\ soundMasterEnabled s' = true
    /\ rd (memory s') 0xff26 = 0x80
    /\ audioTicks s' = 0
    /\ audioWF s'.
Proof.
  apply (NR52_power_on_starts_well_formed exampleEnv 100 (blankCore dmgCartridge) 0x80).
  - reflexivity.
  - lia.
  - vm_compute. split; [discriminate | reflexivity].
  - vm_compute. reflexivity.
Defined.

(** ** Channel clocks, caches and sweep: summary statements *)

(** When the channel clocks run from well-formed clocks, every channel
    counter that reached zero is reloaded with its period, so all four are
    positive afterwards, and both event registers hold the distance to the
    nearest of them. *)
Theorem channel_clocks_schedule_nearest_event (E : Env) (s : Core) :
  channelsWF s ->
  let r := computeAudioChannels E s in
  audioClocksUntilNextEvent r
  = Z.min (Z.min (channel1FrequencyCounter r) (channel2FrequencyCounter r))
          (Z.min (channel3Counter r) (channel4Counter r))
  /\ audioClocksUntilNextEventCounter r = audioClocksUntilNextEvent r
  /\ 0 < channel1FrequencyCounter r /\ 0 < channel2FrequencyCounter r
  /\ 0 < channel3Counter r /\ 0 < channel4Counter r
  /\ channelsWF r.
Proof.
  intros Hwf r.
  pose proof (computeAudioChannels_clocks E s Hwf) as Hc. cbv zeta in Hc. fold r in Hc.
  destruct Hc as (Hmin & Heq & H1 & H2 & H3 & H4).
  do 6 (split; [assumption |]).
  pose proof (chanView_computeAudioChannels E s) as Hv. fold r in Hv.
  unfold chanView, genFrame, sweepRegs in Hv. tuple_eq Hv.
  destruct Hwf as (_ & _ & _ & _ & Ht2 & Hp3 & Hp4 & Hinv).
  clearbody r. unfold channelsWF, sweepInv in *.
  repeat match goal with Heq' : _ r = _ s |- _ => rewrite Heq'; clear Heq' end.
  do 4 (split; [lia |]). do 3 (split; [assumption |]). exact Hinv.
Qed.

Lemma channel_clocks_schedule_nearest_event_witness :
  let r := computeAudioChannels exampleEnv poweredCore in
  audioClocksUntilNextEvent r
  = Z.min (Z.min (channel1FrequencyCounter r) (channel2FrequencyCounter r))
          (Z.min (channel3Counter r) (channel4Counter r))
  /\ audioClocksUntilNextEventCounter r = audioClocksUntilNextEvent r
  /\ 0 < channel1FrequencyCounter r /\ 0 < channel2FrequencyCounter r
  /\ 0 < channel3Counter r /\ 0 < channel4Counter r
  /\ channelsWF r.
Proof.
  apply (channel_clocks_schedule_nearest_event exampleEnv poweredCore).
  vm_compute. repeat split; first [discriminate | reflexivity | intros _; discriminate].
Defined.

(** The cache updates of the mixer write the cached sample levels and
    nothing else: the state before and after differ in those fields at
    most. *)
Theorem mixer_caches_write_only_cached_levels (E : Env) (s : Core) :
  withoutSampleCaches (mixerOutputLevelCache s) = withoutSampleCaches s
  /\ withoutSampleCaches (channel1OutputLevelTrimaryCache E s) = withoutSampleCaches s
  /\ withoutSampleCaches (channel1OutputLevelSecondaryCache E s) = withoutSampleCaches s
  /\ withoutSampleCaches (channel1OutputLevelCache E s) = withoutSampleCaches s
  /\ withoutSampleCaches (channel2OutputLevelTrimaryCache E s) = withoutSampleCaches s
  /\ withoutSampleCaches (channel2OutputLevelSecondaryCache E s) = withoutSampleCaches s
  /\ withoutSampleCaches (channel2OutputLevelCache E s) = withoutSampleCaches s
  /\ withoutSampleCaches (channel3OutputLevelSecondaryCache E s) = withoutSampleCaches s
  /\ withoutSampleCaches (channel3OutputLevelCache E s) = withoutSampleCaches s
  /\ withoutSampleCaches (channel3UpdateCache E s) = withoutSampleCaches s
  /\ withoutSampleCaches (channel4OutputLevelSecondaryCache E s) = withoutSampleCaches s
  /\ withoutSampleCaches (channel4OutputLevelCache E s) = withoutSampleCaches s
  /\ withoutSampleCaches (channel4UpdateCache E s) = withoutSampleCaches s.
Proof.
  repeat match goal with |- _ /\ _ => split end; auto 1 with audio_frame nocore.
Qed.

Lemma testbit0_clear_fe (x : Z) : Z.testbit (toUint8 (band x 0xfe)) 0 = false.
Proof.
  unfold toUint8. change 256 with (2 ^ 8).
  rewrite Z.mod_pow2_bits_low by lia.
  unfold band. rewrite Z.land_spec. rewrite (toInt32_small 0xfe) by lia.
  change (Z.testbit 254 0) with false. apply andb_false_r.
Qed.

(** A sweep step upwards that overflows 11 bits: the fault flag is set,
    channel 1 is disabled, bit 0 of the status byte at 0xFF26 is cleared,
    and the period of the channel is left as it was. *)
Theorem sweep_overflow_disables_channel1 (E : Env) (s : Core) :
  0 < channel1lastTimeSweep s ->
  0 < channel1frequencySweepDivider s ->
  channel1decreaseSweep s = false ->
  0x7ff < channel1ShadowFrequency s
          + shr (channel1ShadowFrequency s) (channel1frequencySweepDivider s) ->
  let r := runAudioSweep E s in
  channel1SweepFault r = true
  /\ channel1Enabled r = false
  /\ Z.testbit (rd (memory r) 0xff26) 0 = false
  /\ channel1FrequencyTracker r = channel1FrequencyTracker s
  /\ channel1Swept r = true.
Proof.
  intros Hl Hd Hdec Hov r. subst r. unfold runAudioSweep.
  rewrite (proj2 (Z.ltb_lt 0 _) Hl), (proj2 (Z.ltb_lt 0 _) Hd).
  cbv zeta. fields. rewrite Hdec.
  rewrite (proj2 (Z.leb_gt _ 0x7ff) Hov).
  unfold memory_and. fields.
  match goal with
  | |- context [channel1EnableCheck E ?t] =>
      pose proof (channel1EnableCheck_spec E t) as Hspec;
      set (r := channel1EnableCheck E t) in *
  end.
  rewrite (caches_field channel1SweepFault (fun _ => eq_refl) _ _ Hspec).
  rewrite (caches_field channel1Enabled (fun _ => eq_refl) _ _ Hspec).
  rewrite (caches_field channel1FrequencyTracker (fun _ => eq_refl) _ _ Hspec).
  rewrite (caches_field channel1Swept (fun _ => eq_refl) _ _ Hspec).
  fields. rewrite rd_wr8_same. cbn [negb]. rewrite andb_false_r.
  repeat split; try reflexivity. apply testbit0_clear_fe.
Qed.

Lemma sweep_overflow_disables_channel1_witness :
  let s := set_channel1ShadowFrequency 0x7f0
             (set_channel1frequencySweepDivider 1
                (set_channel1lastTimeSweep 2 poweredCore)) in
  let r := runAudioSweep exampleEnv s in
  channel1SweepFault r = true
  /\ channel1Enabled r = false
  /\ Z.testbit (rd (memory r) 0xff26) 0 = false
  /\ channel1FrequencyTracker r = channel1FrequencyTracker s
  /\ channel1Swept r = true.
Proof.
  intros s.
  apply (sweep_overflow_disables_channel1 exampleEnv s).
  - vm_compute. reflexivity.
  - vm_compute. reflexivity.
  - reflexivity.
  - vm_compute. reflexivity.
Defined.

(** ** The length unit *)

Lemma lengthView_of_caches (a b : Core) :
  withoutSampleCaches a = withoutSampleCaches b -> lengthView a = lengthView b.
Proof.
  intros H. change (lengthView (withoutSampleCaches a) = lengthView (withoutSampleCaches b)).
  rewrite H. reflexivity.
Qed.

Lemma lengthView_memory_and (a m : Z) (s : Core) :
  lengthView (memory_and a m s) = lengthView s.
Proof. reflexivity. Qed.

(** The view after the stage of the length unit for one channel, [spec]
    being the specification of the channel's enable check. *)
Ltac length_stage len spec :=
  destruct (Z.ltb_spec 1 len);
  [ rewrite (proj2 (Z.eqb_neq len 1)) by lia;
    unfold lengthView; fields; rewrite Z.max_r by lia; reflexivity
  | destruct (Z.eqb_spec len 1);
    [ rewrite lengthView_memory_and;
      rewrite (lengthView_of_caches _ _ (spec _ _));
      unfold lengthView; fields; cbn [Z.ltb Z.compare];
      rewrite ?orb_false_r; rewrite Z.max_l by lia; reflexivity
    | unfold lengthView; rewrite Z.max_l by lia;
      repeat f_equal; lia ] ].
(** One step of the length unit: every length counter that is running
    moves one step towards zero, and a channel whose counter expires while
    it is in counter mode (not consecutive) is disabled. *)
Theorem length_counters_count_down_and_disable (E : Env) (s : Core) :
  0 <= channel1totalLength s -> 0 <= channel2totalLength s ->
  0 <= channel3totalLength s -> 0 <= channel4totalLength s ->
  let r := clockAudioLength E s in
  channel1totalLength r = Z.max 0 (channel1totalLength s - 1)
  /\ channel2totalLength r = Z.max 0 (channel2totalLength s - 1)
  /\ channel3totalLength r = Z.max 0 (channel3totalLength s - 1)
  /\ channel4totalLength r = Z.max 0 (channel4totalLength s - 1)
  /\ (channel1totalLength s = 1 -> channel1consecutive s = false ->
      channel1Enabled r = false)
  /\ (channel2totalLength s = 1 -> channel2consecutive s = false ->
      channel2Enabled r = false)
  /\ (channel3totalLength s = 1 -> channel3consecutive s = false ->
      channel3Enabled r = false)
  /\ (channel4totalLength s = 1 -> channel4consecutive s = false ->
      channel4Enabled r = false).
Proof.
  intros H1 H2 H3 H4 r. subst r.
  pose (Q := fun r : Core =>
    channel1totalLength r = Z.max 0 (channel1totalLength s - 1)
    /\ channel2totalLength r = Z.max 0 (channel2totalLength s - 1)
    /\ channel3totalLength r = Z.max 0 (channel3totalLength s - 1)
    /\ channel4totalLength r = Z.max 0 (channel4totalLength s - 1)
    /\ (channel1totalLength s = 1 -> channel1consecutive s = false ->
        channel1Enabled r = false)
    /\ (channel2totalLength s = 1 -> channel2consecutive s = false ->
        channel2Enabled r = false)
    /\ (channel3totalLength s = 1 -> channel3consecutive s = false ->
        channel3Enabled r = false)
    /\ (channel4totalLength s = 1 -> channel4consecutive s = false ->
        channel4Enabled r = false)).
  change (Q (clockAudioLength E s)).
  cbv beta delta [clockAudioLength].
  float_let; intro s1.
  assert (Hva : lengthView s1
               = (Z.max 0 (channel1totalLength s - 1), channel2totalLength s, channel3totalLength s, channel4totalLength s,
                  ((if channel1totalLength s =? 1
                    then channel1consecutive s && negb (channel1SweepFault s)
                        && channel1canPlay s
                    else channel1Enabled s),
                   channel2Enabled s,
                   channel3Enabled s,
                   channel4Enabled s),
                  (channel1consecutive s, channel2consecutive s, channel3consecutive s, channel4consecutive s))).
  { subst s1. length_stage (channel1totalLength s) channel1EnableCheck_spec. }
  clearbody s1. unfold lengthView in Hva. tuple_eq Hva.
  float_let; intro s2.
  assert (Hvb : lengthView s2
               = (channel1totalLength s1, Z.max 0 (channel2totalLength s1 - 1), channel3totalLength s1, channel4totalLength s1,
                  (channel1Enabled s1,
                   (if channel2totalLength s1 =? 1
                    then channel2consecutive s1 && channel2canPlay s1
                    else channel2Enabled s1),
                   channel3Enabled s1,
                   channel4Enabled s1),
                  (channel1consecutive s1, channel2consecutive s1, channel3consecutive s1, channel4consecutive s1))).
  { subst s2. length_stage (channel2totalLength s1) channel2EnableCheck_spec. }
  clearbody s2. unfold lengthView in Hvb. tuple_eq Hvb.
  float_let; intro s3.
  assert (Hvc : lengthView s3
               = (channel1totalLength s2, channel2totalLength s2, Z.max 0 (channel3totalLength s2 - 1), channel4totalLength s2,
                  (channel1Enabled s2,
                   channel2Enabled s2,
                   (if channel3totalLength s2 =? 1
                    then channel3consecutive s2
                    else channel3Enabled s2),
                   channel4Enabled s2),
                  (channel1consecutive s2, channel2consecutive s2, channel3consecutive s2, channel4consecutive s2))).
  { subst s3. length_stage (channel3totalLength s2) channel3EnableCheck_spec. }
  clearbody s3. unfold lengthView in Hvc. tuple_eq Hvc.
  assert (Hvd : lengthView
                 (if 1 <? channel4totalLength s3
                  then set_channel4totalLength (channel4totalLength s3 - 1) s3
                  else if channel4totalLength s3 =? 1
                       then memory_and 0xff26 0xf7
                              (channel4EnableCheck E (set_channel4totalLength 0 s3))
                       else s3)
               = (channel1totalLength s3, channel2totalLength s3, channel3totalLength s3, Z.max 0 (channel4totalLength s3 - 1),
                  (channel1Enabled s3,
                   channel2Enabled s3,
                   channel3Enabled s3,
                   (if channel4totalLength s3 =? 1
                    then channel4consecutive s3 && channel4canPlay s3
                    else channel4Enabled s3)),
                  (channel1consecutive s3, channel2consecutive s3, channel3consecutive s3, channel4consecutive s3))).
  { length_stage (channel4totalLength s3) channel4EnableCheck_spec. }
  match goal with |- Q ?t => set (r := t) in * end. clearbody r.
  subst Q. cbv beta.
  unfold lengthView in Hvd. tuple_eq Hvd.
  do 4 (split; [lia |]).
  repeat split; intros Hl Hc;
    repeat match goal with
           | Heq : ?p r = _ |- ?p r = _ => rewrite Heq
           | Heq : ?p s3 = _ |- context [?p s3] => rewrite Heq
           | Heq : ?p s2 = _ |- context [?p s2] => rewrite Heq
           | Heq : ?p s1 = _ |- context [?p s1] => rewrite Heq
           end;
    rewrite ?Hl, ?Hc; reflexivity.
Qed.

Lemma length_counters_count_down_and_disable_witness :
  let s := set_channel1totalLength 1 (set_channel2totalLength 5
             (set_channel1consecutive false poweredCore)) in
  let r := clockAudioLength exampleEnv s in
  channel1totalLength r = Z.max 0 (channel1totalLength s - 1)
  /\ channel2totalLength r = Z.max 0 (channel2totalLength s - 1)
  /\ channel3totalLength r = Z.max 0 (channel3totalLength s - 1)
  /\ channel4totalLength r = Z.max 0 (channel4totalLength s - 1)
  /\ (channel1totalLength s = 1 -> channel1consecutive s = false ->
      channel1Enabled r = false)
  /\ (channel2totalLength s = 1 -> channel2consecutive s = false ->
      channel2Enabled r = false)
  /\ (channel3totalLength s = 1 -> channel3consecutive s = false ->
      channel3Enabled r = false)
  /\ (channel4totalLength s = 1 -> channel4consecutive s = false ->
      channel4Enabled r = false).
Proof.
  intros s.
  apply (length_counters_count_down_and_disable exampleEnv s);
    vm_compute; discriminate.
Defined.

(** ** The envelope unit *)

Lemma envelope_of_caches (a b : Core) :
  withoutSampleCaches a = withoutSampleCaches b ->
  (channel1envelopeVolume a, channel2envelopeVolume a, channel4envelopeVolume a)
  = (channel1envelopeVolume b, channel2envelopeVolume b, channel4envelopeVolume b).
Proof.
  intros H.
  rewrite (caches_field channel1envelopeVolume (fun _ => eq_refl) _ _ H).
  rewrite (caches_field channel2envelopeVolume (fun _ => eq_refl) _ _ H).
  rewrite (caches_field channel4envelopeVolume (fun _ => eq_refl) _ _ H).
  reflexivity.
Qed.

Ltac envelope_stage cache :=
  cbv zeta;
  first
    [ exists 0; split; [auto |]; split; [lia |];
      rewrite ?Z.add_0_r; fields; reflexivity
    | exists (-1); split; [auto |]; split; [lia |];
      rewrite (envelope_of_caches _ _ (cache _)); fields; reflexivity
    | exists 1; split; [auto |]; split; [lia |];
      rewrite (envelope_of_caches _ _ (cache _)); fields; reflexivity ].

(** One step of the envelope unit moves each envelope volume by at most
    one, and never out of the range 0..15. *)
Theorem envelope_volumes_stay_in_range (E : Env) (s : Core) :
  0 <= channel1envelopeVolume s <= 15 ->
  0 <= channel2envelopeVolume s <= 15 ->
  0 <= channel4envelopeVolume s <= 15 ->
  let r := clockAudioEnvelope E s in
  (0 <= channel1envelopeVolume r <= 15
   /\ Z.abs (channel1envelopeVolume r - channel1envelopeVolume s) <= 1)
  /\ (0 <= channel2envelopeVolume r <= 15
      /\ Z.abs (channel2envelopeVolume r - channel2envelopeVolume s) <= 1)
  /\ (0 <= channel4envelopeVolume r <= 15
      /\ Z.abs (channel4envelopeVolume r - channel4envelopeVolume s) <= 1).
Proof.
  intros H1 H2 H4 r. subst r.
  pose (Q := fun r : Core =>
    (0 <= channel1envelopeVolume r <= 15
     /\ Z.abs (channel1envelopeVolume r - channel1envelopeVolume s) <= 1)
    /\ (0 <= channel2envelopeVolume r <= 15
        /\ Z.abs (channel2envelopeVolume r - channel2envelopeVolume s) <= 1)
    /\ (0 <= channel4envelopeVolume r <= 15
        /\ Z.abs (channel4envelopeVolume r - channel4envelopeVolume s) <= 1)).
  change (Q (clockAudioEnvelope E s)).
  cbv beta delta [clockAudioEnvelope].
  float_let; intro s1.
  assert (Hva : exists d, (d = -1 \/ d = 0 \/ d = 1)
                  /\ 0 <= channel1envelopeVolume s + d <= 15
                  /\ (channel1envelopeVolume s1, channel2envelopeVolume s1,
                      channel4envelopeVolume s1)
                     = (channel1envelopeVolume s + d, channel2envelopeVolume s,
                        channel4envelopeVolume s)).
  { subst s1.
    repeat match goal with
           | |- context [if ?a <? ?b then _ else _] => destruct (Z.ltb_spec a b)
           | |- context [if ?c then _ else _] => destruct c
           end;
      envelope_stage (caches_channel1OutputLevelCache E). }
  clearbody s1. destruct Hva as (d1 & Hd1 & Hr1 & Hva). tuple_eq Hva.
  float_let; intro s2.
  assert (Hvb : exists d, (d = -1 \/ d = 0 \/ d = 1)
                  /\ 0 <= channel2envelopeVolume s1 + d <= 15
                  /\ (channel1envelopeVolume s2, channel2envelopeVolume s2,
                      channel4envelopeVolume s2)
                     = (channel1envelopeVolume s1, channel2envelopeVolume s1 + d,
                        channel4envelopeVolume s1)).
  { subst s2.
    repeat match goal with
           | |- context [if ?a <? ?b then _ else _] => destruct (Z.ltb_spec a b)
           | |- context [if ?c then _ else _] => destruct c
           end;
      envelope_stage (caches_channel2OutputLevelCache E). }
  clearbody s2. destruct Hvb as (d2 & Hd2 & Hr2 & Hvb). tuple_eq Hvb.
  match goal with |- Q ?t => set (r := t) end.
  assert (Hvc : exists d, (d = -1 \/ d = 0 \/ d = 1)
                  /\ 0 <= channel4envelopeVolume s2 + d <= 15
                  /\ (channel1envelopeVolume r, channel2envelopeVolume r,
                      channel4envelopeVolume r)
                     = (channel1envelopeVolume s2, channel2envelopeVolume s2,
                        channel4envelopeVolume s2 + d)).
  { subst r.
    repeat match goal with
           | |- context [if ?a <? ?b then _ else _] => destruct (Z.ltb_spec a b)
           | |- context [if ?c then _ else _] => destruct c
           end;
      envelope_stage (caches_channel4UpdateCache E). }
  clearbody r. destruct Hvc as (d4 & Hd4 & Hr4 & Hvc). tuple_eq Hvc.
  subst Q. cbv beta. lia.
Qed.

Lemma envelope_volumes_stay_in_range_witness :
  let s := set_channel1envelopeVolume 15 (set_channel1envelopeType true poweredCore) in
  let r := clockAudioEnvelope exampleEnv s in
  (0 <= channel1envelopeVolume r <= 15
   /\ Z.abs (channel1envelopeVolume r - channel1envelopeVolume s) <= 1)
  /\ (0 <= channel2envelopeVolume r <= 15
      /\ Z.abs (channel2envelopeVolume r - channel2envelopeVolume s) <= 1)
  /\ (0 <= channel4envelopeVolume r <= 15
      /\ Z.abs (channel4envelopeVolume r - channel4envelopeVolume s) <= 1).
Proof.
  intros s.
  apply (envelope_volumes_stay_in_range exampleEnv s);
    vm_compute; split; discriminate.
Defined.

(** ** Work RAM, its echo, high RAM and the region behind object memory *)

Lemma high_page_address (i : Z) : 0 <= i <= 0xff -> bor 0xff00 i = 0xff00 + i.
Proof.
  intros H.
  assert (Hall : forallb (fun k => bor 0xff00 k =? 0xff00 + k) (seqZ 0 256) = true)
    by (vm_compute; reflexivity).
  rewrite forallb_forall in Hall.
  apply Z.eqb_eq, Hall, list_elem_of_In, elem_of_seqZ. lia.
Qed.

Section MemoryMapMore.

Variable E : Env.
Variable rounds : nat.

(** A byte written to work RAM is read back at the address written and at
    its echo 0x2000 above, a write to the echo address does what the write
    to the address does, and no other byte of memory changes.  In Game Boy
    Color mode this covers the unbanked half 0xC000..0xCFFF. *)
Theorem work_RAM_is_mirrored_by_its_echo (s : Core) (address data : Z) :
  0xc000 <= address < 0xde00 ->
  useGBCMode (cartridgeSlot s) = false \/ address < 0xd000 ->
  exists s',
    memoryWriteMore E rounds address data s = Some s'
    /\ memoryWriteMore E rounds (address + 0x2000) data s = Some s'
    /\ memoryReadMore E rounds address s' = Some (toUint8 data, s')
    /\ memoryReadMore E rounds (address + 0x2000) s' = Some (toUint8 data, s')
    /\ (forall b, b <> address -> rd (memory s') b = rd (memory s) b).
Proof.
  intros Ha Hmode.
  exists (set_memory (wr8 (memory s) address data) s).
  assert (Hsel : useGBCMode (cartridgeSlot s) && (0xd000 <=? address) = false
                 /\ useGBCMode (cartridgeSlot s) && (0xf000 <=? address + 0x2000) = false
                 /\ negb (useGBCMode (cartridgeSlot s)) || (address <? 0xd000) = true
                 /\ negb (useGBCMode (cartridgeSlot s)) || (address + 0x2000 <? 0xf000)
                    = true).
  { destruct Hmode as [-> | Hlow]; [auto |].
    rewrite (proj2 (Z.leb_gt 0xd000 address)) by lia.
    rewrite (proj2 (Z.leb_gt 0xf000 (address + 0x2000))) by lia.
    rewrite (proj2 (Z.ltb_lt address 0xd000)) by lia.
    rewrite (proj2 (Z.ltb_lt (address + 0x2000) 0xf000)) by lia.
    rewrite !andb_false_r, !orb_true_r. auto. }
  destruct Hsel as (Hw & Hwe & Hr & Hre).
  repeat split.
  - unfold memoryWriteMore, memoryWriterMore, memoryWriter. cmp. rewrite Hw. reflexivity.
  - unfold memoryWriteMore, memoryWriterMore, memoryWriter. cmp. rewrite Hwe.
    unfold memoryWriteECHONormal. replace (address + 0x2000 - 0x2000) with address by lia.
    reflexivity.
  - unfold memoryReadMore, memoryReaderMore, memoryReader.
    change (cartridgeSlot (set_memory _ s)) with (cartridgeSlot s).
    cmp. rewrite Hr. unfold memoryReadNormal. fields. rewrite rd_wr8_same. reflexivity.
  - unfold memoryReadMore, memoryReaderMore, memoryReader.
    change (cartridgeSlot (set_memory _ s)) with (cartridgeSlot s).
    cmp. rewrite Hre. unfold memoryReadECHONormal. fields.
    replace (address + 0x2000 - 0x2000) with address by lia.
    rewrite rd_wr8_same. reflexivity.
  - intros b Hb. fields. apply rd_wr8_other. congruence.
Qed.

(** High RAM is plain memory; the full table and the high-page table
    reach the same byte. *)
Theorem high_RAM_round_trip (s : Core) (address data : Z) :
  0xff80 <= address <= 0xfffe ->
  exists s',
    memoryWriteMore E rounds address data s = Some s'
    /\ memoryHighWriteMore (address - 0xff00) data s = Some s'
    /\ memoryReadMore E rounds address s' = Some (toUint8 data, s')
    /\ memoryHighReadMore E rounds (address - 0xff00) s' = Some (toUint8 data, s')
    /\ (forall b, b <> address -> rd (memory s') b = rd (memory s) b).
Proof.
  intros Ha.
  pose proof (high_page_address (address - 0xff00) ltac:(lia)) as Hhi.
  replace (0xff00 + (address - 0xff00)) with address in Hhi by lia.
  exists (set_memory (wr8 (memory s) address data) s).
  repeat split.
  - unfold memoryWriteMore, memoryWriterMore, memoryWriter. cmp. reflexivity.
  - unfold memoryHighWriteMore, memoryHighWriterMore. cmp.
    unfold memoryHighWriteNormal. rewrite Hhi. reflexivity.
  - unfold memoryReadMore, memoryReaderMore.
    change (cartridgeSlot (set_memory _ s)) with (cartridgeSlot s).
    rewrite memoryReader_io by lia. unfold ioReader. cmp.
    unfold memoryReadNormal. fields. rewrite rd_wr8_same. reflexivity.
  - unfold memoryHighReadMore, memoryHighReaderMore, memoryHighReader. cmp.
    unfold memoryHighReadNormal. rewrite Hhi. fields. rewrite rd_wr8_same. reflexivity.
  - intros b Hb. fields. apply rd_wr8_other. congruence.
Qed.

(** In Game Boy mode the region 0xFEA1..0xFEFF is not there: a write is
    dropped and a read returns 0xFF.  The write table routes 0xFEA0 itself
    to the handler of object memory, so that in STAT mode 0 or 1 a byte
    written to 0xFEA0 is stored, while a read of 0xFEA0 still returns
    0xFF. *)
Theorem region_behind_OAM_on_DMG (s : Core) (address data : Z) :
  useGBCMode (cartridgeSlot s) = false ->
  (0xfea0 < address < 0xff00 ->
   memoryWriteMore E rounds address data s = Some s
   /\ memoryReadMore E rounds address s = Some (0xff, s))
  /\ (modeSTAT s < 2 -> 0 <= data < 256 ->
      exists s',
        memoryWriteMore E rounds 0xfea0 data s = Some s'
        /\ rd (memory s') 0xfea0 = data
        /\ memoryReadMore E rounds 0xfea0 s' = Some (0xff, s')).
Proof.
  intros Hdmg. split.
  - intros Ha. split.
    + unfold memoryWriteMore, memoryWriterMore, memoryWriter. cmp.
      rewrite Hdmg. reflexivity.
    + unfold memoryReadMore, memoryReaderMore, memoryReader. cmp.
      rewrite Hdmg. cbn [andb]. cmp. reflexivity.
  - intros Hm Hd.
    assert (Hw : memoryWriteMore E rounds 0xfea0 data s
                 = memoryWriteOAMRAM 0xfea0 data s) by reflexivity.
    assert (Hr : forall t, useGBCMode (cartridgeSlot t) = false ->
                           memoryReadMore E rounds 0xfea0 t = Some (0xff, t)).
    { intros t Ht. unfold memoryReadMore, memoryReaderMore, memoryReader.
      cbn [Z.ltb Z.leb Z.eqb Z.compare Pos.compare Pos.compare_cont Pos.eqb andb orb negb].
      rewrite Ht. reflexivity. }
    rewrite Hw. unfold memoryWriteOAMRAM.
    rewrite (proj2 (Z.ltb_lt (modeSTAT s) 2) Hm).
    destruct (Z.eqb_spec (rd (memory s) 0xfea0) data) as [Heq | Hne]; cbn [negb].
    + exists s. split; [reflexivity |]. split; [exact Heq |]. apply Hr, Hdmg.
    + eexists. split; [reflexivity |]. split.
      * fields. rewrite rd_wr8_same. apply toUint8_small. exact Hd.
      * apply Hr. fields. unfold graphicsJIT.
        destruct (LCDisOn s); [| exact Hdmg].
        unfold gfxRequest, set_cpu_totalLinesPassed. fields. exact Hdmg.
Qed.

(** The serial data register: outside a transfer (bit 7 of SC clear) it is
    a plain byte that reads back as written; during a transfer a write is
    dropped and a read returns 0xFF. *)
Theorem serial_data_register_locked_during_transfer (s : Core) (data : Z) :
  (rd (memory s) 0xff02 < 0x80 ->
   exists s', memoryWriteMore E rounds 0xff01 data s = Some s'
              /\ memoryReadMore E rounds 0xff01 s' = Some (toUint8 data, s'))
  /\ (0x80 <= rd (memory s) 0xff02 ->
      memoryWriteMore E rounds 0xff01 data s = Some s
      /\ memoryReadMore E rounds 0xff01 s = Some (0xff, s)).
Proof.
  assert (Hw : memoryWriteMore E rounds 0xff01 data s = writeSB 0xff01 data s)
    by reflexivity.
  assert (Hr : forall t, memoryReadMore E rounds 0xff01 t = readSB 0xff01 t).
  { intros t. unfold memoryReadMore, memoryReaderMore.
    rewrite memoryReader_io by lia. reflexivity. }
  rewrite Hw. unfold writeSB. split; intros Hsc.
  - rewrite (proj2 (Z.ltb_lt _ 0x80) Hsc). eexists. split; [reflexivity |].
    rewrite Hr. unfold readSB. fields.
    rewrite rd_wr8_other by lia. rewrite (proj2 (Z.ltb_lt _ 0x80) Hsc).
    rewrite rd_wr8_same. reflexivity.
  - rewrite (proj2 (Z.ltb_ge _ 0x80) Hsc). split; [reflexivity |].
    rewrite Hr. unfold readSB. rewrite (proj2 (Z.ltb_ge _ 0x80) Hsc). reflexivity.
Qed.

(** The interrupt registers: IF reads back with its three unused bits set,
    IE reads back as written, and after either write the interrupt line
    holds the interrupts both enabled and requested (low five bits) when
    the master enable is on, and is left alone when it is off. *)
Theorem interrupt_registers_drive_the_IRQ_line (s : Core) (data : Z) :
  (exists s',
      memoryWriteMore E rounds 0xff0f data s = Some s'
      /\ memoryReadMore E rounds 0xff0f s' = Some (bor 0xe0 data, s')
      /\ IRQLineMatched s'
         = if IME s then band (band (interruptsEnabled s) data) 0x1f
           else IRQLineMatched s)
  /\ (exists s',
         memoryWriteMore E rounds 0xffff data s = Some s'
         /\ memoryReadMore E rounds 0xffff s' = Some (data, s')
         /\ IRQLineMatched s'
            = if IME s then band (band data (interruptsRequested s)) 0x1f
              else IRQLineMatched s).
Proof.
  assert (Hrf : forall t, memoryReadMore E rounds 0xff0f t = readIF 0xff0f t).
  { intros t. unfold memoryReadMore, memoryReaderMore.
    rewrite memoryReader_io by lia. reflexivity. }
  assert (Hre : forall t, memoryReadMore E rounds 0xffff t = readIE 0xffff t).
  { intros t. unfold memoryReadMore, memoryReaderMore.
    rewrite memoryReader_io by lia. reflexivity. }
  split.
  - change (memoryWriteMore E rounds 0xff0f data s) with (writeIF 0xff0f data s).
    unfold writeIF, checkIRQMatching. fields.
    eexists. split; [reflexivity |]. rewrite Hrf. unfold readIF.
    destruct (IME s); fields; split; reflexivity.
  - change (memoryWriteMore E rounds 0xffff data s) with (writeIE 0xffff data s).
    unfold writeIE, checkIRQMatching. fields.
    eexists. split; [reflexivity |]. rewrite Hre. unfold readIE.
    destruct (IME s); fields; split; reflexivity.
Qed.

End MemoryMapMore.

Lemma work_RAM_is_mirrored_by_its_echo_witness :
  exists s',
    memoryWriteMore exampleEnv 100 0xc123 0x5a (blankCore dmgCartridge) = Some s'
    /\ memoryWriteMore exampleEnv 100 (0xc123 + 0x2000) 0x5a (blankCore dmgCartridge)
       = Some s'
    /\ memoryReadMore exampleEnv 100 0xc123 s' = Some (toUint8 0x5a, s')
    /\ memoryReadMore exampleEnv 100 (0xc123 + 0x2000) s' = Some (toUint8 0x5a, s')
    /\ (forall b, b <> 0xc123 ->
        rd (memory s') b = rd (memory (blankCore dmgCartridge)) b).
Proof.
  apply (work_RAM_is_mirrored_by_its_echo exampleEnv 100 (blankCore dmgCartridge)
           0xc123 0x5a).
  - lia.
  - left. reflexivity.
Defined.

Lemma high_RAM_round_trip_witness :
  exists s',
    memoryWriteMore exampleEnv 100 0xff90 0x77 (blankCore cgbCartridge) = Some s'
    /\ memoryHighWriteMore (0xff90 - 0xff00) 0x77 (blankCore cgbCartridge) = Some s'
    /\ memoryReadMore exampleEnv 100 0xff90 s' = Some (toUint8 0x77, s')
    /\ memoryHighReadMore exampleEnv 100 (0xff90 - 0xff00) s' = Some (toUint8 0x77, s')
    /\ (forall b, b <> 0xff90 ->
        rd (memory s') b = rd (memory (blankCore cgbCartridge)) b).
Proof.
  apply (high_RAM_round_trip exampleEnv 100 (blankCore cgbCartridge) 0xff90 0x77). lia.
Defined.

Lemma region_behind_OAM_on_DMG_witness :
  (0xfea0 < 0xfec0 < 0xff00 ->
   memoryWriteMore exampleEnv 100 0xfec0 0x12 (blankCore dmgCartridge)
   = Some (blankCore dmgCartridge)
   /\ memoryReadMore exampleEnv 100 0xfec0 (blankCore dmgCartridge)
      = Some (0xff, blankCore dmgCartridge))
  /\ (modeSTAT (blankCore dmgCartridge) < 2 -> 0 <= 0x12 < 256 ->
      exists s',
        memoryWriteMore exampleEnv 100 0xfea0 0x12 (blankCore dmgCartridge) = Some s'
        /\ rd (memory s') 0xfea0 = 0x12
        /\ memoryReadMore exampleEnv 100 0xfea0 s' = Some (0xff, s')).
Proof.
  apply (region_behind_OAM_on_DMG exampleEnv 100 (blankCore dmgCartridge) 0xfec0 0x12).
  reflexivity.
Defined.

(** ** The high-page read table *)

Section HighPage.

Variable E : Env.
Variable rounds : nat.

(** Slot by slot, the high-page table indexed by the low byte holds the
    closure that the full table holds for the full address. *)
Lemma memoryHighRead_full (s : Core) (index : Z) :
  0 <= index <= 0x3f ->
  memoryHighRead E rounds index s
  = (let? r := ioReader E rounds (0xff00 + index) in r (0xff00 + index) s).
Proof.
  intros Hi. revert s.
  assert (Hall : Forall (fun i => forall s,
                           memoryHighRead E rounds i s
                           = (let? r := ioReader E rounds (0xff00 + i) in
                              r (0xff00 + i) s))
                   (seqZ 0 64)).
  { let l := eval vm_compute in (seqZ 0 64) in change (seqZ 0 64) with l.
    repeat (constructor; [intros s; reflexivity |]). constructor. }
  apply (proj1 (Forall_forall _ _) Hall), elem_of_seqZ. lia.
Qed.

(** Every register 0xFF00..0xFF3F has a read closure in both tables -
    joypad, serial data and control, divider and timer, interrupt flags,
    the sound registers and wave RAM - and from well-formed audio clocks
    (the read of NR52 flushes the audio) a read returns, through the high
    page with the low byte as through the full table with the full address,
    the same value and the same state after the read. *)
Theorem high_page_reads_agree_with_full_reads (s : Core) (index : Z) :
  0 <= index <= 0x3f ->
  audioWF s -> audioTicks s < Z.of_nat rounds ->
  exists v s',
    memoryHighRead E rounds index s = Some (v, s')
    /\ memoryRead E rounds (0xff00 + index) s = Some (v, s').
Proof.
  intros Hi Hwf Hfuel.
  rewrite memoryHighRead_full by exact Hi.
  unfold memoryRead. rewrite memoryReader_io by lia.
  assert (Hdef : exists v s',
             (let? r := ioReader E rounds (0xff00 + index) in r (0xff00 + index) s)
             = Some (v, s')).
  { revert s Hwf Hfuel.
    assert (Hall : Forall (fun i => forall s, audioWF s -> audioTicks s < Z.of_nat rounds ->
                             exists v s',
                               (let? r := ioReader E rounds (0xff00 + i) in
                                r (0xff00 + i) s) = Some (v, s'))
                     (seqZ 0 64)).
    { let l := eval vm_compute in (seqZ 0 64) in change (seqZ 0 64) with l.
      repeat (constructor;
              [intros s Hwf Hfuel;
               first
                 [ do 2 eexists; reflexivity
                 | change (exists v s', readSC 0xff02 s = Some (v, s'));
                   unfold readSC; destruct (useGBCMode (cartridgeSlot s));
                   do 2 eexists; reflexivity
                 | change (exists v s', readNR52 E rounds 0xff26 s = Some (v, s'));
                   unfold readNR52;
                   destruct (audioJIT_spec E rounds s Hwf Hfuel) as (s1 & Hjit & _);
                   rewrite Hjit; do 2 eexists; reflexivity ] |]).
      constructor. }
    apply (proj1 (Forall_forall _ _) Hall), elem_of_seqZ. lia. }
  destruct Hdef as (v & s' & Hdef). exists v, s'. split; exact Hdef.
Qed.

End HighPage.

Lemma high_page_reads_agree_with_full_reads_witness :
  exists v s',
    memoryHighRead exampleEnv 100 0x26 (set_audioTicks 10 poweredCore) = Some (v, s')
    /\ memoryRead exampleEnv 100 (0xff00 + 0x26) (set_audioTicks 10 poweredCore)
       = Some (v, s').
Proof.
  apply (high_page_reads_agree_with_full_reads exampleEnv 100
           (set_audioTicks 10 poweredCore) 0x26).
  - lia.
  - example_WF.
  - vm_compute. reflexivity.
Defined.

(** ** The divider: counting across reads *)

Lemma shr_8_small (x : Z) : 0 <= x < 2 ^ 31 -> shr x 8 = x / 256.
Proof.
  intros H. unfold shr. rewrite toInt32_small by lia.
  change (Z.land 8 31) with 8. rewrite Z.shiftr_div_pow2 by lia. reflexivity.
Qed.

Lemma band_ff (x : Z) : band x 0xff = x mod 256.
Proof. change 0xff with (Z.ones 8). rewrite band_ones by lia. reflexivity. Qed.

Section DividerCount.

Variable E : Env.
Variable rounds : nat.

(** What a read of DIV returns, in closed form: the register byte plus
    the whole multiples of 256 among the pending ticks, the remainder
    staying pending. *)
Lemma memoryRead_DIV (s : Core) :
  0 <= DIVTicks s < 2 ^ 31 ->
  exists s',
    memoryRead E rounds 0xff04 s
    = Some ((rd (memory s) 0xff04 + DIVTicks s / 256) mod 256, s')
    /\ rd (memory s') 0xff04 = (rd (memory s) 0xff04 + DIVTicks s / 256) mod 256
    /\ DIVTicks s' = DIVTicks s mod 256.
Proof.
  intros HD. unfold memoryRead. rewrite memoryReader_io by lia.
  change (ioReader E rounds 0xff04) with (Some readDIV).
  unfold readDIV. cbv zeta. fields.
  rewrite rd_wr8_same, shr_8_small, !band_ff by exact HD.
  unfold toUint8. rewrite Z.mod_mod by lia.
  eexists. split; [reflexivity |]. fields.
  rewrite rd_wr8_same. unfold toUint8. rewrite Z.mod_mod by lia. split; reflexivity.
Qed.

(** Reading DIV does not disturb its count: a read after [t1] ticks
    followed by a read after [t2] more returns what a single read after
    [t1 + t2] ticks returns, the register having advanced once for every
    256 ticks since the start. *)
Theorem DIV_reads_do_not_disturb_the_count (s : Core) (t1 t2 : Z) :
  0 <= DIVTicks s -> 0 <= t1 -> 0 <= t2 -> DIVTicks s + t1 + t2 < 2 ^ 31 ->
  exists v1 s1 v2 s2 s',
    memoryRead E rounds 0xff04 (clockDIV t1 s) = Some (v1, s1)
    /\ memoryRead E rounds 0xff04 (clockDIV t2 s1) = Some (v2, s2)
    /\ memoryRead E rounds 0xff04 (clockDIV (t1 + t2) s) = Some (v2, s')
    /\ v2 = (rd (memory s) 0xff04 + (DIVTicks s + t1 + t2) / 256) mod 256
    /\ DIVTicks s2 = DIVTicks s' /\ rd (memory s2) 0xff04 = rd (memory s') 0xff04.
Proof.
  intros HD H1 H2 Hsum.
  destruct (memoryRead_DIV (clockDIV t1 s)) as (s1 & Hr1 & Hm1 & Hd1);
    [unfold clockDIV; fields; lia |].
  unfold clockDIV in Hr1, Hm1, Hd1 |- *.
  revert Hr1 Hm1 Hd1. fields. intros Hr1 Hm1 Hd1.
  assert (Hs1 : 0 <= DIVTicks s1 <= DIVTicks s + t1).
  { rewrite Hd1. split; [apply Z.mod_pos_bound; lia | apply Z.mod_le; lia]. }
  destruct (memoryRead_DIV (set_DIVTicks (DIVTicks s1 + t2) s1)) as (s2 & Hr2 & Hm2 & Hd2);
    [fields; lia |].
  destruct (memoryRead_DIV (set_DIVTicks (DIVTicks s + (t1 + t2)) s))
    as (s' & Hr & Hm & Hd); [fields; lia |].
  revert Hr2 Hm2 Hd2 Hr Hm Hd. fields. intros Hr2 Hm2 Hd2 Hr Hm Hd.
  set (m := rd (memory s) 0xff04) in *. set (D := DIVTicks s) in *.
  assert (Hdiv : (D + (t1 + t2)) / 256 = (D + t1) / 256 + ((D + t1) mod 256 + t2) / 256
                 /\ (D + (t1 + t2)) mod 256 = ((D + t1) mod 256 + t2) mod 256).
  { pose proof (Z.div_mod (D + t1) 256 ltac:(lia)) as Hdm.
    replace (D + (t1 + t2)) with (((D + t1) mod 256 + t2) + (D + t1) / 256 * 256) by lia.
    rewrite Z.div_add, Z.mod_add by lia. split; [lia | reflexivity]. }
  destruct Hdiv as [Hq Hrm].
  assert (Hv : (rd (memory s1) 0xff04 + (DIVTicks s1 + t2) / 256) mod 256
               = (m + (D + (t1 + t2)) / 256) mod 256).
  { rewrite Hm1, Hd1, Hq. rewrite Zplus_mod_idemp_l. f_equal. lia. }
  exists ((m + (D + t1) / 256) mod 256), s1,
    ((m + (D + (t1 + t2)) / 256) mod 256), s2, s'.
  split; [exact Hr1 |]. split; [rewrite Hr2, Hv; reflexivity |].
  split; [exact Hr |]. split; [f_equal; f_equal; f_equal; lia |].
  split; [rewrite Hd2, Hd, Hd1, Hrm; reflexivity | rewrite Hm2, Hm, Hv; reflexivity].
Qed.

End DividerCount.

Lemma DIV_reads_do_not_disturb_the_count_witness :
  exists v1 s1 v2 s2 s',
    memoryRead exampleEnv 100 0xff04 (clockDIV 300 (blankCore dmgCartridge))
    = Some (v1, s1)
    /\ memoryRead exampleEnv 100 0xff04 (clockDIV 300 s1) = Some (v2, s2)
    /\ memoryRead exampleEnv 100 0xff04 (clockDIV (300 + 300) (blankCore dmgCartridge))
       = Some (v2, s')
    /\ v2 = (rd (memory (blankCore dmgCartridge)) 0xff04
             + (DIVTicks (blankCore dmgCartridge) + 300 + 300) / 256) mod 256
    /\ DIVTicks s2 = DIVTicks s' /\ rd (memory s2) 0xff04 = rd (memory s') 0xff04.
Proof.
  apply (DIV_reads_do_not_disturb_the_count exampleEnv 100 (blankCore dmgCartridge)
           300 300).
  - vm_compute. discriminate.
  - lia.
  - lia.
  - vm_compute. reflexivity.
Defined.

(** ** Key events ([Joypad.down], [Joypad.up], [Joypad.writeToMemory]) *)

(** What a key event leaves behind: the key state, the register byte and
    the stop flag. *)
Lemma down_spec (key : Z) (s : Core) :
  value (joypad (down key s)) = band (value (joypad s)) (bxor 0xff (shl 1 key))
  /\ memory (down key s)
     = wr8 (memory s) 0xff00
         (band (rd (memory s) 0xff00) 0x30
          + joypadLines (rd (memory s) 0xff00)
              (band (value (joypad s)) (bxor 0xff (shl 1 key))))
  /\ CPUStopped (down key s) = false.
Proof.
  unfold down, writeToMemory, checkIRQMatching. fields.
  destruct (cartridge s) as [c |];
    [destruct (negb (useGBCMode c) && (negb (usedBootROM s) || negb (usedGBCBootROM s)));
     [destruct (IME s) |] |];
    fields; repeat split; reflexivity.
Qed.

Lemma up_spec (key : Z) (s : Core) :
  value (joypad (up key s)) = bor (value (joypad s)) (shl 1 key)
  /\ memory (up key s)
     = wr8 (memory s) 0xff00
         (band (rd (memory s) 0xff00) 0x30
          + joypadLines (rd (memory s) 0xff00) (bor (value (joypad s)) (shl 1 key)))
  /\ CPUStopped (up key s) = false.
Proof. unfold up, writeToMemory. repeat split; reflexivity. Qed.

(** A property checked on each number below [n] holds of any of them. *)
Lemma finite_check (P : Z -> bool) (n k : Z) :
  forallb P (seqZ 0 n) = true -> 0 <= k < n -> P k = true.
Proof.
  intros Hall Hk. rewrite forallb_forall in Hall.
  apply Hall, list_elem_of_In, elem_of_seqZ. lia.
Qed.

Lemma byte_bits_high (v j : Z) : 0 <= v <= 0xff -> 8 <= j -> Z.testbit v j = false.
Proof.
  intros Hv Hj. destruct (Z.eq_dec v 0) as [-> | Hne]; [apply Z.bits_0 |].
  apply Z.bits_above_log2; [lia |].
  assert (Z.log2 v < 8) by (apply Z.log2_lt_pow2; lia). lia.
Qed.

Lemma byte_of_bits (x : Z) :
  0 <= x -> (forall j, 8 <= j -> Z.testbit x j = false) -> 0 <= x <= 0xff.
Proof.
  intros Hx Hhigh.
  assert (Hmod : x mod 2 ^ 8 = x).
  { apply Z.bits_inj'. intros n Hn. rewrite Z.testbit_mod_pow2 by lia.
    destruct (Z.ltb_spec n 8); [reflexivity | symmetry; apply Hhigh; lia]. }
  pose proof (Z.mod_pos_bound x (2 ^ 8) ltac:(lia)). lia.
Qed.

Lemma testbit_ff (j : Z) : 0 <= j -> Z.testbit 0xff j = (j <? 8).
Proof. intros Hj. change 0xff with (Z.ones 8). apply Z.testbit_ones_nonneg; lia. Qed.

(** The mask of one key. *)
Lemma key_bit (key : Z) :
  0 <= key <= 7 ->
  shl 1 key = 2 ^ key /\ bxor 0xff (shl 1 key) = Z.ldiff 0xff (2 ^ key)
  /\ 0 <= Z.ldiff 0xff (2 ^ key) <= 0xff /\ 0 < 2 ^ key <= 0x80.
Proof.
  intros Hk.
  pose proof (finite_check
    (fun k => (shl 1 k =? 2 ^ k) && (bxor 0xff (shl 1 k) =? Z.ldiff 0xff (2 ^ k))
              && (0 <=? Z.ldiff 0xff (2 ^ k)) && (Z.ldiff 0xff (2 ^ k) <=? 0xff)
              && (0 <? 2 ^ k) && (2 ^ k <=? 0x80)) 8 key
    ltac:(vm_compute; reflexivity) ltac:(lia)) as H.
  cbv beta in H. repeat (apply andb_prop in H as [H ?]).
  repeat split; lia.
Qed.

(** Pressing clears the bit of the key and no other. *)
Lemma pressed_bits (v key : Z) :
  0 <= key <= 7 -> 0 <= v <= 0xff ->
  let v' := band v (bxor 0xff (shl 1 key)) in
  0 <= v' <= 0xff
  /\ Z.testbit v' key = false
  /\ (forall j, j <> key -> Z.testbit v' j = Z.testbit v j)
  /\ bor v' (shl 1 key) = Z.lor v (2 ^ key).
Proof.
  intros Hk Hv. destruct (key_bit key Hk) as (Hs & Hm & Hr & Hp).
  cbv zeta. rewrite Hm, Hs. unfold band, bor.
  rewrite !(toInt32_small v), !(toInt32_small (Z.ldiff _ _)), !(toInt32_small (2 ^ key)) by lia.
  assert (Hbits : forall j, Z.testbit (Z.land v (Z.ldiff 0xff (2 ^ key))) j
                            = Z.testbit v j && negb (key =? j)).
  { intros j. rewrite Z.land_spec, Z.ldiff_spec.
    destruct (Z.ltb_spec j 0) as [Hneg | Hpos].
    - rewrite !(Z.testbit_neg_r _ j) by lia. reflexivity.
    - rewrite testbit_ff, Z.pow2_bits_eqb by lia.
      destruct (Z.ltb_spec j 8) as [Hlow | Hhigh]; [reflexivity |].
      rewrite byte_bits_high by lia. reflexivity. }
  assert (Hrange : 0 <= Z.land v (Z.ldiff 0xff (2 ^ key)) <= 0xff).
  { apply byte_of_bits; [apply Z.land_nonneg; lia |].
    intros j Hj. rewrite Hbits, byte_bits_high by lia. reflexivity. }
  split; [exact Hrange |].
  split; [rewrite Hbits, Z.eqb_refl; apply andb_false_r |].
  split.
  - intros j Hj. rewrite Hbits. destruct (Z.eqb_spec key j); [lia | apply andb_true_r].
  - rewrite toInt32_small by lia. apply Z.bits_inj'. intros n Hn.
    rewrite !Z.lor_spec, Hbits, Z.pow2_bits_eqb by lia.
    destruct (key =? n), (Z.testbit v n); reflexivity.
Qed.

Lemma released_bits (v key : Z) :
  0 <= key <= 7 -> 0 <= v <= 0xff ->
  0 <= Z.lor v (2 ^ key) <= 0xff
  /\ Z.testbit (Z.lor v (2 ^ key)) key = true
  /\ (Z.testbit v key = true -> Z.lor v (2 ^ key) = v).
Proof.
  intros Hk Hv. destruct (key_bit key Hk) as (_ & _ & _ & Hp).
  split; [| split].
  - apply byte_of_bits; [apply Z.lor_nonneg; lia |].
    intros j Hj. rewrite Z.lor_spec, Z.pow2_bits_eqb, byte_bits_high by lia.
    destruct (Z.eqb_spec key j); [lia | reflexivity].
  - rewrite Z.lor_spec, Z.pow2_bits_true by lia. apply orb_true_r.
  - intros Hset. apply Z.bits_inj'. intros n Hn.
    rewrite Z.lor_spec, Z.pow2_bits_eqb by lia.
    destruct (Z.eqb_spec key n) as [<- | _]; [rewrite Hset; reflexivity | apply orb_false_r].
Qed.

(** The four lines of the register: each is the AND of the selected halves
    of the key state. *)
Lemma joypadLines_spec (sel v : Z) :
  0 <= v <= 0xff ->
  0 <= joypadLines sel v <= 0xf
  /\ (forall k, 0 <= k < 4 ->
        Z.testbit (joypadLines sel v) k
        = (if band sel 0x20 =? 0 then Z.testbit v (k + 4) else true)
          && (if band sel 0x10 =? 0 then Z.testbit v k else true)).
Proof.
  intros Hv. unfold joypadLines.
  assert (Hhi : shr v 4 = v / 2 ^ 4).
  { unfold shr. rewrite toInt32_small by lia. change (Z.land 4 31) with 4.
    apply Z.shiftr_div_pow2. lia. }
  assert (Hlo : band v 0xf = v mod 2 ^ 4) by (apply (band_ones v 4); lia).
  assert (Hhir : 0 <= v / 2 ^ 4 <= 0xf)
    by (split; [apply Z.div_pos; lia | apply Z.lt_succ_r, Z.div_lt_upper_bound; lia]).
  pose proof (Z.mod_pos_bound v (2 ^ 4) ltac:(lia)) as Hlor.
  set (a := if band sel 0x20 =? 0 then shr v 4 else 0xf).
  set (b := if band sel 0x10 =? 0 then band v 0xf else 0xf).
  assert (Ha : 0 <= a <= 0xf) by (subst a; destruct (band sel 0x20 =? 0); lia).
  assert (Hb : 0 <= b <= 0xf) by (subst b; destruct (band sel 0x10 =? 0); lia).
  assert (Hand : band a b = Z.land a b) by (unfold band; rewrite !toInt32_small by lia; reflexivity).
  rewrite Hand. split.
  - split; [apply Z.land_nonneg; lia |].
    assert (Hm : Z.land a b mod 2 ^ 4 = Z.land a b).
    { apply Z.bits_inj'. intros n Hn. rewrite Z.testbit_mod_pow2, Z.land_spec by lia.
      destruct (Z.ltb_spec n 4) as [_ | Hn4]; [reflexivity |].
      replace (Z.testbit a n) with false; [reflexivity |].
      symmetry. destruct (Z.eq_dec a 0) as [-> | Hne]; [apply Z.bits_0 |].
      apply Z.bits_above_log2; [lia |].
      assert (Z.log2 a < 4) by (apply Z.log2_lt_pow2; lia). lia. }
    pose proof (Z.mod_pos_bound (Z.land a b) (2 ^ 4) ltac:(lia)). lia.
  - intros k Hk. rewrite Z.land_spec. f_equal.
    + subst a. destruct (band sel 0x20 =? 0).
      * rewrite Hhi. apply Z.div_pow2_bits; lia.
      * change 0xf with (Z.ones 4). apply Z.ones_spec_low. lia.
    + subst b. destruct (band sel 0x10 =? 0).
      * rewrite Hlo. apply Z.mod_pow2_bits_low. lia.
      * change 0xf with (Z.ones 4). apply Z.ones_spec_low. lia.
Qed.

(** The register byte assembled by [writeToMemory]: the selection bits are
    kept, the low nibble is the lines. *)
Lemma register_byte (sel n : Z) :
  0 <= sel <= 0xff -> 0 <= n <= 0xf ->
  let x := toUint8 (band sel 0x30 + n) in
  0 <= x <= 0xff
  /\ band x 0x30 = band sel 0x30 /\ band x 0x20 = band sel 0x20
  /\ band x 0x10 = band sel 0x10
  /\ (forall k, 0 <= k < 4 -> Z.testbit x k = Z.testbit n k).
Proof.
  intros Hsel Hn.
  pose proof (finite_check
    (fun a => forallb (fun b =>
       let x := toUint8 (band a 0x30 + b) in
       (band x 0x30 =? band a 0x30) && (band x 0x20 =? band a 0x20)
       && (band x 0x10 =? band a 0x10) && (x mod 2 ^ 4 =? b)) (seqZ 0 16)) 256 sel
    ltac:(vm_compute; reflexivity) ltac:(lia)) as H.
  cbv beta in H.
  pose proof (finite_check _ 16 n H ltac:(lia)) as H'. cbv beta zeta in H'.
  repeat (apply andb_prop in H' as [H' ?]).
  cbv zeta. pose proof (toUint8_range (band sel 0x30 + n)).
  split; [lia |]. split; [lia |]. split; [lia |]. split; [lia |].
  intros k Hk. replace n with (toUint8 (band sel 0x30 + n) mod 2 ^ 4) at 2 by lia.
  symmetry. apply Z.mod_pow2_bits_low. lia.
Qed.

Section KeyEvents.

(** Pressing a key clears its bit of the key state and leaves the other
    seven alone; releasing sets it again, so a press followed by a release
    of a key that was up restores the key state.  Both events rebuild the
    register byte at 0xFF00 with the selection bits as they were: while the
    line of the key is selected the pressed key reads as 0 on its bit of
    the low nibble, after the release the bit reads 1 unless the other line
    is selected too.  Either event ends STOP. *)
Theorem key_press_and_release_show_in_register (s : Core) (key : Z) :
  0 <= key <= 7 -> 0 <= value (joypad s) <= 0xff -> 0 <= rd (memory s) 0xff00 <= 0xff ->
  let sel := rd (memory s) 0xff00 in
  let line := if key <? 4 then 0x10 else 0x20 in
  let other := if key <? 4 then 0x20 else 0x10 in
  let p := down key s in
  let r := up key p in
  (Z.testbit (value (joypad p)) key = false
   /\ forall j, j <> key -> Z.testbit (value (joypad p)) j = Z.testbit (value (joypad s)) j)
  /\ value (joypad r) = Z.lor (value (joypad s)) (2 ^ key)
  /\ (Z.testbit (value (joypad s)) key = true -> value (joypad r) = value (joypad s))
  /\ band (rd (memory p) 0xff00) 0x30 = band sel 0x30
  /\ band (rd (memory r) 0xff00) 0x30 = band sel 0x30
  /\ (band sel line = 0 -> Z.testbit (rd (memory p) 0xff00) (key mod 4) = false)
  /\ (band sel other <> 0 -> Z.testbit (rd (memory r) 0xff00) (key mod 4) = true)
  /\ CPUStopped p = false /\ CPUStopped r = false.
Proof.
  intros Hk Hv Hsel. cbv zeta.
  destruct (down_spec key s) as (Hpv & Hpm & Hps).
  destruct (up_spec key (down key s)) as (Hrv & Hrm & Hrs).
  destruct (pressed_bits (value (joypad s)) key Hk Hv) as (Hv' & Hclr & Hoth & Hlor).
  cbv zeta in Hv', Hclr, Hoth, Hlor.
  destruct (released_bits (value (joypad s)) key Hk Hv) as (Hvr & Hset & Hsame).
  rewrite Hpv, Hlor in Hrv, Hrm.
  set (v' := band (value (joypad s)) (bxor 0xff (shl 1 key))) in *.
  destruct (joypadLines_spec (rd (memory s) 0xff00) v' Hv') as (Hn & Hnb).
  destruct (register_byte _ _ Hsel Hn) as (Hx & H30 & H20 & H10 & Hxb).
  cbv zeta in Hx, H30, H20, H10, Hxb.
  assert (Hp0 : rd (memory (down key s)) 0xff00
                = toUint8 (band (rd (memory s) 0xff00) 0x30
                           + joypadLines (rd (memory s) 0xff00) v'))
    by (rewrite Hpm; apply rd_wr8_same).
  rewrite <- Hp0 in Hx, H30, H20, H10, Hxb.
  destruct (joypadLines_spec (rd (memory (down key s)) 0xff00) _ Hvr) as (Hn2 & Hnb2).
  destruct (register_byte _ _ Hx Hn2) as (Hy & G30 & G20 & G10 & Hyb).
  cbv zeta in Hy, G30, G20, G10, Hyb.
  assert (Hr0 : rd (memory (up key (down key s))) 0xff00
                = toUint8 (band (rd (memory (down key s)) 0xff00) 0x30
                           + joypadLines (rd (memory (down key s)) 0xff00)
                               (Z.lor (value (joypad s)) (2 ^ key))))
    by (rewrite Hrm; apply rd_wr8_same).
  rewrite <- Hr0 in Hy, G30, G20, G10, Hyb.
  assert (Hbit : 0 <= key mod 4 < 4) by (apply Z.mod_pos_bound; lia).
  split; [split; [rewrite Hpv; exact Hclr | intros j Hj; rewrite Hpv; apply Hoth, Hj] |].
  split; [exact Hrv |].
  split; [intros Hb; rewrite Hrv; apply Hsame, Hb |].
  split; [exact H30 |].
  split; [rewrite G30; exact H30 |].
  split; [| split; [| split; [exact Hps | exact Hrs]]].
  - intros Hline. rewrite Hxb, Hnb by exact Hbit.
    destruct (Z.ltb_spec key 4) as [Hlt | Hge].
    + rewrite Hline, Z.eqb_refl, Z.mod_small by lia. rewrite Hclr. apply andb_false_r.
    + rewrite Hline, Z.eqb_refl.
      replace (key mod 4 + 4) with key
        by (assert (key mod 4 = key - 4) by (symmetry; apply (Z.mod_unique key 4 1); lia); lia).
      rewrite Hclr. reflexivity.
  - intros Hother. rewrite Hyb, Hnb2 by exact Hbit. rewrite H20, H10.
    destruct (Z.ltb_spec key 4) as [Hlt | Hge].
    + destruct (Z.eqb_spec (band (rd (memory s) 0xff00) 0x20) 0) as [He | _]; [contradiction |].
      rewrite Z.mod_small by lia. rewrite Hset. destruct (_ =? 0); reflexivity.
    + destruct (Z.eqb_spec (band (rd (memory s) 0xff00) 0x10) 0) as [He | _]; [contradiction |].
      replace (key mod 4 + 4) with key
        by (assert (key mod 4 = key - 4) by (symmetry; apply (Z.mod_unique key 4 1); lia); lia).
      rewrite Hset. destruct (_ =? 0); reflexivity.
Qed.

(** A name that is not one of the eight buttons is not rejected:
    [getButtonIndex] answers -1 and the event is carried out with the mask
    [1 << -1], which is bit 31.  [actionDown] then changes no key and yet
    ends STOP; [actionUp] sets bit 31 of the key state, which turns it
    negative.  On the core as the program builds it, whose own [cartridge]
    field is unset (the cartridge is kept in [cartridgeSlot]), the test of
    [Joypad.down] fails for every key, so neither a button nor an unknown
    name requests the joypad interrupt or touches [remainingClocks]. *)
Theorem unknown_action_is_carried_out (action : string) (s : Core) :
  ~ In action buttons -> 0 <= value (joypad s) <= 0xff -> cartridge s = None ->
  getButtonIndex action = -1
  /\ value (joypad (actionDown action s)) = value (joypad s)
  /\ CPUStopped (actionDown action s) = false
  /\ interruptsRequested (actionDown action s) = interruptsRequested s
  /\ remainingClocks (actionDown action s) = remainingClocks s
  /\ (forall key : Z,
        interruptsRequested (down key s) = interruptsRequested s
        /\ remainingClocks (down key s) = remainingClocks s
        /\ IRQLineMatched (down key s) = IRQLineMatched s)
  /\ value (joypad (actionUp action s)) = value (joypad s) - 2 ^ 31
  /\ CPUStopped (actionUp action s) = false.
Proof.
  intros Hnot Hv Hnone.
  assert (Hidx : getButtonIndex action = -1).
  { unfold getButtonIndex, buttons. cbn [indexOf].
    repeat (rewrite bool_decide_eq_false_2;
            [| intros <-; apply Hnot; cbn; tauto]).
    reflexivity. }
  assert (Hquiet : forall key : Z,
             interruptsRequested (down key s) = interruptsRequested s
             /\ remainingClocks (down key s) = remainingClocks s
             /\ IRQLineMatched (down key s) = IRQLineMatched s).
  { intros key. unfold down, writeToMemory. fields. rewrite Hnone. fields.
    repeat split; reflexivity. }
  unfold actionDown, actionUp. rewrite Hidx.
  destruct (down_spec (-1) s) as (Hdv & _ & Hds).
  destruct (up_spec (-1) s) as (Huv & _ & Hus).
  pose proof (finite_check
    (fun v => (band v (bxor 0xff (shl 1 (-1))) =? v)
              && (bor v (shl 1 (-1)) =? v - 2 ^ 31)) 256 (value (joypad s))
    ltac:(vm_compute; reflexivity) ltac:(lia)) as H.
  cbv beta in H. apply andb_prop in H as [H1 H2].
  split; [reflexivity |].
  split; [rewrite Hdv; lia |].
  split; [exact Hds |].
  split; [apply (Hquiet (-1)) |].
  split; [apply (Hquiet (-1)) |].
  split; [exact Hquiet |].
  split; [rewrite Huv; lia | exact Hus].
Qed.

End KeyEvents.

Lemma key_press_and_release_show_in_register_witness :
  Z.testbit (rd (memory (down 0 (blankCore dmgCartridge))) 0xff00) 0 = false
  /\ value (joypad (up 0 (down 0 (blankCore dmgCartridge)))) = 0xff.
Proof.
  pose proof (key_press_and_release_show_in_register (blankCore dmgCartridge) 0
                ltac:(lia) ltac:(vm_compute; split; discriminate)
                ltac:(vm_compute; split; discriminate)) as H.
  cbv zeta in H.
  destruct H as (_ & _ & Hr & _ & _ & Hp & _).
  split; [apply Hp; vm_compute; reflexivity | apply Hr; vm_compute; reflexivity].
Defined.

Lemma unknown_action_is_carried_out_witness :
  getButtonIndex "turbo" = -1
  /\ value (joypad (actionUp "turbo" (blankCore dmgCartridge))) = 0xff - 2 ^ 31.
Proof.
  pose proof (unknown_action_is_carried_out "turbo" (blankCore dmgCartridge)
                ltac:(vm_compute; intuition discriminate)
                ltac:(vm_compute; split; discriminate) eq_refl) as H.
  destruct H as (Hi & _ & _ & _ & _ & _ & Hu & _).
  split; [exact Hi | exact Hu].
Defined.

(** ** Cartridge header ([setTypeName], [interpret], [parseROM]) *)

Lemma rom_setTypeName (st : Settings) (c : Cartridge) : rom (setTypeName st c) = rom c.
Proof.
  unfold setTypeName, setTypeName_switch.
  repeat match goal with
         | |- context [if ?b then _ else _] => destruct b
         end; reflexivity.
Qed.

Section Header.
Variable st : Settings.

(** The controller object that [setTypeName] builds for a cartridge whose
    flags are as the constructor leaves them.  Type 0x00 (ROM only) has no
    [break] and runs on into the case of type 0x01, so it gets the name
    "MBC1" and an MBC1 controller whatever [enableMBC1Override] is.  The
    types that only set [hasSRAM], [cMMMO1], [cRUMBLE], [cCamera],
    [cTAMA5], [cHuC3] or [cHuC1], and the unknown ones, are left without
    controller ([mbc] is null). *)
Theorem controller_follows_cartridge_type (c : Cartridge) :
  hasMBC1 c = false -> hasMBC2 c = false -> hasMBC3 c = false ->
  hasMBC5 c = false -> hasMBC7 c = false ->
  let t := type c in
  mbc (setTypeName st c)
  = (if (0x00 <=? t) && (t <=? 0x03) then Some MBC1
     else if (0x05 <=? t) && (t <=? 0x06) then Some MBC2
     else if (0x0f <=? t) && (t <=? 0x13) then Some MBC3
     else if (0x19 <=? t) && (t <=? 0x1b) then Some MBC5
     else if t =? 0x22 then Some MBC7
     else None)
  /\ (t = 0x00 -> typeName (setTypeName st c) = Some "MBC1"%string
                  /\ hasMBC1 (setTypeName st c) = true)
  /\ (0x1c <= t <= 0x1e -> cRUMBLE (setTypeName st c) = true
                           /\ mbc (setTypeName st c) = None).
Proof.
  destruct c as [r ram m1 b1 b2 b3 b5 b7 sr mm bat rum cam tam h3 h1 rtc nb ab
                   nm gc ccb ty tn rs rsz nrb gbc nl lc mb].
  cbn [hasMBC1 hasMBC2 hasMBC3 hasMBC5 hasMBC7 type].
  intros -> -> -> -> ->. cbv zeta.
  unfold setTypeName, setTypeName_switch. cbn [type].
  repeat (match goal with
          | |- context [ty =? ?k] => destruct (Z.eqb_spec ty k) as [-> | ?]
          end;
          [destruct (enableMBC1Override st);
           (split; [vm_compute; reflexivity |]);
           (split; [intros ?; try lia; split; reflexivity |]);
           intros ?; try lia; split; reflexivity |]).
  split; [| split; intros; lia].
  cbn.
  repeat match goal with
         | |- context [?a <=? ?b] => destruct (Z.leb_spec a b)
         | |- context [?a =? ?b] => destruct (Z.eqb_spec a b)
         end; cbn; try reflexivity; lia.
Qed.

(** The licence code that [interpret] records.  With the old code byte
    (0x14B) different from 0x33 it is that byte.  With 0x33 the new code is
    assembled as [getByte(0x144) & 0xff00 | getByte(0x145) & 0xff]: of a
    byte the first operand keeps nothing, so the code is the second
    character alone, and the first character of the two-character code
    never enters it. *)
Theorem new_licence_code_keeps_second_byte_only (boot gbcBoot : bool) (r : ROM) :
  0 <= getByte r 0x144 <= 0xff ->
  let c := interpret st boot gbcBoot (new_Cartridge r) in
  isNewLicenseCode c = (getByte r 0x14b =? 0x33)
  /\ licenseCode c
     = (if getByte r 0x14b =? 0x33 then getByte r 0x145 mod 256 else getByte r 0x14b).
Proof.
  intros Hb. cbv zeta.
  assert (Hhigh : band (getByte r 0x144) 0xff00 = 0).
  { pose proof (finite_check (fun b => band b 0xff00 =? 0) 256 (getByte r 0x144)
                  ltac:(vm_compute; reflexivity) ltac:(lia)) as H.
    cbv beta in H. lia. }
  assert (Hor : forall x, bor 0 (band x 0xff) = x mod 256).
  { intros x. rewrite band_ff. unfold bor.
    pose proof (Z.mod_pos_bound x 256 ltac:(lia)).
    rewrite !toInt32_small by lia. apply Z.lor_0_l. }
  unfold interpret. cbv zeta.
  match goal with
  | |- context [negb (getByte (rom ?c) 0x14b =? 0x33)] =>
      assert (Hrom : rom c = r); [| revert Hrom; generalize c; intros c' Hrom]
  end.
  { repeat match goal with
           | |- context [if ?b then _ else _] => destruct b
           end; cbn [rom set_useGBCMode set_numROMBanks set_ramSize set_romSize];
      rewrite rom_setTypeName; reflexivity. }
  rewrite Hrom, Hhigh, Hor.
  destruct (getByte r 0x14b =? 0x33); split; reflexivity.
Qed.

End Header.

Lemma controller_follows_cartridge_type_witness :
  mbc (setTypeName exampleSettings (set_type 0x1c (new_Cartridge []))) = None
  /\ cRUMBLE (setTypeName exampleSettings (set_type 0x1c (new_Cartridge []))) = true.
Proof.
  pose proof (controller_follows_cartridge_type exampleSettings
                (set_type 0x1c (new_Cartridge []))
                eq_refl eq_refl eq_refl eq_refl eq_refl) as H.
  cbv zeta in H. destruct H as (_ & _ & H).
  destruct H as [H1 H2]; [vm_compute; split; discriminate |].
  split; [exact H2 | exact H1].
Defined.

Lemma new_licence_code_keeps_second_byte_only_witness :
  licenseCode (interpret exampleSettings false false
                 (new_Cartridge (replicate 0x144 0 ++ [0x30; 0x31; 0; 0; 0; 0; 0; 0x33])))
  = 0x31.
Proof.
  pose proof (new_licence_code_keeps_second_byte_only exampleSettings false false
                (replicate 0x144 0 ++ [0x30; 0x31; 0; 0; 0; 0; 0; 0x33])
                ltac:(vm_compute; split; discriminate)) as H.
  cbv zeta in H. destruct H as [_ H]. rewrite H. vm_compute. reflexivity.
Defined.

(** ** Loading the ROM and the battery-backed RAM *)

Lemma foldl_wr8 (g : Z -> Z) (l : list Z) (m : gmap Z Z) (i : Z) :
  rd (foldl (fun m k => wr8 m k (g k)) m l) i
  = if bool_decide (i ∈ l) then toUint8 (g i) else rd m i.
Proof.
  revert m. induction l as [| k l IH]; intros m.
  - rewrite bool_decide_eq_false_2 by apply not_elem_of_nil. reflexivity.
  - cbn [foldl]. rewrite IH.
    destruct (decide (i ∈ l)) as [Hin | Hout].
    + rewrite !bool_decide_eq_true_2 by (try (apply elem_of_cons; right); exact Hin). reflexivity.
    + rewrite (bool_decide_eq_false_2 (i ∈ l)) by exact Hout.
      destruct (decide (i = k)) as [-> | Hne].
      * rewrite bool_decide_eq_true_2 by (apply elem_of_cons; left; reflexivity). apply rd_wr8_same.
      * rewrite bool_decide_eq_false_2
          by (intros [? | ?]%elem_of_cons; contradiction).
        apply rd_wr8_other. congruence.
Qed.

(** A ROM of at least 0x4000 bytes is accepted by [parseROM].  When no boot
    ROM is used the first 0x4000 bytes of memory are the first 0x4000 bytes
    of the ROM (their low eight bits) and the rest of memory is untouched.
    When the settings select a boot ROM nothing at all is copied, neither
    the boot ROM nor the game: the loading code of that branch is commented
    out. *)
Theorem parseROM_loads_bank_zero (st : Settings) (c : Cartridge) (s : Core) :
  0x4000 <= rom_length (rom c) ->
  exists s',
    parseROM st c s = Ok s'
    /\ (usedBootROM s' = true -> memory s' = memory s)
    /\ (usedBootROM s' = false ->
        (forall i, 0 <= i < 0x4000 -> rd (memory s') i = getByte (rom c) i mod 256)
        /\ (forall i, ~ 0 <= i < 0x4000 -> rd (memory s') i = rd (memory s) i)).
Proof.
  intros Hlen. unfold parseROM.
  destruct (Z.ltb_spec (rom_length (rom c)) 0x4000) as [Hshort | _]; [lia |].
  set (s0 := set_usedBootROM _ s).
  assert (Hm0 : memory s0 = memory s) by reflexivity.
  destruct (usedBootROM s0) eqn:Hboot.
  - exists s0. split; [reflexivity |]. split; [intros _; exact Hm0 | congruence].
  - eexists. split; [reflexivity |].
    assert (Hb : forall m, usedBootROM (set_memory m s0) = usedBootROM s0) by reflexivity.
    assert (Hm : forall m, memory (set_memory m s0) = m) by reflexivity.
    rewrite Hb, Hm, Hm0. split; [congruence |]. intros _. split.
    + intros i Hi. rewrite foldl_wr8.
      rewrite bool_decide_eq_true_2 by (apply elem_of_seqZ; lia).
      rewrite band_ff. apply toUint8_small, Z.mod_pos_bound. lia.
    + intros i Hi. rewrite foldl_wr8.
      rewrite bool_decide_eq_false_2 by (rewrite elem_of_seqZ; lia). reflexivity.
Qed.

Lemma parseROM_loads_bank_zero_witness :
  exists s', parseROM exampleSettings (exampleCartridge 0x04 0)
               (blankCore (exampleCartridge 0x04 0)) = Ok s'.
Proof.
  destruct (parseROM_loads_bank_zero exampleSettings (exampleCartridge 0x04 0)
              (blankCore (exampleCartridge 0x04 0))
              ltac:(vm_compute; discriminate)) as (s' & H & _).
  exists s'. exact H.
Defined.

(** What [setupRAM] restores is what [saveSRAMState] hands back.  For a
    cartridge whose flags call for RAM, when the host returns a saved image
    of byte values for the cartridge name, that image becomes the RAM as it
    is - its length is not compared with [allocatedRamBytes] - and, with a
    battery and a non-empty image, [saveSRAMState] returns it unchanged.
    Without battery nothing is ever saved.  This is the state [setupRAM]
    ends in whether its closing call returns or raises. *)
Theorem battery_RAM_is_restored_and_saved_back
    (load : string -> option (list Z)) (rtc2 : bool) (c : Cartridge) (saved : list Z) :
  hasMBC2 c || hasMBC1 c || cRUMBLE c || hasMBC3 c || cHuC3 c || hasMBC5 c || hasSRAM c = true ->
  load (name c) = Some saved ->
  Forall (fun b => 0 <= b < 256) saved ->
  MBCRam (reached (setupRAM (Some load) rtc2 c)) = saved
  /\ saveSRAMState (reached (setupRAM (Some load) rtc2 c))
     = (if hasBattery c && negb (Z.of_nat (length saved) =? 0) then Some saved else None).
Proof.
  intros Hflags Hload Hbytes.
  assert (Hmap : map toUint8 saved = saved).
  { clear Hload. induction Hbytes as [| b l Hb _ IH]; [reflexivity |].
    cbn [map]. rewrite IH, (toUint8_small b Hb). reflexivity. }
  destruct c as [r ram m1 b1 b2 b3 b5 b7 sr mm bat rum cam tam h3 h1 rtc nb ab
                   nm gc ccb ty tn rs rsz nrb gbc nl lc mb].
  cbn [hasMBC2 hasMBC1 cRUMBLE hasMBC3 cHuC3 hasMBC5 hasSRAM name hasBattery] in *.
  assert (Hram : MBCRam (reached (setupRAM (Some load) rtc2
                   (Build_Cartridge r ram m1 b1 b2 b3 b5 b7 sr mm bat rum cam tam h3 h1
                      rtc nb ab nm gc ccb ty tn rs rsz nrb gbc nl lc mb))) = saved
                 /\ hasBattery (reached (setupRAM (Some load) rtc2
                   (Build_Cartridge r ram m1 b1 b2 b3 b5 b7 sr mm bat rum cam tam h3 h1
                      rtc nb ab nm gc ccb ty tn rs rsz nrb gbc nl lc mb))) = bat).
  { unfold setupRAM. destruct rtc2.
    all: destruct b2; [cbn; rewrite Hload, Hmap; split; reflexivity |].
    all: destruct b1; [cbn; rewrite Hload, Hmap; split; reflexivity |].
    all: destruct rum; [cbn; rewrite Hload, Hmap; split; reflexivity |].
    all: destruct b3; [cbn; rewrite Hload, Hmap; split; reflexivity |].
    all: destruct h3; [cbn; rewrite Hload, Hmap; split; reflexivity |].
    all: destruct b5; [cbn; rewrite Hload, Hmap; split; reflexivity |].
    all: destruct sr; [cbn; rewrite Hload, Hmap; split; reflexivity | discriminate]. }
  destruct Hram as [Hram Hbat]. split; [exact Hram |].
  unfold saveSRAMState. rewrite Hram, Hbat.
  destruct bat, (Z.of_nat (length saved) =? 0); reflexivity.
Qed.

Lemma battery_RAM_is_restored_and_saved_back_witness :
  saveSRAMState (reached (setupRAM (Some (fun _ => Some [1; 2; 3])) false
                            (exampleCartridge 0x1b 0)))
  = Some [1; 2; 3].
Proof.
  destruct (battery_RAM_is_restored_and_saved_back
              (fun _ => Some [1; 2; 3]) false (exampleCartridge 0x1b 0) [1; 2; 3]
              ltac:(vm_compute; reflexivity) eq_refl
              ltac:(repeat constructor; lia)) as [_ H].
  rewrite H. vm_compute. reflexivity.
Defined.

(** ** The CPU timers ([updateCore], TAC) *)

Lemma clockTIMA_step (fuel : nat) (s : Core) (t : Timers) :
  clockTIMA (S fuel) s t
  = if TACClocker t <=? timerTicks t
    then clockTIMA fuel (timaTick s) (set_timerTicks (timerTicks t - TACClocker t) t)
    else Some (s, t).
Proof. reflexivity. Qed.

(** One pass of the loop body: TIMA goes up by one, or from 0xFF to TMA with
    the timer interrupt requested; no other byte of memory changes. *)
Lemma timaTick_spec (s : Core) :
  0 <= rd (memory s) 0xff05 <= 0xff -> 0 <= rd (memory s) 0xff06 <= 0xff ->
  DIVTicks (timaTick s) = DIVTicks s
  /\ (forall a, a <> 0xff05 -> rd (memory (timaTick s)) a = rd (memory s) a)
  /\ (rd (memory s) 0xff05 < 0xff ->
      rd (memory (timaTick s)) 0xff05 = rd (memory s) 0xff05 + 1
      /\ interruptsRequested (timaTick s) = interruptsRequested s)
  /\ (rd (memory s) 0xff05 = 0xff ->
      rd (memory (timaTick s)) 0xff05 = rd (memory s) 0xff06
      /\ interruptsRequested (timaTick s) = bor (interruptsRequested s) 0x4).
Proof.
  intros Ha Hm. unfold timaTick, checkIRQMatching. cbv zeta. fields.
  destruct (Z.eqb_spec (rd (memory s) 0xff05 + 1) 0x100) as [He | Hne].
  - destruct (IME s); fields; (split; [reflexivity |]);
      (split; [intros a Hna; rewrite !rd_wr8_other by congruence; reflexivity |]);
      (split; [intros; lia |]); intros _;
      (split; [rewrite rd_wr8_same, rd_wr8_other by lia; apply toUint8_small; lia
              | reflexivity]).
  - fields. split; [reflexivity |].
    split; [intros a Hna; rewrite rd_wr8_other by congruence; reflexivity |].
    split; [| intros; lia]. intros _.
    split; [rewrite rd_wr8_same; apply toUint8_small; lia | reflexivity].
Qed.

Section TimerCount.

(** The loop from a count of [k] whole periods. *)
Lemma clockTIMA_spec (k : nat) :
  forall (s : Core) (t : Timers),
    0 < TACClocker t ->
    Z.of_nat k * TACClocker t <= timerTicks t < (Z.of_nat k + 1) * TACClocker t ->
    0 <= rd (memory s) 0xff05 <= 0xff -> 0 <= rd (memory s) 0xff06 <= 0xff ->
    exists s' t',
      clockTIMA k s t = Some (s', t')
      /\ timerTicks t' = timerTicks t - Z.of_nat k * TACClocker t
      /\ TACClocker t' = TACClocker t /\ DIVTicks s' = DIVTicks s
      /\ (forall a, a <> 0xff05 -> rd (memory s') a = rd (memory s) a)
      /\ (rd (memory s) 0xff05 + Z.of_nat k < 0x100 ->
          rd (memory s') 0xff05 = rd (memory s) 0xff05 + Z.of_nat k
          /\ interruptsRequested s' = interruptsRequested s)
      /\ (0x100 <= rd (memory s) 0xff05 + Z.of_nat k < 0x200 - rd (memory s) 0xff06 ->
          rd (memory s') 0xff05
          = rd (memory s) 0xff06 + (rd (memory s) 0xff05 + Z.of_nat k - 0x100)
          /\ interruptsRequested s' = bor (interruptsRequested s) 0x4).
Proof.
  induction k as [| k IH]; intros s t Hp Ht Ha Hm.
  - exists s, t. cbn [clockTIMA].
    destruct (Z.leb_spec (TACClocker t) (timerTicks t)) as [Hle | _]; [lia |].
    split; [reflexivity |]. split; [lia |]. split; [reflexivity |]. split; [reflexivity |].
    split; [reflexivity |]. split; [intros _; split; [lia | reflexivity] | intros; lia].
  - rewrite clockTIMA_step.
    destruct (Z.leb_spec (TACClocker t) (timerTicks t)) as [_ | Hgt]; [| nia].
    destruct (timaTick_spec s Ha Hm) as (Hdiv & Hframe & Hup & Hwrap).
    set (s1 := timaTick s) in *. clearbody s1.
    set (t1 := set_timerTicks (timerTicks t - TACClocker t) t).
    assert (Ha1 : 0 <= rd (memory s1) 0xff05 <= 0xff).
    { destruct (Z.eq_dec (rd (memory s) 0xff05) 0xff) as [He | Hne].
      - destruct (Hwrap He) as [-> _]. exact Hm.
      - destruct (Hup ltac:(lia)) as [-> _]. lia. }
    assert (Hm1 : rd (memory s1) 0xff06 = rd (memory s) 0xff06) by (apply Hframe; lia).
    destruct (IH s1 t1 Hp ltac:(cbn; nia) Ha1 ltac:(rewrite Hm1; exact Hm))
      as (s' & t' & Hrun & Hticks & Hper & Hen & Hfr & Hlow & Hhigh).
    exists s', t'. split; [exact Hrun |].
    split; [rewrite Hticks; cbn; nia |]. split; [exact Hper |].
    split; [rewrite Hen; exact Hdiv |].
    split; [intros a Hna; rewrite Hfr by exact Hna; apply Hframe, Hna |].
    rewrite Hm1 in Hhigh.
    destruct (Z.eq_dec (rd (memory s) 0xff05) 0xff) as [He | Hne].
    + destruct (Hwrap He) as [Hv Hi]. rewrite Hv, Hi in *.
      split; [intros; lia |]. intros Hrange.
      destruct (Hlow ltac:(lia)) as [-> ->]. split; [lia | reflexivity].
    + destruct (Hup ltac:(lia)) as [Hv Hi]. rewrite Hv, Hi in *.
      split.
      * intros Hrange. destruct (Hlow ltac:(lia)) as [-> ->]. split; [lia | reflexivity].
      * intros Hrange. destruct (Hhigh ltac:(lia)) as [-> ->]. split; [lia | reflexivity].
Qed.

(** The timer lines return whenever the period is positive. *)
Lemma clockTimers_returns (s : Core) (t : Timers) (n : Z) :
  0 < TACClocker t -> 0 <= timerTicks t -> 0 <= n ->
  0 <= rd (memory s) 0xff05 <= 0xff -> 0 <= rd (memory s) 0xff06 <= 0xff ->
  exists r, clockTimers (Z.to_nat ((timerTicks t + n) / TACClocker t)) n s t = Some r.
Proof.
  intros Hp Ht Hn Ha Hm. unfold clockTimers. cbv zeta.
  destruct (TIMAEnabled t); [| eexists; reflexivity].
  assert (Hk : 0 <= (timerTicks t + n) / TACClocker t) by (apply Z.div_pos; lia).
  pose proof (Z.div_mod (timerTicks t + n) (TACClocker t) ltac:(lia)) as Hdm.
  pose proof (Z.mod_pos_bound (timerTicks t + n) (TACClocker t) Hp) as Hmod.
  assert (Hmem : memory (clockDIV n s) = memory s) by reflexivity.
  destruct (clockTIMA_spec (Z.to_nat ((timerTicks t + n) / TACClocker t)) (clockDIV n s)
              (set_timerTicks (timerTicks t + n) t))
    as (s' & t' & Hrun & _).
  - exact Hp.
  - rewrite Z2Nat.id by exact Hk. cbn. nia.
  - rewrite Hmem. exact Ha.
  - rewrite Hmem. exact Hm.
  - exists (s', t'). exact Hrun.
Qed.

(** TIMA counts the whole timer periods that have been clocked and keeps
    the rest.  With the timer enabled and a positive period, clocking
    [n >= 0] CPU clocks returns after [k = (timerTicks + n) / TACClocker]
    rounds of the loop with [timerTicks = (timerTicks + n) mod TACClocker].
    While TIMA + k stays below 0x100 the register is TIMA + k and no
    interrupt is requested; when it passes 0x100 (once) the register
    restarts from TMA and the timer interrupt (bit 2 of IF) is requested.
    So the overflow comes exactly when the clocks accumulated reach
    (0x100 - TIMA) * TACClocker, the figure the HALT prediction uses.  No
    byte of memory other than TIMA changes, and DIV is clocked by [n]. *)
Theorem TIMA_counts_whole_timer_periods (s : Core) (t : Timers) (n : Z) :
  TIMAEnabled t = true -> 0 < TACClocker t -> 0 <= timerTicks t -> 0 <= n ->
  0 <= rd (memory s) 0xff05 <= 0xff -> 0 <= rd (memory s) 0xff06 <= 0xff ->
  let k := (timerTicks t + n) / TACClocker t in
  let tima := rd (memory s) 0xff05 in
  let tma := rd (memory s) 0xff06 in
  exists s' t',
    clockTimers (Z.to_nat k) n s t = Some (s', t')
    /\ timerTicks t' = (timerTicks t + n) mod TACClocker t
    /\ TACClocker t' = TACClocker t
    /\ DIVTicks s' = DIVTicks s + n
    /\ (forall a, a <> 0xff05 -> rd (memory s') a = rd (memory s) a)
    /\ (tima + k < 0x100 ->
        rd (memory s') 0xff05 = tima + k
        /\ interruptsRequested s' = interruptsRequested s)
    /\ (0x100 <= tima + k < 0x200 - tma ->
        rd (memory s') 0xff05 = tma + (tima + k - 0x100)
        /\ interruptsRequested s' = bor (interruptsRequested s) 0x4).
Proof.
  intros Hen Hp Ht Hn Ha Hm. cbv zeta.
  unfold clockTimers. cbv zeta. rewrite Hen.
  set (P := TACClocker t) in *.
  set (k := (timerTicks t + n) / P).
  assert (Hk : 0 <= k) by (apply Z.div_pos; lia).
  pose proof (Z.div_mod (timerTicks t + n) P ltac:(lia)) as Hdm.
  pose proof (Z.mod_pos_bound (timerTicks t + n) P Hp) as Hmod.
  fold k in Hdm.
  assert (Hmem : memory (clockDIV n s) = memory s) by reflexivity.
  assert (Hirq : interruptsRequested (clockDIV n s) = interruptsRequested s) by reflexivity.
  assert (Hdiv : DIVTicks (clockDIV n s) = DIVTicks s + n) by reflexivity.
  destruct (clockTIMA_spec (Z.to_nat k) (clockDIV n s)
              (set_timerTicks (timerTicks t + n) t))
    as (s' & t' & Hrun & Hticks & Hper & Hds & Hfr & Hlow & Hhigh).
  - exact Hp.
  - rewrite Z2Nat.id by exact Hk. cbn. fold P. nia.
  - rewrite Hmem. exact Ha.
  - rewrite Hmem. exact Hm.
  - rewrite Z2Nat.id in * by exact Hk. rewrite Hmem, Hirq in *.
    exists s', t'. split; [exact Hrun |].
    split; [rewrite Hticks; cbn; fold P; nia |].
    split; [exact Hper |].
    split; [rewrite Hds; exact Hdiv |].
    split; [exact Hfr | split; [exact Hlow | exact Hhigh]].
Qed.

End TimerCount.

Lemma TIMA_counts_whole_timer_periods_witness :
  exists s' t',
    clockTimers 2 40 (blankCore dmgCartridge)
      {| timerTicks := 0; TIMAEnabled := true; TACClocker := 16 |} = Some (s', t')
    /\ timerTicks t' = 8 /\ rd (memory s') 0xff05 = 2.
Proof.
  destruct (TIMA_counts_whole_timer_periods (blankCore dmgCartridge)
              {| timerTicks := 0; TIMAEnabled := true; TACClocker := 16 |} 40
              eq_refl ltac:(cbn; lia) ltac:(cbn; lia) ltac:(lia)
              ltac:(vm_compute; split; discriminate)
              ltac:(vm_compute; split; discriminate))
    as (s' & t' & Hrun & Hticks & _ & _ & _ & Hlow & _).
  exists s', t'. split; [exact Hrun |]. split; [exact Hticks |].
  apply Hlow. vm_compute. reflexivity.
Defined.

Section TimerControl.

Variable E : Env.
Variable rounds : nat.

(** A write of a byte to TAC (0xFF07) selects the period of TIMA by its two
    low bits - 1024, 16, 64 or 256 clocks - and enables the timer by bit 2;
    the ticks already counted are kept, and the register reads back with
    its five top bits set.  The period is positive whatever is written, so
    from a count that is not negative the timer loop of [updateCore]
    returns for any number of clocks. *)
Theorem TAC_write_selects_a_positive_period (s : Core) (t : Timers) (data n : Z) :
  0 <= data <= 0xff -> 0 <= timerTicks t -> 0 <= n ->
  0 <= rd (memory s) 0xff05 <= 0xff -> 0 <= rd (memory s) 0xff06 <= 0xff ->
  let s1 := fst (writeTAC data s t) in
  let t1 := snd (writeTAC data s t) in
  TACClocker t1 = nth (Z.to_nat (data mod 4)) [1024; 16; 64; 256] 0
  /\ TIMAEnabled t1 = Z.testbit data 2
  /\ timerTicks t1 = timerTicks t
  /\ memoryRead E rounds 0xff07 s1 = Some (0xf8 + data mod 8, s1)
  /\ exists r, clockTimers (Z.to_nat ((timerTicks t + n) / TACClocker t1)) n s1 t1 = Some r.
Proof.
  intros Hd Ht Hn Ha Hm. cbv zeta.
  pose proof (finite_check
    (fun d => (shl (4 ^ (if negb (band d 0x3 =? 0) then band d 0x3 else 4)) 2
               =? nth (Z.to_nat (d mod 4)) [1024; 16; 64; 256] 0)
              && (0 <? nth (Z.to_nat (d mod 4)) [1024; 16; 64; 256] 0)
              && Bool.eqb (band d 0x04 =? 0x04) (Z.testbit d 2)
              && (bor 0xf8 (toUint8 (band d 0x07)) =? 0xf8 + d mod 8)) 256 data
    ltac:(vm_compute; reflexivity) ltac:(lia)) as H.
  cbv beta in H. repeat (apply andb_prop in H as [H ?]).
  assert (Hper : TACClocker (snd (writeTAC data s t))
                 = nth (Z.to_nat (data mod 4)) [1024; 16; 64; 256] 0)
    by (unfold writeTAC; cbn [snd TACClocker]; apply Z.eqb_eq; assumption).
  assert (Hmem5 : forall a, a <> 0xff07 ->
                    rd (memory (fst (writeTAC data s t))) a = rd (memory s) a).
  { intros a Hne. unfold writeTAC. cbn [fst]. fields. apply rd_wr8_other. congruence. }
  split; [exact Hper |].
  split; [unfold writeTAC; cbn [snd TIMAEnabled]; apply eqb_prop; assumption |].
  split; [reflexivity |].
  split.
  - unfold memoryRead. rewrite memoryReader_io by lia.
    change (ioReader E rounds 0xff07) with (Some (readMasked 0xf8 0xff07)).
    unfold readMasked, writeTAC. cbn [fst]. fields. rewrite rd_wr8_same.
    cbn [mbind option_bind]. f_equal. f_equal. lia.
  - apply (clockTimers_returns (fst (writeTAC data s t)) (snd (writeTAC data s t)) n).
    + rewrite Hper. lia.
    + exact Ht.
    + exact Hn.
    + rewrite Hmem5 by lia. exact Ha.
    + rewrite Hmem5 by lia. exact Hm.
Qed.

End TimerControl.

Lemma TAC_write_selects_a_positive_period_witness :
  TACClocker (snd (writeTAC 0x05 (blankCore dmgCartridge) initialTimers)) = 16
  /\ TIMAEnabled (snd (writeTAC 0x05 (blankCore dmgCartridge) initialTimers)) = true.
Proof.
  pose proof (TAC_write_selects_a_positive_period exampleEnv 0 (blankCore dmgCartridge)
                initialTimers 0x05 100 ltac:(lia) ltac:(cbn; lia) ltac:(lia)
                ltac:(vm_compute; split; discriminate)
                ltac:(vm_compute; split; discriminate)) as H.
  cbv zeta in H. destruct H as (Hp & He & _).
  split; [rewrite Hp; reflexivity | rewrite He; reflexivity].
Defined.

(** ** The RAM banks of MBC3 ([mbc3.js]) *)

Section MBC3Banks.
Context {Rtc : Type} `{RTC Rtc}.
Variable always : bool.

Lemma bank_position (b : Z) : 0 <= b <= 3 -> shl b 13 = 0x2000 * b.
Proof.
  intros Hb.
  pose proof (finite_check (fun k => shl k 13 =? 0x2000 * k) 4 b
                ltac:(vm_compute; reflexivity) ltac:(lia)) as H0.
  cbv beta in H0. lia.
Qed.

Lemma bank_selected (b : Z) :
  0 <= b <= 3 -> (b =? 0x00) || (b =? 0x01) || (b =? 0x02) || (b =? 0x03) = true.
Proof.
  intros Hb.
  destruct (Z.eqb_spec b 0), (Z.eqb_spec b 1), (Z.eqb_spec b 2), (Z.eqb_spec b 3);
    try reflexivity; lia.
Qed.

(** The four RAM banks of MBC3 are kept apart.  With RAM enabled and at
    least 0x8000 bytes of RAM, a byte written at an address of
    0xA000..0xBFFF after selecting a bank 0..3 is read back there, and it
    changes what is read at no other address of any bank.  With RAM
    disabled (and [alwaysAllowRWtoBanks] off) a read returns 0xFF and a
    write is dropped.  Selecting a number that is neither a RAM bank nor a
    clock register (4..7, or above 0x0C) is accepted: reads then return
    0xFF, writes are dropped, and the bank position stays that of the bank
    selected before. *)
Theorem MBC3_RAM_banks_are_kept_apart
    (m : MBC3State Rtc) (b1 b2 a1 a2 d sel : Z) :
  0x8000 <= Z.of_nat (length (RAM m)) ->
  0 <= b1 <= 3 -> 0 <= b2 <= 3 ->
  0xa000 <= a1 < 0xc000 -> 0xa000 <= a2 < 0xc000 ->
  let w := writeRAM always a1 d (writeRAMBank 0x4000 b1 m) in
  (MBCRAMBanksEnabled m || always = true ->
   readRAM always a1 w = Some (toUint8 d)
   /\ (b1 <> b2 \/ a1 <> a2 ->
       readRAM always a2 (writeRAMBank 0x4000 b2 w)
       = readRAM always a2 (writeRAMBank 0x4000 b2 m)))
  /\ (MBCRAMBanksEnabled m || always = false ->
      readRAM always a1 (writeRAMBank 0x4000 b1 m) = Some 0xff
      /\ w = writeRAMBank 0x4000 b1 m)
  /\ (4 <= sel <= 7 \/ 0x0d <= sel ->
      readRAM always a1 (writeRAMBank 0x4000 sel m) = Some 0xff
      /\ writeRAM always a1 d (writeRAMBank 0x4000 sel m) = writeRAMBank 0x4000 sel m
      /\ currentRAMBankPosition (writeRAMBank 0x4000 sel m) = currentRAMBankPosition m).
Proof.
  intros Hlen Hb1 Hb2 Ha1 Ha2. cbv zeta.
  unfold writeRAM, readRAM, writeRAMBank. cbn -[Z.leb Z.ltb Z.eqb shl setByte byteAt].
  destruct (Z.ltb_spec b1 4) as [_ | ?]; [| lia].
  destruct (Z.ltb_spec b2 4) as [_ | ?]; [| lia].
  cbn -[Z.leb Z.ltb Z.eqb shl setByte byteAt].
  rewrite !bank_position by assumption.
  rewrite !(bank_selected b1), !(bank_selected b2) by assumption.
  split; [| split].
  - intros Hen. rewrite Hen. cbn -[Z.leb Z.ltb Z.eqb shl setByte byteAt].
    rewrite Hen, !(bank_selected b1), ?(bank_selected b2) by assumption.
    unfold byteAt, setByte.
    destruct (Z.leb_spec 0 (a1 + (0x2000 * b1 - 0xa000))) as [_ | ?]; [| lia].
    destruct (Z.leb_spec 0 (a2 + (0x2000 * b2 - 0xa000))) as [_ | ?]; [| lia].
    split.
    + apply list_lookup_insert_eq. lia.
    + intros Hne. apply list_lookup_insert_ne. lia.
  - intros Hdis. rewrite Hdis. split; reflexivity.
  - intros Hsel.
    destruct (Z.ltb_spec sel 4) as [? | _]; [lia |].
    cbn -[Z.leb Z.ltb Z.eqb shl setByte byteAt].
    destruct (MBCRAMBanksEnabled m || always); [| repeat split; reflexivity].
    repeat match goal with
           | |- context [sel =? ?k] => destruct (Z.eqb_spec sel k); [lia |]
           end.
    repeat split; reflexivity.
Qed.

End MBC3Banks.

Lemma MBC3_RAM_banks_are_kept_apart_witness :
  readRAM (H := stillClock) false 0xa000
    (writeRAM (H := stillClock) false 0xa000 0x5a (writeRAMBank 0x4000 1 exampleMBC3))
  = Some 0x5a.
Proof.
  pose proof (MBC3_RAM_banks_are_kept_apart (H := stillClock) false exampleMBC3
                1 2 0xa000 0xa000 0x5a 5
                ltac:(vm_compute; discriminate) ltac:(lia) ltac:(lia) ltac:(lia) ltac:(lia))
    as H.
  cbv zeta in H. destruct H as (Hen & _).
  destruct (Hen eq_refl) as [Hread _]. exact Hread.
Defined.

(** ** The end of an iteration ([iterationEndRoutine], [handleSTOP]) *)

Lemma outsideGenerator_byte (a b : Core) (i : Z) :
  i <> 0xff26 -> outsideGenerator a = outsideGenerator b ->
  rd (memory a) i = rd (memory b) i.
Proof.
  intros Hi H.
  apply (outsideGenerator_field (fun s => rd (memory s) i)); [| exact H].
  intros s. unfold rd, outsideGenerator. cbn [memory].
  rewrite lookup_delete_ne by congruence. reflexivity.
Qed.

Lemma outsideGenerator_set_audioTicks (v : Z) (s : Core) :
  outsideGenerator (set_audioTicks v s) = outsideGenerator s.
Proof. reflexivity. Qed.

Section StopIteration.

Variable E : Env.
Variable rounds : nat.
Variable next : Z.

(** The routine from a running iteration: the audio is flushed, DIV is
    folded, the iteration is marked ended, the tick count is carried over
    less the old limit and the limit of the next iteration is set. *)
Lemma iterationEndRoutine_spec (s : Core) :
  audioWF s -> stopEmulator s = 0 -> 0 <= DIVTicks s < 2 ^ 31 ->
  audioTicks s < Z.of_nat rounds ->
  exists s',
    iterationEndRoutine E rounds next s = Some s'
    /\ audioTicks s' = 0 /\ audioWF s'
    /\ stopEmulator s' = 1 /\ CPUStopped s' = CPUStopped s
    /\ ticks (cpu s') = ticks (cpu s) - cyclesTotal (cpu s)
    /\ cyclesTotal (cpu s') = next
    /\ rd (memory s') 0xff04 = (rd (memory s) 0xff04 + DIVTicks s / 256) mod 256
    /\ DIVTicks s' = DIVTicks s mod 256.
Proof.
  intros Hwf Hstop Hdiv Hfuel.
  destruct (audioJIT_spec E rounds s Hwf Hfuel) as (s1 & Hjit & Ht1 & Hwf1 & _).
  pose proof (outsideGenerator_audioJIT E rounds s s1 Hjit) as Hout.
  pose proof (outsideGenerator_field cpu (fun _ => eq_refl) _ _ Hout) as Hcpu.
  pose proof (outsideGenerator_field stopEmulator (fun _ => eq_refl) _ _ Hout) as Hse.
  pose proof (outsideGenerator_field DIVTicks (fun _ => eq_refl) _ _ Hout) as Hdt.
  pose proof (outsideGenerator_field CPUStopped (fun _ => eq_refl) _ _ Hout) as Hcs.
  pose proof (outsideGenerator_byte s1 s 0xff04 ltac:(lia) Hout) as Hb.
  unfold iterationEndRoutine. rewrite Hstop. change (band 0 1 =? 0) with true.
  cbv iota. rewrite Hjit. cbn [mbind option_bind]. cbv zeta.
  unfold set_cpu_cyclesTotal. fields.
  match goal with
  | |- context [Some ?x] =>
      assert (Ha : audioWF x)
        by (unfold audioWF, channelsWF, sweepInv in *; fields; exact Hwf1);
      assert (Hf : audioTicks x = audioTicks s1
                   /\ stopEmulator x = bor (stopEmulator s1) 1
                   /\ CPUStopped x = CPUStopped s1
                   /\ memory x
                      = wr8 (memory s1) 0xff04
                          (band (rd (memory s1) 0xff04 + shr (DIVTicks s1) 8) 0xff)
                   /\ DIVTicks x = band (DIVTicks s1) 0xff
                   /\ cpu x = set_cyclesTotal next
                                (set_ticks (ticks (cpu s1) - cyclesTotal (cpu s1)) (cpu s1)))
        by (fields; repeat split; reflexivity);
      set (s2 := x) in *; clearbody s2
  end.
  destruct Hf as (Hat & Hst & Hstopd & Hmem & Hd2 & Hc2).
  exists s2. split; [reflexivity |].
  split; [rewrite Hat; exact Ht1 |]. split; [exact Ha |].
  split; [rewrite Hst, Hse, Hstop; reflexivity |].
  split; [rewrite Hstopd; exact Hcs |].
  rewrite Hc2, <- Hcpu.
  split; [reflexivity |]. split; [reflexivity |].
  rewrite Hmem, Hd2, Hdt, Hb, rd_wr8_same, shr_8_small, !band_ff by exact Hdiv.
  split; [| reflexivity].
  unfold toUint8. apply Z.mod_mod. lia.
Qed.

(** The STOP instruction ends the iteration at once.  From a running
    iteration with well-formed audio clocks [handleSTOP] returns with the
    processor stopped, the iteration marked ended, and no audio tick
    pending: the audio is flushed, and when the iteration had clocks left
    ([ticks] below the limit) those are generated as audio as well.  The
    tick count is carried over less the old limit, and DIV takes in the
    whole 256-clock periods pending.  A further [iterationEndRoutine] in
    the same iteration changes nothing.  All this holds whatever limit the
    recalculation draws for the next iteration. *)
Theorem STOP_ends_the_iteration (s : Core) :
  audioWF s -> stopEmulator s = 0 -> 0 <= DIVTicks s < 2 ^ 31 ->
  audioTicks s < Z.of_nat rounds ->
  cyclesTotal (cpu s) - ticks (cpu s) < Z.of_nat rounds ->
  exists s',
    handleSTOP E rounds next s = Some s'
    /\ CPUStopped s' = true /\ stopEmulator s' = 1
    /\ audioTicks s' = 0 /\ audioWF s'
    /\ ticks (cpu s') = ticks (cpu s) - cyclesTotal (cpu s)
    /\ cyclesTotal (cpu s') = next
    /\ rd (memory s') 0xff04 = (rd (memory s) 0xff04 + DIVTicks s / 256) mod 256
    /\ DIVTicks s' = DIVTicks s mod 256
    /\ (forall next' : Z, iterationEndRoutine E rounds next' s' = Some s').
Proof.
  intros Hwf Hstop Hdiv Hfuel Hleft.
  assert (Hwf0 : audioWF (set_CPUStopped true s))
    by (unfold audioWF, channelsWF, sweepInv in *; fields; exact Hwf).
  destruct (iterationEndRoutine_spec (set_CPUStopped true s) Hwf0 Hstop Hdiv Hfuel)
    as (s2 & Hend & Hat & Hwf2 & Hst & Hcs & Hticks & Hlimit & Hb & Hd).
  assert (Hcpu0 : cpu (set_CPUStopped true s) = cpu s) by reflexivity.
  assert (Hmem0 : memory (set_CPUStopped true s) = memory s) by reflexivity.
  assert (Hdiv0 : DIVTicks (set_CPUStopped true s) = DIVTicks s) by reflexivity.
  assert (Hcs0 : CPUStopped (set_CPUStopped true s) = true) by reflexivity.
  rewrite Hcpu0 in Hticks. rewrite Hmem0, Hdiv0 in Hb. rewrite Hdiv0 in Hd.
  rewrite Hcs0 in Hcs.
  assert (Hagain : forall r, stopEmulator r = 1 ->
                   forall next', iterationEndRoutine E rounds next' r = Some r)
    by (intros r Hr next'; unfold iterationEndRoutine; rewrite Hr; reflexivity).
  unfold handleSTOP. cbv zeta. rewrite Hend. cbn [mbind option_bind].
  destruct (Z.ltb_spec (ticks (cpu s2)) 0) as [Hneg | Hpos].
  - destruct (audioJIT_spec E rounds (set_audioTicks (audioTicks s2 - ticks (cpu s2)) s2))
      as (s4 & Hjit & Hat4 & Hwf4 & _).
    + apply audioWF_set_audioTicks, Hwf2.
    + assert (Hq : forall v t, audioTicks (set_audioTicks v t) = v) by reflexivity.
      rewrite Hq, Hat, Hticks. lia.
    + pose proof (outsideGenerator_audioJIT E rounds _ s4 Hjit) as Hout.
      rewrite outsideGenerator_set_audioTicks in Hout.
      pose proof (outsideGenerator_field cpu (fun _ => eq_refl) _ _ Hout) as Hcpu.
      pose proof (outsideGenerator_field stopEmulator (fun _ => eq_refl) _ _ Hout) as Hse.
      pose proof (outsideGenerator_field DIVTicks (fun _ => eq_refl) _ _ Hout) as Hdt.
      pose proof (outsideGenerator_field CPUStopped (fun _ => eq_refl) _ _ Hout) as Hcs4.
      pose proof (outsideGenerator_byte s4 s2 0xff04 ltac:(lia) Hout) as Hb4.
      exists s4. split; [exact Hjit |].
      rewrite Hcpu, Hse, Hdt, Hcs4, Hb4.
      split; [exact Hcs |]. split; [exact Hst |]. split; [exact Hat4 |].
      split; [exact Hwf4 |]. split; [exact Hticks |]. split; [exact Hlimit |].
      split; [exact Hb |]. split; [exact Hd |]. apply Hagain. rewrite Hse. exact Hst.
  - exists s2. split; [reflexivity |].
    split; [exact Hcs |]. split; [exact Hst |]. split; [exact Hat |].
    split; [exact Hwf2 |]. split; [exact Hticks |]. split; [exact Hlimit |].
    split; [exact Hb |]. split; [exact Hd |]. apply Hagain, Hst.
Qed.

End StopIteration.

Lemma STOP_ends_the_iteration_witness :
  exists s',
    handleSTOP exampleEnv 100 70224 (set_stopEmulator 0 (set_audioTicks 10 poweredCore))
    = Some s'
    /\ CPUStopped s' = true /\ stopEmulator s' = 1 /\ audioTicks s' = 0.
Proof.
  destruct (STOP_ends_the_iteration exampleEnv 100 70224
              (set_stopEmulator 0 (set_audioTicks 10 poweredCore)))
    as (s' & Hrun & Hcs & Hst & Hat & _).
  - example_WF.
  - reflexivity.
  - vm_compute. split; [discriminate | reflexivity].
  - vm_compute. reflexivity.
  - vm_compute. reflexivity.
  - exists s'. split; [exact Hrun |]. split; [exact Hcs |]. split; [exact Hst | exact Hat].
Defined.

(** ** The sweep fault, the master switch and the sample count (C5, C6, C7) *)

(** Bit 3 of a number is clear or set. *)
Lemma band_8_cases (x : Z) : band x 0x08 = 0 \/ band x 0x08 = 0x08.
Proof.
  unfold band. rewrite (toInt32_small 8) by lia.
  generalize (toInt32 x). intros y.
  destruct (Z.testbit y 3) eqn:Hb; [right | left]; apply Z.bits_inj'; intros n Hn;
    rewrite Z.land_spec; change 8 with (2 ^ 3); rewrite !Z.pow2_bits_eqb by lia;
    destruct (Z.eqb_spec 3 n) as [<- | Hne];
    rewrite ?Hb, ?andb_false_r, ?Z.bits_0; reflexivity.
Qed.

(** The duty index [data >> 6] of a byte cut down to its six length bits. *)
Lemma shr_6_length_bits (x : Z) : shr (band x 0x3f) 6 = 0.
Proof.
  pose proof (band_ones_range x 6 ltac:(lia)) as H. change (Z.ones 6) with 0x3f in H.
  change (2 ^ 6) with 64 in H.
  unfold shr. rewrite toInt32_small by lia. change (Z.land 6 31) with 6.
  rewrite Z.shiftr_div_pow2 by lia. apply Z.div_small. change (2 ^ 6) with 64. lia.
Qed.

(** C6, counterexample.  In Game Boy mode with the master switch off, a
    write of 0x05 to NR11 stores 0x05 as the register byte, which was 0. *)
Lemma master_off_write_keeps_register_byte_counterexample :
  ~ (forall (s : Core) (address data : Z),
       soundMasterEnabled s = false ->
       0xff10 <= address <= 0xff25 ->
       exists s', memoryWrite exampleEnv 0 address data s = Some s'
                  /\ rd (memory s') address = rd (memory s) address).
Proof.
  intros H.
  destruct (H (blankCore dmgCartridge) 0xff11 0x05 eq_refl ltac:(lia)) as (s' & Hw & Hb).
  change (memoryWrite exampleEnv 0 0xff11 0x05 (blankCore dmgCartridge))
    with (writeNR11 exampleEnv 0 0xff11 0x05 (blankCore dmgCartridge)) in Hw.
  unfold writeNR11 in Hw. cbn [negb orb fst snd] in Hw.
  change (soundMasterEnabled (blankCore dmgCartridge)) with false in Hw.
  change (useGBCMode (cartridgeSlot (blankCore dmgCartridge))) with false in Hw.
  cbn [negb orb fst snd] in Hw. cbv zeta in Hw.
  apply (f_equal (fun o => match o with Some t => rd (memory t) 0xff11 | None => 0 end)) in Hw.
  cbv beta iota in Hw.
  match type of Hw with
  | context [channel1EnableCheck ?E ?t] =>
      pose proof (channel1EnableCheck_spec E t) as Hspec;
      set (r := channel1EnableCheck E t) in *
  end.
  rewrite (caches_field memory (fun _ => eq_refl) _ _ Hspec) in Hw.
  rewrite <- Hw in Hb. revert Hb. fields. rewrite rd_wr8_same.
  vm_compute. discriminate.
Qed.

Section SoundClaims.

Variable E : Env.
Variable rounds : nat.

(** C5.  A write to NR10 made while the sweep is in negate mode and a sweep
    calculation has taken place since the last trigger returns; if it
    leaves the sweep direction positive - which it does exactly when the
    master switch is on and bit 3 of the data is clear - the fault flag is
    set and channel 1 is disabled.  With the master switch off the write
    is ignored. *)
Theorem NR10_direction_change_after_sweep_faults (s : Core) (data : Z) :
  audioWF s ->
  audioTicks s < Z.of_nat rounds ->
  channel1decreaseSweep s = true ->
  channel1Swept s = true ->
  exists s',
    memoryWrite E rounds 0xff10 data s = Some s'
    /\ (channel1decreaseSweep s' = false ->
        channel1SweepFault s' = true /\ channel1Enabled s' = false)
    /\ (soundMasterEnabled s = true ->
        channel1decreaseSweep s' = (band data 0x08 =? 0x08))
    /\ (soundMasterEnabled s = false -> s' = s).
Proof.
  intros Hwf Hfuel Hdec Hsw.
  change (memoryWrite E rounds 0xff10 data s) with (writeNR10 E rounds 0xff10 data s).
  unfold writeNR10.
  destruct (soundMasterEnabled s) eqn:Hon.
  - destruct (audioJIT_spec E rounds s Hwf Hfuel) as (s1 & Hjit & _ & _ & _ & Hd1 & Hs1).
    rewrite Hjit. cbv zeta. rewrite Hd1, Hdec, (Hs1 Hsw).
    destruct (band_8_cases data) as [Hbit | Hbit]; rewrite Hbit;
      cbn [Z.eqb Pos.eqb andb]; fields;
      (eexists; split; [reflexivity |]);
      match goal with
      | |- context [channel1EnableCheck E ?t] =>
          pose proof (channel1EnableCheck_spec E t) as Hspec;
          set (r := channel1EnableCheck E t) in *
      end;
      rewrite (caches_field channel1SweepFault (fun _ => eq_refl) _ _ Hspec);
      rewrite (caches_field channel1Enabled (fun _ => eq_refl) _ _ Hspec);
      rewrite (caches_field channel1decreaseSweep (fun _ => eq_refl) _ _ Hspec);
      fields.
    + split; [| split; [reflexivity | discriminate]].
      intros _. cbn [negb]. rewrite andb_false_r. split; reflexivity.
    + split; [discriminate | split; [reflexivity | discriminate]].
  - exists s. split; [reflexivity |].
    split; [rewrite Hdec; discriminate | split; [discriminate | reflexivity]].
Qed.

(** In Game Boy mode with the master switch off, a write to one of the four
    length registers is carried out in part. *)
Lemma writeNR11_master_off (s : Core) (data : Z) :
  soundMasterEnabled s = false ->
  useGBCMode (cartridgeSlot s) = false ->
  exists s',
    memoryWrite E rounds 0xff11 data s = Some s'
    /\ withoutSampleCaches s'
       = withoutSampleCaches
           (set_channel1Enabled
              ((channel1consecutive s || (0 <? 0x40 - band data 0x3f))
               && negb (channel1SweepFault s) && channel1canPlay s)
              (set_memory (wr8 (memory s) 0xff11 (band data 0x3f))
                 (set_channel1totalLength (0x40 - band data 0x3f)
                    (set_channel1CachedDuty (dutyLookup E 0) s)))).
Proof.
  intros Hoff Hdmg.
  change (memoryWrite E rounds 0xff11 data s) with (writeNR11 E rounds 0xff11 data s).
  unfold writeNR11. rewrite Hoff, Hdmg. cbn [negb orb fst snd]. cbv zeta.
  eexists. split; [reflexivity |].
  rewrite channel1EnableCheck_spec. fields.
  rewrite band_3f_idem, shr_6_length_bits. reflexivity.
Qed.

Lemma writeNR21_master_off (s : Core) (data : Z) :
  soundMasterEnabled s = false ->
  useGBCMode (cartridgeSlot s) = false ->
  exists s',
    memoryWrite E rounds 0xff16 data s = Some s'
    /\ withoutSampleCaches s'
       = withoutSampleCaches
           (set_channel2Enabled
              ((channel2consecutive s || (0 <? 0x40 - band data 0x3f))
               && channel2canPlay s)
              (set_memory (wr8 (memory s) 0xff16 (band data 0x3f))
                 (set_channel2totalLength (0x40 - band data 0x3f)
                    (set_channel2CachedDuty (dutyLookup E 0) s)))).
Proof.
  intros Hoff Hdmg.
  change (memoryWrite E rounds 0xff16 data s) with (writeNR21 E rounds 0xff16 data s).
  unfold writeNR21. rewrite Hoff, Hdmg. cbn [negb orb fst snd]. cbv zeta.
  eexists. split; [reflexivity |].
  rewrite channel2EnableCheck_spec. fields.
  rewrite band_3f_idem, shr_6_length_bits. reflexivity.
Qed.

Lemma writeNR31_master_off (s : Core) (data : Z) :
  soundMasterEnabled s = false ->
  useGBCMode (cartridgeSlot s) = false ->
  exists s',
    memoryWrite E rounds 0xff1b data s = Some s'
    /\ withoutSampleCaches s'
       = withoutSampleCaches
           (set_channel3Enabled (channel3consecutive s || (0 <? 0x100 - data))
              (set_channel3totalLength (0x100 - data) s)).
Proof.
  intros Hoff Hdmg.
  change (memoryWrite E rounds 0xff1b data s) with (writeNR31 E rounds 0xff1b data s).
  unfold writeNR31. rewrite Hoff, Hdmg. cbn [negb orb]. cbv zeta.
  eexists. split; [reflexivity |].
  rewrite channel3EnableCheck_spec. fields. reflexivity.
Qed.

Lemma writeNR41_master_off (s : Core) (data : Z) :
  soundMasterEnabled s = false ->
  useGBCMode (cartridgeSlot s) = false ->
  exists s',
    memoryWrite E rounds 0xff20 data s = Some s'
    /\ withoutSampleCaches s'
       = withoutSampleCaches
           (set_channel4Enabled
              ((channel4consecutive s || (0 <? 0x40 - band data 0x3f))
               && channel4canPlay s)
              (set_channel4totalLength (0x40 - band data 0x3f) s)).
Proof.
  intros Hoff Hdmg.
  change (memoryWrite E rounds 0xff20 data s) with (writeNR41 E rounds 0xff20 data s).
  unfold writeNR41. rewrite Hoff, Hdmg. cbn [negb orb]. cbv zeta.
  eexists. split; [reflexivity |].
  rewrite channel4EnableCheck_spec. fields. reflexivity.
Qed.

(** Wave RAM takes a write whatever the master switch says. *)
Lemma wave_RAM_written (s : Core) (address data : Z) :
  audioWF s -> audioTicks s < Z.of_nat rounds ->
  0xff30 <= address <= 0xff3f ->
  0 <= data <= 0xff ->
  exists s',
    memoryWrite E rounds address data s = Some s'
    /\ rd (memory s') address = data
    /\ rd (channel3PCM s') (2 * (address - 0xff30)) = data / 16
    /\ rd (channel3PCM s') (2 * (address - 0xff30) + 1) = data mod 16
    /\ soundMasterEnabled s' = soundMasterEnabled s.
Proof.
  intros Hwf Hfuel Hrange Hdata.
  rewrite memoryWrite_wave by exact Hrange.
  destruct (wave_index (address - 0xff30) ltac:(lia)) as (Hbor & Hshl & Hbor1).
  destruct (byte_nibbles data Hdata) as [Hhi Hlo].
  assert (Hflush : exists s1,
             (if channel3canPlay s then audioJIT E rounds s else Some s) = Some s1
             /\ soundMasterEnabled s1 = soundMasterEnabled s).
  { destruct (channel3canPlay s).
    - destruct (audioJIT_spec E rounds s Hwf Hfuel) as (s1 & Hjit & _).
      exists s1. split; [exact Hjit |].
      apply (outsideGenerator_field soundMasterEnabled (fun _ => eq_refl)),
        (outsideGenerator_audioJIT E rounds), Hjit.
    - exists s. split; reflexivity. }
  destruct Hflush as (s1 & Hflush & Hon).
  unfold channel3WriteRAM. rewrite Hflush. cbv zeta. fields.
  rewrite Hbor, Hbor1, Hshl.
  replace (0xff30 + (address - 0xff30)) with address by lia.
  eexists. split; [reflexivity |].
  fields. rewrite rd_wr8_same, toUint8_small by lia.
  rewrite rd_wrI8_same, rd_wrI8_other, rd_wrI8_same by lia.
  auto.
Qed.

(** C6, amended.  While the master switch is off: a write to a sound
    register 0xFF10..0xFF25 returns the state unchanged - every register of
    the range in Game Boy Color mode, all but NR11, NR21, NR31 and NR41 in
    Game Boy mode; wave RAM takes a write; and in Game Boy mode a write to
    NR11, NR21, NR31 or NR41 loads the length counter of its channel and
    recomputes the enable flag and the cached sample levels of the channel,
    NR11 and NR21 also storing the six length bits as the register byte and
    selecting duty 0.  Nothing else changes in those four writes. *)
Theorem master_off_locks_sound_registers (s : Core) (data : Z) :
  soundMasterEnabled s = false ->
  (forall address,
      0xff10 <= address <= 0xff25 ->
      useGBCMode (cartridgeSlot s) = true
      \/ (address <> 0xff11 /\ address <> 0xff16 /\ address <> 0xff1b /\ address <> 0xff20) ->
      memoryWrite E rounds address data s = Some s)
  /\ (forall address,
         audioWF s -> audioTicks s < Z.of_nat rounds ->
         0xff30 <= address <= 0xff3f ->
         0 <= data <= 0xff ->
         exists s',
           memoryWrite E rounds address data s = Some s'
           /\ rd (memory s') address = data
           /\ rd (channel3PCM s') (2 * (address - 0xff30)) = data / 16
           /\ rd (channel3PCM s') (2 * (address - 0xff30) + 1) = data mod 16
           /\ soundMasterEnabled s' = false)
  /\ (useGBCMode (cartridgeSlot s) = false ->
      (exists s',
          memoryWrite E rounds 0xff11 data s = Some s'
          /\ withoutSampleCaches s'
             = withoutSampleCaches
                 (set_channel1Enabled
                    ((channel1consecutive s || (0 <? 0x40 - band data 0x3f))
                     && negb (channel1SweepFault s) && channel1canPlay s)
                    (set_memory (wr8 (memory s) 0xff11 (band data 0x3f))
                       (set_channel1totalLength (0x40 - band data 0x3f)
                          (set_channel1CachedDuty (dutyLookup E 0) s)))))
      /\ (exists s',
             memoryWrite E rounds 0xff16 data s = Some s'
             /\ withoutSampleCaches s'
                = withoutSampleCaches
                    (set_channel2Enabled
                       ((channel2consecutive s || (0 <? 0x40 - band data 0x3f))
                        && channel2canPlay s)
                       (set_memory (wr8 (memory s) 0xff16 (band data 0x3f))
                          (set_channel2totalLength (0x40 - band data 0x3f)
                             (set_channel2CachedDuty (dutyLookup E 0) s)))))
      /\ (exists s',
             memoryWrite E rounds 0xff1b data s = Some s'
             /\ withoutSampleCaches s'
                = withoutSampleCaches
                    (set_channel3Enabled (channel3consecutive s || (0 <? 0x100 - data))
                       (set_channel3totalLength (0x100 - data) s)))
      /\ (exists s',
             memoryWrite E rounds 0xff20 data s = Some s'
             /\ withoutSampleCaches s'
                = withoutSampleCaches
                    (set_channel4Enabled
                       ((channel4consecutive s || (0 <? 0x40 - band data 0x3f))
                        && channel4canPlay s)
                       (set_channel4totalLength (0x40 - band data 0x3f) s)))).
Proof.
  intros Hoff. split; [| split].
  - intros address Hrange Hmode. unfold memoryWrite.
    rewrite memoryWriter_sound by exact Hrange.
    destruct (soundRegisterWriter_locked E rounds s address data Hoff Hrange Hmode)
      as (w & -> & Hw).
    exact Hw.
  - intros address Hwf Hfuel Hrange Hdata.
    destruct (wave_RAM_written s address data Hwf Hfuel Hrange Hdata)
      as (s' & Hw & Hb & Hhi & Hlo & Hon).
    exists s'. rewrite Hon, Hoff. auto.
  - intros Hdmg.
    split; [exact (writeNR11_master_off s data Hoff Hdmg) |].
    split; [exact (writeNR21_master_off s data Hoff Hdmg) |].
    split; [exact (writeNR31_master_off s data Hoff Hdmg) |].
    exact (writeNR41_master_off s data Hoff Hdmg).
Qed.

(** C7.  From an aligned resampler ([audioIndex = 0]) and well-formed
    clocks, generating audio over [N] clocks returns and emits exactly
    [N / audioResamplerFirstPassFactor] stereo pairs, rounded down; the
    clocks left over are the new position of the resampler.  This is so on
    the audible path and on the silent path, for every placement of the
    channel events and the sequencer ticks. *)
Theorem aligned_generateAudio_emits_floor_pairs (N : Z) (s : Core) :
  audioWF s ->
  audioIndex s = 0 ->
  0 <= N < Z.of_nat rounds ->
  exists s',
    generateAudio E rounds N s = Some s'
    /\ stereoCount (audioOut s')
       = stereoCount (audioOut s) + N / audioResamplerFirstPassFactor s
    /\ audioIndex s' = N mod audioResamplerFirstPassFactor s.
Proof.
  intros Hwf Hzero HN. unfold generateAudio.
  destruct (soundMasterEnabled s && negb (CPUStopped s)).
  - destruct (generateAudioLoop_spec E rounds rounds N s Hwf ltac:(lia) ltac:(lia))
      as (s' & Hrun & Hwf' & Hf' & _ & _ & Hcl).
    exists s'. split; [exact Hrun |].
    destruct Hwf' as (Hidx' & _). rewrite Hf' in Hidx'.
    unfold clocksResampled in Hcl. rewrite Hf' in Hcl. rewrite Z.max_r in Hcl by lia.
    destruct (clocksResampled_unique (audioResamplerFirstPassFactor s)
                (stereoCount (audioOut s)) (audioIndex s + N)
                (stereoCount (audioOut s')) (audioIndex s') Hidx' ltac:(lia))
      as [Hc Hi].
    rewrite Hzero in Hc, Hi. rewrite Z.add_0_l in Hc, Hi. auto.
  - destruct Hwf as (Hidx & _).
    destruct (silentAudioLoop_spec rounds N s Hidx ltac:(lia))
      as (i & d & p & a & Hrun & Hi & Ha).
    rewrite Z.max_r in Hi, Ha by lia.
    rewrite Hzero in Hi, Ha. rewrite Z.add_0_l in Hi, Ha.
    exists (withAudioOutput i d p a s). split; [exact Hrun |].
    unfold withAudioOutput. fields. auto.
Qed.

End SoundClaims.

Lemma NR10_direction_change_after_sweep_faults_witness :
  exists s',
    memoryWrite exampleEnv 100 0xff10 0x00
      (set_audioTicks 6 (set_channel1Swept true (set_channel1decreaseSweep true poweredCore)))
    = Some s'
    /\ channel1SweepFault s' = true /\ channel1Enabled s' = false.
Proof.
  destruct (NR10_direction_change_after_sweep_faults exampleEnv 100
              (set_audioTicks 6
                 (set_channel1Swept true (set_channel1decreaseSweep true poweredCore)))
              0x00 ltac:(example_WF) ltac:(vm_compute; reflexivity) eq_refl eq_refl)
    as (s' & Hw & Hfault & Hdir & _).
  exists s'. split; [exact Hw |].
  apply Hfault. rewrite (Hdir eq_refl). vm_compute. reflexivity.
Defined.

Lemma master_off_locks_sound_registers_witness :
  memoryWrite exampleEnv 100 0xff12 0xf3 (blankCore dmgCartridge)
  = Some (blankCore dmgCartridge).
Proof.
  apply (proj1 (master_off_locks_sound_registers exampleEnv 100
                  (blankCore dmgCartridge) 0xf3 eq_refl)).
  - lia.
  - right. lia.
Defined.

Lemma aligned_generateAudio_emits_floor_pairs_witness :
  exists s',
    generateAudio exampleEnv 100 10 poweredCore = Some s'
    /\ stereoCount (audioOut s')
       = stereoCount (audioOut poweredCore)
         + 10 / audioResamplerFirstPassFactor poweredCore
    /\ audioIndex s' = 10 mod audioResamplerFirstPassFactor poweredCore.
Proof.
  apply (aligned_generateAudio_emits_floor_pairs exampleEnv 100 10 poweredCore).
  - example_WF.
  - reflexivity.
  - lia.
Defined.
